(** * Stepper.c of GRBL-Advanced: a shallow embedding and its properties

    The file follows [src/grbl/Stepper.c]: the segment ring buffer, the
    stepper block pool, the step generator [Stepper_MainISR], the segment
    preparer [Stepper_PrepareBuffer] and the control facade.  Machine
    integers are [Z] with their wrap-around written out, arrays are lists
    read with [!!] and written with [<[ _ := _ ]>], pointers are optional
    indices, and a C operation that would dereference a null pointer or
    index outside an array is a [Fault]. *)

From Stdlib Require Import ZArith Lia Bool SpecFloat.
From stdpp Require Import base list.

Local Open Scope Z_scope.

(** ** Machine integers and bit macros *)

Definition u8 (x : Z) : Z := x mod 256.
Definition u16 (x : Z) : Z := x mod 65536.
Definition u32 (x : Z) : Z := x mod 4294967296.
(** [int32_t] arithmetic, two's complement. *)
Definition s32 (x : Z) : Z := (x + 2147483648) mod 4294967296 - 2147483648.

Definition BIT (n : Z) : Z := Z.shiftl 1 n.
Definition BIT_IS_TRUE (x mask : Z) : bool := negb (Z.land x mask =? 0).
Definition BIT_TRUE (x mask : Z) : Z := u8 (Z.lor x mask).
Definition BIT_FALSE (x mask : Z) : Z := u8 (Z.land x (Z.lnot mask)).

(** ** Results of fallible C operations *)

Inductive fault : Set := NullPointer | BadIndex | OutOfFuel.

Inductive result (A : Type) : Type :=
| Ok (a : A)
| Fault (f : fault).
Arguments Ok {A} a.
Arguments Fault {A} f.

Definition bind {A B : Type} (r : result A) (k : A -> result B) : result B :=
  match r with
  | Ok a => k a
  | Fault f => Fault f
  end.

Notation "x <-- e ;; k" := (bind e (fun x => k))
  (at level 100, e at next level, right associativity).

Definition deref {A : Type} (p : option A) : result A :=
  match p with
  | Some a => Ok a
  | None => Fault NullPointer
  end.

Definition index {A : Type} (l : list A) (i : Z) : result A :=
  if i <? 0 then Fault BadIndex
  else match l !! Z.to_nat i with
       | Some a => Ok a
       | None => Fault BadIndex
       end.

(** ** What the missing headers define

    Config.h, System.h, Settings.h, Planner.h, SpindleControl.h, Probe.h and
    GPIO.h are not part of the sources at hand: the constants and the pin
    mask tables that Stepper.c takes from them are parameters. *)

Class Config := {
  SEGMENT_BUFFER_SIZE : Z;
  F_TIMER_STEPPER : Z;
  TICKS_PER_MICROSECOND : Z;
  MAX_STEP_RATE_HZ : option Z;
  ACCELERATION_TICKS_PER_SECOND : Z;
  X_STEP_BIT : Z;
  Y_STEP_BIT : Z;
  Z_STEP_BIT : Z;
  X2_STEP_BIT : Z;
  Y2_STEP_BIT : Z;
  X_DIRECTION_BIT : Z;
  Y_DIRECTION_BIT : Z;
  Z_DIRECTION_BIT : Z;
  X2_DIRECTION_BIT : Z;
  Y2_DIRECTION_BIT : Z;
  DUAL_X_AXIS : bool;
  DUAL_Y_AXIS : bool;
  INVERT_DUAL_X_AXIS : bool;
  INVERT_DUAL_Y_AXIS : bool;
  PARKING_ENABLE : bool;
  BITFLAG_INVERT_ST_ENABLE : Z;
  BITFLAG_LASER_MODE : Z;
  STATE_HOMING : Z;
  STATE_SLEEP : Z;
  STATE_MOTION_MASK : Z;
  STEP_CONTROL_END_MOTION : Z;
  STEP_CONTROL_EXECUTE_HOLD : Z;
  STEP_CONTROL_EXECUTE_SYS_MOTION : Z;
  STEP_CONTROL_UPDATE_SPINDLE_PWM : Z;
  PL_COND_FLAG_SPINDLE_CW : Z;
  PL_COND_FLAG_SPINDLE_CCW : Z;
  SPINDLE_PWM_OFF_VALUE : Z;
  EXEC_CYCLE_STOP : Z;
  PROBE_ACTIVE : Z;
  Settings_GetStepPinMask : Z -> Z;
  Settings_GetDirectionPinMask : Z -> Z
}.

(** The arithmetic of [float] and [double].  Stepper.c mixes both: a
    literal such as [0.5] is a [double], so [0.5*speed_var] is computed in
    double precision and narrowed when it is stored in a [float].  The
    operations are kept abstract; [ieee] below instantiates them with IEEE
    754 binary32 and binary64. *)

Class FloatModel := {
  float : Type;
  double : Type;
  f2d : float -> double;
  d2f : double -> float;
  i2f : Z -> float;
  i2d : Z -> double;
  fadd : float -> float -> float;
  fsub : float -> float -> float;
  fmul : float -> float -> float;
  fdiv : float -> float -> float;
  dadd : double -> double -> double;
  dsub : double -> double -> double;
  dmul : double -> double -> double;
  ddiv : double -> double -> double;
  dsqrt : double -> double;
  dceil : double -> double;
  flt : float -> float -> bool;
  fle : float -> float -> bool;
  feq : float -> float -> bool;
  dlt : double -> double -> bool;
  dle : double -> double -> bool;
  ftrunc : float -> Z;
  dtrunc : double -> Z;
  d_0_5 : double;
  d_1_25 : double
}.

(** [sqrt] and [ceil] of math.h take and return a [double]. *)
Definition sqrt_f `{FloatModel} (x : float) : float := d2f (dsqrt (f2d x)).
Definition ceil_f `{FloatModel} (x : float) : float := d2f (dceil (f2d x)).
Definition f_zero `{FloatModel} : float := d2f (i2d 0).

(** ** Data model *)

(** One value per axis: [steps[N_AXIS]], [sys_position[N_AXIS]]. *)
Record axes : Set := mk_axes { axis_x : Z; axis_y : Z; axis_z : Z }.

Definition axes_map (f : Z -> Z) (a : axes) : axes :=
  mk_axes (f (axis_x a)) (f (axis_y a)) (f (axis_z a)).

(** [Planner_Block_t], the fields Stepper.c reads or writes. *)
Record Planner_Block_t `{FloatModel} : Type := {
  pl_steps : axes;
  pl_step_event_count : Z;
  pl_direction_bits : Z;
  pl_condition : Z;
  pl_backlash_motion : Z;
  millimeters : float;
  acceleration : float;
  entry_speed_sqr : float;
  programmed_rate : float;
  pl_spindle_speed : float
}.

Definition set_millimeters `{FloatModel} (v : float) (b : Planner_Block_t) : Planner_Block_t :=
  {| pl_steps := pl_steps b; pl_step_event_count := pl_step_event_count b;
     pl_direction_bits := pl_direction_bits b; pl_condition := pl_condition b;
     pl_backlash_motion := pl_backlash_motion b; millimeters := v;
     acceleration := acceleration b; entry_speed_sqr := entry_speed_sqr b;
     programmed_rate := programmed_rate b; pl_spindle_speed := pl_spindle_speed b |}.

Definition set_entry_speed_sqr `{FloatModel} (v : float) (b : Planner_Block_t) : Planner_Block_t :=
  {| pl_steps := pl_steps b; pl_step_event_count := pl_step_event_count b;
     pl_direction_bits := pl_direction_bits b; pl_condition := pl_condition b;
     pl_backlash_motion := pl_backlash_motion b; millimeters := millimeters b;
     acceleration := acceleration b; entry_speed_sqr := v;
     programmed_rate := programmed_rate b; pl_spindle_speed := pl_spindle_speed b |}.

(** The planner, the spindle driver and the probe monitor are external
    collaborators.  A planner block pointer is an index into the planner's
    block memory, which the stepper reads and writes through [pl_block]. *)

Class Externals `{FloatModel} := {
  planner_t : Type;
  Planner_GetSystemMotionBlock : planner_t -> option nat;
  Planner_GetCurrentBlock : planner_t -> option nat;
  Planner_GetExecBlockExitSpeedSqr : planner_t -> list Planner_Block_t -> float;
  Planner_ComputeProfileNominalSpeed : planner_t -> Planner_Block_t -> float;
  Planner_DiscardCurrentBlock : planner_t -> planner_t;
  Spindle_ComputePwmValue : float -> Z;
  probe_t : Type;
  sys_probe_state : probe_t -> Z;
  Probe_StateMonitor : probe_t -> axes -> Z -> probe_t * Z
}.

(** [Stepper_Block_t] *)
Record Stepper_Block_t : Set := {
  steps : axes;
  step_event_count : Z;
  direction_bits : Z;
  is_pwm_rate_adjusted : Z
}.

(** [Stepper_Segment_t] *)
Record Stepper_Segment_t : Set := {
  n_step : Z;
  cycles_per_tick : Z;
  st_block_index : Z;
  amass_level : Z;
  spindle_pwm : Z;
  backlash_motion : Z
}.

(** [Stepper_t]: [exec_block] points into [st_block_buffer] and
    [exec_segment] into [segment_buffer]. *)
Record Stepper_t : Set := {
  counter_x : Z;
  counter_y : Z;
  counter_z : Z;
  execute_step : Z;
  step_pulse_time : Z;
  step_outbits : Z;
  dir_outbits : Z;
  st_steps : axes;
  step_count : Z;
  exec_block_index : Z;
  exec_block : option Z;
  exec_segment : option Z
}.

(** The output pins, the step timer and the busy-wait delays. *)
Inductive pin : Set :=
| ENABLE
| STEP_X | STEP_X2 | STEP_Y | STEP_Y2 | STEP_Z
| DIR_X | DIR_X2 | DIR_Y | DIR_Y2 | DIR_Z.

Record gpio_t : Set := {
  p_enable : bool;
  p_step_x : bool; p_step_x2 : bool; p_step_y : bool; p_step_y2 : bool; p_step_z : bool;
  p_dir_x : bool; p_dir_x2 : bool; p_dir_y : bool; p_dir_y2 : bool; p_dir_z : bool
}.

Definition gpio_read (p : pin) (g : gpio_t) : bool :=
  match p with
  | ENABLE => p_enable g
  | STEP_X => p_step_x g | STEP_X2 => p_step_x2 g | STEP_Y => p_step_y g
  | STEP_Y2 => p_step_y2 g | STEP_Z => p_step_z g
  | DIR_X => p_dir_x g | DIR_X2 => p_dir_x2 g | DIR_Y => p_dir_y g
  | DIR_Y2 => p_dir_y2 g | DIR_Z => p_dir_z g
  end.

Definition gpio_write (p : pin) (v : bool) (g : gpio_t) : gpio_t :=
  let pick (q : pin) (old : bool) : bool :=
    match p, q with
    | ENABLE, ENABLE | STEP_X, STEP_X | STEP_X2, STEP_X2 | STEP_Y, STEP_Y
    | STEP_Y2, STEP_Y2 | STEP_Z, STEP_Z | DIR_X, DIR_X | DIR_X2, DIR_X2
    | DIR_Y, DIR_Y | DIR_Y2, DIR_Y2 | DIR_Z, DIR_Z => v
    | _, _ => old
    end in
  {| p_enable := pick ENABLE (p_enable g);
     p_step_x := pick STEP_X (p_step_x g); p_step_x2 := pick STEP_X2 (p_step_x2 g);
     p_step_y := pick STEP_Y (p_step_y g); p_step_y2 := pick STEP_Y2 (p_step_y2 g);
     p_step_z := pick STEP_Z (p_step_z g);
     p_dir_x := pick DIR_X (p_dir_x g); p_dir_x2 := pick DIR_X2 (p_dir_x2 g);
     p_dir_y := pick DIR_Y (p_dir_y g); p_dir_y2 := pick DIR_Y2 (p_dir_y2 g);
     p_dir_z := pick DIR_Z (p_dir_z g) |}.

Inductive delay : Set := Wait_ms (n : Z) | Wait_us (n : Z).

Record hardware : Set := {
  gpio : gpio_t;
  tim9_enabled : bool;
  tim9_arr : Z;
  tim9_ccr1 : Z;
  spindle_out : Z;
  delays : list delay
}.

(** [settings] and [sys], the fields Stepper.c uses. *)
Record settings_t : Set := {
  step_invert_mask : Z;
  dir_invert_mask : Z;
  stepper_idle_lock_time : Z;
  flags : Z
}.

(** Field updates: [set_f v r] is [r] with field [f] replaced by [v]. *)

Definition set_counter_x (v : Z) (s : Stepper_t) : Stepper_t :=
  {| counter_x := v; counter_y := counter_y s; counter_z := counter_z s;
     execute_step := execute_step s; step_pulse_time := step_pulse_time s;
     step_outbits := step_outbits s; dir_outbits := dir_outbits s; st_steps := st_steps s;
     step_count := step_count s; exec_block_index := exec_block_index s;
     exec_block := exec_block s; exec_segment := exec_segment s |}.

Definition set_counter_y (v : Z) (s : Stepper_t) : Stepper_t :=
  {| counter_x := counter_x s; counter_y := v; counter_z := counter_z s;
     execute_step := execute_step s; step_pulse_time := step_pulse_time s;
     step_outbits := step_outbits s; dir_outbits := dir_outbits s; st_steps := st_steps s;
     step_count := step_count s; exec_block_index := exec_block_index s;
     exec_block := exec_block s; exec_segment := exec_segment s |}.

Definition set_counter_z (v : Z) (s : Stepper_t) : Stepper_t :=
  {| counter_x := counter_x s; counter_y := counter_y s; counter_z := v;
     execute_step := execute_step s; step_pulse_time := step_pulse_time s;
     step_outbits := step_outbits s; dir_outbits := dir_outbits s; st_steps := st_steps s;
     step_count := step_count s; exec_block_index := exec_block_index s;
     exec_block := exec_block s; exec_segment := exec_segment s |}.

Definition set_step_outbits (v : Z) (s : Stepper_t) : Stepper_t :=
  {| counter_x := counter_x s; counter_y := counter_y s; counter_z := counter_z s;
     execute_step := execute_step s; step_pulse_time := step_pulse_time s; step_outbits := v;
     dir_outbits := dir_outbits s; st_steps := st_steps s; step_count := step_count s;
     exec_block_index := exec_block_index s; exec_block := exec_block s;
     exec_segment := exec_segment s |}.

Definition set_dir_outbits (v : Z) (s : Stepper_t) : Stepper_t :=
  {| counter_x := counter_x s; counter_y := counter_y s; counter_z := counter_z s;
     execute_step := execute_step s; step_pulse_time := step_pulse_time s;
     step_outbits := step_outbits s; dir_outbits := v; st_steps := st_steps s;
     step_count := step_count s; exec_block_index := exec_block_index s;
     exec_block := exec_block s; exec_segment := exec_segment s |}.

Definition set_st_steps (v : axes) (s : Stepper_t) : Stepper_t :=
  {| counter_x := counter_x s; counter_y := counter_y s; counter_z := counter_z s;
     execute_step := execute_step s; step_pulse_time := step_pulse_time s;
     step_outbits := step_outbits s; dir_outbits := dir_outbits s; st_steps := v;
     step_count := step_count s; exec_block_index := exec_block_index s;
     exec_block := exec_block s; exec_segment := exec_segment s |}.

Definition set_step_count (v : Z) (s : Stepper_t) : Stepper_t :=
  {| counter_x := counter_x s; counter_y := counter_y s; counter_z := counter_z s;
     execute_step := execute_step s; step_pulse_time := step_pulse_time s;
     step_outbits := step_outbits s; dir_outbits := dir_outbits s; st_steps := st_steps s;
     step_count := v; exec_block_index := exec_block_index s; exec_block := exec_block s;
     exec_segment := exec_segment s |}.

Definition set_exec_block_index (v : Z) (s : Stepper_t) : Stepper_t :=
  {| counter_x := counter_x s; counter_y := counter_y s; counter_z := counter_z s;
     execute_step := execute_step s; step_pulse_time := step_pulse_time s;
     step_outbits := step_outbits s; dir_outbits := dir_outbits s; st_steps := st_steps s;
     step_count := step_count s; exec_block_index := v; exec_block := exec_block s;
     exec_segment := exec_segment s |}.

Definition set_exec_block (v : option Z) (s : Stepper_t) : Stepper_t :=
  {| counter_x := counter_x s; counter_y := counter_y s; counter_z := counter_z s;
     execute_step := execute_step s; step_pulse_time := step_pulse_time s;
     step_outbits := step_outbits s; dir_outbits := dir_outbits s; st_steps := st_steps s;
     step_count := step_count s; exec_block_index := exec_block_index s; exec_block := v;
     exec_segment := exec_segment s |}.

Definition set_exec_segment (v : option Z) (s : Stepper_t) : Stepper_t :=
  {| counter_x := counter_x s; counter_y := counter_y s; counter_z := counter_z s;
     execute_step := execute_step s; step_pulse_time := step_pulse_time s;
     step_outbits := step_outbits s; dir_outbits := dir_outbits s; st_steps := st_steps s;
     step_count := step_count s; exec_block_index := exec_block_index s;
     exec_block := exec_block s; exec_segment := v |}.

Definition set_n_step (v : Z) (g : Stepper_Segment_t) : Stepper_Segment_t :=
  {| n_step := v; cycles_per_tick := cycles_per_tick g; st_block_index := st_block_index g;
     amass_level := amass_level g; spindle_pwm := spindle_pwm g;
     backlash_motion := backlash_motion g |}.

Definition set_cycles_per_tick (v : Z) (g : Stepper_Segment_t) : Stepper_Segment_t :=
  {| n_step := n_step g; cycles_per_tick := v; st_block_index := st_block_index g;
     amass_level := amass_level g; spindle_pwm := spindle_pwm g;
     backlash_motion := backlash_motion g |}.

Definition set_st_block_index (v : Z) (g : Stepper_Segment_t) : Stepper_Segment_t :=
  {| n_step := n_step g; cycles_per_tick := cycles_per_tick g; st_block_index := v;
     amass_level := amass_level g; spindle_pwm := spindle_pwm g;
     backlash_motion := backlash_motion g |}.

Definition set_amass_level (v : Z) (g : Stepper_Segment_t) : Stepper_Segment_t :=
  {| n_step := n_step g; cycles_per_tick := cycles_per_tick g;
     st_block_index := st_block_index g; amass_level := v; spindle_pwm := spindle_pwm g;
     backlash_motion := backlash_motion g |}.

Definition set_spindle_pwm (v : Z) (g : Stepper_Segment_t) : Stepper_Segment_t :=
  {| n_step := n_step g; cycles_per_tick := cycles_per_tick g;
     st_block_index := st_block_index g; amass_level := amass_level g; spindle_pwm := v;
     backlash_motion := backlash_motion g |}.

Definition set_backlash_motion (v : Z) (g : Stepper_Segment_t) : Stepper_Segment_t :=
  {| n_step := n_step g; cycles_per_tick := cycles_per_tick g;
     st_block_index := st_block_index g; amass_level := amass_level g;
     spindle_pwm := spindle_pwm g; backlash_motion := v |}.

Definition set_gpio (v : gpio_t) (h : hardware) : hardware :=
  {| gpio := v; tim9_enabled := tim9_enabled h; tim9_arr := tim9_arr h;
     tim9_ccr1 := tim9_ccr1 h; spindle_out := spindle_out h; delays := delays h |}.

Definition set_tim9_enabled (v : bool) (h : hardware) : hardware :=
  {| gpio := gpio h; tim9_enabled := v; tim9_arr := tim9_arr h; tim9_ccr1 := tim9_ccr1 h;
     spindle_out := spindle_out h; delays := delays h |}.

Definition set_tim9_arr (v : Z) (h : hardware) : hardware :=
  {| gpio := gpio h; tim9_enabled := tim9_enabled h; tim9_arr := v; tim9_ccr1 := tim9_ccr1 h;
     spindle_out := spindle_out h; delays := delays h |}.

Definition set_tim9_ccr1 (v : Z) (h : hardware) : hardware :=
  {| gpio := gpio h; tim9_enabled := tim9_enabled h; tim9_arr := tim9_arr h; tim9_ccr1 := v;
     spindle_out := spindle_out h; delays := delays h |}.

Definition set_spindle_out (v : Z) (h : hardware) : hardware :=
  {| gpio := gpio h; tim9_enabled := tim9_enabled h; tim9_arr := tim9_arr h;
     tim9_ccr1 := tim9_ccr1 h; spindle_out := v; delays := delays h |}.

Definition set_delays (v : list delay) (h : hardware) : hardware :=
  {| gpio := gpio h; tim9_enabled := tim9_enabled h; tim9_arr := tim9_arr h;
     tim9_ccr1 := tim9_ccr1 h; spindle_out := spindle_out h; delays := v |}.

Section Model.
Context `{cfg : Config} `{fm : FloatModel} `{ext : !Externals}.

(** [Stepper_PrepData_t]; the [last_] fields exist under PARKING_ENABLE. *)
Record Stepper_PrepData_t : Type := {
  prep_st_block_index : Z;
  recalculate_flag : Z;
  dt_remainder : float;
  steps_remaining : float;
  step_per_mm : float;
  req_mm_increment : float;
  last_st_block_index : Z;
  last_steps_remaining : float;
  last_step_per_mm : float;
  last_dt_remainder : float;
  ramp_type : Z;
  mm_complete : float;
  current_speed : float;
  maximum_speed : float;
  exit_speed : float;
  accelerate_until : float;
  decelerate_after : float;
  inv_rate : float;
  current_spindle_pwm : Z
}.

Record system_t : Type := {
  sys_state : Z;
  step_control : Z;
  homing_axis_lock : Z;
  sys_spindle_speed : float
}.

(** The file-scope variables of Stepper.c, followed by the globals of
    other modules that it reads or writes. *)
Record world : Type := {
  st_block_buffer : list Stepper_Block_t;
  segment_buffer : list Stepper_Segment_t;
  st : Stepper_t;
  segment_buffer_tail : Z;
  segment_buffer_head : Z;
  segment_next_head : Z;
  step_port_invert_mask : Z;
  dir_port_invert_mask : Z;
  pl_block : option nat;
  st_prep_block : option Z;
  prep : Stepper_PrepData_t;
  sys : system_t;
  sys_position : axes;
  sys_rt_exec_alarm : Z;
  sys_rt_exec_state : Z;
  settings : settings_t;
  planner : planner_t;
  pl_mem : list Planner_Block_t;
  probe : probe_t;
  hw : hardware
}.

Definition set_prep_st_block_index (v : Z) (p : Stepper_PrepData_t) : Stepper_PrepData_t :=
  {| prep_st_block_index := v; recalculate_flag := recalculate_flag p;
     dt_remainder := dt_remainder p; steps_remaining := steps_remaining p;
     step_per_mm := step_per_mm p; req_mm_increment := req_mm_increment p;
     last_st_block_index := last_st_block_index p;
     last_steps_remaining := last_steps_remaining p; last_step_per_mm := last_step_per_mm p;
     last_dt_remainder := last_dt_remainder p; ramp_type := ramp_type p;
     mm_complete := mm_complete p; current_speed := current_speed p;
     maximum_speed := maximum_speed p; exit_speed := exit_speed p;
     accelerate_until := accelerate_until p; decelerate_after := decelerate_after p;
     inv_rate := inv_rate p; current_spindle_pwm := current_spindle_pwm p |}.

Definition set_recalculate_flag (v : Z) (p : Stepper_PrepData_t) : Stepper_PrepData_t :=
  {| prep_st_block_index := prep_st_block_index p; recalculate_flag := v;
     dt_remainder := dt_remainder p; steps_remaining := steps_remaining p;
     step_per_mm := step_per_mm p; req_mm_increment := req_mm_increment p;
     last_st_block_index := last_st_block_index p;
     last_steps_remaining := last_steps_remaining p; last_step_per_mm := last_step_per_mm p;
     last_dt_remainder := last_dt_remainder p; ramp_type := ramp_type p;
     mm_complete := mm_complete p; current_speed := current_speed p;
     maximum_speed := maximum_speed p; exit_speed := exit_speed p;
     accelerate_until := accelerate_until p; decelerate_after := decelerate_after p;
     inv_rate := inv_rate p; current_spindle_pwm := current_spindle_pwm p |}.

Definition set_dt_remainder (v : float) (p : Stepper_PrepData_t) : Stepper_PrepData_t :=
  {| prep_st_block_index := prep_st_block_index p; recalculate_flag := recalculate_flag p;
     dt_remainder := v; steps_remaining := steps_remaining p; step_per_mm := step_per_mm p;
     req_mm_increment := req_mm_increment p; last_st_block_index := last_st_block_index p;
     last_steps_remaining := last_steps_remaining p; last_step_per_mm := last_step_per_mm p;
     last_dt_remainder := last_dt_remainder p; ramp_type := ramp_type p;
     mm_complete := mm_complete p; current_speed := current_speed p;
     maximum_speed := maximum_speed p; exit_speed := exit_speed p;
     accelerate_until := accelerate_until p; decelerate_after := decelerate_after p;
     inv_rate := inv_rate p; current_spindle_pwm := current_spindle_pwm p |}.

Definition set_steps_remaining (v : float) (p : Stepper_PrepData_t) : Stepper_PrepData_t :=
  {| prep_st_block_index := prep_st_block_index p; recalculate_flag := recalculate_flag p;
     dt_remainder := dt_remainder p; steps_remaining := v; step_per_mm := step_per_mm p;
     req_mm_increment := req_mm_increment p; last_st_block_index := last_st_block_index p;
     last_steps_remaining := last_steps_remaining p; last_step_per_mm := last_step_per_mm p;
     last_dt_remainder := last_dt_remainder p; ramp_type := ramp_type p;
     mm_complete := mm_complete p; current_speed := current_speed p;
     maximum_speed := maximum_speed p; exit_speed := exit_speed p;
     accelerate_until := accelerate_until p; decelerate_after := decelerate_after p;
     inv_rate := inv_rate p; current_spindle_pwm := current_spindle_pwm p |}.

Definition set_step_per_mm (v : float) (p : Stepper_PrepData_t) : Stepper_PrepData_t :=
  {| prep_st_block_index := prep_st_block_index p; recalculate_flag := recalculate_flag p;
     dt_remainder := dt_remainder p; steps_remaining := steps_remaining p; step_per_mm := v;
     req_mm_increment := req_mm_increment p; last_st_block_index := last_st_block_index p;
     last_steps_remaining := last_steps_remaining p; last_step_per_mm := last_step_per_mm p;
     last_dt_remainder := last_dt_remainder p; ramp_type := ramp_type p;
     mm_complete := mm_complete p; current_speed := current_speed p;
     maximum_speed := maximum_speed p; exit_speed := exit_speed p;
     accelerate_until := accelerate_until p; decelerate_after := decelerate_after p;
     inv_rate := inv_rate p; current_spindle_pwm := current_spindle_pwm p |}.

Definition set_req_mm_increment (v : float) (p : Stepper_PrepData_t) : Stepper_PrepData_t :=
  {| prep_st_block_index := prep_st_block_index p; recalculate_flag := recalculate_flag p;
     dt_remainder := dt_remainder p; steps_remaining := steps_remaining p;
     step_per_mm := step_per_mm p; req_mm_increment := v;
     last_st_block_index := last_st_block_index p;
     last_steps_remaining := last_steps_remaining p; last_step_per_mm := last_step_per_mm p;
     last_dt_remainder := last_dt_remainder p; ramp_type := ramp_type p;
     mm_complete := mm_complete p; current_speed := current_speed p;
     maximum_speed := maximum_speed p; exit_speed := exit_speed p;
     accelerate_until := accelerate_until p; decelerate_after := decelerate_after p;
     inv_rate := inv_rate p; current_spindle_pwm := current_spindle_pwm p |}.

Definition set_last_st_block_index (v : Z) (p : Stepper_PrepData_t) : Stepper_PrepData_t :=
  {| prep_st_block_index := prep_st_block_index p; recalculate_flag := recalculate_flag p;
     dt_remainder := dt_remainder p; steps_remaining := steps_remaining p;
     step_per_mm := step_per_mm p; req_mm_increment := req_mm_increment p;
     last_st_block_index := v; last_steps_remaining := last_steps_remaining p;
     last_step_per_mm := last_step_per_mm p; last_dt_remainder := last_dt_remainder p;
     ramp_type := ramp_type p; mm_complete := mm_complete p; current_speed := current_speed p;
     maximum_speed := maximum_speed p; exit_speed := exit_speed p;
     accelerate_until := accelerate_until p; decelerate_after := decelerate_after p;
     inv_rate := inv_rate p; current_spindle_pwm := current_spindle_pwm p |}.

Definition set_last_steps_remaining (v : float) (p : Stepper_PrepData_t) : Stepper_PrepData_t :=
  {| prep_st_block_index := prep_st_block_index p; recalculate_flag := recalculate_flag p;
     dt_remainder := dt_remainder p; steps_remaining := steps_remaining p;
     step_per_mm := step_per_mm p; req_mm_increment := req_mm_increment p;
     last_st_block_index := last_st_block_index p; last_steps_remaining := v;
     last_step_per_mm := last_step_per_mm p; last_dt_remainder := last_dt_remainder p;
     ramp_type := ramp_type p; mm_complete := mm_complete p; current_speed := current_speed p;
     maximum_speed := maximum_speed p; exit_speed := exit_speed p;
     accelerate_until := accelerate_until p; decelerate_after := decelerate_after p;
     inv_rate := inv_rate p; current_spindle_pwm := current_spindle_pwm p |}.

Definition set_last_step_per_mm (v : float) (p : Stepper_PrepData_t) : Stepper_PrepData_t :=
  {| prep_st_block_index := prep_st_block_index p; recalculate_flag := recalculate_flag p;
     dt_remainder := dt_remainder p; steps_remaining := steps_remaining p;
     step_per_mm := step_per_mm p; req_mm_increment := req_mm_increment p;
     last_st_block_index := last_st_block_index p;
     last_steps_remaining := last_steps_remaining p; last_step_per_mm := v;
     last_dt_remainder := last_dt_remainder p; ramp_type := ramp_type p;
     mm_complete := mm_complete p; current_speed := current_speed p;
     maximum_speed := maximum_speed p; exit_speed := exit_speed p;
     accelerate_until := accelerate_until p; decelerate_after := decelerate_after p;
     inv_rate := inv_rate p; current_spindle_pwm := current_spindle_pwm p |}.

Definition set_last_dt_remainder (v : float) (p : Stepper_PrepData_t) : Stepper_PrepData_t :=
  {| prep_st_block_index := prep_st_block_index p; recalculate_flag := recalculate_flag p;
     dt_remainder := dt_remainder p; steps_remaining := steps_remaining p;
     step_per_mm := step_per_mm p; req_mm_increment := req_mm_increment p;
     last_st_block_index := last_st_block_index p;
     last_steps_remaining := last_steps_remaining p; last_step_per_mm := last_step_per_mm p;
     last_dt_remainder := v; ramp_type := ramp_type p; mm_complete := mm_complete p;
     current_speed := current_speed p; maximum_speed := maximum_speed p;
     exit_speed := exit_speed p; accelerate_until := accelerate_until p;
     decelerate_after := decelerate_after p; inv_rate := inv_rate p;
     current_spindle_pwm := current_spindle_pwm p |}.

Definition set_ramp_type (v : Z) (p : Stepper_PrepData_t) : Stepper_PrepData_t :=
  {| prep_st_block_index := prep_st_block_index p; recalculate_flag := recalculate_flag p;
     dt_remainder := dt_remainder p; steps_remaining := steps_remaining p;
     step_per_mm := step_per_mm p; req_mm_increment := req_mm_increment p;
     last_st_block_index := last_st_block_index p;
     last_steps_remaining := last_steps_remaining p; last_step_per_mm := last_step_per_mm p;
     last_dt_remainder := last_dt_remainder p; ramp_type := v; mm_complete := mm_complete p;
     current_speed := current_speed p; maximum_speed := maximum_speed p;
     exit_speed := exit_speed p; accelerate_until := accelerate_until p;
     decelerate_after := decelerate_after p; inv_rate := inv_rate p;
     current_spindle_pwm := current_spindle_pwm p |}.

Definition set_mm_complete (v : float) (p : Stepper_PrepData_t) : Stepper_PrepData_t :=
  {| prep_st_block_index := prep_st_block_index p; recalculate_flag := recalculate_flag p;
     dt_remainder := dt_remainder p; steps_remaining := steps_remaining p;
     step_per_mm := step_per_mm p; req_mm_increment := req_mm_increment p;
     last_st_block_index := last_st_block_index p;
     last_steps_remaining := last_steps_remaining p; last_step_per_mm := last_step_per_mm p;
     last_dt_remainder := last_dt_remainder p; ramp_type := ramp_type p; mm_complete := v;
     current_speed := current_speed p; maximum_speed := maximum_speed p;
     exit_speed := exit_speed p; accelerate_until := accelerate_until p;
     decelerate_after := decelerate_after p; inv_rate := inv_rate p;
     current_spindle_pwm := current_spindle_pwm p |}.

Definition set_current_speed (v : float) (p : Stepper_PrepData_t) : Stepper_PrepData_t :=
  {| prep_st_block_index := prep_st_block_index p; recalculate_flag := recalculate_flag p;
     dt_remainder := dt_remainder p; steps_remaining := steps_remaining p;
     step_per_mm := step_per_mm p; req_mm_increment := req_mm_increment p;
     last_st_block_index := last_st_block_index p;
     last_steps_remaining := last_steps_remaining p; last_step_per_mm := last_step_per_mm p;
     last_dt_remainder := last_dt_remainder p; ramp_type := ramp_type p;
     mm_complete := mm_complete p; current_speed := v; maximum_speed := maximum_speed p;
     exit_speed := exit_speed p; accelerate_until := accelerate_until p;
     decelerate_after := decelerate_after p; inv_rate := inv_rate p;
     current_spindle_pwm := current_spindle_pwm p |}.

Definition set_maximum_speed (v : float) (p : Stepper_PrepData_t) : Stepper_PrepData_t :=
  {| prep_st_block_index := prep_st_block_index p; recalculate_flag := recalculate_flag p;
     dt_remainder := dt_remainder p; steps_remaining := steps_remaining p;
     step_per_mm := step_per_mm p; req_mm_increment := req_mm_increment p;
     last_st_block_index := last_st_block_index p;
     last_steps_remaining := last_steps_remaining p; last_step_per_mm := last_step_per_mm p;
     last_dt_remainder := last_dt_remainder p; ramp_type := ramp_type p;
     mm_complete := mm_complete p; current_speed := current_speed p; maximum_speed := v;
     exit_speed := exit_speed p; accelerate_until := accelerate_until p;
     decelerate_after := decelerate_after p; inv_rate := inv_rate p;
     current_spindle_pwm := current_spindle_pwm p |}.

Definition set_exit_speed (v : float) (p : Stepper_PrepData_t) : Stepper_PrepData_t :=
  {| prep_st_block_index := prep_st_block_index p; recalculate_flag := recalculate_flag p;
     dt_remainder := dt_remainder p; steps_remaining := steps_remaining p;
     step_per_mm := step_per_mm p; req_mm_increment := req_mm_increment p;
     last_st_block_index := last_st_block_index p;
     last_steps_remaining := last_steps_remaining p; last_step_per_mm := last_step_per_mm p;
     last_dt_remainder := last_dt_remainder p; ramp_type := ramp_type p;
     mm_complete := mm_complete p; current_speed := current_speed p;
     maximum_speed := maximum_speed p; exit_speed := v; accelerate_until := accelerate_until p;
     decelerate_after := decelerate_after p; inv_rate := inv_rate p;
     current_spindle_pwm := current_spindle_pwm p |}.

Definition set_accelerate_until (v : float) (p : Stepper_PrepData_t) : Stepper_PrepData_t :=
  {| prep_st_block_index := prep_st_block_index p; recalculate_flag := recalculate_flag p;
     dt_remainder := dt_remainder p; steps_remaining := steps_remaining p;
     step_per_mm := step_per_mm p; req_mm_increment := req_mm_increment p;
     last_st_block_index := last_st_block_index p;
     last_steps_remaining := last_steps_remaining p; last_step_per_mm := last_step_per_mm p;
     last_dt_remainder := last_dt_remainder p; ramp_type := ramp_type p;
     mm_complete := mm_complete p; current_speed := current_speed p;
     maximum_speed := maximum_speed p; exit_speed := exit_speed p; accelerate_until := v;
     decelerate_after := decelerate_after p; inv_rate := inv_rate p;
     current_spindle_pwm := current_spindle_pwm p |}.

Definition set_decelerate_after (v : float) (p : Stepper_PrepData_t) : Stepper_PrepData_t :=
  {| prep_st_block_index := prep_st_block_index p; recalculate_flag := recalculate_flag p;
     dt_remainder := dt_remainder p; steps_remaining := steps_remaining p;
     step_per_mm := step_per_mm p; req_mm_increment := req_mm_increment p;
     last_st_block_index := last_st_block_index p;
     last_steps_remaining := last_steps_remaining p; last_step_per_mm := last_step_per_mm p;
     last_dt_remainder := last_dt_remainder p; ramp_type := ramp_type p;
     mm_complete := mm_complete p; current_speed := current_speed p;
     maximum_speed := maximum_speed p; exit_speed := exit_speed p;
     accelerate_until := accelerate_until p; decelerate_after := v; inv_rate := inv_rate p;
     current_spindle_pwm := current_spindle_pwm p |}.

Definition set_inv_rate (v : float) (p : Stepper_PrepData_t) : Stepper_PrepData_t :=
  {| prep_st_block_index := prep_st_block_index p; recalculate_flag := recalculate_flag p;
     dt_remainder := dt_remainder p; steps_remaining := steps_remaining p;
     step_per_mm := step_per_mm p; req_mm_increment := req_mm_increment p;
     last_st_block_index := last_st_block_index p;
     last_steps_remaining := last_steps_remaining p; last_step_per_mm := last_step_per_mm p;
     last_dt_remainder := last_dt_remainder p; ramp_type := ramp_type p;
     mm_complete := mm_complete p; current_speed := current_speed p;
     maximum_speed := maximum_speed p; exit_speed := exit_speed p;
     accelerate_until := accelerate_until p; decelerate_after := decelerate_after p;
     inv_rate := v; current_spindle_pwm := current_spindle_pwm p |}.

Definition set_current_spindle_pwm (v : Z) (p : Stepper_PrepData_t) : Stepper_PrepData_t :=
  {| prep_st_block_index := prep_st_block_index p; recalculate_flag := recalculate_flag p;
     dt_remainder := dt_remainder p; steps_remaining := steps_remaining p;
     step_per_mm := step_per_mm p; req_mm_increment := req_mm_increment p;
     last_st_block_index := last_st_block_index p;
     last_steps_remaining := last_steps_remaining p; last_step_per_mm := last_step_per_mm p;
     last_dt_remainder := last_dt_remainder p; ramp_type := ramp_type p;
     mm_complete := mm_complete p; current_speed := current_speed p;
     maximum_speed := maximum_speed p; exit_speed := exit_speed p;
     accelerate_until := accelerate_until p; decelerate_after := decelerate_after p;
     inv_rate := inv_rate p; current_spindle_pwm := v |}.

Definition set_step_control (v : Z) (y : system_t) : system_t :=
  {| sys_state := sys_state y; step_control := v; homing_axis_lock := homing_axis_lock y;
     sys_spindle_speed := sys_spindle_speed y |}.

Definition set_sys_spindle_speed (v : float) (y : system_t) : system_t :=
  {| sys_state := sys_state y; step_control := step_control y;
     homing_axis_lock := homing_axis_lock y; sys_spindle_speed := v |}.

Definition set_st_block_buffer (v : list Stepper_Block_t) (w : world) : world :=
  {| st_block_buffer := v; segment_buffer := segment_buffer w; st := st w;
     segment_buffer_tail := segment_buffer_tail w;
     segment_buffer_head := segment_buffer_head w; segment_next_head := segment_next_head w;
     step_port_invert_mask := step_port_invert_mask w;
     dir_port_invert_mask := dir_port_invert_mask w; pl_block := pl_block w;
     st_prep_block := st_prep_block w; prep := prep w; sys := sys w;
     sys_position := sys_position w;
     sys_rt_exec_alarm := sys_rt_exec_alarm w; sys_rt_exec_state := sys_rt_exec_state w;
     settings := settings w; planner := planner w; pl_mem := pl_mem w; probe := probe w;
     hw := hw w |}.

Definition set_segment_buffer (v : list Stepper_Segment_t) (w : world) : world :=
  {| st_block_buffer := st_block_buffer w; segment_buffer := v; st := st w;
     segment_buffer_tail := segment_buffer_tail w;
     segment_buffer_head := segment_buffer_head w; segment_next_head := segment_next_head w;
     step_port_invert_mask := step_port_invert_mask w;
     dir_port_invert_mask := dir_port_invert_mask w; pl_block := pl_block w;
     st_prep_block := st_prep_block w; prep := prep w; sys := sys w;
     sys_position := sys_position w;
     sys_rt_exec_alarm := sys_rt_exec_alarm w; sys_rt_exec_state := sys_rt_exec_state w;
     settings := settings w; planner := planner w; pl_mem := pl_mem w; probe := probe w;
     hw := hw w |}.

Definition set_st (v : Stepper_t) (w : world) : world :=
  {| st_block_buffer := st_block_buffer w; segment_buffer := segment_buffer w; st := v;
     segment_buffer_tail := segment_buffer_tail w;
     segment_buffer_head := segment_buffer_head w; segment_next_head := segment_next_head w;
     step_port_invert_mask := step_port_invert_mask w;
     dir_port_invert_mask := dir_port_invert_mask w; pl_block := pl_block w;
     st_prep_block := st_prep_block w; prep := prep w; sys := sys w;
     sys_position := sys_position w;
     sys_rt_exec_alarm := sys_rt_exec_alarm w; sys_rt_exec_state := sys_rt_exec_state w;
     settings := settings w; planner := planner w; pl_mem := pl_mem w; probe := probe w;
     hw := hw w |}.

Definition set_segment_buffer_tail (v : Z) (w : world) : world :=
  {| st_block_buffer := st_block_buffer w; segment_buffer := segment_buffer w; st := st w;
     segment_buffer_tail := v; segment_buffer_head := segment_buffer_head w;
     segment_next_head := segment_next_head w;
     step_port_invert_mask := step_port_invert_mask w;
     dir_port_invert_mask := dir_port_invert_mask w; pl_block := pl_block w;
     st_prep_block := st_prep_block w; prep := prep w; sys := sys w;
     sys_position := sys_position w;
     sys_rt_exec_alarm := sys_rt_exec_alarm w; sys_rt_exec_state := sys_rt_exec_state w;
     settings := settings w; planner := planner w; pl_mem := pl_mem w; probe := probe w;
     hw := hw w |}.

Definition set_segment_buffer_head (v : Z) (w : world) : world :=
  {| st_block_buffer := st_block_buffer w; segment_buffer := segment_buffer w; st := st w;
     segment_buffer_tail := segment_buffer_tail w; segment_buffer_head := v;
     segment_next_head := segment_next_head w;
     step_port_invert_mask := step_port_invert_mask w;
     dir_port_invert_mask := dir_port_invert_mask w; pl_block := pl_block w;
     st_prep_block := st_prep_block w; prep := prep w; sys := sys w;
     sys_position := sys_position w;
     sys_rt_exec_alarm := sys_rt_exec_alarm w; sys_rt_exec_state := sys_rt_exec_state w;
     settings := settings w; planner := planner w; pl_mem := pl_mem w; probe := probe w;
     hw := hw w |}.

Definition set_segment_next_head (v : Z) (w : world) : world :=
  {| st_block_buffer := st_block_buffer w; segment_buffer := segment_buffer w; st := st w;
     segment_buffer_tail := segment_buffer_tail w;
     segment_buffer_head := segment_buffer_head w; segment_next_head := v;
     step_port_invert_mask := step_port_invert_mask w;
     dir_port_invert_mask := dir_port_invert_mask w; pl_block := pl_block w;
     st_prep_block := st_prep_block w; prep := prep w; sys := sys w;
     sys_position := sys_position w;
     sys_rt_exec_alarm := sys_rt_exec_alarm w; sys_rt_exec_state := sys_rt_exec_state w;
     settings := settings w; planner := planner w; pl_mem := pl_mem w; probe := probe w;
     hw := hw w |}.

Definition set_step_port_invert_mask (v : Z) (w : world) : world :=
  {| st_block_buffer := st_block_buffer w; segment_buffer := segment_buffer w; st := st w;
     segment_buffer_tail := segment_buffer_tail w;
     segment_buffer_head := segment_buffer_head w; segment_next_head := segment_next_head w;
     step_port_invert_mask := v; dir_port_invert_mask := dir_port_invert_mask w;
     pl_block := pl_block w; st_prep_block := st_prep_block w; prep := prep w; sys := sys w;
     sys_position := sys_position w;
     sys_rt_exec_alarm := sys_rt_exec_alarm w; sys_rt_exec_state := sys_rt_exec_state w;
     settings := settings w; planner := planner w; pl_mem := pl_mem w; probe := probe w;
     hw := hw w |}.

Definition set_dir_port_invert_mask (v : Z) (w : world) : world :=
  {| st_block_buffer := st_block_buffer w; segment_buffer := segment_buffer w; st := st w;
     segment_buffer_tail := segment_buffer_tail w;
     segment_buffer_head := segment_buffer_head w; segment_next_head := segment_next_head w;
     step_port_invert_mask := step_port_invert_mask w; dir_port_invert_mask := v;
     pl_block := pl_block w; st_prep_block := st_prep_block w; prep := prep w; sys := sys w;
     sys_position := sys_position w;
     sys_rt_exec_alarm := sys_rt_exec_alarm w; sys_rt_exec_state := sys_rt_exec_state w;
     settings := settings w; planner := planner w; pl_mem := pl_mem w; probe := probe w;
     hw := hw w |}.

Definition set_pl_block (v : option nat) (w : world) : world :=
  {| st_block_buffer := st_block_buffer w; segment_buffer := segment_buffer w; st := st w;
     segment_buffer_tail := segment_buffer_tail w;
     segment_buffer_head := segment_buffer_head w; segment_next_head := segment_next_head w;
     step_port_invert_mask := step_port_invert_mask w;
     dir_port_invert_mask := dir_port_invert_mask w; pl_block := v;
     st_prep_block := st_prep_block w; prep := prep w; sys := sys w;
     sys_position := sys_position w;
     sys_rt_exec_alarm := sys_rt_exec_alarm w; sys_rt_exec_state := sys_rt_exec_state w;
     settings := settings w; planner := planner w; pl_mem := pl_mem w; probe := probe w;
     hw := hw w |}.

Definition set_st_prep_block (v : option Z) (w : world) : world :=
  {| st_block_buffer := st_block_buffer w; segment_buffer := segment_buffer w; st := st w;
     segment_buffer_tail := segment_buffer_tail w;
     segment_buffer_head := segment_buffer_head w; segment_next_head := segment_next_head w;
     step_port_invert_mask := step_port_invert_mask w;
     dir_port_invert_mask := dir_port_invert_mask w; pl_block := pl_block w;
     st_prep_block := v; prep := prep w; sys := sys w; sys_position := sys_position w;
     sys_rt_exec_alarm := sys_rt_exec_alarm w;
     sys_rt_exec_state := sys_rt_exec_state w; settings := settings w; planner := planner w;
     pl_mem := pl_mem w; probe := probe w; hw := hw w |}.

Definition set_prep (v : Stepper_PrepData_t) (w : world) : world :=
  {| st_block_buffer := st_block_buffer w; segment_buffer := segment_buffer w; st := st w;
     segment_buffer_tail := segment_buffer_tail w;
     segment_buffer_head := segment_buffer_head w; segment_next_head := segment_next_head w;
     step_port_invert_mask := step_port_invert_mask w;
     dir_port_invert_mask := dir_port_invert_mask w; pl_block := pl_block w;
     st_prep_block := st_prep_block w; prep := v; sys := sys w; sys_position := sys_position w;
     sys_rt_exec_alarm := sys_rt_exec_alarm w;
     sys_rt_exec_state := sys_rt_exec_state w; settings := settings w; planner := planner w;
     pl_mem := pl_mem w; probe := probe w; hw := hw w |}.

Definition set_sys (v : system_t) (w : world) : world :=
  {| st_block_buffer := st_block_buffer w; segment_buffer := segment_buffer w; st := st w;
     segment_buffer_tail := segment_buffer_tail w;
     segment_buffer_head := segment_buffer_head w; segment_next_head := segment_next_head w;
     step_port_invert_mask := step_port_invert_mask w;
     dir_port_invert_mask := dir_port_invert_mask w; pl_block := pl_block w;
     st_prep_block := st_prep_block w; prep := prep w; sys := v;
     sys_position := sys_position w;
     sys_rt_exec_alarm := sys_rt_exec_alarm w; sys_rt_exec_state := sys_rt_exec_state w;
     settings := settings w; planner := planner w; pl_mem := pl_mem w; probe := probe w;
     hw := hw w |}.

Definition set_sys_position (v : axes) (w : world) : world :=
  {| st_block_buffer := st_block_buffer w; segment_buffer := segment_buffer w; st := st w;
     segment_buffer_tail := segment_buffer_tail w;
     segment_buffer_head := segment_buffer_head w; segment_next_head := segment_next_head w;
     step_port_invert_mask := step_port_invert_mask w;
     dir_port_invert_mask := dir_port_invert_mask w; pl_block := pl_block w;
     st_prep_block := st_prep_block w; prep := prep w; sys := sys w; sys_position := v;
     sys_rt_exec_alarm := sys_rt_exec_alarm w;
     sys_rt_exec_state := sys_rt_exec_state w; settings := settings w; planner := planner w;
     pl_mem := pl_mem w; probe := probe w; hw := hw w |}.

Definition set_sys_rt_exec_state (v : Z) (w : world) : world :=
  {| st_block_buffer := st_block_buffer w; segment_buffer := segment_buffer w; st := st w;
     segment_buffer_tail := segment_buffer_tail w;
     segment_buffer_head := segment_buffer_head w; segment_next_head := segment_next_head w;
     step_port_invert_mask := step_port_invert_mask w;
     dir_port_invert_mask := dir_port_invert_mask w; pl_block := pl_block w;
     st_prep_block := st_prep_block w; prep := prep w; sys := sys w;
     sys_position := sys_position w;
     sys_rt_exec_alarm := sys_rt_exec_alarm w; sys_rt_exec_state := v; settings := settings w;
     planner := planner w; pl_mem := pl_mem w; probe := probe w; hw := hw w |}.

Definition set_planner (v : planner_t) (w : world) : world :=
  {| st_block_buffer := st_block_buffer w; segment_buffer := segment_buffer w; st := st w;
     segment_buffer_tail := segment_buffer_tail w;
     segment_buffer_head := segment_buffer_head w; segment_next_head := segment_next_head w;
     step_port_invert_mask := step_port_invert_mask w;
     dir_port_invert_mask := dir_port_invert_mask w; pl_block := pl_block w;
     st_prep_block := st_prep_block w; prep := prep w; sys := sys w;
     sys_position := sys_position w;
     sys_rt_exec_alarm := sys_rt_exec_alarm w; sys_rt_exec_state := sys_rt_exec_state w;
     settings := settings w; planner := v; pl_mem := pl_mem w; probe := probe w; hw := hw w |}.

Definition set_pl_mem (v : list Planner_Block_t) (w : world) : world :=
  {| st_block_buffer := st_block_buffer w; segment_buffer := segment_buffer w; st := st w;
     segment_buffer_tail := segment_buffer_tail w;
     segment_buffer_head := segment_buffer_head w; segment_next_head := segment_next_head w;
     step_port_invert_mask := step_port_invert_mask w;
     dir_port_invert_mask := dir_port_invert_mask w; pl_block := pl_block w;
     st_prep_block := st_prep_block w; prep := prep w; sys := sys w;
     sys_position := sys_position w;
     sys_rt_exec_alarm := sys_rt_exec_alarm w; sys_rt_exec_state := sys_rt_exec_state w;
     settings := settings w; planner := planner w; pl_mem := v; probe := probe w;
     hw := hw w |}.

Definition set_probe (v : probe_t) (w : world) : world :=
  {| st_block_buffer := st_block_buffer w; segment_buffer := segment_buffer w; st := st w;
     segment_buffer_tail := segment_buffer_tail w;
     segment_buffer_head := segment_buffer_head w; segment_next_head := segment_next_head w;
     step_port_invert_mask := step_port_invert_mask w;
     dir_port_invert_mask := dir_port_invert_mask w; pl_block := pl_block w;
     st_prep_block := st_prep_block w; prep := prep w; sys := sys w;
     sys_position := sys_position w;
     sys_rt_exec_alarm := sys_rt_exec_alarm w; sys_rt_exec_state := sys_rt_exec_state w;
     settings := settings w; planner := planner w; pl_mem := pl_mem w; probe := v;
     hw := hw w |}.

Definition set_hw (v : hardware) (w : world) : world :=
  {| st_block_buffer := st_block_buffer w; segment_buffer := segment_buffer w; st := st w;
     segment_buffer_tail := segment_buffer_tail w;
     segment_buffer_head := segment_buffer_head w; segment_next_head := segment_next_head w;
     step_port_invert_mask := step_port_invert_mask w;
     dir_port_invert_mask := dir_port_invert_mask w; pl_block := pl_block w;
     st_prep_block := st_prep_block w; prep := prep w; sys := sys w;
     sys_position := sys_position w;
     sys_rt_exec_alarm := sys_rt_exec_alarm w; sys_rt_exec_state := sys_rt_exec_state w;
     settings := settings w; planner := planner w; pl_mem := pl_mem w; probe := probe w;
     hw := v |}.

(** ** Constants of Stepper.c *)

Definition RAMP_ACCEL : Z := 0.
Definition RAMP_CRUISE : Z := 1.
Definition RAMP_DECEL : Z := 2.
Definition RAMP_DECEL_OVERRIDE : Z := 3.

Definition PREP_FLAG_RECALCULATE : Z := BIT 0.
Definition PREP_FLAG_HOLD_PARTIAL_BLOCK : Z := BIT 1.
Definition PREP_FLAG_PARKING : Z := BIT 2.
Definition PREP_FLAG_DECEL_OVERRIDE : Z := BIT 3.

Definition MAX_AMASS_LEVEL : Z := 3.
Definition AMASS_LEVEL1 : Z := u32 (F_TIMER_STEPPER / 8000).
Definition AMASS_LEVEL2 : Z := u32 (F_TIMER_STEPPER / 4000).
Definition AMASS_LEVEL3 : Z := u32 (F_TIMER_STEPPER / 2000).

Definition STEP_TIMER_MIN : Z :=
  match MAX_STEP_RATE_HZ with
  | Some rate => u16 (F_TIMER_STEPPER / rate)
  | None => u16 (F_TIMER_STEPPER / 60000)
  end.

(** [1.0/(ACCELERATION_TICKS_PER_SECOND*60.0)], a [double]. *)
Definition DT_SEGMENT : double :=
  ddiv (i2d 1) (dmul (i2d ACCELERATION_TICKS_PER_SECOND) (i2d 60)).
Definition REQ_MM_INCREMENT_SCALAR : double := d_1_25.

(** ** The drivers Stepper.c calls *)

Definition GPIO_SetBits (p : pin) (w : world) : world :=
  set_hw (set_gpio (gpio_write p true (gpio (hw w))) (hw w)) w.
Definition GPIO_ResetBits (p : pin) (w : world) : world :=
  set_hw (set_gpio (gpio_write p false (gpio (hw w))) (hw w)) w.
Definition GPIO_Write (p : pin) (level : bool) (w : world) : world :=
  if level then GPIO_SetBits p w else GPIO_ResetBits p w.
Definition TIM_Cmd (enable : bool) (w : world) : world :=
  set_hw (set_tim9_enabled enable (hw w)) w.
Definition Delay_ms (n : Z) (w : world) : world :=
  set_hw (set_delays (Wait_ms n :: delays (hw w)) (hw w)) w.
Definition Delay_us (n : Z) (w : world) : world :=
  set_hw (set_delays (Wait_us n :: delays (hw w)) (hw w)) w.
Definition Spindle_SetSpeed (pwm : Z) (w : world) : world :=
  set_hw (set_spindle_out pwm (hw w)) w.
Definition System_SetExecStateFlag (mask : Z) (w : world) : world :=
  set_sys_rt_exec_state (BIT_TRUE (sys_rt_exec_state w) mask) w.

(** ** Control facade *)

(** [Stepper_WakeUp] *)
Definition Stepper_WakeUp (w : world) : world :=
  let w := GPIO_Write ENABLE (BIT_IS_TRUE (flags (settings w)) BITFLAG_INVERT_ST_ENABLE) w in
  let w := Delay_ms 10 w in
  let w := set_st (set_step_outbits 0 (st w)) w in
  TIM_Cmd true w.

Definition reset_step_pin (bit : Z) (p : pin) (w : world) : world :=
  GPIO_Write p (BIT_IS_TRUE (step_port_invert_mask w) (BIT bit)) w.

(** [Stepper_PortResetISR]: the falling edge of the step pulse. *)
Definition Stepper_PortResetISR (w : world) : world :=
  let w := reset_step_pin X_STEP_BIT STEP_X w in
  let w := if DUAL_X_AXIS then reset_step_pin X2_STEP_BIT STEP_X2 w else w in
  let w := reset_step_pin Y_STEP_BIT STEP_Y w in
  let w := if DUAL_Y_AXIS then reset_step_pin Y2_STEP_BIT STEP_Y2 w else w in
  reset_step_pin Z_STEP_BIT STEP_Z w.

(** The condition of line 265 under which [Stepper_Disable] dwells and
    disables the drivers. *)
Definition idle_lock_applies (w : world) : bool :=
  (negb (stepper_idle_lock_time (settings w) =? 255)
   || negb (sys_rt_exec_alarm w =? 0)
   || (sys_state (sys w) =? STATE_SLEEP))
  && negb (sys_state (sys w) =? STATE_HOMING).

(** [Stepper_Disable] *)
Definition Stepper_Disable (ovr_disable : Z) (w : world) : world :=
  let w := TIM_Cmd false w in
  let w := Delay_us 1 w in
  let w := Stepper_PortResetISR w in
  let pin_state := false in
  let '(w, pin_state) :=
    if idle_lock_applies w
    then (Delay_ms (stepper_idle_lock_time (settings w)) w, true)
    else (w, pin_state) in
  let pin_state := if negb (ovr_disable =? 0) then true else pin_state in
  let pin_state :=
    if BIT_IS_TRUE (flags (settings w)) BITFLAG_INVERT_ST_ENABLE
    then negb pin_state else pin_state in
  GPIO_Write ENABLE pin_state w.

(** The body of the loop of [Stepper_GenerateStepDirInvertMasks]. *)
Definition invert_masks_of_axis (w : world) (idx : Z) : world :=
  let w :=
    if BIT_IS_TRUE (step_invert_mask (settings w)) (BIT idx)
    then set_step_port_invert_mask
           (u8 (Z.lor (step_port_invert_mask w) (Settings_GetStepPinMask idx))) w
    else w in
  if BIT_IS_TRUE (dir_invert_mask (settings w)) (BIT idx)
  then set_dir_port_invert_mask
         (u8 (Z.lor (dir_port_invert_mask w) (Settings_GetDirectionPinMask idx))) w
  else w.

(** [Stepper_GenerateStepDirInvertMasks], over the three axes. *)
Definition Stepper_GenerateStepDirInvertMasks (w : world) : world :=
  let w := set_step_port_invert_mask 0 w in
  let w := set_dir_port_invert_mask 0 w in
  fold_left invert_masks_of_axis [0; 1; 2] w.

(** What [memset] leaves in [prep] and [st]. *)
Definition prep_zero : Stepper_PrepData_t :=
  {| prep_st_block_index := 0; recalculate_flag := 0; dt_remainder := f_zero;
     steps_remaining := f_zero; step_per_mm := f_zero; req_mm_increment := f_zero;
     last_st_block_index := 0; last_steps_remaining := f_zero;
     last_step_per_mm := f_zero; last_dt_remainder := f_zero; ramp_type := 0;
     mm_complete := f_zero; current_speed := f_zero; maximum_speed := f_zero;
     exit_speed := f_zero; accelerate_until := f_zero; decelerate_after := f_zero;
     inv_rate := f_zero; current_spindle_pwm := 0 |}.

Definition st_zero : Stepper_t :=
  {| counter_x := 0; counter_y := 0; counter_z := 0; execute_step := 0;
     step_pulse_time := 0; step_outbits := 0; dir_outbits := 0;
     st_steps := mk_axes 0 0 0; step_count := 0; exec_block_index := 0;
     exec_block := None; exec_segment := None |}.

(** [Stepper_Reset] *)
Definition Stepper_Reset (w : world) : world :=
  let w := Stepper_Disable 0 w in
  let w := set_prep prep_zero w in
  let w := set_st st_zero w in
  let w := set_st (set_exec_segment None (st w)) w in
  let w := set_pl_block None w in
  let w := set_segment_buffer_tail 0 w in
  let w := set_segment_buffer_head 0 w in
  let w := set_segment_next_head 1 w in
  let w := Stepper_GenerateStepDirInvertMasks w in
  let w := set_st (set_dir_outbits (dir_port_invert_mask w) (st w)) w in
  let w := GPIO_ResetBits STEP_X w in
  let w := if DUAL_X_AXIS then GPIO_ResetBits STEP_X2 w else w in
  let w := GPIO_ResetBits STEP_Y w in
  let w := if DUAL_Y_AXIS then GPIO_ResetBits STEP_Y2 w else w in
  let w := GPIO_ResetBits STEP_Z w in
  let w := GPIO_ResetBits DIR_X w in
  let w := if DUAL_X_AXIS then GPIO_ResetBits DIR_X2 w else w in
  let w := GPIO_ResetBits DIR_Y w in
  let w := if DUAL_Y_AXIS then GPIO_ResetBits DIR_Y2 w else w in
  GPIO_ResetBits DIR_Z w.

(** Writing through [pl_block]. *)
Definition pl_read (p : nat) (w : world) : result Planner_Block_t :=
  match pl_mem w !! p with
  | Some b => Ok b
  | None => Fault BadIndex
  end.

Definition pl_write (p : nat) (b : Planner_Block_t) (w : world) : world :=
  set_pl_mem (<[p := b]> (pl_mem w)) w.

(** [Stepper_UpdatePlannerBlockParams] *)
Definition Stepper_UpdatePlannerBlockParams (w : world) : result world :=
  match pl_block w with
  | Some p =>
      let w := set_prep (set_recalculate_flag
                 (u8 (Z.lor (recalculate_flag (prep w)) PREP_FLAG_RECALCULATE)) (prep w)) w in
      b <-- pl_read p w;;
      let w := pl_write p (set_entry_speed_sqr
                 (fmul (current_speed (prep w)) (current_speed (prep w))) b) w in
      Ok (set_pl_block None w)
  | None => Ok w
  end.

(** [Stepper_NextBlockIndex] *)
Definition Stepper_NextBlockIndex (block_index : Z) : Z :=
  let block_index := u8 (block_index + 1) in
  if block_index =? SEGMENT_BUFFER_SIZE - 1 then 0 else block_index.

(** [Stepper_ParkingSetupBuffer] (PARKING_ENABLE) *)
Definition Stepper_ParkingSetupBuffer (w : world) : world :=
  let p := prep w in
  let p :=
    if BIT_IS_TRUE (recalculate_flag p) PREP_FLAG_HOLD_PARTIAL_BLOCK
    then set_last_step_per_mm (step_per_mm p)
           (set_last_dt_remainder (dt_remainder p)
              (set_last_steps_remaining (steps_remaining p)
                 (set_last_st_block_index (prep_st_block_index p) p)))
    else p in
  let p := set_recalculate_flag (u8 (Z.lor (recalculate_flag p) PREP_FLAG_PARKING)) p in
  let p := set_recalculate_flag (BIT_FALSE (recalculate_flag p) PREP_FLAG_RECALCULATE) p in
  set_pl_block None (set_prep p w).

(** [Stepper_ParkingRestoreBuffer] (PARKING_ENABLE) *)
Definition Stepper_ParkingRestoreBuffer (w : world) : world :=
  let p := prep w in
  let w :=
    if BIT_IS_TRUE (recalculate_flag p) PREP_FLAG_HOLD_PARTIAL_BLOCK
    then
      let w := set_st_prep_block (Some (last_st_block_index p)) w in
      let p := set_prep_st_block_index (last_st_block_index p) p in
      let p := set_steps_remaining (last_steps_remaining p) p in
      let p := set_dt_remainder (last_dt_remainder p) p in
      let p := set_step_per_mm (last_step_per_mm p) p in
      let p := set_recalculate_flag
                 (Z.lor PREP_FLAG_HOLD_PARTIAL_BLOCK PREP_FLAG_RECALCULATE) p in
      let p := set_req_mm_increment
                 (d2f (ddiv REQ_MM_INCREMENT_SCALAR (f2d (step_per_mm p)))) p in
      set_prep p w
    else set_prep (set_recalculate_flag 0 p) w in
  set_pl_block None w.

(** [Stepper_GetRealtimeRate] *)
Definition Stepper_GetRealtimeRate (w : world) : float :=
  if BIT_IS_TRUE (sys_state (sys w)) STATE_MOTION_MASK
  then current_speed (prep w) else f_zero.

(** ** The step generator *)

(** Lines 337-390: the rising edge for every step bit latched by the
    previous tick. *)
Definition pulse_pin (bit : Z) (p : pin) (w : world) : world :=
  if BIT_IS_TRUE (step_outbits (st w)) (BIT bit)
  then GPIO_Write p (negb (BIT_IS_TRUE (step_port_invert_mask w) (BIT bit))) w
  else w.

Definition pulse_pins (w : world) : world :=
  let w := pulse_pin X_STEP_BIT STEP_X w in
  let w := if DUAL_X_AXIS then pulse_pin X2_STEP_BIT STEP_X2 w else w in
  let w := pulse_pin Y_STEP_BIT STEP_Y w in
  let w := if DUAL_Y_AXIS then pulse_pin Y2_STEP_BIT STEP_Y2 w else w in
  pulse_pin Z_STEP_BIT STEP_Z w.

(** Lines 423-476: the direction pins follow [st.dir_outbits]. *)
Definition dir_pins (w : world) : world :=
  let d := dir_outbits (st w) in
  let w := GPIO_Write DIR_X (BIT_IS_TRUE d (BIT X_DIRECTION_BIT)) w in
  let w :=
    if DUAL_X_AXIS
    then GPIO_Write DIR_X2
           (xorb INVERT_DUAL_X_AXIS (BIT_IS_TRUE d (BIT X2_DIRECTION_BIT))) w
    else w in
  let w := GPIO_Write DIR_Y (BIT_IS_TRUE d (BIT Y_DIRECTION_BIT)) w in
  let w :=
    if DUAL_Y_AXIS
    then GPIO_Write DIR_Y2
           (xorb INVERT_DUAL_Y_AXIS (BIT_IS_TRUE d (BIT Y2_DIRECTION_BIT))) w
    else w in
  GPIO_Write DIR_Z (BIT_IS_TRUE d (BIT Z_DIRECTION_BIT)) w.

(** Lines 401-403: the floor on the timer period of a segment. *)
Definition limit_step_rate (seg : Stepper_Segment_t) : Stepper_Segment_t :=
  if cycles_per_tick seg <? STEP_TIMER_MIN
  then set_cycles_per_tick STEP_TIMER_MIN seg else seg.

(** Lines 397-407: the segment at the tail becomes the executing segment
    and the step timer is reloaded. *)
Definition start_segment (seg : Stepper_Segment_t) (w : world) : world :=
  let tail := segment_buffer_tail w in
  let w := set_st (set_exec_segment (Some tail) (st w)) w in
  let w := set_segment_buffer (<[Z.to_nat tail := seg]> (segment_buffer w)) w in
  let w := set_hw (set_tim9_arr (cycles_per_tick seg) (hw w)) w in
  let w := set_hw (set_tim9_ccr1 (u16 (3 * cycles_per_tick seg / 4)) (hw w)) w in
  set_st (set_step_count (n_step seg) (st w)) w.

(** Lines 409-417: a changed block index starts a new planner block. *)
Definition select_block (seg : Stepper_Segment_t) (w : world) : result world :=
  if negb (exec_block_index (st w) =? st_block_index seg)
  then
    let w := set_st (set_exec_block_index (st_block_index seg) (st w)) w in
    let w := set_st (set_exec_block (Some (exec_block_index (st w))) (st w)) w in
    blk <-- index (st_block_buffer w) (exec_block_index (st w));;
    let c := Z.shiftr (step_event_count blk) 1 in
    Ok (set_st (set_counter_x c (set_counter_y c (set_counter_z c (st w)))) w)
  else Ok w.

(** Lines 419-484: direction pins, AMASS increments and spindle output. *)
Definition apply_block (seg : Stepper_Segment_t) (w : world) : result world :=
  bi <-- deref (exec_block (st w));;
  blk <-- index (st_block_buffer w) bi;;
  let w := set_st (set_dir_outbits
             (u8 (Z.lxor (direction_bits blk) (dir_port_invert_mask w))) (st w)) w in
  let w := dir_pins w in
  let w := set_st (set_st_steps
             (axes_map (fun s => Z.shiftr s (amass_level seg)) (steps blk)) (st w)) w in
  Ok (Spindle_SetSpeed (spindle_pwm seg) w).

(** Lines 397-484: pop [segment_buffer[segment_buffer_tail]]. *)
Definition load_segment (w : world) : result world :=
  seg <-- index (segment_buffer w) (segment_buffer_tail w);;
  let seg := limit_step_rate seg in
  w <-- select_block seg (start_segment seg w);;
  apply_block seg w.

(** Lines 487-497: nothing to execute. *)
Definition ring_empty_shutdown (w : world) : result world :=
  let w := Stepper_Disable 0 w in
  bi <-- deref (exec_block (st w));;
  blk <-- index (st_block_buffer w) bi;;
  let w :=
    if negb (is_pwm_rate_adjusted blk =? 0)
    then Spindle_SetSpeed SPINDLE_PWM_OFF_VALUE w else w in
  Ok (System_SetExecStateFlag EXEC_CYCLE_STOP w).

(** One axis of the Bresenham tracer: the new counter and whether the axis
    steps on this tick. *)
Definition bresenham_axis (counter increment event_count : Z) : Z * bool :=
  let counter := u32 (counter + increment) in
  if event_count <? counter
  then (u32 (counter - event_count), true)
  else (counter, false).

(** [sys_position[axis]--] or [++] for one emitted step. *)
Definition track_position (backlash dirbits dirbit position : Z) : Z :=
  if backlash =? 0
  then if BIT_IS_TRUE dirbits (BIT dirbit) then s32 (position - 1) else s32 (position + 1)
  else position.

(** The three axes the tracer drives. *)
Inductive axis : Set := X_AXIS | Y_AXIS | Z_AXIS.

Definition get_axis (a : axis) (v : axes) : Z :=
  match a with
  | X_AXIS => axis_x v
  | Y_AXIS => axis_y v
  | Z_AXIS => axis_z v
  end.

Definition set_axis (a : axis) (x : Z) (v : axes) : axes :=
  match a with
  | X_AXIS => mk_axes x (axis_y v) (axis_z v)
  | Y_AXIS => mk_axes (axis_x v) x (axis_z v)
  | Z_AXIS => mk_axes (axis_x v) (axis_y v) x
  end.

Definition counter (a : axis) (s : Stepper_t) : Z :=
  match a with
  | X_AXIS => counter_x s
  | Y_AXIS => counter_y s
  | Z_AXIS => counter_z s
  end.

Definition set_counter (a : axis) (c : Z) (s : Stepper_t) : Stepper_t :=
  match a with
  | X_AXIS => set_counter_x c s
  | Y_AXIS => set_counter_y c s
  | Z_AXIS => set_counter_z c s
  end.

Definition step_bit (a : axis) : Z :=
  match a with
  | X_AXIS => X_STEP_BIT
  | Y_AXIS => Y_STEP_BIT
  | Z_AXIS => Z_STEP_BIT
  end.

(** The step bits OR-ed into [st.step_outbits] for an axis; a mirrored
    axis steps with its primary. *)
Definition step_mask (a : axis) : Z :=
  match a with
  | X_AXIS =>
      if DUAL_X_AXIS then Z.lor (BIT X_STEP_BIT) (BIT X2_STEP_BIT) else BIT X_STEP_BIT
  | Y_AXIS =>
      if DUAL_Y_AXIS then Z.lor (BIT Y_STEP_BIT) (BIT Y2_STEP_BIT) else BIT Y_STEP_BIT
  | Z_AXIS => BIT Z_STEP_BIT
  end.

Definition direction_bit (a : axis) : Z :=
  match a with
  | X_AXIS => X_DIRECTION_BIT
  | Y_AXIS => Y_DIRECTION_BIT
  | Z_AXIS => Z_DIRECTION_BIT
  end.

(** The segment behind [st.exec_segment], read when an axis steps. *)
Definition exec_segment_backlash (w : world) : result Z :=
  si <-- deref (exec_segment (st w));;
  seg <-- index (segment_buffer w) si;;
  Ok (backlash_motion seg).

(** Lines 511-529, 531-551 and 553-568: the tracer on one axis. *)
Definition trace_axis (a : axis) (blk : Stepper_Block_t) (w : world) : result world :=
  let '(c, stepped) :=
    bresenham_axis (counter a (st w)) (get_axis a (st_steps (st w)))
      (step_event_count blk) in
  let w := set_st (set_counter a c (st w)) w in
  if stepped
  then
    let w := set_st (set_step_outbits
               (u8 (Z.lor (step_outbits (st w)) (step_mask a))) (st w)) w in
    bk <-- exec_segment_backlash w;;
    Ok (set_sys_position
          (set_axis a
             (track_position bk (direction_bits blk) (direction_bit a)
                (get_axis a (sys_position w)))
             (sys_position w)) w)
  else Ok w.

(** Lines 508-568. *)
Definition bresenham (w : world) : result world :=
  bi <-- deref (exec_block (st w));;
  blk <-- index (st_block_buffer w) bi;;
  let w := set_st (set_step_outbits 0 (st w)) w in
  w <-- trace_axis X_AXIS blk w;;
  w <-- trace_axis Y_AXIS blk w;;
  trace_axis Z_AXIS blk w.

(** Lines 570-573. *)
Definition homing_lock (w : world) : world :=
  if sys_state (sys w) =? STATE_HOMING
  then set_st (set_step_outbits
         (Z.land (step_outbits (st w)) (homing_axis_lock (sys w))) (st w)) w
  else w.

(** Lines 575-583. *)
Definition finish_tick (w : world) : world :=
  let w := set_st (set_step_count (u16 (step_count (st w) - 1)) (st w)) w in
  if step_count (st w) =? 0
  then
    let w := set_st (set_exec_segment None (st w)) w in
    let tail := u8 (segment_buffer_tail w + 1) in
    set_segment_buffer_tail (if tail =? SEGMENT_BUFFER_SIZE then 0 else tail) w
  else w.

Definition probe_monitor (w : world) : world :=
  if sys_probe_state (probe w) =? PROBE_ACTIVE
  then
    let '(pr, ex) := Probe_StateMonitor (probe w) (sys_position w) (sys_rt_exec_state w) in
    set_sys_rt_exec_state ex (set_probe pr w)
  else w.

(** Lines 502-583: one step event of the loaded segment. *)
Definition execute_tick (w : world) : result world :=
  let w := probe_monitor w in
  w <-- bresenham w;;
  Ok (finish_tick (homing_lock w)).

(** [Stepper_MainISR] *)
Definition Stepper_MainISR (w : world) : result world :=
  let w := pulse_pins w in
  match exec_segment (st w) with
  | None =>
      if negb (segment_buffer_head w =? segment_buffer_tail w)
      then w <-- load_segment w;; execute_tick w
      else ring_empty_shutdown w
  | Some _ => execute_tick w
  end.

(** ** The segment preparer *)

Definition fgt (a b : float) : bool := flt b a.
Definition d_zero : double := i2d 0.

Definition hold_active (w : world) : bool :=
  BIT_IS_TRUE (step_control (sys w)) STEP_CONTROL_EXECUTE_HOLD.
Definition sys_motion_active (w : world) : bool :=
  BIT_IS_TRUE (step_control (sys w)) STEP_CONTROL_EXECUTE_SYS_MOTION.

Definition set_step_control_bit (mask : Z) (w : world) : world :=
  set_sys (set_step_control (BIT_TRUE (step_control (sys w)) mask) (sys w)) w.
Definition clear_step_control_bit (mask : Z) (w : world) : world :=
  set_sys (set_step_control (BIT_FALSE (step_control (sys w)) mask) (sys w)) w.

(** Lines 810-821: only the velocity profile is recomputed. *)
Definition clear_recalculate (p : Stepper_PrepData_t) : Stepper_PrepData_t :=
  if PARKING_ENABLE
  then if BIT_IS_TRUE (recalculate_flag p) PREP_FLAG_PARKING
       then set_recalculate_flag (BIT_FALSE (recalculate_flag p) PREP_FLAG_RECALCULATE) p
       else set_recalculate_flag 0 p
  else set_recalculate_flag 0 p.

(** Lines 829-840: the Bresenham data of a planner block, scaled by the
    maximum AMASS level. *)
Definition prescale (b : Planner_Block_t) (pwm_rate_adjusted : Z) : Stepper_Block_t :=
  {| steps := axes_map (fun s => u32 (Z.shiftl s MAX_AMASS_LEVEL)) (pl_steps b);
     step_event_count := u32 (Z.shiftl (pl_step_event_count b) MAX_AMASS_LEVEL);
     direction_bits := pl_direction_bits b;
     is_pwm_rate_adjusted := pwm_rate_adjusted |}.

(** Lines 823-868: a new planner block is loaded.  Returns the planner
    block as the stepper has updated it. *)
Definition load_block (b : Planner_Block_t) (w : world)
  : result (Planner_Block_t * world) :=
  let idx := Stepper_NextBlockIndex (prep_st_block_index (prep w)) in
  let w := set_prep (set_prep_st_block_index idx (prep w)) w in
  let w := set_st_prep_block (Some idx) w in
  _ <-- index (st_block_buffer w) idx;;
  let p := prep w in
  let p := set_steps_remaining (i2f (pl_step_event_count b)) p in
  let p := set_step_per_mm (fdiv (steps_remaining p) (millimeters b)) p in
  let p := set_req_mm_increment
             (d2f (ddiv REQ_MM_INCREMENT_SCALAR (f2d (step_per_mm p)))) p in
  let p := set_dt_remainder (d2f d_zero) p in
  let '(b, p) :=
    if hold_active w || BIT_IS_TRUE (recalculate_flag p) PREP_FLAG_DECEL_OVERRIDE
    then
      let p := set_current_speed (exit_speed p) p in
      let b := set_entry_speed_sqr (fmul (exit_speed p) (exit_speed p)) b in
      (b, set_recalculate_flag (BIT_FALSE (recalculate_flag p) PREP_FLAG_DECEL_OVERRIDE) p)
    else (b, set_current_speed (sqrt_f (entry_speed_sqr b)) p) in
  let laser :=
    BIT_IS_TRUE (flags (settings w)) BITFLAG_LASER_MODE
    && BIT_IS_TRUE (pl_condition b) PL_COND_FLAG_SPINDLE_CCW in
  let p := if laser
           then set_inv_rate (d2f (ddiv (i2d 1) (f2d (programmed_rate b)))) p else p in
  let w := set_st_block_buffer
             (<[Z.to_nat idx := prescale b (if laser then 1 else 0)]> (st_block_buffer w)) w in
  Ok (b, set_prep p w).

(** Lines 877-970: the velocity profile of the block. *)
Definition compute_profile (hold sys_motion : bool) (b : Planner_Block_t)
    (planner_exit_speed_sqr nominal_speed : float) (p : Stepper_PrepData_t)
  : Stepper_PrepData_t :=
  let p := set_mm_complete (d2f d_zero) p in
  let inv_2_accel := d2f (ddiv d_0_5 (f2d (acceleration b))) in
  if hold
  then
    let p := set_ramp_type RAMP_DECEL p in
    let decel_dist := fsub (millimeters b) (fmul inv_2_accel (entry_speed_sqr b)) in
    if dlt (f2d decel_dist) d_zero
    then set_exit_speed
           (sqrt_f (fsub (entry_speed_sqr b)
                      (fmul (fmul (i2f 2) (acceleration b)) (millimeters b)))) p
    else set_exit_speed (d2f d_zero) (set_mm_complete decel_dist p)
  else
    let p := set_ramp_type RAMP_ACCEL p in
    let p := set_accelerate_until (millimeters b) p in
    let exit_speed_sqr := if sys_motion then d2f d_zero else planner_exit_speed_sqr in
    let p := if sys_motion then set_exit_speed exit_speed_sqr p
             else set_exit_speed (sqrt_f exit_speed_sqr) p in
    let nominal_speed_sqr := fmul nominal_speed nominal_speed in
    let intersect_distance :=
      d2f (dmul d_0_5
             (f2d (fadd (millimeters b)
                     (fmul inv_2_accel (fsub (entry_speed_sqr b) exit_speed_sqr))))) in
    if fgt (entry_speed_sqr b) nominal_speed_sqr
    then
      let p := set_accelerate_until
                 (fsub (millimeters b)
                    (fmul inv_2_accel (fsub (entry_speed_sqr b) nominal_speed_sqr))) p in
      if dle (f2d (accelerate_until p)) d_zero
      then
        let p := set_ramp_type RAMP_DECEL p in
        let p := set_exit_speed
                   (sqrt_f (fsub (entry_speed_sqr b)
                              (fmul (fmul (i2f 2) (acceleration b)) (millimeters b)))) p in
        set_recalculate_flag (u8 (Z.lor (recalculate_flag p) PREP_FLAG_DECEL_OVERRIDE)) p
      else
        let p := set_decelerate_after
                   (fmul inv_2_accel (fsub nominal_speed_sqr exit_speed_sqr)) p in
        let p := set_maximum_speed nominal_speed p in
        set_ramp_type RAMP_DECEL_OVERRIDE p
    else if dlt d_zero (f2d intersect_distance)
    then
      if flt intersect_distance (millimeters b)
      then
        let p := set_decelerate_after
                   (fmul inv_2_accel (fsub nominal_speed_sqr exit_speed_sqr)) p in
        if flt (decelerate_after p) intersect_distance
        then
          let p := set_maximum_speed nominal_speed p in
          if feq (entry_speed_sqr b) nominal_speed_sqr
          then set_ramp_type RAMP_CRUISE p
          else set_accelerate_until
                 (fsub (accelerate_until p)
                    (fmul inv_2_accel (fsub nominal_speed_sqr (entry_speed_sqr b)))) p
        else
          let p := set_accelerate_until intersect_distance p in
          let p := set_decelerate_after intersect_distance p in
          set_maximum_speed
            (d2f (dsqrt (dadd (dmul (dmul (i2d 2) (f2d (acceleration b)))
                                 (f2d intersect_distance))
                           (f2d exit_speed_sqr)))) p
      else set_ramp_type RAMP_DECEL p
    else
      let p := set_accelerate_until (d2f d_zero) p in
      set_maximum_speed (exit_speed p) p.

(** Lines 797-802: the planner is asked for a block. *)
Definition planner_query (w : world) : option nat :=
  if sys_motion_active w
  then Planner_GetSystemMotionBlock (planner w)
  else Planner_GetCurrentBlock (planner w).

(** Lines 795-973.  [None]: the planner has no block and the preparer
    returns. *)
Definition acquire_block (w : world) : result (option world) :=
  match pl_block w with
  | Some _ => Ok (Some w)
  | None =>
      match planner_query w with
      | None => Ok None
      | Some ptr =>
          let w := set_pl_block (Some ptr) w in
          b <-- pl_read ptr w;;
          bw <-- (if BIT_IS_TRUE (recalculate_flag (prep w)) PREP_FLAG_RECALCULATE
                  then Ok (b, set_prep (clear_recalculate (prep w)) w)
                  else load_block b w);;
          let '(b, w) := bw in
          let w := pl_write ptr b w in
          let p := compute_profile (hold_active w) (sys_motion_active w) b
                     (Planner_GetExecBlockExitSpeedSqr (planner w) (pl_mem w))
                     (Planner_ComputeProfileNominalSpeed (planner w) b) (prep w) in
          Ok (Some (set_step_control_bit STEP_CONTROL_UPDATE_SPINDLE_PWM (set_prep p w)))
      end
  end.

(** The locals of the do-while loop of lines 1009-1103, with the two
    fields of [prep] that the loop updates. *)
Record carve_t : Type := {
  dt_max : float;
  dt : float;
  time_var : float;
  mm_remaining : float;
  c_ramp_type : Z;
  c_current_speed : float
}.

(** [2.0*(a - b)/(u + v)], computed in double precision. *)
Definition ramp_time (a b u v : float) : float :=
  d2f (ddiv (dmul (i2d 2) (f2d (fsub a b))) (f2d (fadd u v))).

(** [time_var*(speed -+ 0.5*speed_var)], a [double]. *)
Definition ramp_distance (minus : bool) (time_var speed speed_var : float) : double :=
  let half := dmul d_0_5 (f2d speed_var) in
  dmul (f2d time_var) (if minus then dsub (f2d speed) half else dadd (f2d speed) half).

(** Lines 1010-1085: the switch on [prep.ramp_type]. *)
Definition ramp_step (b : Planner_Block_t) (p : Stepper_PrepData_t) (c : carve_t) : carve_t :=
  let with_state tv mm ramp speed :=
    {| dt_max := dt_max c; dt := dt c; time_var := tv; mm_remaining := mm;
       c_ramp_type := ramp; c_current_speed := speed |} in
  if c_ramp_type c =? RAMP_DECEL_OVERRIDE
  then
    let speed_var := fmul (acceleration b) (time_var c) in
    let mm_var := d2f (ramp_distance true (time_var c) (c_current_speed c) speed_var) in
    let mm := fsub (mm_remaining c) mm_var in
    if flt mm (accelerate_until p) || fle mm_var (i2f 0)
    then
      let mm := accelerate_until p in
      with_state (ramp_time (millimeters b) mm (c_current_speed c) (maximum_speed p))
        mm RAMP_CRUISE (maximum_speed p)
    else with_state (time_var c) mm (c_ramp_type c) (fsub (c_current_speed c) speed_var)
  else if c_ramp_type c =? RAMP_ACCEL
  then
    let speed_var := fmul (acceleration b) (time_var c) in
    let mm := d2f (dsub (f2d (mm_remaining c))
                     (ramp_distance false (time_var c) (c_current_speed c) speed_var)) in
    if flt mm (accelerate_until p)
    then
      let mm := accelerate_until p in
      with_state (ramp_time (millimeters b) mm (c_current_speed c) (maximum_speed p))
        mm (if feq mm (decelerate_after p) then RAMP_DECEL else RAMP_CRUISE)
        (maximum_speed p)
    else with_state (time_var c) mm (c_ramp_type c) (fadd (c_current_speed c) speed_var)
  else if c_ramp_type c =? RAMP_CRUISE
  then
    let mm_var := fsub (mm_remaining c) (fmul (maximum_speed p) (time_var c)) in
    if flt mm_var (decelerate_after p)
    then
      with_state (fdiv (fsub (mm_remaining c) (decelerate_after p)) (maximum_speed p))
        (decelerate_after p) RAMP_DECEL (c_current_speed c)
    else with_state (time_var c) mm_var (c_ramp_type c) (c_current_speed c)
  else
    let speed_var := fmul (acceleration b) (time_var c) in
    let mm_var :=
      d2f (dsub (f2d (mm_remaining c))
             (ramp_distance true (time_var c) (c_current_speed c) speed_var)) in
    if fgt (c_current_speed c) speed_var && fgt mm_var (mm_complete p)
    then with_state (time_var c) mm_var (c_ramp_type c) (fsub (c_current_speed c) speed_var)
    else
      with_state (ramp_time (mm_remaining c) (mm_complete p) (c_current_speed c) (exit_speed p))
        (mm_complete p) (c_ramp_type c) (exit_speed p).

(** Lines 1009-1103: the do-while loop; [fuel] bounds its iterations. *)
Fixpoint carve (fuel : nat) (b : Planner_Block_t) (p : Stepper_PrepData_t)
    (minimum_mm : float) (c : carve_t) : result carve_t :=
  match fuel with
  | O => Fault OutOfFuel
  | S fuel =>
      let c := ramp_step b p c in
      let c := {| dt_max := dt_max c; dt := fadd (dt c) (time_var c);
                  time_var := time_var c; mm_remaining := mm_remaining c;
                  c_ramp_type := c_ramp_type c; c_current_speed := c_current_speed c |} in
      let again (c : carve_t) :=
        if fgt (mm_remaining c) (mm_complete p)
        then carve fuel b p minimum_mm c else Ok c in
      if flt (dt c) (dt_max c)
      then again {| dt_max := dt_max c; dt := dt c; time_var := fsub (dt_max c) (dt c);
                    mm_remaining := mm_remaining c; c_ramp_type := c_ramp_type c;
                    c_current_speed := c_current_speed c |}
      else if fgt (mm_remaining c) minimum_mm
      then
        let dt_max' := d2f (dadd (f2d (dt_max c)) DT_SEGMENT) in
        again {| dt_max := dt_max'; dt := dt c; time_var := fsub dt_max' (dt c);
                 mm_remaining := mm_remaining c; c_ramp_type := c_ramp_type c;
                 c_current_speed := c_current_speed c |}
      else Ok c
  end.

(** [prep_segment] points at [segment_buffer[segment_buffer_head]]. *)
Definition with_prep_segment (f : Stepper_Segment_t -> Stepper_Segment_t) (w : world)
  : result world :=
  seg <-- index (segment_buffer w) (segment_buffer_head w);;
  Ok (set_segment_buffer
        (<[Z.to_nat (segment_buffer_head w) := f seg]> (segment_buffer w)) w).

(** Lines 1109-1130: the spindle PWM of the segment. *)
Definition segment_pwm (b : Planner_Block_t) (w : world) : result world :=
  bi <-- deref (st_prep_block w);;
  blk <-- index (st_block_buffer w) bi;;
  let adjusted := negb (is_pwm_rate_adjusted blk =? 0) in
  let w :=
    if adjusted || BIT_IS_TRUE (step_control (sys w)) STEP_CONTROL_UPDATE_SPINDLE_PWM
    then
      let w :=
        if BIT_IS_TRUE (pl_condition b)
             (Z.lor PL_COND_FLAG_SPINDLE_CW PL_COND_FLAG_SPINDLE_CCW)
        then
          let rpm := pl_spindle_speed b in
          let rpm := if adjusted
                     then fmul rpm (fmul (current_speed (prep w)) (inv_rate (prep w)))
                     else rpm in
          set_prep (set_current_spindle_pwm (u8 (Spindle_ComputePwmValue rpm)) (prep w)) w
        else
          let w := set_sys (set_sys_spindle_speed (d2f d_zero) (sys w)) w in
          set_prep (set_current_spindle_pwm SPINDLE_PWM_OFF_VALUE (prep w)) w in
      clear_step_control_bit STEP_CONTROL_UPDATE_SPINDLE_PWM w
    else w in
  with_prep_segment (set_spindle_pwm (current_spindle_pwm (prep w))) w.

(** Lines 1180-1192: the AMASS level of a step period in timer cycles. *)
Definition amass_level_of (cycles : Z) : Z :=
  if cycles <? AMASS_LEVEL1 then 0
  else if cycles <? AMASS_LEVEL2 then 1
  else if cycles <? AMASS_LEVEL3 then 2
  else 3.

(** Lines 1180-1205: level, step count and timer reload of the segment. *)
Definition segment_timing (cycles : Z) (seg : Stepper_Segment_t) : Stepper_Segment_t :=
  let '(cycles, seg) :=
    if cycles <? AMASS_LEVEL1
    then (cycles, set_amass_level 0 seg)
    else
      let seg := set_amass_level (amass_level_of cycles) seg in
      (Z.shiftr cycles (amass_level seg),
       set_n_step (u16 (Z.shiftl (n_step seg) (amass_level seg))) seg) in
  if cycles <? 65536
  then set_cycles_per_tick cycles seg
  else set_cycles_per_tick 65535 seg.

(** Lines 1153-1158 and 1225-1230: the preparer stops until the stepper
    has drained the ring. *)
Definition end_motion (parking_flag : bool) (w : world) : world :=
  let w := set_step_control_bit STEP_CONTROL_END_MOTION w in
  if parking_flag && PARKING_ENABLE
     && negb (BIT_IS_TRUE (recalculate_flag (prep w)) PREP_FLAG_PARKING)
  then set_prep (set_recalculate_flag
         (u8 (Z.lor (recalculate_flag (prep w)) PREP_FLAG_HOLD_PARTIAL_BLOCK)) (prep w)) w
  else w.

(** Lines 1208-1211: the segment is published. *)
Definition advance_head (w : world) : world :=
  let w := set_segment_buffer_head (segment_next_head w) w in
  let next := u8 (segment_next_head w + 1) in
  set_segment_next_head (if next =? SEGMENT_BUFFER_SIZE then 0 else next) w.

Inductive flow : Set := Continue | Return.

(** What the float computations of lines 1143-1176 hand to the integer
    part: the step count before AMASS scaling and the step period. *)
Record step_rate : Type := {
  step_dist_remaining : float;
  n_steps_remaining : float;
  last_n_steps_remaining : float;
  raw_n_step : Z;
  rate_dt : float;
  inv_rate_per_step : float;
  cycles : Z
}.

Definition compute_step_rate (p : Stepper_PrepData_t) (c : carve_t) : step_rate :=
  let step_dist := fmul (step_per_mm p) (mm_remaining c) in
  let n_rem := ceil_f step_dist in
  let last_n := ceil_f (steps_remaining p) in
  let dt' := fadd (dt c) (dt_remainder p) in
  let inv := fdiv dt' (fsub last_n step_dist) in
  {| step_dist_remaining := step_dist;
     n_steps_remaining := n_rem;
     last_n_steps_remaining := last_n;
     raw_n_step := u16 (ftrunc (fsub last_n n_rem));
     rate_dt := dt';
     inv_rate_per_step := inv;
     cycles := u32 (dtrunc (dceil (f2d (fmul (i2f (TICKS_PER_MICROSECOND * 1000000 * 60))
                                          inv)))) |}.

(** Lines 1002-1007 and the loop: the segment carved from the block. *)
Definition carve_segment (fuel : nat) (b : Planner_Block_t) (p : Stepper_PrepData_t)
  : result carve_t :=
  let dt_max0 := d2f DT_SEGMENT in
  let minimum_mm := fsub (millimeters b) (req_mm_increment p) in
  let minimum_mm := if dlt (f2d minimum_mm) d_zero then d2f d_zero else minimum_mm in
  carve fuel b p minimum_mm
    {| dt_max := dt_max0; dt := d2f d_zero; time_var := dt_max0;
       mm_remaining := millimeters b; c_ramp_type := ramp_type p;
       c_current_speed := current_speed p |}.

(** Lines 1207-1244: publish the segment, update the planner block and
    check the exit conditions. *)
Definition commit_segment (ptr : nat) (b : Planner_Block_t) (c : carve_t) (r : step_rate)
    (w : world) : flow * world :=
  let w := advance_head w in
  let w := pl_write ptr (set_millimeters (mm_remaining c) b) w in
  let p := set_steps_remaining (n_steps_remaining r) (prep w) in
  let p := set_dt_remainder
             (fmul (fsub (n_steps_remaining r) (step_dist_remaining r))
                (inv_rate_per_step r)) p in
  let w := set_prep p w in
  if feq (mm_remaining c) (mm_complete p)
  then
    if dlt d_zero (f2d (mm_remaining c))
    then (Return, end_motion true w)
    else if sys_motion_active w
    then (Return, end_motion false w)
    else (Continue,
          set_planner (Planner_DiscardCurrentBlock (planner w)) (set_pl_block None w))
  else (Continue, w).

(** Lines 795-1146 of one iteration of the while loop: the block is
    acquired and a segment is carved from it. *)
Record carved_t : Type := {
  cv_world : world;
  cv_ptr : nat;
  cv_block : Planner_Block_t;
  cv_carve : carve_t;
  cv_rate : step_rate
}.

Definition carve_next (fuel : nat) (w : world) : result (option carved_t) :=
  a <-- acquire_block w;;
  match a with
  | None => Ok None
  | Some w =>
      ptr <-- deref (pl_block w);;
      b <-- pl_read ptr w;;
      w <-- with_prep_segment
              (fun seg => set_backlash_motion (pl_backlash_motion b)
                            (set_st_block_index (prep_st_block_index (prep w)) seg)) w;;
      c <-- carve_segment fuel b (prep w);;
      let w := set_prep (set_current_speed (c_current_speed c)
                           (set_ramp_type (c_ramp_type c) (prep w))) w in
      w <-- segment_pwm b w;;
      let r := compute_step_rate (prep w) c in
      w <-- with_prep_segment (set_n_step (raw_n_step r)) w;;
      Ok (Some {| cv_world := w; cv_ptr := ptr; cv_block := b; cv_carve := c;
                  cv_rate := r |})
  end.

(** Lines 1148-1161: at the end of a feed hold a segment without a step
    is dropped. *)
Definition drops_segment (cv : carved_t) : bool :=
  (raw_n_step (cv_rate cv) =? 0) && hold_active (cv_world cv).

(** Lines 1148-1244 of the iteration. *)
Definition publish (cv : carved_t) : result (flow * world) :=
  if drops_segment cv
  then Ok (Return, end_motion true (cv_world cv))
  else
    w <-- with_prep_segment (segment_timing (cycles (cv_rate cv))) (cv_world cv);;
    Ok (commit_segment (cv_ptr cv) (cv_block cv) (cv_carve cv) (cv_rate cv) w).

(** One iteration of the while loop of [Stepper_PrepareBuffer]. *)
Definition prepare_segment (fuel : nat) (w : world) : result (flow * world) :=
  x <-- carve_next fuel w;;
  match x with
  | None => Ok (Return, w)
  | Some cv => publish cv
  end.

(** The while loop of line 793. *)
Fixpoint prepare_loop (fuel inner : nat) (w : world) : result world :=
  if segment_buffer_tail w =? segment_next_head w then Ok w
  else
    match fuel with
    | O => Fault OutOfFuel
    | S fuel =>
        r <-- prepare_segment inner w;;
        match r with
        | (Continue, w) => prepare_loop fuel inner w
        | (Return, w) => Ok w
        end
    end.

(** [Stepper_PrepareBuffer]; [fuel] bounds the iterations of its loops. *)
Definition Stepper_PrepareBuffer (fuel : nat) (w : world) : result world :=
  if BIT_IS_TRUE (step_control (sys w)) STEP_CONTROL_END_MOTION
  then Ok w
  else prepare_loop fuel fuel w.

End Model.

(** ** IEEE 754 arithmetic

    [float] is binary32 and [double] is binary64, rounding to nearest even,
    over the Standard Library's [spec_float].  A conversion to an integer
    truncates toward zero; where C leaves it undefined (infinities, NaN) it
    yields 0. *)

Definition to_b32 (x : spec_float) : spec_float :=
  match x with
  | S754_finite s m e => binary_normalize 24 128 (cond_Zopp s (Zpos m)) e s
  | _ => x
  end.

Definition to_b64 (x : spec_float) : spec_float :=
  match x with
  | S754_finite s m e => binary_normalize 53 1024 (cond_Zopp s (Zpos m)) e s
  | _ => x
  end.

Definition sf_trunc (x : spec_float) : Z :=
  match x with
  | S754_finite s m e =>
      cond_Zopp s (if 0 <=? e then Zpos m * 2 ^ e else Zpos m / 2 ^ (- e))
  | _ => 0
  end.

Definition sf_ceil (x : spec_float) : spec_float :=
  match x with
  | S754_finite s m e =>
      if 0 <=? e then x
      else
        let d := 2 ^ (- e) in
        let q := if s then - (Zpos m / d) else (Zpos m + d - 1) / d in
        binary_normalize 53 1024 q 0 s
  | _ => x
  end.

#[export] Instance ieee : FloatModel := {|
  float := spec_float;
  double := spec_float;
  f2d := to_b64;
  d2f := to_b32;
  i2f := fun z => binary_normalize 24 128 z 0 false;
  i2d := fun z => binary_normalize 53 1024 z 0 false;
  fadd := SFadd 24 128;
  fsub := SFsub 24 128;
  fmul := SFmul 24 128;
  fdiv := SFdiv 24 128;
  dadd := SFadd 53 1024;
  dsub := SFsub 53 1024;
  dmul := SFmul 53 1024;
  ddiv := SFdiv 53 1024;
  dsqrt := SFsqrt 53 1024;
  dceil := sf_ceil;
  flt := SFltb;
  fle := SFleb;
  feq := SFeqb;
  dlt := SFltb;
  dle := SFleb;
  ftrunc := sf_trunc;
  dtrunc := sf_trunc;
  d_0_5 := binary_normalize 53 1024 1 (-1) false;
  d_1_25 := binary_normalize 53 1024 5 (-2) false
|}.

(** ** A configuration and a planner to run the model on

    The timing constants are those of the specification's scenarios
    (a 24 MHz step timer, 100 acceleration ticks per second, a ring of 10
    segments); the bit assignments are those of the Grbl 1.1 headers. *)

#[export] Instance grbl : Config := {|
  SEGMENT_BUFFER_SIZE := 10;
  F_TIMER_STEPPER := 24000000;
  TICKS_PER_MICROSECOND := 24;
  MAX_STEP_RATE_HZ := None;
  ACCELERATION_TICKS_PER_SECOND := 100;
  X_STEP_BIT := 0;
  Y_STEP_BIT := 1;
  Z_STEP_BIT := 2;
  X2_STEP_BIT := 3;
  Y2_STEP_BIT := 4;
  X_DIRECTION_BIT := 0;
  Y_DIRECTION_BIT := 1;
  Z_DIRECTION_BIT := 2;
  X2_DIRECTION_BIT := 3;
  Y2_DIRECTION_BIT := 4;
  DUAL_X_AXIS := false;
  DUAL_Y_AXIS := false;
  INVERT_DUAL_X_AXIS := false;
  INVERT_DUAL_Y_AXIS := false;
  PARKING_ENABLE := false;
  BITFLAG_INVERT_ST_ENABLE := 4;
  BITFLAG_LASER_MODE := 2;
  STATE_HOMING := 4;
  STATE_SLEEP := 128;
  STATE_MOTION_MASK := 124;
  STEP_CONTROL_END_MOTION := 1;
  STEP_CONTROL_EXECUTE_HOLD := 2;
  STEP_CONTROL_EXECUTE_SYS_MOTION := 4;
  STEP_CONTROL_UPDATE_SPINDLE_PWM := 8;
  PL_COND_FLAG_SPINDLE_CW := 16;
  PL_COND_FLAG_SPINDLE_CCW := 32;
  SPINDLE_PWM_OFF_VALUE := 0;
  EXEC_CYCLE_STOP := 4;
  PROBE_ACTIVE := 1;
  Settings_GetStepPinMask := BIT;
  Settings_GetDirectionPinMask := BIT
|}.

(** A planner that queues block pointers: the current block is the first of
    the queue, the exit speed of the executing block is the entry speed of
    the block behind it (zero when there is none), the nominal speed is the
    programmed rate, and there is no system motion.  The spindle is off and
    the probe is not armed. *)

Definition queue_exit_speed_sqr (q : list nat) (mem : list (@Planner_Block_t ieee))
  : spec_float :=
  match q with
  | _ :: next :: _ =>
      match mem !! next with
      | Some b => entry_speed_sqr b
      | None => S754_zero false
      end
  | _ => S754_zero false
  end.

#[export] Instance queue_planner : @Externals ieee := {|
  planner_t := list nat;
  Planner_GetSystemMotionBlock := fun _ => None;
  Planner_GetCurrentBlock := fun q => head q;
  Planner_GetExecBlockExitSpeedSqr := queue_exit_speed_sqr;
  Planner_ComputeProfileNominalSpeed := fun _ b => programmed_rate b;
  Planner_DiscardCurrentBlock := fun q => tail q;
  Spindle_ComputePwmValue := fun _ => 0;
  probe_t := unit;
  sys_probe_state := fun _ => 0;
  Probe_StateMonitor := fun p _ ex => (p, ex)
|}.

(** * Properties *)

Section Properties.
Context `{cfg : Config} `{fm : FloatModel} `{ext : !Externals}.

(** ** Functions that only drive the hardware *)

Definition hw_only (f : world -> world) : Prop :=
  forall w, exists h, f w = set_hw h w.

Definition gpio_only (f : world -> world) : Prop :=
  forall w, exists g, f w = set_hw (set_gpio g (hw w)) w.

Lemma set_hw_twice h h' (w : world) : set_hw h' (set_hw h w) = set_hw h' w.
Proof. reflexivity. Qed.

Lemma set_gpio_twice g g' (w : world) :
  set_hw (set_gpio g' (hw (set_hw (set_gpio g (hw w)) w))) (set_hw (set_gpio g (hw w)) w)
  = set_hw (set_gpio g' (hw w)) w.
Proof. reflexivity. Qed.

Lemma gpio_only_hw_only f : gpio_only f -> hw_only f.
Proof. intros H w. destruct (H w) as [g ->]. eauto. Qed.

Lemma GPIO_Write_gpio p v : gpio_only (GPIO_Write p v).
Proof. intros w. unfold GPIO_Write. destruct v; eexists; reflexivity. Qed.

Lemma reset_step_pin_gpio bit p : gpio_only (reset_step_pin bit p).
Proof. intros w. apply GPIO_Write_gpio. Qed.

Lemma pulse_pin_gpio bit p : gpio_only (pulse_pin bit p).
Proof.
  intros w. unfold pulse_pin. destruct (BIT_IS_TRUE (step_outbits (st w)) (BIT bit)).
  - apply GPIO_Write_gpio.
  - exists (gpio (hw w)). destruct w as [? ? ? ? ? ? ? ? ? ? ? ? ? ? ? ? ? ? ? []]; reflexivity.
Qed.

Lemma Stepper_PortResetISR_gpio : gpio_only Stepper_PortResetISR.
Proof.
  intros w. unfold Stepper_PortResetISR. cbv zeta.
  destruct (reset_step_pin_gpio X_STEP_BIT STEP_X w) as [g1 ->].
  destruct DUAL_X_AXIS, DUAL_Y_AXIS;
    repeat match goal with
           | |- context [reset_step_pin ?b ?p (set_hw (set_gpio ?g (hw w)) w)] =>
               let g' := fresh "g" in
               destruct (reset_step_pin_gpio b p (set_hw (set_gpio g (hw w)) w)) as [g' ->];
               rewrite set_gpio_twice
           end; eauto.
Qed.

Lemma pulse_pins_gpio : gpio_only pulse_pins.
Proof.
  intros w. unfold pulse_pins. cbv zeta.
  destruct (pulse_pin_gpio X_STEP_BIT STEP_X w) as [g1 ->].
  destruct DUAL_X_AXIS, DUAL_Y_AXIS;
    repeat match goal with
           | |- context [pulse_pin ?b ?p (set_hw (set_gpio ?g (hw w)) w)] =>
               let g' := fresh "g" in
               destruct (pulse_pin_gpio b p (set_hw (set_gpio g (hw w)) w)) as [g' ->];
               rewrite set_gpio_twice
           end; eauto.
Qed.

Lemma dir_pins_gpio : gpio_only dir_pins.
Proof.
  intros w. unfold dir_pins. cbv zeta.
  destruct (GPIO_Write_gpio DIR_X (BIT_IS_TRUE (dir_outbits (st w)) (BIT X_DIRECTION_BIT)) w)
    as [g1 ->].
  destruct DUAL_X_AXIS, DUAL_Y_AXIS;
    repeat match goal with
           | |- context [GPIO_Write ?p ?v (set_hw (set_gpio ?g (hw w)) w)] =>
               let g' := fresh "g" in
               destruct (GPIO_Write_gpio p v (set_hw (set_gpio g (hw w)) w)) as [g' ->];
               rewrite set_gpio_twice
           end; eauto.
Qed.

Lemma p_enable_GPIO_Write v (w : world) : p_enable (gpio (hw (GPIO_Write ENABLE v w))) = v.
Proof. unfold GPIO_Write. destruct v; reflexivity. Qed.

Lemma GPIO_Write_frame p v (w : world) :
  exists g, GPIO_Write p v w = set_hw (set_gpio g (hw w)) w.
Proof. apply GPIO_Write_gpio. Qed.

(** The level of the enable pin and the dwell of [Stepper_Disable]. *)
Lemma Stepper_Disable_effect ovr (w : world) :
  exists g,
    p_enable g
    = xorb (BIT_IS_TRUE (flags (settings w)) BITFLAG_INVERT_ST_ENABLE)
        (negb (ovr =? 0) || idle_lock_applies w)
    /\ Stepper_Disable ovr w
       = set_hw {| gpio := g; tim9_enabled := false; tim9_arr := tim9_arr (hw w);
                   tim9_ccr1 := tim9_ccr1 (hw w); spindle_out := spindle_out (hw w);
                   delays := (if idle_lock_applies w
                              then [Wait_ms (stepper_idle_lock_time (settings w))]
                              else [])
                             ++ Wait_us 1 :: delays (hw w) |} w.
Proof.
  unfold Stepper_Disable. cbv zeta.
  destruct (Stepper_PortResetISR_gpio (Delay_us 1 (TIM_Cmd false w))) as [g ->].
  change (idle_lock_applies (set_hw _ (Delay_us 1 (TIM_Cmd false w))))
    with (idle_lock_applies w).
  destruct (idle_lock_applies w); cbv beta iota;
    match goal with
    | |- context [GPIO_Write ENABLE ?v ?x] =>
        exists (gpio (hw (GPIO_Write ENABLE v x))); split;
        [ rewrite p_enable_GPIO_Write
        | destruct (GPIO_Write_frame ENABLE v x) as [g' E]; rewrite E; reflexivity ]
    end;
    unfold Delay_ms, Delay_us, TIM_Cmd; cbn [settings set_hw];
    destruct (BIT_IS_TRUE (flags (settings w)) BITFLAG_INVERT_ST_ENABLE), (ovr =? 0);
    reflexivity.
Qed.

Lemma Stepper_Disable_hw ovr : hw_only (Stepper_Disable ovr).
Proof. intros w. destruct (Stepper_Disable_effect ovr w) as (g & _ & ->). eauto. Qed.

(** ** Stepper_Disable *)

(** [Stepper_WakeUp] drives the enable pin to the level of the
    invert-enable flag; the drivers are disabled at the opposite level. *)
Definition drivers_disabled (w : world) : bool :=
  xorb (p_enable (gpio (hw w)))
    (BIT_IS_TRUE (flags (settings w)) BITFLAG_INVERT_ST_ENABLE).

Lemma drivers_enabled_after_WakeUp (w : world) :
  drivers_disabled (Stepper_WakeUp w) = false.
Proof.
  unfold drivers_disabled, Stepper_WakeUp. cbv zeta.
  unfold TIM_Cmd, Delay_ms. cbn [hw set_hw settings set_st gpio set_tim9_enabled set_delays].
  rewrite p_enable_GPIO_Write.
  destruct (GPIO_Write_frame ENABLE
              (BIT_IS_TRUE (flags (settings w)) BITFLAG_INVERT_ST_ENABLE) w) as [g ->].
  cbn [settings set_hw]. apply xorb_nilpotent.
Qed.

Lemma idle_lock_applies_iff (w : world) :
  idle_lock_applies w = true <->
  (stepper_idle_lock_time (settings w) <> 255
   \/ sys_rt_exec_alarm w <> 0
   \/ sys_state (sys w) = STATE_SLEEP)
  /\ sys_state (sys w) <> STATE_HOMING.
Proof.
  unfold idle_lock_applies.
  rewrite andb_true_iff, !orb_true_iff, !negb_true_iff, !Z.eqb_neq, Z.eqb_eq.
  tauto.
Qed.

(** C6, as the code has it: [Stepper_Disable(0)] leaves the drivers
    disabled exactly when the idle lock time is not 0xFF or an alarm is
    pending or the system sleeps, and the system is not homing; it then
    dwells [stepper_idle_lock_time] milliseconds before it drives the
    enable pin, and otherwise does not dwell and leaves the drivers
    enabled. *)
Theorem Stepper_Disable_idle_lock (w : world) :
  let w' := Stepper_Disable 0 w in
  (drivers_disabled w' = true <->
   (stepper_idle_lock_time (settings w) <> 255
    \/ sys_rt_exec_alarm w <> 0
    \/ sys_state (sys w) = STATE_SLEEP)
   /\ sys_state (sys w) <> STATE_HOMING)
  /\ delays (hw w')
     = (if drivers_disabled w'
        then [Wait_ms (stepper_idle_lock_time (settings w))] else [])
       ++ Wait_us 1 :: delays (hw w).
Proof.
  cbv zeta. destruct (Stepper_Disable_effect 0 w) as (g & Hg & ->).
  assert (Hd : drivers_disabled
                 (set_hw {| gpio := g; tim9_enabled := false; tim9_arr := tim9_arr (hw w);
                            tim9_ccr1 := tim9_ccr1 (hw w); spindle_out := spindle_out (hw w);
                            delays := (if idle_lock_applies w
                                       then [Wait_ms (stepper_idle_lock_time (settings w))]
                                       else [])
                                      ++ Wait_us 1 :: delays (hw w) |} w)
               = idle_lock_applies w).
  { unfold drivers_disabled. cbn [hw set_hw gpio settings]. rewrite Hg.
    change (0 =? 0) with true. cbn [negb orb].
    destruct (BIT_IS_TRUE (flags (settings w)) BITFLAG_INVERT_ST_ENABLE),
      (idle_lock_applies w); reflexivity. }
  rewrite Hd. split.
  - apply idle_lock_applies_iff.
  - reflexivity.
Qed.

(** ** Stepper_UpdatePlannerBlockParams *)

Lemma bit0_set (x : Z) : BIT_IS_TRUE (u8 (Z.lor x (BIT 0))) (BIT 0) = true.
Proof.
  unfold BIT_IS_TRUE, u8, BIT. change (Z.shiftl 1 0) with 1.
  apply negb_true_iff, Z.eqb_neq.
  change 1 with (Z.ones 1) at 2. rewrite Z.land_ones by lia.
  change (2 ^ 1) with 2.
  rewrite Z.mod_mod_divide by (exists 128; reflexivity).
  rewrite <- Z.bit0_mod, Z.lor_spec. change (Z.testbit 1 0) with true.
  rewrite orb_true_r. discriminate.
Qed.

(** The fields of [prep] other than the flags. *)
Definition prep_data (p : Stepper_PrepData_t) :=
  (prep_st_block_index p, dt_remainder p, steps_remaining p, step_per_mm p,
   req_mm_increment p, last_st_block_index p, last_steps_remaining p, last_step_per_mm p,
   last_dt_remainder p, ramp_type p, mm_complete p, current_speed p, maximum_speed p,
   exit_speed p, accelerate_until p, decelerate_after p, inv_rate p,
   current_spindle_pwm p).

(** The fields of a planner block other than the entry speed. *)
Definition block_data (b : Planner_Block_t) :=
  (pl_steps b, pl_step_event_count b, pl_direction_bits b, pl_condition b,
   pl_backlash_motion b, millimeters b, acceleration b, programmed_rate b,
   pl_spindle_speed b).

(** C7: with a planner block in flight, [Stepper_UpdatePlannerBlockParams]
    ors PREP_FLAG_RECALCULATE into [prep.recalculate_flag], makes
    [current_speed*current_speed] the [entry_speed_sqr] of the block and
    clears [pl_block], leaving the rest of [prep], the rest of the block,
    the other planner blocks and every other variable as they were; with no
    block in flight it changes nothing. *)
Theorem Stepper_UpdatePlannerBlockParams_effect (w : world) :
  (pl_block w = None -> Stepper_UpdatePlannerBlockParams w = Ok w)
  /\ (forall ptr b,
        pl_block w = Some ptr -> pl_mem w !! ptr = Some b ->
        exists w' b',
          Stepper_UpdatePlannerBlockParams w = Ok w'
          /\ recalculate_flag (prep w')
             = u8 (Z.lor (recalculate_flag (prep w)) PREP_FLAG_RECALCULATE)
          /\ BIT_IS_TRUE (recalculate_flag (prep w')) PREP_FLAG_RECALCULATE = true
          /\ prep_data (prep w') = prep_data (prep w)
          /\ pl_mem w' !! ptr = Some b'
          /\ entry_speed_sqr b' = fmul (current_speed (prep w)) (current_speed (prep w))
          /\ block_data b' = block_data b
          /\ b' = set_entry_speed_sqr
                    (fmul (current_speed (prep w)) (current_speed (prep w))) b
          /\ length (pl_mem w') = length (pl_mem w)
          /\ (forall q, q <> ptr -> pl_mem w' !! q = pl_mem w !! q)
          /\ pl_block w' = None
          /\ segment_buffer w' = segment_buffer w
          /\ (segment_buffer_tail w', segment_buffer_head w', segment_next_head w')
             = (segment_buffer_tail w, segment_buffer_head w, segment_next_head w)
          /\ st_block_buffer w' = st_block_buffer w
          /\ st_prep_block w' = st_prep_block w
          /\ st w' = st w
          /\ sys w' = sys w
          /\ sys_position w' = sys_position w
          /\ hw w' = hw w
          /\ planner w' = planner w
          /\ settings w' = settings w
          /\ probe w' = probe w
          /\ (step_port_invert_mask w', dir_port_invert_mask w')
             = (step_port_invert_mask w, dir_port_invert_mask w)
          /\ (sys_rt_exec_alarm w', sys_rt_exec_state w')
             = (sys_rt_exec_alarm w, sys_rt_exec_state w)).
Proof.
  unfold Stepper_UpdatePlannerBlockParams. split.
  - intros ->. reflexivity.
  - intros ptr b -> Hb. unfold pl_read. cbn [pl_mem set_prep]. rewrite Hb. cbn [bind].
    eexists. eexists. split; [reflexivity|].
    cbn [prep set_pl_block pl_write set_pl_mem set_prep recalculate_flag set_recalculate_flag
         pl_mem pl_block segment_buffer st sys current_speed].
    split; [reflexivity|]. split; [apply bit0_set|]. split; [reflexivity|].
    split; [apply list_lookup_insert_eq; eapply lookup_lt_Some; eauto|].
    split; [reflexivity|]. split; [reflexivity|]. split; [reflexivity|].
    split; [apply length_insert|].
    split; [intros q Hq; apply list_lookup_insert_ne; congruence|].
    repeat split; reflexivity.
Qed.

(** ** Early returns of Stepper_PrepareBuffer *)

(** C8: with STEP_CONTROL_END_MOTION set, [Stepper_PrepareBuffer] returns
    the state it was given; and when no planner block is held and the
    planner has none to give, the loop iteration ends the call with the
    state it started from, so that nothing is enqueued. *)
Theorem Stepper_PrepareBuffer_early_return (fuel : nat) (w : world) :
  (BIT_IS_TRUE (step_control (sys w)) STEP_CONTROL_END_MOTION = true ->
   Stepper_PrepareBuffer fuel w = Ok w)
  /\ (pl_block w = None -> planner_query w = None ->
      prepare_segment fuel w = Ok (Return, w)
      /\ (forall outer, prepare_loop (S outer) fuel w = Ok w)
      /\ Stepper_PrepareBuffer (S fuel) w = Ok w).
Proof.
  split.
  - intros H. unfold Stepper_PrepareBuffer. rewrite H. reflexivity.
  - intros Hb Hq.
    assert (Hs : forall inner, prepare_segment inner w = Ok (Return, w)).
    { intros inner. unfold prepare_segment, carve_next, acquire_block.
      rewrite Hb, Hq. reflexivity. }
    assert (Hl : forall outer inner, prepare_loop (S outer) inner w = Ok w).
    { intros outer inner. cbn [prepare_loop]. rewrite Hs. cbn [bind].
      destruct (segment_buffer_tail w =? segment_next_head w); reflexivity. }
    split; [apply Hs|]. split; [intros; apply Hl|].
    unfold Stepper_PrepareBuffer.
    destruct (BIT_IS_TRUE (step_control (sys w)) STEP_CONTROL_END_MOTION); [reflexivity|].
    apply Hl.
Qed.

(** ** Stepper_Reset *)

Lemma invert_masks_fold (l : list Z) (a b : Z) (w : world) :
  exists a' b',
    fold_left invert_masks_of_axis l
      (set_dir_port_invert_mask b (set_step_port_invert_mask a w))
    = set_dir_port_invert_mask b' (set_step_port_invert_mask a' w).
Proof.
  revert a b. induction l as [|idx l IH]; intros a b; cbn [fold_left].
  - eauto.
  - destruct (BIT_IS_TRUE (step_invert_mask (settings w)) (BIT idx)) eqn:Hs,
      (BIT_IS_TRUE (dir_invert_mask (settings w)) (BIT idx)) eqn:Hd.
    + destruct (IH (u8 (Z.lor a (Settings_GetStepPinMask idx)))
                  (u8 (Z.lor b (Settings_GetDirectionPinMask idx)))) as (a' & b' & E).
      exists a', b'. rewrite <- E. f_equal.
      unfold invert_masks_of_axis.
      cbn [settings set_dir_port_invert_mask set_step_port_invert_mask]. rewrite Hs.
      cbn [settings set_dir_port_invert_mask set_step_port_invert_mask]. rewrite Hd.
      reflexivity.
    + destruct (IH (u8 (Z.lor a (Settings_GetStepPinMask idx))) b) as (a' & b' & E).
      exists a', b'. rewrite <- E. f_equal.
      unfold invert_masks_of_axis.
      cbn [settings set_dir_port_invert_mask set_step_port_invert_mask]. rewrite Hs.
      cbn [settings set_dir_port_invert_mask set_step_port_invert_mask]. rewrite Hd.
      reflexivity.
    + destruct (IH a (u8 (Z.lor b (Settings_GetDirectionPinMask idx)))) as (a' & b' & E).
      exists a', b'. rewrite <- E. f_equal.
      unfold invert_masks_of_axis.
      cbn [settings set_dir_port_invert_mask set_step_port_invert_mask]. rewrite Hs.
      cbn [settings set_dir_port_invert_mask set_step_port_invert_mask]. rewrite Hd.
      reflexivity.
    + destruct (IH a b) as (a' & b' & E).
      exists a', b'. rewrite <- E. f_equal.
      unfold invert_masks_of_axis.
      cbn [settings set_dir_port_invert_mask set_step_port_invert_mask]. rewrite Hs.
      cbn [settings set_dir_port_invert_mask set_step_port_invert_mask]. rewrite Hd.
      reflexivity.
Qed.

Lemma Stepper_GenerateStepDirInvertMasks_effect (w : world) :
  exists a b,
    Stepper_GenerateStepDirInvertMasks w
    = set_dir_port_invert_mask b (set_step_port_invert_mask a w).
Proof. apply invert_masks_fold. Qed.

Lemma GPIO_ResetBits_set_hw p h (w : world) :
  GPIO_ResetBits p (set_hw h w) = set_hw (set_gpio (gpio_write p false (gpio h)) h) w.
Proof. reflexivity. Qed.

Lemma GPIO_ResetBits_eq p (w : world) :
  GPIO_ResetBits p w = set_hw (set_gpio (gpio_write p false (gpio (hw w))) (hw w)) w.
Proof. reflexivity. Qed.

Lemma Stepper_Reset_effect (w : world) :
  exists h a b,
    Stepper_Reset w
    = set_hw h
        (set_st (set_dir_outbits b st_zero)
           (set_dir_port_invert_mask b
              (set_step_port_invert_mask a
                 (set_segment_next_head 1
                    (set_segment_buffer_head 0
                       (set_segment_buffer_tail 0
                          (set_pl_block None (set_prep prep_zero w)))))))).
Proof.
  unfold Stepper_Reset.
  destruct (Stepper_Disable_hw 0 w) as [h0 ->].
  destruct DUAL_X_AXIS, DUAL_Y_AXIS; cbv zeta;
    match goal with
    | |- context [Stepper_GenerateStepDirInvertMasks ?x] =>
        destruct (Stepper_GenerateStepDirInvertMasks_effect x) as (a & b & ->)
    end;
    rewrite (GPIO_ResetBits_eq STEP_X), !GPIO_ResetBits_set_hw;
    eexists _, a, b; reflexivity.
Qed.

(** C9 fails on the code: after [Stepper_Reset] has zeroed [st], a timer
    tick that finds the ring empty reads [st.exec_block->is_pwm_rate_adjusted]
    through a null pointer.  [Stepper_WakeUp] is what starts the timer. *)
Theorem Stepper_MainISR_after_reset_null (w : world) :
  let w0 := Stepper_WakeUp (Stepper_Reset w) in
  tim9_enabled (hw w0) = true
  /\ exec_segment (st w0) = None
  /\ segment_buffer_head w0 = segment_buffer_tail w0
  /\ exec_block (st w0) = None
  /\ Stepper_MainISR w0 = Fault NullPointer.
Proof.
  cbv zeta. destruct (Stepper_Reset_effect w) as (h & a & b & ->).
  unfold Stepper_WakeUp. cbv zeta.
  match goal with
  | |- context [GPIO_Write ENABLE ?v ?x] =>
      destruct (GPIO_Write_frame ENABLE v x) as [g ->]
  end.
  unfold TIM_Cmd, Delay_ms.
  repeat split.
  unfold Stepper_MainISR.
  match goal with
  | |- context [pulse_pins ?x] => destruct (pulse_pins_gpio x) as [g' ->]
  end.
  cbn [st set_hw set_st exec_segment set_step_outbits set_dir_outbits st_zero
       segment_buffer_head segment_buffer_tail set_dir_port_invert_mask
       set_step_port_invert_mask set_segment_next_head set_segment_buffer_head
       set_segment_buffer_tail].
  change (negb (0 =? 0)) with false. cbv iota.
  unfold ring_empty_shutdown. cbv zeta.
  match goal with
  | |- context [Stepper_Disable 0 ?x] => destruct (Stepper_Disable_hw 0 x) as [h' ->]
  end.
  reflexivity.
Qed.

(** ** What the preparer leaves alone *)

(** The ring indices and the state that only the ISR writes. *)
Definition ring_view (w : world) : Z * Z * Z * Stepper_t * axes :=
  (segment_buffer_head w, segment_next_head w, segment_buffer_tail w, st w,
   sys_position w).

Definition same_ring (w w' : world) : Prop :=
  segment_buffer w' = segment_buffer w /\ ring_view w' = ring_view w.

Lemma same_ring_refl w : same_ring w w.
Proof. split; reflexivity. Qed.

Lemma same_ring_trans w1 w2 w3 : same_ring w1 w2 -> same_ring w2 w3 -> same_ring w1 w3.
Proof. intros [A B] [C D]. split; congruence. Qed.

Ltac bind_inv H :=
  repeat match type of H with
         | bind ?e _ = Ok _ =>
             let E := fresh "E" in
             destruct e eqn:E; cbn [bind] in H; [|discriminate H]
         end.

Ltac ring_frame := split; reflexivity.

Lemma load_block_frame b w b' w' : load_block b w = Ok (b', w') -> same_ring w w'.
Proof.
  unfold load_block. cbv zeta. intros H. bind_inv H.
  match type of H with
  | context [if ?c then _ else _] => destruct c
  end; injection H as <- <-; ring_frame.
Qed.

Lemma acquire_block_frame w w' : acquire_block w = Ok (Some w') -> same_ring w w'.
Proof.
  unfold acquire_block. destruct (pl_block w).
  - intros [= <-]. apply same_ring_refl.
  - destruct (planner_query w) as [ptr|]; [|discriminate].
    cbv zeta. intros H. bind_inv H.
    destruct a0 as [b' w1]. injection H as <-.
    assert (F : same_ring w w1).
    { destruct (BIT_IS_TRUE (recalculate_flag (prep (set_pl_block (Some ptr) w)))
                  PREP_FLAG_RECALCULATE).
      - injection E0 as <- <-. ring_frame.
      - apply load_block_frame in E0. destruct E0 as [A B]. split; [exact A|exact B]. }
    destruct F as [A B]. split; [exact A|exact B].
Qed.

Lemma index_Ok {A : Type} (l : list A) i a :
  index l i = Ok a <-> 0 <= i /\ l !! Z.to_nat i = Some a.
Proof.
  unfold index. destruct (Z.ltb_spec i 0).
  - split; [discriminate|lia].
  - destruct (l !! Z.to_nat i); split.
    + intros [= ->]. auto.
    + intros [_ [= ->]]. reflexivity.
    + discriminate.
    + intros [_ [=]].
Qed.

Lemma with_prep_segment_Ok f w w' :
  with_prep_segment f w = Ok w' ->
  exists seg,
    0 <= segment_buffer_head w
    /\ segment_buffer w !! Z.to_nat (segment_buffer_head w) = Some seg
    /\ w' = set_segment_buffer
              (<[Z.to_nat (segment_buffer_head w) := f seg]> (segment_buffer w)) w.
Proof.
  unfold with_prep_segment. intros H. bind_inv H. injection H as <-.
  apply index_Ok in E. destruct E. eauto.
Qed.

(** Up to the head slot of the ring, [w'] has the ring of [w]. *)
Definition same_ring_but_head (w w' : world) (seg : Stepper_Segment_t) : Prop :=
  segment_buffer w' = <[Z.to_nat (segment_buffer_head w) := seg]> (segment_buffer w)
  /\ ring_view w' = ring_view w.

Lemma segment_pwm_Ok b w w' :
  segment_pwm b w = Ok w' ->
  exists seg,
    0 <= segment_buffer_head w
    /\ segment_buffer w !! Z.to_nat (segment_buffer_head w) = Some seg
    /\ same_ring_but_head w w' (set_spindle_pwm (current_spindle_pwm (prep w')) seg).
Proof.
  unfold segment_pwm. cbv zeta. intros H. bind_inv H.
  apply with_prep_segment_Ok in H. destruct H as (seg & H0 & Hs & ->).
  exists seg. revert H0 Hs.
  destruct (negb (is_pwm_rate_adjusted a0 =? 0)
            || BIT_IS_TRUE (step_control (sys w)) STEP_CONTROL_UPDATE_SPINDLE_PWM);
    [destruct (BIT_IS_TRUE (pl_condition b)
                 (Z.lor PL_COND_FLAG_SPINDLE_CW PL_COND_FLAG_SPINDLE_CCW))|];
    intros H0 Hs; (split; [exact H0|split; [exact Hs|split; reflexivity]]).
Qed.

Lemma same_ring_but_head_after w1 w2 w3 seg :
  same_ring w1 w2 -> same_ring_but_head w2 w3 seg -> same_ring_but_head w1 w3 seg.
Proof.
  intros [A B] [C D]. unfold same_ring_but_head. rewrite C, A, D, B.
  assert (segment_buffer_head w2 = segment_buffer_head w1) as -> by (inversion B; auto).
  auto.
Qed.

Lemma same_ring_but_head_twice w1 w2 w3 seg seg' :
  same_ring_but_head w1 w2 seg -> same_ring_but_head w2 w3 seg' ->
  same_ring_but_head w1 w3 seg'.
Proof.
  intros [A B] [C D]. unfold same_ring_but_head. rewrite C, A, D, B.
  assert (segment_buffer_head w2 = segment_buffer_head w1) as -> by (inversion B; auto).
  rewrite list_insert_insert_eq. auto.
Qed.

Lemma with_prep_segment_but_head f w w' :
  with_prep_segment f w = Ok w' ->
  exists seg,
    0 <= segment_buffer_head w
    /\ segment_buffer w !! Z.to_nat (segment_buffer_head w) = Some seg
    /\ same_ring_but_head w w' (f seg).
Proof.
  intros H. apply with_prep_segment_Ok in H. destruct H as (seg & H0 & Hs & ->).
  exists seg. split; [exact H0|]. split; [exact Hs|]. split; reflexivity.
Qed.

(** What [carve_next] hands to [publish]: the ring of [w] with the head
    slot partly written, its step count being [raw_n_step]. *)
Lemma carve_next_Ok fuel w cv :
  carve_next fuel w = Ok (Some cv) ->
  exists seg,
    0 <= segment_buffer_head w
    /\ (Z.to_nat (segment_buffer_head w) < length (segment_buffer w))%nat
    /\ n_step seg = raw_n_step (cv_rate cv)
    /\ same_ring_but_head w (cv_world cv) seg
    /\ 0 <= raw_n_step (cv_rate cv) < 65536
    /\ 0 <= cycles (cv_rate cv) < 4294967296.
Proof.
  unfold carve_next. intros H. bind_inv H.
  destruct a as [w1|]; [|discriminate]. cbv zeta in H. bind_inv H.
  injection H as <-. cbn [cv_world cv_rate].
  apply acquire_block_frame in E.
  apply with_prep_segment_but_head in E2. destruct E2 as (s1 & H0 & Hs1 & F1).
  apply segment_pwm_Ok in E4. destruct E4 as (s2 & _ & _ & F2).
  apply with_prep_segment_but_head in E5. destruct E5 as (s3 & _ & _ & F3).
  assert (Hh : segment_buffer_head w1 = segment_buffer_head w)
    by (destruct E as [_ B]; inversion B; auto).
  exists (set_n_step (raw_n_step (compute_step_rate (prep a3) a2)) s3).
  split; [lia|]. split.
  { destruct E as [A _]. rewrite <- A, <- Hh. eapply lookup_lt_Some; eauto. }
  split; [reflexivity|]. split.
  - eapply same_ring_but_head_after; [exact E|].
    eapply same_ring_but_head_twice; [exact F1|].
    eapply same_ring_but_head_twice; [|exact F3].
    destruct F2 as [A B]. split; [exact A|exact B].
  - unfold compute_step_rate. cbn [raw_n_step cycles]. unfold u16, u32.
    split; apply Z.mod_pos_bound; lia.
Qed.

Lemma commit_segment_ring ptr b c r w fl w' :
  commit_segment ptr b c r w = (fl, w') ->
  segment_buffer w' = segment_buffer w
  /\ segment_buffer_head w' = segment_next_head w
  /\ segment_next_head w'
     = (if u8 (segment_next_head w + 1) =? SEGMENT_BUFFER_SIZE
        then 0 else u8 (segment_next_head w + 1))
  /\ segment_buffer_tail w' = segment_buffer_tail w
  /\ st w' = st w
  /\ sys_position w' = sys_position w.
Proof.
  unfold commit_segment, end_motion, advance_head. cbv zeta.
  cbn [segment_next_head set_segment_buffer_head].
  repeat match goal with
         | |- context [if ?c then _ else _] =>
             lazymatch c with
             | context [if _ then _ else _] => fail
             | _ => destruct c
             end
         end;
    intros [= <- <-]; repeat split; reflexivity.
Qed.

Lemma end_motion_ring flag w : same_ring w (end_motion flag w).
Proof.
  unfold end_motion. cbv zeta.
  match goal with
  | |- context [if ?c then _ else _] => destruct c
  end; split; reflexivity.
Qed.

(** The segment that [publish] commits. *)
Lemma publish_commits cv seg :
  drops_segment cv = false ->
  0 <= segment_buffer_head (cv_world cv) ->
  segment_buffer (cv_world cv) !! Z.to_nat (segment_buffer_head (cv_world cv)) = Some seg ->
  exists fl w',
    publish cv = Ok (fl, w')
    /\ segment_buffer w'
       = <[Z.to_nat (segment_buffer_head (cv_world cv))
           := segment_timing (cycles (cv_rate cv)) seg]> (segment_buffer (cv_world cv))
    /\ segment_buffer_head w' = segment_next_head (cv_world cv)
    /\ segment_next_head w'
       = (if u8 (segment_next_head (cv_world cv) + 1) =? SEGMENT_BUFFER_SIZE
          then 0 else u8 (segment_next_head (cv_world cv) + 1))
    /\ segment_buffer_tail w' = segment_buffer_tail (cv_world cv)
    /\ st w' = st (cv_world cv)
    /\ sys_position w' = sys_position (cv_world cv).
Proof.
  intros Hd H0 Hs. unfold publish. rewrite Hd.
  unfold with_prep_segment.
  assert (Hi : index (segment_buffer (cv_world cv)) (segment_buffer_head (cv_world cv))
               = Ok seg) by (apply index_Ok; auto).
  rewrite Hi. cbn [bind].
  destruct (commit_segment _ _ _ _ _) as [fl w'] eqn:E.
  apply commit_segment_ring in E. exists fl, w'. split; [reflexivity|]. exact E.
Qed.

(** ** AMASS level, step count and timer reload of a segment *)

Lemma segment_timing_eq cyc seg :
  0 <= n_step seg < 65536 ->
  let L := amass_level_of cyc in
  segment_timing cyc seg
  = set_cycles_per_tick (if Z.shiftr cyc L <? 65536 then Z.shiftr cyc L else 65535)
      (set_n_step (u16 (Z.shiftl (n_step seg) L)) (set_amass_level L seg)).
Proof.
  intros Hn. cbv zeta. unfold segment_timing, amass_level_of.
  destruct (cyc <? AMASS_LEVEL1).
  - rewrite Z.shiftr_0_r, Z.shiftl_0_r. unfold u16. rewrite Z.mod_small by lia.
    destruct seg; destruct (cyc <? 65536); reflexivity.
  - cbn [amass_level set_amass_level].
    destruct (Z.shiftr cyc _ <? 65536); reflexivity.
Qed.

Lemma amass_cutoffs :
  0 <= F_TIMER_STEPPER < 4294967296 ->
  AMASS_LEVEL1 = F_TIMER_STEPPER / 8000
  /\ AMASS_LEVEL2 = F_TIMER_STEPPER / 4000
  /\ AMASS_LEVEL3 = F_TIMER_STEPPER / 2000
  /\ F_TIMER_STEPPER / 8000 <= F_TIMER_STEPPER / 4000 <= F_TIMER_STEPPER / 2000.
Proof.
  intros H. unfold AMASS_LEVEL1, AMASS_LEVEL2, AMASS_LEVEL3, u32.
  assert (0 <= F_TIMER_STEPPER / 8000 <= F_TIMER_STEPPER / 4000).
  { split; [apply Z.div_pos; lia|]. apply Z.div_le_compat_l; lia. }
  assert (F_TIMER_STEPPER / 4000 <= F_TIMER_STEPPER / 2000 <= F_TIMER_STEPPER).
  { split; [apply Z.div_le_compat_l; lia|]. apply Z.div_le_upper_bound; lia. }
  rewrite !Z.mod_small by lia. lia.
Qed.

Lemma amass_level_of_bins cyc :
  0 <= F_TIMER_STEPPER < 4294967296 ->
  let L := amass_level_of cyc in
  0 <= L <= 3
  /\ (L = 0 <-> cyc < F_TIMER_STEPPER / 8000)
  /\ (L = 1 <-> F_TIMER_STEPPER / 8000 <= cyc < F_TIMER_STEPPER / 4000)
  /\ (L = 2 <-> F_TIMER_STEPPER / 4000 <= cyc < F_TIMER_STEPPER / 2000)
  /\ (L = 3 <-> F_TIMER_STEPPER / 2000 <= cyc).
Proof.
  intros H. destruct (amass_cutoffs H) as (E1 & E2 & E3 & Hle).
  cbv zeta. unfold amass_level_of. rewrite E1, E2, E3.
  destruct (Z.ltb_spec cyc (F_TIMER_STEPPER / 8000));
    [|destruct (Z.ltb_spec cyc (F_TIMER_STEPPER / 4000));
      [|destruct (Z.ltb_spec cyc (F_TIMER_STEPPER / 2000))]]; lia.
Qed.

Lemma shiftr_bounds cyc L :
  0 <= cyc -> 0 <= L ->
  Z.shiftr cyc L * 2 ^ L <= cyc < (Z.shiftr cyc L + 1) * 2 ^ L.
Proof.
  intros Hc HL. rewrite Z.shiftr_div_pow2 by lia.
  assert (0 < 2 ^ L) by (apply Z.pow_pos_nonneg; lia).
  pose proof (Z.div_mod cyc (2 ^ L)). pose proof (Z.mod_pos_bound cyc (2 ^ L)). nia.
Qed.

(** An iteration that does not drop its segment commits it: the head slot
    receives the segment, the head moves to [segment_next_head], and the
    rest of the ring is as before. *)
Lemma prepare_segment_commits fuel w cv :
  carve_next fuel w = Ok (Some cv) ->
  drops_segment cv = false ->
  exists fl w' seg0,
    prepare_segment fuel w = Ok (fl, w')
    /\ n_step seg0 = raw_n_step (cv_rate cv)
    /\ 0 <= raw_n_step (cv_rate cv) < 65536
    /\ 0 <= cycles (cv_rate cv) < 4294967296
    /\ 0 <= segment_buffer_head w
    /\ (Z.to_nat (segment_buffer_head w) < length (segment_buffer w))%nat
    /\ segment_buffer w'
       = <[Z.to_nat (segment_buffer_head w)
           := segment_timing (cycles (cv_rate cv)) seg0]> (segment_buffer w)
    /\ segment_buffer_head w' = segment_next_head w
    /\ segment_next_head w'
       = (if u8 (segment_next_head w + 1) =? SEGMENT_BUFFER_SIZE
          then 0 else u8 (segment_next_head w + 1))
    /\ segment_buffer_tail w' = segment_buffer_tail w
    /\ st w' = st w
    /\ sys_position w' = sys_position w.
Proof.
  intros Hc Hd.
  destruct (carve_next_Ok _ _ _ Hc) as (seg0 & H0 & Hlen & Hn & [Hb Hv] & Hraw & Hcyc).
  injection Hv as Hh Hnh Ht Hst Hpos.
  assert (Hs : segment_buffer (cv_world cv) !! Z.to_nat (segment_buffer_head (cv_world cv))
               = Some seg0).
  { rewrite Hb, Hh. apply list_lookup_insert_eq. exact Hlen. }
  destruct (publish_commits cv seg0 Hd ltac:(lia) Hs)
    as (fl & w' & Hp & Hbuf & Hhead & Hnext & Htail & Hst' & Hpos').
  exists fl, w', seg0.
  split. { unfold prepare_segment. rewrite Hc. exact Hp. }
  split; [exact Hn|]. split; [exact Hraw|]. split; [exact Hcyc|].
  split; [exact H0|]. split; [exact Hlen|].
  split. { rewrite Hbuf, Hb, Hh. apply list_insert_insert_eq. }
  split; [congruence|]. split; [rewrite Hnext, Hnh; reflexivity|].
  split; [congruence|]. split; congruence.
Qed.

(** An iteration that drops its segment leaves the published ring as it
    was and sets STEP_CONTROL_END_MOTION. *)
Lemma prepare_segment_drops fuel w cv :
  carve_next fuel w = Ok (Some cv) ->
  drops_segment cv = true ->
  prepare_segment fuel w = Ok (Return, end_motion true (cv_world cv))
  /\ ring_view (end_motion true (cv_world cv)) = ring_view w
  /\ forall i, i <> Z.to_nat (segment_buffer_head w) ->
       segment_buffer (end_motion true (cv_world cv)) !! i = segment_buffer w !! i.
Proof.
  intros Hc Hd.
  destruct (carve_next_Ok _ _ _ Hc) as (seg0 & H0 & Hlen & Hn & [Hb Hv] & Hraw & Hcyc).
  destruct (end_motion_ring true (cv_world cv)) as [A B].
  split. { unfold prepare_segment. rewrite Hc. cbn [bind]. unfold publish. rewrite Hd.
           reflexivity. }
  split; [congruence|].
  intros i Hi. rewrite A, Hb. apply list_lookup_insert_ne. congruence.
Qed.

(** C5: the segment committed by an iteration of the preparer has the
    AMASS level of the bin its step period [cycles] falls in (cutoffs
    F_TIMER_STEPPER/8000, /4000 and /2000), a step count shifted left by
    that level in 16 bits, and as timer reload the period shifted right by
    the level, or 0xFFFF when that does not fit 16 bits; unless clamped, the
    reload times 2^L is the period up to the bits shifted out. *)
Theorem committed_segment_amass (fuel : nat) (w : world) (cv : carved_t) :
  0 <= F_TIMER_STEPPER < 4294967296 ->
  carve_next fuel w = Ok (Some cv) ->
  drops_segment cv = false ->
  let cyc := cycles (cv_rate cv) in
  let L := amass_level_of cyc in
  exists fl w' seg,
    prepare_segment fuel w = Ok (fl, w')
    /\ segment_buffer_head w' = segment_next_head w
    /\ segment_buffer w' !! Z.to_nat (segment_buffer_head w) = Some seg
    /\ amass_level seg = L
    /\ (L = 0 <-> cyc < F_TIMER_STEPPER / 8000)
    /\ (L = 1 <-> F_TIMER_STEPPER / 8000 <= cyc < F_TIMER_STEPPER / 4000)
    /\ (L = 2 <-> F_TIMER_STEPPER / 4000 <= cyc < F_TIMER_STEPPER / 2000)
    /\ (L = 3 <-> F_TIMER_STEPPER / 2000 <= cyc)
    /\ n_step seg = u16 (Z.shiftl (raw_n_step (cv_rate cv)) L)
    /\ cycles_per_tick seg
       = (if Z.shiftr cyc L <? 65536 then Z.shiftr cyc L else 65535)
    /\ (Z.shiftr cyc L < 65536 ->
        cycles_per_tick seg * 2 ^ L <= cyc < (cycles_per_tick seg + 1) * 2 ^ L).
Proof.
  intros HF Hc Hd. cbv zeta.
  destruct (prepare_segment_commits _ _ _ Hc Hd)
    as (fl & w' & seg0 & Hp & Hn & Hraw & Hcyc & H0 & Hlen & Hbuf & Hhead & _).
  exists fl, w', (segment_timing (cycles (cv_rate cv)) seg0).
  destruct (amass_level_of_bins (cycles (cv_rate cv)) HF) as (HL & B0 & B1 & B2 & B3).
  split; [exact Hp|]. split; [exact Hhead|].
  split. { rewrite Hbuf. apply list_lookup_insert_eq. exact Hlen. }
  rewrite segment_timing_eq by (rewrite Hn; exact Hraw).
  cbn [amass_level n_step cycles_per_tick set_cycles_per_tick set_n_step set_amass_level].
  rewrite Hn.
  split; [reflexivity|]. split; [exact B0|]. split; [exact B1|]. split; [exact B2|].
  split; [exact B3|]. split; [reflexivity|]. split; [reflexivity|].
  intros Hlt.
  destruct (Z.ltb_spec (Z.shiftr (cycles (cv_rate cv))
                          (amass_level_of (cycles (cv_rate cv)))) 65536); [|lia].
  apply shiftr_bounds; lia.
Qed.

(** ** Zero-step segments *)

Lemma amass_level_of_range cyc : 0 <= amass_level_of cyc <= 3.
Proof.
  unfold amass_level_of.
  destruct (cyc <? AMASS_LEVEL1), (cyc <? AMASS_LEVEL2), (cyc <? AMASS_LEVEL3); lia.
Qed.

(** Lines 1148-1161: while a feed hold is in progress
    (STEP_CONTROL_EXECUTE_HOLD set when line 1150 reads it) a segment whose
    step count is zero is dropped, so a segment committed then has a step
    count of at least 1 before AMASS scaling; the committed [n_step] is that
    count shifted left by the AMASS level in 16 bits, which is at least 1
    when the count is below 8192. *)
Lemma hold_segment_has_step (fuel : nat) (w : world) (cv : carved_t) :
  carve_next fuel w = Ok (Some cv) ->
  hold_active (cv_world cv) = true ->
  if raw_n_step (cv_rate cv) =? 0
  then
    prepare_segment fuel w = Ok (Return, end_motion true (cv_world cv))
    /\ segment_buffer_head (end_motion true (cv_world cv)) = segment_buffer_head w
  else
    exists fl w' seg,
      prepare_segment fuel w = Ok (fl, w')
      /\ segment_buffer_head w' = segment_next_head w
      /\ segment_buffer w' !! Z.to_nat (segment_buffer_head w) = Some seg
      /\ 1 <= raw_n_step (cv_rate cv)
      /\ n_step seg = u16 (Z.shiftl (raw_n_step (cv_rate cv)) (amass_level seg))
      /\ (raw_n_step (cv_rate cv) < 8192 -> 1 <= n_step seg).
Proof.
  intros Hc Hh.
  destruct (Z.eqb_spec (raw_n_step (cv_rate cv)) 0) as [Hz|Hnz].
  - assert (Hd : drops_segment cv = true).
    { unfold drops_segment. rewrite Hz, Hh. reflexivity. }
    destruct (prepare_segment_drops _ _ _ Hc Hd) as (Hp & Hv & _).
    split; [exact Hp|]. inversion Hv; auto.
  - assert (Hd : drops_segment cv = false).
    { unfold drops_segment. apply Z.eqb_neq in Hnz. rewrite Hnz. reflexivity. }
    destruct (prepare_segment_commits _ _ _ Hc Hd)
      as (fl & w' & seg0 & Hp & Hn & Hraw & Hcyc & H0 & Hlen & Hbuf & Hhead & _).
    exists fl, w', (segment_timing (cycles (cv_rate cv)) seg0).
    split; [exact Hp|]. split; [exact Hhead|].
    split. { rewrite Hbuf. apply list_lookup_insert_eq. exact Hlen. }
    rewrite segment_timing_eq by (rewrite Hn; exact Hraw).
    cbn [amass_level n_step cycles_per_tick set_cycles_per_tick set_n_step set_amass_level].
    rewrite Hn.
    split; [lia|]. split; [reflexivity|].
    intros Hlt. pose proof (amass_level_of_range (cycles (cv_rate cv))) as HL.
    rewrite Z.shiftl_mul_pow2 by lia. unfold u16.
    assert (1 <= 2 ^ amass_level_of (cycles (cv_rate cv)) <= 8).
    { split.
      - pose proof (Z.pow_pos_nonneg 2 (amass_level_of (cycles (cv_rate cv)))). lia.
      - change 8 with (2 ^ 3). apply Z.pow_le_mono_r; lia. }
    rewrite Z.mod_small by nia. nia.
Qed.

(** ** The step generator, phase by phase *)

(** The block behind [st.exec_block] and the segment behind
    [st.exec_segment]. *)
Definition current_block (w : world) : result Stepper_Block_t :=
  bi <-- deref (exec_block (st w));; index (st_block_buffer w) bi.

Definition current_segment (w : world) : result Stepper_Segment_t :=
  si <-- deref (exec_segment (st w));; index (segment_buffer w) si.

(** The tracer on one axis, as a function of what it reads. *)
Definition trace_pure (a : axis) (event_count dirbits backlash : Z)
    (sp : Stepper_t * axes) : Stepper_t * axes :=
  let '(c, stepped) :=
    bresenham_axis (counter a (fst sp)) (get_axis a (st_steps (fst sp))) event_count in
  let s := set_counter a c (fst sp) in
  if stepped
  then (set_step_outbits (u8 (Z.lor (step_outbits s) (step_mask a))) s,
        set_axis a (track_position backlash dirbits (direction_bit a) (get_axis a (snd sp)))
          (snd sp))
  else (s, snd sp).

Definition with_isr_state (sp : Stepper_t * axes) (w : world) : world :=
  set_sys_position (snd sp) (set_st (fst sp) w).

Lemma with_isr_state_twice sp sp' w :
  with_isr_state sp' (with_isr_state sp w) = with_isr_state sp' w.
Proof. reflexivity. Qed.

Lemma with_isr_state_id w : exists w0, w = with_isr_state (st w, sys_position w) w0.
Proof. exists w. destruct w; reflexivity. Qed.

Lemma trace_pure_exec a E d bk sp :
  exec_segment (fst (trace_pure a E d bk sp)) = exec_segment (fst sp)
  /\ exec_block (fst (trace_pure a E d bk sp)) = exec_block (fst sp)
  /\ st_steps (fst (trace_pure a E d bk sp)) = st_steps (fst sp)
  /\ step_count (fst (trace_pure a E d bk sp)) = step_count (fst sp)
  /\ exec_block_index (fst (trace_pure a E d bk sp)) = exec_block_index (fst sp).
Proof.
  unfold trace_pure.
  destruct (bresenham_axis _ _ _) as [c []]; destruct a; repeat split; reflexivity.
Qed.

Lemma exec_segment_backlash_eq w w' :
  exec_segment (st w') = exec_segment (st w) ->
  segment_buffer w' = segment_buffer w ->
  exec_segment_backlash w' = exec_segment_backlash w.
Proof. unfold exec_segment_backlash. intros -> ->. reflexivity. Qed.

Lemma exec_segment_backlash_current w seg :
  current_segment w = Ok seg -> exec_segment_backlash w = Ok (backlash_motion seg).
Proof.
  unfold exec_segment_backlash, current_segment.
  destruct (deref (exec_segment (st w))); [|discriminate]. cbn [bind].
  intros ->. reflexivity.
Qed.

Lemma trace_axis_pure a blk sp w seg :
  exec_segment (fst sp) = exec_segment (st w) ->
  current_segment w = Ok seg ->
  trace_axis a blk (with_isr_state sp w)
  = Ok (with_isr_state
          (trace_pure a (step_event_count blk) (direction_bits blk) (backlash_motion seg) sp)
          w).
Proof.
  intros He Hs. unfold trace_axis, trace_pure.
  destruct sp as [s p]. cbn [fst snd] in *.
  change (st (with_isr_state (s, p) w)) with s.
  destruct (bresenham_axis _ _ _) as [c stepped]. cbv zeta.
  destruct stepped; [|reflexivity].
  erewrite exec_segment_backlash_eq;
    [rewrite (exec_segment_backlash_current w seg Hs)| |reflexivity].
  - reflexivity.
  - rewrite <- He. destruct a; reflexivity.
Qed.

(** The three axes in turn. *)
Definition bresenham_pure (blk : Stepper_Block_t) (backlash : Z) (sp : Stepper_t * axes)
  : Stepper_t * axes :=
  let E := step_event_count blk in
  let d := direction_bits blk in
  trace_pure Z_AXIS E d backlash
    (trace_pure Y_AXIS E d backlash
       (trace_pure X_AXIS E d backlash (set_step_outbits 0 (fst sp), snd sp))).

Lemma bresenham_effect w blk seg :
  current_block w = Ok blk ->
  current_segment w = Ok seg ->
  bresenham w
  = Ok (with_isr_state (bresenham_pure blk (backlash_motion seg) (st w, sys_position w)) w).
Proof.
  intros Hb Hs. unfold bresenham, current_block in *.
  destruct (deref (exec_block (st w))) as [bi|]; [|discriminate]. cbn [bind] in *.
  rewrite Hb. cbn [bind]. cbv zeta. unfold bresenham_pure. cbv zeta. cbn [fst snd].
  change (set_st (set_step_outbits 0 (st w)) w)
    with (set_st (set_step_outbits 0 (st w)) w).
  assert (E0 : set_st (set_step_outbits 0 (st w)) w
               = with_isr_state (set_step_outbits 0 (st w), sys_position w) w)
    by (destruct w; reflexivity).
  rewrite E0.
  rewrite (trace_axis_pure X_AXIS blk _ w seg) by (auto; reflexivity). cbn [bind].
  rewrite (trace_axis_pure Y_AXIS blk _ w seg); cbn [bind].
  2:{ rewrite (proj1 (trace_pure_exec _ _ _ _ _)). reflexivity. }
  2: exact Hs.
  rewrite (trace_axis_pure Z_AXIS blk _ w seg); [reflexivity| |exact Hs].
  rewrite !(proj1 (trace_pure_exec _ _ _ _ _)). reflexivity.
Qed.

Lemma probe_monitor_effect w :
  exists pr ex, probe_monitor w = set_sys_rt_exec_state ex (set_probe pr w).
Proof.
  unfold probe_monitor. destruct (sys_probe_state (probe w) =? PROBE_ACTIVE).
  - destruct (Probe_StateMonitor _ _ _) as [pr ex]. eauto.
  - exists (probe w), (sys_rt_exec_state w). destruct w; reflexivity.
Qed.

(** Lines 570-583 on [st] and [segment_buffer_tail]. *)
Definition finish_pure (homing : bool) (lock : Z) (s : Stepper_t) (tail : Z)
  : Stepper_t * Z :=
  let s := if homing then set_step_outbits (Z.land (step_outbits s) lock) s else s in
  let s := set_step_count (u16 (step_count s - 1)) s in
  if step_count s =? 0
  then (set_exec_segment None s,
        if u8 (tail + 1) =? SEGMENT_BUFFER_SIZE then 0 else u8 (tail + 1))
  else (s, tail).

(** One tick on the state the ISR owns. *)
Definition tick_pure (blk : Stepper_Block_t) (backlash : Z) (homing : bool) (lock : Z)
    (s : Stepper_t) (p : axes) (tail : Z) : Stepper_t * axes * Z :=
  let sp := bresenham_pure blk backlash (s, p) in
  let st' := finish_pure homing lock (fst sp) tail in
  (fst st', snd sp, snd st').

Definition with_tick (r : Stepper_t * axes * Z) (w : world) : world :=
  set_segment_buffer_tail (snd r) (with_isr_state (fst r) w).

Lemma finish_tick_effect w blk seg :
  current_block w = Ok blk ->
  current_segment w = Ok seg ->
  (w' <-- bresenham w;; Ok (finish_tick (homing_lock w')))
  = Ok (with_tick
          (tick_pure blk (backlash_motion seg) (sys_state (sys w) =? STATE_HOMING)
             (homing_axis_lock (sys w)) (st w) (sys_position w) (segment_buffer_tail w))
          w).
Proof.
  intros Hb Hs.
  rewrite (bresenham_effect _ blk seg) by assumption. cbn [bind]. f_equal.
  unfold tick_pure, with_tick, finish_pure, finish_tick, homing_lock. cbv zeta.
  destruct (bresenham_pure _ _ _) as [s p].
  cbn [fst snd with_isr_state set_sys_position set_st sys st].
  destruct (sys_state (sys w) =? STATE_HOMING);
    cbn [fst snd with_isr_state set_sys_position set_st sys st step_count set_step_count
         set_step_outbits segment_buffer_tail];
    destruct (u16 (step_count s - 1) =? 0); reflexivity.
Qed.

Lemma execute_tick_effect w blk seg :
  current_block w = Ok blk ->
  current_segment w = Ok seg ->
  exists pr ex,
    execute_tick w
    = Ok (with_tick
            (tick_pure blk (backlash_motion seg) (sys_state (sys w) =? STATE_HOMING)
               (homing_axis_lock (sys w)) (st w) (sys_position w) (segment_buffer_tail w))
            (set_sys_rt_exec_state ex (set_probe pr w))).
Proof.
  intros Hb Hs. unfold execute_tick. cbv zeta.
  destruct (probe_monitor_effect w) as (pr & ex & ->). exists pr, ex.
  apply (finish_tick_effect (set_sys_rt_exec_state ex (set_probe pr w)) blk seg).
  - exact Hb.
  - exact Hs.
Qed.

(** Lines 409-419 and 479-481 on [st]. *)
Definition load_pure (tail : Z) (seg : Stepper_Segment_t) (blk : Stepper_Block_t)
    (dir_mask : Z) (s : Stepper_t) : Stepper_t :=
  let fresh := negb (exec_block_index s =? st_block_index seg) in
  let c := Z.shiftr (step_event_count blk) 1 in
  {| counter_x := if fresh then c else counter_x s;
     counter_y := if fresh then c else counter_y s;
     counter_z := if fresh then c else counter_z s;
     execute_step := execute_step s;
     step_pulse_time := step_pulse_time s;
     step_outbits := step_outbits s;
     dir_outbits := u8 (Z.lxor (direction_bits blk) dir_mask);
     st_steps := axes_map (fun x => Z.shiftr x (amass_level seg)) (steps blk);
     step_count := n_step seg;
     exec_block_index := st_block_index seg;
     exec_block := if fresh then Some (st_block_index seg) else exec_block s;
     exec_segment := Some tail |}.

Lemma limit_step_rate_fields seg :
  n_step (limit_step_rate seg) = n_step seg
  /\ st_block_index (limit_step_rate seg) = st_block_index seg
  /\ amass_level (limit_step_rate seg) = amass_level seg
  /\ spindle_pwm (limit_step_rate seg) = spindle_pwm seg
  /\ backlash_motion (limit_step_rate seg) = backlash_motion seg
  /\ STEP_TIMER_MIN <= cycles_per_tick (limit_step_rate seg)
  /\ cycles_per_tick (limit_step_rate seg) = Z.max STEP_TIMER_MIN (cycles_per_tick seg).
Proof.
  unfold limit_step_rate. destruct (Z.ltb_spec (cycles_per_tick seg) STEP_TIMER_MIN);
    cbn [n_step st_block_index amass_level spindle_pwm backlash_motion cycles_per_tick
         set_cycles_per_tick]; repeat split; lia.
Qed.

Lemma select_block_effect seg w w' :
  select_block seg w = Ok w' ->
  exists blk,
    if negb (exec_block_index (st w) =? st_block_index seg)
    then
      index (st_block_buffer w) (st_block_index seg) = Ok blk
      /\ w' = set_st
                (set_counter_x (Z.shiftr (step_event_count blk) 1)
                   (set_counter_y (Z.shiftr (step_event_count blk) 1)
                      (set_counter_z (Z.shiftr (step_event_count blk) 1)
                         (set_exec_block (Some (st_block_index seg))
                            (set_exec_block_index (st_block_index seg) (st w)))))) w
    else w' = w.
Proof.
  unfold select_block.
  destruct (negb (exec_block_index (st w) =? st_block_index seg)).
  - cbv zeta. cbn [st set_st exec_block_index set_exec_block_index set_exec_block
                   st_block_buffer].
    intros H. destruct (index (st_block_buffer w) (st_block_index seg)) as [blk|];
      [|discriminate].
    cbn [bind] in H. injection H as <-. exists blk. split; reflexivity.
  - intros [= <-]. exists {| steps := mk_axes 0 0 0; step_event_count := 0;
                             direction_bits := 0; is_pwm_rate_adjusted := 0 |}.
    reflexivity.
Qed.

Lemma apply_block_effect seg w w' :
  apply_block seg w = Ok w' ->
  exists blk g,
    current_block w = Ok blk
    /\ current_block w' = Ok blk
    /\ w' = set_hw (set_spindle_out (spindle_pwm seg) (set_gpio g (hw w)))
              (set_st
                 (set_st_steps
                    (axes_map (fun s => Z.shiftr s (amass_level seg)) (steps blk))
                    (set_dir_outbits
                       (u8 (Z.lxor (direction_bits blk) (dir_port_invert_mask w)))
                       (st w))) w).
Proof.
  unfold apply_block, current_block.
  destruct (exec_block (st w)) as [bi|] eqn:Eb; [|discriminate]. cbn [deref bind].
  destruct (index (st_block_buffer w) bi) as [blk|] eqn:Ei; [|discriminate].
  cbn [bind]. cbv zeta.
  match goal with
  | |- context [dir_pins ?x] => destruct (dir_pins_gpio x) as [g ->]
  end.
  intros [= <-]. exists blk, g. split; [reflexivity|]. split.
  - unfold Spindle_SetSpeed.
    cbn [st set_hw set_st exec_block set_st_steps set_dir_outbits st_block_buffer].
    rewrite Eb. exact Ei.
  - reflexivity.
Qed.

Lemma load_segment_unfold w seg :
  index (segment_buffer w) (segment_buffer_tail w) = Ok seg ->
  load_segment w
  = (w1 <-- select_block (limit_step_rate seg) (start_segment (limit_step_rate seg) w);;
     apply_block (limit_step_rate seg) w1).
Proof. intros E. unfold load_segment. rewrite E. reflexivity. Qed.

Lemma start_segment_eq seg w :
  start_segment seg w
  = set_hw (set_tim9_ccr1 (u16 (3 * cycles_per_tick seg / 4))
              (set_tim9_arr (cycles_per_tick seg) (hw w)))
      (set_st (set_step_count (n_step seg)
                 (set_exec_segment (Some (segment_buffer_tail w)) (st w)))
         (set_segment_buffer
            (<[Z.to_nat (segment_buffer_tail w) := seg]> (segment_buffer w)) w)).
Proof. reflexivity. Qed.

Lemma load_segment_effect w w' :
  load_segment w = Ok w' ->
  exists seg blk bi h,
    0 <= segment_buffer_tail w
    /\ segment_buffer w !! Z.to_nat (segment_buffer_tail w) = Some seg
    /\ exec_block (load_pure (segment_buffer_tail w) seg blk (dir_port_invert_mask w) (st w))
       = Some bi
    /\ index (st_block_buffer w) bi = Ok blk
    /\ tim9_arr h = cycles_per_tick (limit_step_rate seg)
    /\ w' = set_hw h
              (set_st (load_pure (segment_buffer_tail w) seg blk (dir_port_invert_mask w)
                         (st w))
                 (set_segment_buffer
                    (<[Z.to_nat (segment_buffer_tail w) := limit_step_rate seg]>
                       (segment_buffer w)) w)).
Proof.
  intros H.
  destruct (index (segment_buffer w) (segment_buffer_tail w)) as [seg|] eqn:E.
  2:{ unfold load_segment in H. rewrite E in H. discriminate. }
  rewrite (load_segment_unfold w seg E) in H. apply index_Ok in E as [Ht Hseg].
  destruct (limit_step_rate_fields seg) as (Fn & Fi & Fa & Fp & Fb & _).
  rewrite start_segment_eq, Fn in H.
  match type of H with
  | bind (select_block _ ?x) _ = _ => set (w0 := x) in *
  end.
  destruct (select_block (limit_step_rate seg) w0) as [w1|] eqn:E1; [|discriminate].
  cbn [bind] in H.
  destruct (select_block_effect _ _ _ E1) as (blk1 & Hw1).
  destruct (apply_block_effect _ _ _ H) as (blk & g & Hblk & _ & Hw').
  rewrite Fi in Hw1. rewrite Fa, Fp in Hw'.
  assert (Hidx : exec_block_index (st w0) = exec_block_index (st w)) by reflexivity.
  assert (Hbuf : st_block_buffer w0 = st_block_buffer w) by reflexivity.
  assert (Heb : exec_block (st w0) = exec_block (st w)) by reflexivity.
  rewrite Hidx, Hbuf in Hw1. unfold current_block in Hblk.
  pose (h := set_spindle_out (spindle_pwm seg)
               (set_gpio g
                  (set_tim9_ccr1 (u16 (3 * cycles_per_tick (limit_step_rate seg) / 4))
                     (set_tim9_arr (cycles_per_tick (limit_step_rate seg)) (hw w))))).
  destruct (Z.eqb_spec (exec_block_index (st w)) (st_block_index seg)) as [Heq|Hne];
    cbn [negb] in Hw1.
  - subst w1. rewrite Heb, Hbuf in Hblk.
    destruct (exec_block (st w)) as [bi|] eqn:Hbi; [|discriminate].
    cbn [deref bind] in Hblk.
    exists seg, blk, bi, h. unfold load_pure.
    rewrite (proj2 (Z.eqb_eq _ _) Heq). cbn [negb exec_block].
    split; [exact Ht|]. split; [exact Hseg|]. split; [exact Hbi|].
    split; [exact Hblk|]. split; [reflexivity|].
    rewrite Hw', <- Heq. reflexivity.
  - destruct Hw1 as (Hi & ->).
    cbn [st set_st exec_block set_counter_x set_counter_y set_counter_z set_exec_block
         st_block_buffer deref bind] in Hblk.
    rewrite Hbuf in Hblk.
    assert (blk = blk1) as -> by congruence.
    exists seg, blk1, (st_block_index seg), h. unfold load_pure.
    rewrite (proj2 (Z.eqb_neq _ _) Hne). cbn [negb exec_block].
    split; [exact Ht|]. split; [exact Hseg|]. split; [reflexivity|].
    split; [exact Hi|]. split; [reflexivity|].
    rewrite Hw'. reflexivity.
Qed.

(** ** One tick of the step generator *)

Lemma Stepper_MainISR_unfold w :
  exists g,
    Stepper_MainISR w
    = match exec_segment (st w) with
      | None =>
          if negb (segment_buffer_head w =? segment_buffer_tail w)
          then w1 <-- load_segment (set_hw (set_gpio g (hw w)) w);; execute_tick w1
          else ring_empty_shutdown (set_hw (set_gpio g (hw w)) w)
      | Some _ => execute_tick (set_hw (set_gpio g (hw w)) w)
      end.
Proof.
  unfold Stepper_MainISR. cbv zeta. destruct (pulse_pins_gpio w) as [g ->].
  exists g. reflexivity.
Qed.

Lemma current_segment_load tail seg s h buf (w : world) :
  0 <= tail ->
  (Z.to_nat tail < length buf)%nat ->
  exec_segment s = Some tail ->
  current_segment (set_hw h (set_st s (set_segment_buffer (<[Z.to_nat tail := seg]> buf) w)))
  = Ok seg.
Proof.
  intros Ht Hl He. unfold current_segment.
  cbn [st set_hw set_st segment_buffer set_segment_buffer]. rewrite He. cbn [deref bind].
  apply index_Ok. split; [exact Ht|]. apply list_lookup_insert_eq. exact Hl.
Qed.

(** A tick that finds no segment loaded and the ring not empty: the segment
    at the tail is loaded and its first step event is executed. *)
Lemma Stepper_MainISR_load w w' :
  exec_segment (st w) = None ->
  segment_buffer_head w <> segment_buffer_tail w ->
  Stepper_MainISR w = Ok w' ->
  exists seg blk bi h pr ex,
    0 <= segment_buffer_tail w
    /\ segment_buffer w !! Z.to_nat (segment_buffer_tail w) = Some seg
    /\ exec_block (load_pure (segment_buffer_tail w) seg blk (dir_port_invert_mask w) (st w))
       = Some bi
    /\ index (st_block_buffer w) bi = Ok blk
    /\ tim9_arr h = cycles_per_tick (limit_step_rate seg)
    /\ w' = with_tick
              (tick_pure blk (backlash_motion seg) (sys_state (sys w) =? STATE_HOMING)
                 (homing_axis_lock (sys w))
                 (load_pure (segment_buffer_tail w) seg blk (dir_port_invert_mask w) (st w))
                 (sys_position w) (segment_buffer_tail w))
              (set_sys_rt_exec_state ex
                 (set_probe pr
                    (set_hw h
                       (set_segment_buffer
                          (<[Z.to_nat (segment_buffer_tail w) := limit_step_rate seg]>
                             (segment_buffer w)) w)))).
Proof.
  intros He Hne H. destruct (Stepper_MainISR_unfold w) as [g Hu]. rewrite Hu, He in H.
  apply Z.eqb_neq in Hne. rewrite Hne in H. cbn [negb] in H.
  destruct (load_segment (set_hw (set_gpio g (hw w)) w)) as [w1|] eqn:E; [|discriminate].
  cbn [bind] in H.
  destruct (load_segment_effect _ _ E) as (seg & blk & bi & h & Ht & Hseg & Hbi & Hblk & Harr & ->).
  cbn [segment_buffer_tail segment_buffer set_hw dir_port_invert_mask st st_block_buffer]
    in *.
  destruct (limit_step_rate_fields seg) as (_ & _ & _ & _ & Fb & _).
  pose proof (lookup_lt_Some _ _ _ Hseg) as Hlen.
  match type of H with
  | execute_tick ?x = _ =>
      destruct (execute_tick_effect x blk (limit_step_rate seg)) as (pr & ex & Hx)
  end.
  { unfold current_block. cbn [st set_hw set_st st_block_buffer set_segment_buffer].
    rewrite Hbi. exact Hblk. }
  { apply current_segment_load; [exact Ht|exact Hlen|reflexivity]. }
  rewrite Hx in H. injection H as <-. rewrite Fb.
  exists seg, blk, bi, h, pr, ex.
  split; [exact Ht|]. split; [exact Hseg|]. split; [exact Hbi|]. split; [exact Hblk|].
  split; [exact Harr|]. reflexivity.
Qed.

(** A tick of the segment that is loaded. *)
Lemma Stepper_MainISR_exec w blk seg :
  exec_segment (st w) <> None ->
  current_block w = Ok blk ->
  current_segment w = Ok seg ->
  exists g pr ex,
    Stepper_MainISR w
    = Ok (with_tick
            (tick_pure blk (backlash_motion seg) (sys_state (sys w) =? STATE_HOMING)
               (homing_axis_lock (sys w)) (st w) (sys_position w) (segment_buffer_tail w))
            (set_sys_rt_exec_state ex (set_probe pr (set_hw (set_gpio g (hw w)) w)))).
Proof.
  intros He Hb Hs. destruct (Stepper_MainISR_unfold w) as [g ->].
  destruct (exec_segment (st w)) eqn:E; [|congruence].
  destruct (execute_tick_effect (set_hw (set_gpio g (hw w)) w) blk seg) as (pr & ex & Hx).
  - exact Hb.
  - unfold current_segment. cbn [st set_hw segment_buffer]. exact Hs.
  - exists g, pr, ex. exact Hx.
Qed.

(** A tick that finds nothing to execute. *)
Lemma ring_empty_shutdown_effect w w' :
  ring_empty_shutdown w = Ok w' ->
  exists h ex, w' = set_sys_rt_exec_state ex (set_hw h w).
Proof.
  unfold ring_empty_shutdown. cbv zeta.
  destruct (Stepper_Disable_hw 0 w) as [h ->].
  cbn [st set_hw st_block_buffer]. intros H. bind_inv H.
  unfold System_SetExecStateFlag, Spindle_SetSpeed in H.
  destruct (negb (is_pwm_rate_adjusted a0 =? 0)); injection H as <-; eauto.
Qed.

(** ** The timer period of a loaded segment *)

(** C4, as the code has it: the preparer stores the step period of a
    segment without a lower bound; the floor STEP_TIMER_MIN is applied by
    the step generator when it loads the segment from the tail of the ring.
    The slot then holds the larger of its period and STEP_TIMER_MIN, and the
    timer is reloaded with that value. *)
Theorem loaded_segment_step_rate (w w' : world) :
  exec_segment (st w) = None ->
  segment_buffer_head w <> segment_buffer_tail w ->
  Stepper_MainISR w = Ok w' ->
  exists seg,
    segment_buffer w !! Z.to_nat (segment_buffer_tail w) = Some seg
    /\ segment_buffer w' !! Z.to_nat (segment_buffer_tail w) = Some (limit_step_rate seg)
    /\ cycles_per_tick (limit_step_rate seg) = Z.max STEP_TIMER_MIN (cycles_per_tick seg)
    /\ n_step (limit_step_rate seg) = n_step seg
    /\ amass_level (limit_step_rate seg) = amass_level seg
    /\ STEP_TIMER_MIN <= tim9_arr (hw w')
    /\ tim9_arr (hw w') = cycles_per_tick (limit_step_rate seg).
Proof.
  intros He Hne H.
  destruct (Stepper_MainISR_load _ _ He Hne H)
    as (seg & blk & bi & h & pr & ex & Ht & Hseg & _ & _ & Harr & ->).
  destruct (limit_step_rate_fields seg) as (Fn & _ & Fa & _ & _ & Fmin & Fmax).
  exists seg. split; [exact Hseg|].
  split. { apply list_lookup_insert_eq. eapply lookup_lt_Some; eauto. }
  split; [exact Fmax|]. split; [exact Fn|]. split; [exact Fa|].
  change (tim9_arr (hw (with_tick _ _))) with (tim9_arr h).
  rewrite Harr. split; [exact Fmin|reflexivity].
Qed.

(** ** The Bresenham tracer *)

(** The step bits fit the 8-bit [step_outbits] and no axis shares a step
    bit with another axis or with a mirrored motor. *)
Definition step_bits_ok : Prop :=
  forall a, 0 <= step_bit a < 8
            /\ forall b, b <> a -> Z.testbit (step_mask b) (step_bit a) = false.

Lemma testbit_BIT n : 0 <= n -> Z.testbit (BIT n) n = true.
Proof.
  intros Hn. unfold BIT. rewrite Z.shiftl_spec by lia. rewrite Z.sub_diag. reflexivity.
Qed.

Lemma testbit_step_mask a : 0 <= step_bit a -> Z.testbit (step_mask a) (step_bit a) = true.
Proof.
  intros Hn. destruct a; cbn [step_mask step_bit] in *;
    repeat match goal with
           | |- context [if ?c then _ else _] => destruct c
           end;
    rewrite ?Z.lor_spec, testbit_BIT by lia; reflexivity.
Qed.

Lemma testbit_u8 x n : 0 <= n < 8 -> Z.testbit (u8 x) n = Z.testbit x n.
Proof.
  intros Hn. unfold u8. change 256 with (2 ^ 8). apply Z.mod_pow2_bits_low. lia.
Qed.

(** What one axis of the tracer does to the counters, the position and the
    step bits. *)
Lemma trace_pure_axis a b E d bk sp :
  let c := u32 (counter b (fst sp) + get_axis b (st_steps (fst sp))) in
  let r := trace_pure b E d bk sp in
  (a <> b ->
   counter a (fst r) = counter a (fst sp) /\ get_axis a (snd r) = get_axis a (snd sp))
  /\ counter b (fst r) = (if E <? c then u32 (c - E) else c)
  /\ get_axis b (snd r)
     = (if E <? c then track_position bk d (direction_bit b) (get_axis b (snd sp))
        else get_axis b (snd sp))
  /\ step_outbits (fst r)
     = (if E <? c then u8 (Z.lor (step_outbits (fst sp)) (step_mask b))
        else step_outbits (fst sp)).
Proof.
  cbv zeta. unfold trace_pure, bresenham_axis. cbv zeta.
  destruct (E <? u32 (counter b (fst sp) + get_axis b (st_steps (fst sp))));
    destruct a, b; cbn [fst snd counter set_counter get_axis set_axis step_outbits
                        set_step_outbits set_counter_x set_counter_y set_counter_z
                        counter_x counter_y counter_z axis_x axis_y axis_z];
    repeat split; intros; congruence.
Qed.

Lemma axis_cases (a : axis) (P : axis -> Prop) :
  P X_AXIS -> P Y_AXIS -> P Z_AXIS -> P a.
Proof. destruct a; auto. Qed.

(** The three axes of one tick. *)
Lemma bresenham_pure_axis blk bk s p a :
  let E := step_event_count blk in
  let c := u32 (counter a s + get_axis a (st_steps s)) in
  let r := bresenham_pure blk bk (s, p) in
  counter a (fst r) = (if E <? c then u32 (c - E) else c)
  /\ get_axis a (snd r)
     = (if E <? c
        then track_position bk (direction_bits blk) (direction_bit a) (get_axis a p)
        else get_axis a p)
  /\ (step_bits_ok -> Z.testbit (step_outbits (fst r)) (step_bit a) = (E <? c))
  /\ st_steps (fst r) = st_steps s
  /\ step_count (fst r) = step_count s
  /\ exec_segment (fst r) = exec_segment s
  /\ exec_block (fst r) = exec_block s
  /\ exec_block_index (fst r) = exec_block_index s.
Proof.
  cbv zeta. unfold bresenham_pure. cbv zeta. cbn [fst snd].
  set (E := step_event_count blk). set (d := direction_bits blk).
  set (sp0 := (set_step_outbits 0 s, p)).
  set (sp1 := trace_pure X_AXIS E d bk sp0).
  set (sp2 := trace_pure Y_AXIS E d bk sp1).
  set (sp3 := trace_pure Z_AXIS E d bk sp2).
  destruct (trace_pure_exec X_AXIS E d bk sp0) as (X1 & X2 & X3 & X4 & X5).
  destruct (trace_pure_exec Y_AXIS E d bk sp1) as (Y1 & Y2 & Y3 & Y4 & Y5).
  destruct (trace_pure_exec Z_AXIS E d bk sp2) as (Z1 & Z2 & Z3 & Z4 & Z5).
  fold sp1 in X1, X2, X3, X4, X5. fold sp2 in Y1, Y2, Y3, Y4, Y5.
  fold sp3 in Z1, Z2, Z3, Z4, Z5.
  assert (S0 : st_steps (fst sp0) = st_steps s) by reflexivity.
  assert (O0 : step_outbits (fst sp0) = 0) by reflexivity.
  assert (C0 : forall b, counter b (fst sp0) = counter b s) by (intros []; reflexivity).
  assert (P0 : snd sp0 = p) by reflexivity.
  pose proof (fun a => trace_pure_axis a X_AXIS E d bk sp0) as TX.
  pose proof (fun a => trace_pure_axis a Y_AXIS E d bk sp1) as TY.
  pose proof (fun a => trace_pure_axis a Z_AXIS E d bk sp2) as TZ.
  cbv zeta in TX, TY, TZ. fold sp1 in TX. fold sp2 in TY. fold sp3 in TZ.
  rewrite S0, C0, O0, P0 in TX. rewrite X3, S0 in TY. rewrite Y3, X3, S0 in TZ.
  repeat split; try congruence.
  - destruct a.
    + destruct (TZ X_AXIS) as (F & _), (TY X_AXIS) as (G & _), (TX X_AXIS) as (_ & K & _).
      destruct F as [F _]; [discriminate|]. destruct G as [G _]; [discriminate|]. congruence.
    + destruct (TZ Y_AXIS) as (F & _), (TY Y_AXIS) as (_ & K & _), (TX Y_AXIS) as (G & _).
      destruct F as [F _]; [discriminate|]. destruct G as [G _]; [discriminate|].
      rewrite F, K, G, C0. reflexivity.
    + destruct (TZ Z_AXIS) as (_ & K & _), (TY Z_AXIS) as (F & _), (TX Z_AXIS) as (G & _).
      destruct F as [F _]; [discriminate|]. destruct G as [G _]; [discriminate|].
      rewrite K, F, G, C0. reflexivity.
  - destruct a.
    + destruct (TZ X_AXIS) as (F & _), (TY X_AXIS) as (G & _), (TX X_AXIS) as (_ & _ & K & _).
      destruct F as [_ F]; [discriminate|]. destruct G as [_ G]; [discriminate|]. congruence.
    + destruct (TZ Y_AXIS) as (F & _), (TY Y_AXIS) as (_ & _ & K & _), (TX Y_AXIS) as (G & _).
      destruct F as [_ F]; [discriminate|]. destruct G as [G' G]; [discriminate|].
      rewrite F, K, G, G', C0. reflexivity.
    + destruct (TZ Z_AXIS) as (_ & _ & K & _), (TY Z_AXIS) as (F & _), (TX Z_AXIS) as (G & _).
      destruct F as [F' F]; [discriminate|]. destruct G as [G' G]; [discriminate|].
      rewrite K, F, G, F', G', C0. reflexivity.
  - intros Hbits.
    destruct (Hbits X_AXIS) as [Bx Dx], (Hbits Y_AXIS) as [By Dy], (Hbits Z_AXIS) as [Bz Dz].
    destruct (TX X_AXIS) as (_ & KX & _ & OX), (TY Y_AXIS) as (_ & KY & _ & OY),
      (TZ Z_AXIS) as (_ & KZ & _ & OZ).
    destruct (TY X_AXIS) as ([CYX _] & _); [discriminate|].
    destruct (TX Y_AXIS) as ([CXY _] & _); [discriminate|].
    destruct (TX Z_AXIS) as ([CXZ _] & _); [discriminate|].
    destruct (TY Z_AXIS) as ([CYZ _] & _); [discriminate|].
    rewrite CXY, C0 in OY. rewrite CYZ, CXZ, C0 in OZ.
    rewrite OZ, OY, OX.
    pose proof (testbit_step_mask X_AXIS ltac:(lia)) as MX.
    pose proof (testbit_step_mask Y_AXIS ltac:(lia)) as MY.
    pose proof (testbit_step_mask Z_AXIS ltac:(lia)) as MZ.
    pose proof (Dx Y_AXIS ltac:(discriminate)) as Dxy.
    pose proof (Dx Z_AXIS ltac:(discriminate)) as Dxz.
    pose proof (Dy X_AXIS ltac:(discriminate)) as Dyx.
    pose proof (Dy Z_AXIS ltac:(discriminate)) as Dyz.
    pose proof (Dz X_AXIS ltac:(discriminate)) as Dzx.
    pose proof (Dz Y_AXIS ltac:(discriminate)) as Dzy.
    destruct a; cbn [counter get_axis] in *;
      destruct (E <? u32 (counter_x s + axis_x (st_steps s))),
        (E <? u32 (counter_y s + axis_y (st_steps s))),
        (E <? u32 (counter_z s + axis_z (st_steps s)));
      rewrite ?testbit_u8, ?Z.lor_spec, ?testbit_u8, ?Z.lor_spec, ?testbit_u8, ?Z.lor_spec
        by assumption;
      rewrite ?MX, ?MY, ?MZ, ?Dxy, ?Dxz, ?Dyx, ?Dyz, ?Dzx, ?Dzy, ?Z.bits_0; reflexivity.
- rewrite Z4, Y4, X4. reflexivity.
  - rewrite Z1, Y1, X1. reflexivity.
  - rewrite Z2, Y2, X2. reflexivity.
  - rewrite Z5, Y5, X5. reflexivity.
Qed.

Lemma get_axis_axes_map f v a : get_axis a (axes_map f v) = f (get_axis a v).
Proof. destruct a; reflexivity. Qed.

(** The end of a tick leaves the counters and the increments alone; with
    the last step event of the segment it releases the segment and moves
    the tail. *)
Lemma finish_pure_fields homing lock s tail :
  let r := finish_pure homing lock s tail in
  (forall a, counter a (fst r) = counter a s)
  /\ st_steps (fst r) = st_steps s
  /\ exec_block (fst r) = exec_block s
  /\ exec_block_index (fst r) = exec_block_index s
  /\ step_outbits (fst r)
     = (if homing then Z.land (step_outbits s) lock else step_outbits s)
  /\ step_count (fst r) = u16 (step_count s - 1)
  /\ (if u16 (step_count s - 1) =? 0
      then exec_segment (fst r) = None
           /\ snd r = (if u8 (tail + 1) =? SEGMENT_BUFFER_SIZE then 0 else u8 (tail + 1))
      else exec_segment (fst r) = exec_segment s /\ snd r = tail).
Proof.
  cbv zeta. unfold finish_pure. cbv zeta.
  destruct homing; cbn [step_count set_step_count set_step_outbits];
    destruct (u16 (step_count s - 1) =? 0); cbn [fst snd];
    (split; [intros []; reflexivity|]); repeat split; reflexivity.
Qed.

(** One tick on one axis. *)
Lemma tick_pure_axis blk bk homing lock s p tail a :
  let E := step_event_count blk in
  let c := u32 (counter a s + get_axis a (st_steps s)) in
  let r := tick_pure blk bk homing lock s p tail in
  counter a (fst (fst r)) = (if E <? c then u32 (c - E) else c)
  /\ get_axis a (snd (fst r))
     = (if E <? c
        then track_position bk (direction_bits blk) (direction_bit a) (get_axis a p)
        else get_axis a p)
  /\ (step_bits_ok -> homing = false ->
      Z.testbit (step_outbits (fst (fst r))) (step_bit a) = (E <? c))
  /\ st_steps (fst (fst r)) = st_steps s.
Proof.
  cbv zeta. unfold tick_pure. cbv zeta. cbn [fst snd].
  destruct (bresenham_pure_axis blk bk s p a) as (C & P & B & S & _).
  destruct (finish_pure_fields homing lock (fst (bresenham_pure blk bk (s, p))) tail)
    as (FC & FS & _ & _ & FO & _).
  split; [rewrite FC; exact C|]. split; [exact P|].
  split; [|rewrite FS; exact S].
  intros Hbits ->. rewrite FO. exact (B Hbits).
Qed.

(** One tick on the pointers of the step generator. *)
Lemma tick_pure_fields blk bk homing lock s p tail :
  let r := tick_pure blk bk homing lock s p tail in
  exec_block (fst (fst r)) = exec_block s
  /\ exec_block_index (fst (fst r)) = exec_block_index s
  /\ (exec_segment (fst (fst r)) = None \/ exec_segment (fst (fst r)) = exec_segment s).
Proof.
  cbv zeta. unfold tick_pure. cbv zeta. cbn [fst snd].
  destruct (bresenham_pure_axis blk bk s p X_AXIS) as (_ & _ & _ & _ & _ & BS & BB & BI).
  destruct (finish_pure_fields homing lock (fst (bresenham_pure blk bk (s, p))) tail)
    as (_ & _ & FB & FI & _ & _ & FS).
  split; [congruence|]. split; [congruence|].
  destruct (u16 (step_count (fst (bresenham_pure blk bk (s, p))) - 1) =? 0).
  - left. exact (proj1 FS).
  - right. rewrite (proj1 FS). exact BS.
Qed.



(** ** The indices of the segment ring *)

(** What the step generator leaves alone. *)
Lemma trace_axis_frame a blk w w1 :
  trace_axis a blk w = Ok w1 ->
  exists s p,
    w1 = set_sys_position p (set_st s w)
    /\ exec_segment s = exec_segment (st w)
    /\ step_count s = step_count (st w).
Proof.
  unfold trace_axis. destruct (bresenham_axis _ _ _) as [c stepped]. cbv zeta.
  destruct stepped.
  - intros H. bind_inv H. injection H as <-.
    eexists _, _. split; [reflexivity|]. destruct a; split; reflexivity.
  - intros [= <-]. exists (set_counter a c (st w)), (sys_position w).
    split; [reflexivity|]. destruct a; split; reflexivity.
Qed.

Lemma bresenham_frame w w1 :
  bresenham w = Ok w1 ->
  exists s p,
    w1 = set_sys_position p (set_st s w)
    /\ exec_segment s = exec_segment (st w)
    /\ step_count s = step_count (st w).
Proof.
  unfold bresenham. cbv zeta. intros H. bind_inv H.
  apply trace_axis_frame in E1 as (s1 & p1 & -> & X1 & X2).
  apply trace_axis_frame in E2 as (s2 & p2 & -> & Y1 & Y2).
  apply trace_axis_frame in H as (s3 & p3 & -> & Z1 & Z2).
  exists s3, p3. split; [reflexivity|].
  cbn [st set_st set_sys_position exec_segment step_count set_step_outbits] in *.
  split; congruence.
Qed.

Definition next_tail (tail : Z) : Z :=
  if u8 (tail + 1) =? SEGMENT_BUFFER_SIZE then 0 else u8 (tail + 1).

Lemma execute_tick_frame w w' :
  execute_tick w = Ok w' ->
  exists s p t pr ex,
    w' = set_segment_buffer_tail t
           (set_sys_position p (set_st s (set_sys_rt_exec_state ex (set_probe pr w))))
    /\ ((exec_segment s = None /\ t = next_tail (segment_buffer_tail w))
        \/ (exec_segment s = exec_segment (st w) /\ t = segment_buffer_tail w)).
Proof.
  unfold execute_tick. cbv zeta.
  destruct (probe_monitor_effect w) as (pr & ex & ->).
  intros H. bind_inv H. injection H as <-.
  apply bresenham_frame in E as (s & p & -> & X1 & X2).
  cbn [st set_sys_rt_exec_state set_probe] in X1, X2.
  unfold finish_tick, homing_lock, next_tail. cbv zeta.
  change (sys (set_sys_position p (set_st s (set_sys_rt_exec_state ex (set_probe pr w)))))
    with (sys w).
  exists (let s1 := if sys_state (sys w) =? STATE_HOMING
                    then set_step_outbits
                           (Z.land (step_outbits s) (homing_axis_lock (sys w))) s
                    else s in
          let s2 := set_step_count (u16 (step_count s - 1)) s1 in
          if u16 (step_count s - 1) =? 0 then set_exec_segment None s2 else s2),
    p,
    (if u16 (step_count s - 1) =? 0
     then (if u8 (segment_buffer_tail w + 1) =? SEGMENT_BUFFER_SIZE
           then 0 else u8 (segment_buffer_tail w + 1))
     else segment_buffer_tail w),
    pr, ex.
  cbv zeta.
  destruct (sys_state (sys w) =? STATE_HOMING);
    cbn [sys set_sys_position set_st st step_count set_step_count set_step_outbits
         segment_buffer_tail set_sys_rt_exec_state set_probe];
    destruct (u16 (step_count s - 1) =? 0);
    (split; [reflexivity|]);
    cbn [exec_segment set_exec_segment set_step_count set_step_outbits]; auto.
Qed.

(** The ring indices across a tick: head and next head stay, and the tail
    moves one slot when the tick was the last of its segment. *)
Lemma Stepper_MainISR_ring w w' :
  Stepper_MainISR w = Ok w' ->
  segment_buffer_head w' = segment_buffer_head w
  /\ segment_next_head w' = segment_next_head w
  /\ ((segment_buffer_tail w' = segment_buffer_tail w
       /\ (exec_segment (st w') = exec_segment (st w)
           \/ (exec_segment (st w) = None
               /\ segment_buffer_head w <> segment_buffer_tail w
               /\ exec_segment (st w') = Some (segment_buffer_tail w))))
      \/ (segment_buffer_tail w' = next_tail (segment_buffer_tail w)
          /\ exec_segment (st w') = None
          /\ (exec_segment (st w) <> None
              \/ segment_buffer_head w <> segment_buffer_tail w))).
Proof.
  intros H. destruct (Stepper_MainISR_unfold w) as [g Hu]. rewrite Hu in H. clear Hu.
  destruct (exec_segment (st w)) as [si|] eqn:He.
  - apply execute_tick_frame in H as (s & p & t & pr & ex & -> & Hc).
    cbn [st set_hw segment_buffer_tail] in Hc.
    split; [reflexivity|]. split; [reflexivity|].
    cbn [segment_buffer_tail set_segment_buffer_tail st set_sys_position set_st].
    destruct Hc as [[A B]|[A B]].
    + right. split; [exact B|]. split; [exact A|]. left. discriminate.
    + left. split; [exact B|]. left. congruence.
  - destruct (Z.eqb_spec (segment_buffer_head w) (segment_buffer_tail w)) as [Heq|Hne];
      cbn [negb] in H.
    + apply ring_empty_shutdown_effect in H as (h & ex & ->).
      split; [reflexivity|]. split; [reflexivity|]. left. split; [reflexivity|].
      left. cbn [st set_sys_rt_exec_state set_hw]. congruence.
    + destruct (load_segment (set_hw (set_gpio g (hw w)) w)) as [w1|] eqn:E; [|discriminate].
      cbn [bind] in H.
      destruct (load_segment_effect _ _ E) as (seg & blk & bi & h & _ & _ & _ & _ & _ & ->).
      apply execute_tick_frame in H as (s & p & t & pr & ex & -> & Hc).
      cbn [st set_hw set_st segment_buffer_tail set_segment_buffer] in Hc.
      split; [reflexivity|]. split; [reflexivity|].
      cbn [segment_buffer_tail set_segment_buffer_tail st set_sys_position set_st].
      destruct Hc as [[A B]|[A B]].
      * right. split; [exact B|]. split; [exact A|]. right. exact Hne.
      * left. split; [exact B|]. right. split; [reflexivity|]. split; [exact Hne|].
        rewrite A. reflexivity.
Qed.

(** The ring between the preparer and the step generator: head and tail
    are slots of the ring, [segment_next_head] is the slot after the head,
    and a segment under execution is the one at the tail of a ring that is
    not empty. *)
Definition ring_ok (w : world) : Prop :=
  0 <= segment_buffer_head w < SEGMENT_BUFFER_SIZE
  /\ 0 <= segment_buffer_tail w < SEGMENT_BUFFER_SIZE
  /\ segment_next_head w = (segment_buffer_head w + 1) mod SEGMENT_BUFFER_SIZE
  /\ (exec_segment (st w) <> None ->
      exec_segment (st w) = Some (segment_buffer_tail w)
      /\ segment_buffer_head w <> segment_buffer_tail w).

(** The number of segments between tail and head, and their slots. *)
Definition occupancy (w : world) : Z :=
  (segment_buffer_head w - segment_buffer_tail w) mod SEGMENT_BUFFER_SIZE.

Definition occupied (w : world) (i : nat) : Prop :=
  exists k, 0 <= k < occupancy w
            /\ i = Z.to_nat ((segment_buffer_tail w + k) mod SEGMENT_BUFFER_SIZE).

Section RingArithmetic.
Hypothesis size_ok : 2 <= SEGMENT_BUFFER_SIZE <= 256.

Lemma next_tail_mod n :
  0 <= n < SEGMENT_BUFFER_SIZE -> next_tail n = (n + 1) mod SEGMENT_BUFFER_SIZE.
Proof.
  intros Hn. unfold next_tail, u8.
  destruct (Z.eq_dec (n + 1) SEGMENT_BUFFER_SIZE) as [E|E].
  - rewrite E, Z.mod_same by lia.
    destruct (Z.eq_dec SEGMENT_BUFFER_SIZE 256) as [E'|E'].
    + rewrite E'. reflexivity.
    + rewrite Z.mod_small by lia. rewrite Z.eqb_refl. reflexivity.
  - rewrite (Z.mod_small (n + 1) 256) by lia.
    rewrite (proj2 (Z.eqb_neq _ _) E). rewrite Z.mod_small by lia. reflexivity.
Qed.

Lemma mod_succ_range n :
  0 <= n < SEGMENT_BUFFER_SIZE ->
  0 <= (n + 1) mod SEGMENT_BUFFER_SIZE < SEGMENT_BUFFER_SIZE.
Proof. intros _. apply Z.mod_pos_bound. lia. Qed.

Lemma ring_distance h t :
  0 <= h < SEGMENT_BUFFER_SIZE -> 0 <= t < SEGMENT_BUFFER_SIZE ->
  (h - t) mod SEGMENT_BUFFER_SIZE = (if h <? t then h - t + SEGMENT_BUFFER_SIZE else h - t).
Proof.
  intros Hh Ht. destruct (Z.ltb_spec h t).
  - symmetry. apply Z.mod_unique with (q := -1); lia.
  - apply Z.mod_small. lia.
Qed.

Lemma succ_mod_cases n :
  0 <= n < SEGMENT_BUFFER_SIZE ->
  (n + 1 = SEGMENT_BUFFER_SIZE /\ (n + 1) mod SEGMENT_BUFFER_SIZE = 0)
  \/ (n + 1 < SEGMENT_BUFFER_SIZE /\ (n + 1) mod SEGMENT_BUFFER_SIZE = n + 1).
Proof.
  intros Hn. destruct (Z.eq_dec (n + 1) SEGMENT_BUFFER_SIZE) as [E|E].
  - left. split; [exact E|]. rewrite E. apply Z.mod_same. lia.
  - right. split; [lia|]. apply Z.mod_small. lia.
Qed.

(** Publishing a segment while the slot after the head is not the tail. *)
Lemma ring_distance_push h t :
  0 <= h < SEGMENT_BUFFER_SIZE -> 0 <= t < SEGMENT_BUFFER_SIZE ->
  (h + 1) mod SEGMENT_BUFFER_SIZE <> t ->
  ((h + 1) mod SEGMENT_BUFFER_SIZE - t) mod SEGMENT_BUFFER_SIZE
  = (h - t) mod SEGMENT_BUFFER_SIZE + 1.
Proof.
  intros Hh Ht Hne. pose proof (mod_succ_range h Hh) as Hr.
  rewrite (ring_distance _ t Hr Ht), (ring_distance h t Hh Ht).
  destruct (succ_mod_cases h Hh) as [[E E']|[E E']]; rewrite E' in *;
    destruct (Z.ltb_spec 0 t), (Z.ltb_spec h t), (Z.ltb_spec (h + 1) t); lia.
Qed.

(** Releasing the segment at the tail of a ring that is not empty. *)
Lemma ring_distance_pop h t :
  0 <= h < SEGMENT_BUFFER_SIZE -> 0 <= t < SEGMENT_BUFFER_SIZE ->
  h <> t ->
  (h - (t + 1) mod SEGMENT_BUFFER_SIZE) mod SEGMENT_BUFFER_SIZE
  = (h - t) mod SEGMENT_BUFFER_SIZE - 1.
Proof.
  intros Hh Ht Hne. pose proof (mod_succ_range t Ht) as Hr.
  rewrite (ring_distance h _ Hh Hr), (ring_distance h t Hh Ht).
  destruct (succ_mod_cases t Ht) as [[E E']|[E E']]; rewrite E' in *;
    destruct (Z.ltb_spec h 0), (Z.ltb_spec h t), (Z.ltb_spec h (t + 1)); lia.
Qed.

(** The head is not one of the slots between tail and head. *)
Lemma head_not_occupied w : ring_ok w -> ~ occupied w (Z.to_nat (segment_buffer_head w)).
Proof.
  intros (Hh & Ht & _) (k & Hk & E). unfold occupancy in Hk.
  rewrite (ring_distance _ _ Hh Ht) in Hk.
  assert (Hs : 0 < SEGMENT_BUFFER_SIZE) by lia.
  pose proof (Z.mod_pos_bound (segment_buffer_tail w + k) SEGMENT_BUFFER_SIZE Hs).
  apply Z2Nat.inj in E; [|lia|lia].
  destruct (Z.ltb_spec (segment_buffer_head w) (segment_buffer_tail w)).
  - assert ((segment_buffer_tail w + k) mod SEGMENT_BUFFER_SIZE
            = segment_buffer_tail w + k
              - (if segment_buffer_tail w + k <? SEGMENT_BUFFER_SIZE
                 then 0 else SEGMENT_BUFFER_SIZE)) as E'.
    { destruct (Z.ltb_spec (segment_buffer_tail w + k) SEGMENT_BUFFER_SIZE).
      - rewrite Z.mod_small by lia. lia.
      - symmetry. apply Z.mod_unique with (q := 1); lia. }
    destruct (Z.ltb_spec (segment_buffer_tail w + k) SEGMENT_BUFFER_SIZE); lia.
  - rewrite Z.mod_small in E by lia. lia.
Qed.

(** A slot between tail and head stays one when the head moves on. *)
Lemma occupied_push w w' :
  segment_buffer_tail w' = segment_buffer_tail w ->
  occupancy w <= occupancy w' ->
  forall i, occupied w i -> occupied w' i.
Proof.
  intros Ht Ho i (k & Hk & E). exists k. rewrite Ht. split; [lia|exact E].
Qed.

Lemma Stepper_Reset_ring w :
  ring_ok (Stepper_Reset w) /\ occupancy (Stepper_Reset w) = 0.
Proof.
  destruct (Stepper_Reset_effect w) as (h & a & b & ->).
  unfold ring_ok, occupancy.
  cbn [segment_buffer_head segment_buffer_tail segment_next_head st set_hw set_st
       set_dir_port_invert_mask set_step_port_invert_mask set_segment_next_head
       set_segment_buffer_head set_segment_buffer_tail exec_segment set_dir_outbits
       st_zero].
  split; [|apply Z.mod_0_l; lia].
  split; [lia|]. split; [lia|]. split.
  - rewrite Z.mod_small by lia. reflexivity.
  - intros H. congruence.
Qed.

(** One iteration of the loop of the preparer, entered with the slot after
    the head free. *)
Lemma prepare_segment_ring fuel w fl w' :
  ring_ok w ->
  segment_buffer_tail w <> segment_next_head w ->
  prepare_segment fuel w = Ok (fl, w') ->
  ring_ok w'
  /\ segment_buffer_tail w' = segment_buffer_tail w
  /\ st w' = st w
  /\ sys_position w' = sys_position w
  /\ (forall i, i <> Z.to_nat (segment_buffer_head w) ->
        segment_buffer w' !! i = segment_buffer w !! i)
  /\ ((segment_buffer_head w' = segment_buffer_head w /\ occupancy w' = occupancy w)
      \/ (segment_buffer_head w' = segment_next_head w
          /\ occupancy w' = occupancy w + 1)).
Proof.
  intros Hok Hfree H. pose proof Hok as (Hh & Ht & Hn & Hx).
  unfold prepare_segment in H.
  destruct (carve_next fuel w) as [[cv|]|] eqn:Hc; cbn [bind] in H; [| |discriminate].
  - destruct (drops_segment cv) eqn:Hd.
    + destruct (prepare_segment_drops _ _ _ Hc Hd) as (Hp & Hv & Hs).
      unfold prepare_segment in Hp. rewrite Hc in Hp. cbn [bind] in Hp.
      rewrite Hp in H. injection H as <- <-.
      injection Hv as Vh Vn Vt Vs Vp.
      split. { unfold ring_ok. rewrite Vh, Vn, Vt, Vs. exact Hok. }
      split; [exact Vt|]. split; [exact Vs|]. split; [exact Vp|]. split; [exact Hs|].
      left. split; [exact Vh|]. unfold occupancy. rewrite Vh, Vt. reflexivity.
    + destruct (prepare_segment_commits _ _ _ Hc Hd)
        as (fl' & w1 & seg0 & Hp & _ & _ & _ & _ & Hlen & Hbuf & Vh & Vn & Vt & Vs & Vp).
      unfold prepare_segment in Hp. rewrite Hc in Hp. cbn [bind] in Hp.
      rewrite Hp in H. injection H as <- <-.
      pose proof (mod_succ_range _ Hh) as Hr. rewrite <- Hn in Hr.
      assert (Ho : occupancy w1 = occupancy w + 1).
      { unfold occupancy. rewrite Vh, Vt, Hn. apply ring_distance_push; [lia|lia|].
        rewrite <- Hn. congruence. }
      split.
      { unfold ring_ok. rewrite Vh, Vn, Vt, Vs.
        split; [exact Hr|]. split; [exact Ht|]. split.
        - fold (next_tail (segment_next_head w)). apply next_tail_mod. exact Hr.
        - intros Hs. destruct (Hx Hs) as [A _]. split; [exact A|congruence]. }
      split; [exact Vt|]. split; [exact Vs|]. split; [exact Vp|].
      split. { intros i Hi. rewrite Hbuf. apply list_lookup_insert_ne. congruence. }
      right. split; [exact Vh|exact Ho].
  - injection H as <- <-.
    split; [exact Hok|]. split; [reflexivity|]. split; [reflexivity|].
    split; [reflexivity|]. split; [reflexivity|]. left. split; reflexivity.
Qed.

(** What the preparer guarantees the step generator. *)
Definition preparer_step (w w' : world) : Prop :=
  ring_ok w'
  /\ segment_buffer_tail w' = segment_buffer_tail w
  /\ st w' = st w
  /\ sys_position w' = sys_position w
  /\ occupancy w <= occupancy w' <= SEGMENT_BUFFER_SIZE - 1
  /\ forall i, occupied w i -> segment_buffer w' !! i = segment_buffer w !! i.

Lemma occupancy_range w : 0 <= occupancy w <= SEGMENT_BUFFER_SIZE - 1.
Proof.
  unfold occupancy.
  assert (Hs : 0 < SEGMENT_BUFFER_SIZE) by lia.
  pose proof (Z.mod_pos_bound (segment_buffer_head w - segment_buffer_tail w)
                SEGMENT_BUFFER_SIZE Hs).
  lia.
Qed.

Lemma preparer_step_refl w : ring_ok w -> preparer_step w w.
Proof.
  intros Hok. pose proof (occupancy_range w).
  split; [exact Hok|]. repeat split; auto; lia.
Qed.

Lemma preparer_step_trans w1 w2 w3 :
  preparer_step w1 w2 -> preparer_step w2 w3 -> preparer_step w1 w3.
Proof.
  intros (_ & T1 & S1 & P1 & O1 & B1) (K & T2 & S2 & P2 & O2 & B2).
  split; [exact K|]. split; [congruence|]. split; [congruence|]. split; [congruence|].
  split; [lia|].
  intros i Hi. rewrite <- (B1 i Hi). apply B2.
  apply (occupied_push w1 w2); [exact T1|lia|exact Hi].
Qed.

Lemma prepare_segment_step fuel w fl w' :
  ring_ok w ->
  segment_buffer_tail w <> segment_next_head w ->
  prepare_segment fuel w = Ok (fl, w') ->
  preparer_step w w'.
Proof.
  intros Hok Hfree H.
  destruct (prepare_segment_ring _ _ _ _ Hok Hfree H) as (K & T & S & P & B & O).
  pose proof (occupancy_range w').
  split; [exact K|]. split; [exact T|]. split; [exact S|]. split; [exact P|].
  split; [destruct O as [[_ E]|[_ E]]; lia|].
  intros i Hi. apply B. intros ->. exact (head_not_occupied w Hok Hi).
Qed.

Lemma prepare_loop_step inner fuel w w' :
  ring_ok w -> prepare_loop fuel inner w = Ok w' -> preparer_step w w'.
Proof.
  revert w. induction fuel as [|fuel IH]; intros w Hok; cbn [prepare_loop].
  - destruct (segment_buffer_tail w =? segment_next_head w); [|discriminate].
    intros [= <-]. apply preparer_step_refl. exact Hok.
  - destruct (Z.eqb_spec (segment_buffer_tail w) (segment_next_head w)) as [E|E].
    + intros [= <-]. apply preparer_step_refl. exact Hok.
    + destruct (prepare_segment inner w) as [[fl w1]|] eqn:Hp; [|discriminate].
      cbn [bind]. pose proof (prepare_segment_step _ _ _ _ Hok E Hp) as Hs.
      destruct fl.
      * intros H. apply (preparer_step_trans w w1 w'); [exact Hs|].
        apply IH; [exact (proj1 Hs)|exact H].
      * intros [= <-]. exact Hs.
Qed.

Lemma Stepper_PrepareBuffer_step fuel w w' :
  ring_ok w -> Stepper_PrepareBuffer fuel w = Ok w' -> preparer_step w w'.
Proof.
  intros Hok. unfold Stepper_PrepareBuffer.
  destruct (BIT_IS_TRUE (step_control (sys w)) STEP_CONTROL_END_MOTION).
  - intros [= <-]. apply preparer_step_refl. exact Hok.
  - apply prepare_loop_step. exact Hok.
Qed.

(** A tick keeps the ring well formed and releases at most one segment. *)
Lemma Stepper_MainISR_ring_ok w w' :
  ring_ok w ->
  Stepper_MainISR w = Ok w' ->
  ring_ok w'
  /\ segment_buffer_head w' = segment_buffer_head w
  /\ segment_next_head w' = segment_next_head w
  /\ ((segment_buffer_tail w' = segment_buffer_tail w /\ occupancy w' = occupancy w)
      \/ (segment_buffer_tail w' = (segment_buffer_tail w + 1) mod SEGMENT_BUFFER_SIZE
          /\ occupancy w' = occupancy w - 1)).
Proof.
  intros (Hh & Ht & Hn & Hx) H.
  destruct (Stepper_MainISR_ring _ _ H) as (Vh & Vn & Hc).
  unfold ring_ok, occupancy. rewrite Vh, Vn.
  destruct Hc as [(Vt & He)|(Vt & He & Hne)]; rewrite Vt.
  - split; [|split; [reflexivity|split; [reflexivity|left; split; reflexivity]]].
    split; [exact Hh|]. split; [exact Ht|]. split; [exact Hn|].
    destruct He as [He|(_ & Hd & He)]; rewrite He.
    + exact Hx.
    + intros _. split; [reflexivity|exact Hd].
  - assert (Hd : segment_buffer_head w <> segment_buffer_tail w).
    { destruct Hne as [Hs|Hd]; [exact (proj2 (Hx Hs))|exact Hd]. }
    rewrite (next_tail_mod _ Ht).
    split; [|split; [reflexivity|split; [reflexivity|right; split; [reflexivity|]]]].
    + split; [exact Hh|]. split; [apply mod_succ_range; exact Ht|]. split; [exact Hn|].
      rewrite He. intros C. congruence.
    + apply ring_distance_pop; assumption.
Qed.

End RingArithmetic.

(** C10: [segment_next_head = (segment_buffer_head + 1) mod
    SEGMENT_BUFFER_SIZE], with head and tail inside the ring, holds after
    [Stepper_Reset] and is kept by [Stepper_PrepareBuffer] and by every tick
    of [Stepper_MainISR].  The preparer never moves the tail, publishes one
    segment at a time into the slot at the head, which is none of the slots
    between tail and head, and only while the slot after the head is not the
    tail, so that the ring holds at most SEGMENT_BUFFER_SIZE - 1 segments;
    a tick releases at most the segment at the tail. *)
Theorem segment_ring_indices :
  2 <= SEGMENT_BUFFER_SIZE <= 256 ->
  (forall w, ring_ok (Stepper_Reset w) /\ occupancy (Stepper_Reset w) = 0)
  /\ (forall fuel w w',
        ring_ok w -> Stepper_PrepareBuffer fuel w = Ok w' ->
        ring_ok w'
        /\ segment_buffer_tail w' = segment_buffer_tail w
        /\ occupancy w <= occupancy w' <= SEGMENT_BUFFER_SIZE - 1
        /\ forall i, occupied w i -> segment_buffer w' !! i = segment_buffer w !! i)
  /\ (forall fuel w fl w',
        ring_ok w -> segment_buffer_tail w <> segment_next_head w ->
        prepare_segment fuel w = Ok (fl, w') ->
        ring_ok w'
        /\ ~ occupied w (Z.to_nat (segment_buffer_head w))
        /\ (forall i, i <> Z.to_nat (segment_buffer_head w) ->
              segment_buffer w' !! i = segment_buffer w !! i)
        /\ ((segment_buffer_head w' = segment_buffer_head w /\ occupancy w' = occupancy w)
            \/ (segment_buffer_head w' = segment_next_head w
                /\ occupancy w' = occupancy w + 1)))
  /\ (forall w w',
        ring_ok w -> Stepper_MainISR w = Ok w' ->
        ring_ok w'
        /\ segment_buffer_head w' = segment_buffer_head w
        /\ segment_next_head w' = segment_next_head w
        /\ ((segment_buffer_tail w' = segment_buffer_tail w /\ occupancy w' = occupancy w)
            \/ (segment_buffer_tail w' = (segment_buffer_tail w + 1) mod SEGMENT_BUFFER_SIZE
                /\ occupancy w' = occupancy w - 1))).
Proof.
  intros Hsize. split; [|split; [|split]].
  - intros w. apply Stepper_Reset_ring. exact Hsize.
  - intros fuel w w' Hok H.
    destruct (Stepper_PrepareBuffer_step Hsize _ _ _ Hok H) as (K & T & _ & _ & O & B).
    auto.
  - intros fuel w fl w' Hok Hfree H.
    destruct (prepare_segment_ring Hsize _ _ _ _ Hok Hfree H) as (K & _ & _ & _ & B & O).
    split; [exact K|]. split; [apply head_not_occupied; assumption|]. auto.
  - intros w w' Hok H. apply Stepper_MainISR_ring_ok; assumption.
Qed.

(** ** A planner block from its first step event to its last *)

(** What the main program may do between two ticks: it leaves alone the
    state of the step generator, the position and the segment under
    execution. *)
Definition main_program_step (w w' : world) : Prop :=
  st w' = st w
  /\ sys_position w' = sys_position w
  /\ forall si, exec_segment (st w) = Some si ->
       index (segment_buffer w') si = index (segment_buffer w) si.

(** The segment a tick works on: the loaded one, or the one at the tail
    that the tick loads. *)
Definition ticking_segment (w : world) : result Stepper_Segment_t :=
  match exec_segment (st w) with
  | Some si => index (segment_buffer w) si
  | None => index (segment_buffer w) (segment_buffer_tail w)
  end.

(** [block_run idx blk bk T w w']: from [w] to [w'] the step generator
    ticks through segments of the stepper block [blk] in slot [idx], the
    main program running in between.  A tick of a segment of AMASS level L
    is 2^(MAX_AMASS_LEVEL - L) of the [T] units that the run goes through;
    a block is [step_event_count blk] units long. *)
Inductive block_run (idx : Z) (blk : Stepper_Block_t) (bk : Z)
  : Z -> world -> world -> Prop :=
| block_done w : block_run idx blk bk 0 w w
| block_main T w w1 w' :
    main_program_step w w1 ->
    block_run idx blk bk T w1 w' ->
    block_run idx blk bk T w w'
| block_tick T w w1 w' seg :
    ticking_segment w = Ok seg ->
    st_block_index seg = idx ->
    backlash_motion seg = bk ->
    0 <= amass_level seg <= MAX_AMASS_LEVEL ->
    index (st_block_buffer w) idx = Ok blk ->
    (exec_segment (st w) = None -> segment_buffer_head w <> segment_buffer_tail w) ->
    Stepper_MainISR w = Ok w1 ->
    block_run idx blk bk (T - 2 ^ (MAX_AMASS_LEVEL - amass_level seg)) w1 w' ->
    block_run idx blk bk T w w'.

Lemma block_run_nonneg idx blk bk T w w' : block_run idx blk bk T w w' -> 0 <= T.
Proof.
  induction 1 as [|T w w1 w' _ _ IH|T w w1 w' seg _ _ _ HL _ _ _ _ IH].
  - lia.
  - exact IH.
  - unfold MAX_AMASS_LEVEL in *.
    pose proof (Z.pow_pos_nonneg 2 (3 - amass_level seg)). lia.
Qed.

(** The preparer is such a main program. *)
Lemma preparer_main_program_step w w' :
  2 <= SEGMENT_BUFFER_SIZE <= 256 ->
  ring_ok w -> preparer_step w w' -> main_program_step w w'.
Proof.
  intros Hsize (Hh & Ht & _ & Hx) (_ & _ & S & P & _ & B).
  split; [exact S|]. split; [exact P|].
  intros si Hs. assert (Hn : exec_segment (st w) <> None) by congruence.
  destruct (Hx Hn) as [Hsi Hne]. assert (si = segment_buffer_tail w) as -> by congruence.
  unfold index. destruct (segment_buffer_tail w <? 0); [reflexivity|].
  rewrite B; [reflexivity|].
  exists 0. split.
  - unfold occupancy. rewrite (ring_distance _ _ Hh Ht).
    destruct (Z.ltb_spec (segment_buffer_head w) (segment_buffer_tail w)); lia.
  - rewrite Z.add_0_r, Z.mod_small by lia. reflexivity.
Qed.

Lemma s32_s32_add x y : s32 (s32 x + y) = s32 (x + y).
Proof.
  unfold s32. f_equal.
  replace ((x + 2147483648) mod 4294967296 - 2147483648 + y + 2147483648)
    with ((x + 2147483648) mod 4294967296 + y) by lia.
  rewrite Z.add_mod_idemp_l by lia. f_equal. lia.
Qed.

Lemma s32_small x : - 2147483648 <= x < 2147483648 -> s32 x = x.
Proof. intros H. unfold s32. rewrite Z.mod_small by lia. lia. Qed.

Lemma shiftr_prescaled s L :
  0 <= L <= 3 -> Z.shiftr (8 * s) L = s * 2 ^ (3 - L).
Proof.
  intros HL. rewrite Z.shiftr_div_pow2 by lia.
  assert (L = 0 \/ L = 1 \/ L = 2 \/ L = 3) as [-> | [-> | [-> | ->]]] by lia.
  - change (2 ^ 0) with 1. change (2 ^ (3 - 0)) with 8. rewrite Z.div_1_r. lia.
  - change (2 ^ 1) with 2. change (2 ^ (3 - 1)) with 4.
    replace (8 * s) with (s * 4 * 2) by lia. apply Z.div_mul. lia.
  - change (2 ^ 2) with 4. change (2 ^ (3 - 2)) with 2.
    replace (8 * s) with (s * 2 * 4) by lia. apply Z.div_mul. lia.
  - change (2 ^ 3) with 8. change (2 ^ (3 - 3)) with 1.
    replace (8 * s) with (s * 1 * 8) by lia. apply Z.div_mul. lia.
Qed.

(** One step event of the Bresenham counter of an axis with [s] of the
    [E] step events of the block: [K] steps are still to come when [T]
    units of the block are left. *)
Lemma bresenham_counter_step E s t c T K :
  0 < E < 2 ^ 28 -> 0 <= s <= E -> 1 <= t <= 8 -> 0 <= T - t -> 0 <= K ->
  0 < c <= 8 * E ->
  c + s * T = 4 * E + 8 * E * K ->
  let c1 := u32 (c + s * t) in
  if 8 * E <? c1
  then 1 <= K
       /\ 0 < u32 (c1 - 8 * E) <= 8 * E
       /\ u32 (c1 - 8 * E) + s * (T - t) = 4 * E + 8 * E * (K - 1)
  else 0 < c1 <= 8 * E /\ c1 + s * (T - t) = 4 * E + 8 * E * K.
Proof.
  intros HE Hs Ht HT HK Hc Hinv. cbv zeta.
  change (2 ^ 28) with 268435456 in HE.
  assert (Hst : 0 <= s * t <= 8 * E) by nia.
  unfold u32. rewrite (Z.mod_small (c + s * t)) by lia.
  destruct (Z.ltb_spec (8 * E) (c + s * t)) as [Hgt|Hle].
  - rewrite Z.mod_small by lia.
    assert (HK1 : 1 <= K).
    { destruct (Z.eq_dec K 0) as [->|]; [|lia].
      assert (0 <= s * (T - t)) by nia. nia. }
    split; [exact HK1|]. split; [lia|]. nia.
  - split; [lia|]. nia.
Qed.

Section BlockRun.
Variable pb : Planner_Block_t.
Variable adjusted : Z.
Variable idx : Z.
Variable p0 : axes.
Hypothesis event_count_ok : 0 < pl_step_event_count pb < 2 ^ 28.
Hypothesis steps_ok :
  forall a, 0 <= get_axis a (pl_steps pb) <= pl_step_event_count pb.
Hypothesis position_ok : forall a, - 2147483648 <= get_axis a p0 < 2147483648.

(** The position of an axis that has taken [n] steps of the block. *)
Definition position_after (a : axis) (n : Z) : Z :=
  if pl_backlash_motion pb =? 0
  then s32 (get_axis a p0
            + (if BIT_IS_TRUE (pl_direction_bits pb) (BIT (direction_bit a)) then - n else n))
  else get_axis a p0.

Lemma position_after_0 a : position_after a 0 = get_axis a p0.
Proof.
  unfold position_after. destruct (pl_backlash_motion pb =? 0); [|reflexivity].
  destruct (BIT_IS_TRUE _ _); rewrite ?Z.opp_0, Z.add_0_r; apply s32_small, position_ok.
Qed.

Lemma track_position_after a n :
  track_position (pl_backlash_motion pb) (pl_direction_bits pb) (direction_bit a)
    (position_after a n)
  = position_after a (n + 1).
Proof.
  unfold track_position, position_after.
  destruct (pl_backlash_motion pb =? 0); [|reflexivity].
  destruct (BIT_IS_TRUE _ _).
  - replace (s32 (get_axis a p0 + - n) - 1) with (s32 (get_axis a p0 + - n) + -1) by lia.
    rewrite s32_s32_add. f_equal. lia.
  - rewrite s32_s32_add. f_equal. lia.
Qed.

Lemma prescale_event_count :
  step_event_count (prescale pb adjusted) = 8 * pl_step_event_count pb.
Proof.
  unfold prescale, MAX_AMASS_LEVEL, u32. cbn [step_event_count].
  change (2 ^ 28) with 268435456 in event_count_ok.
  rewrite Z.shiftl_mul_pow2 by lia. change (2 ^ 3) with 8.
  rewrite Z.mod_small by lia. lia.
Qed.

Lemma prescale_steps a :
  get_axis a (steps (prescale pb adjusted)) = 8 * get_axis a (pl_steps pb).
Proof.
  unfold prescale, MAX_AMASS_LEVEL, u32. cbn [steps]. rewrite get_axis_axes_map.
  change (2 ^ 28) with 268435456 in event_count_ok. pose proof (steps_ok a).
  rewrite Z.shiftl_mul_pow2 by lia. change (2 ^ 3) with 8.
  rewrite Z.mod_small by lia. lia.
Qed.

(** The counter and the position of an axis with [T] units of the block to
    go. *)
Definition axis_inv (T : Z) (a : axis) (s : Stepper_t) (p : axes) : Prop :=
  exists K,
    0 <= K
    /\ 0 < counter a s <= 8 * pl_step_event_count pb
    /\ counter a s + get_axis a (pl_steps pb) * T
       = 4 * pl_step_event_count pb + 8 * pl_step_event_count pb * K
    /\ get_axis a p = position_after a (get_axis a (pl_steps pb) - K).

Lemma axis_inv_tick T L a s p homing lock tail :
  0 <= L <= 3 ->
  0 <= T - 2 ^ (3 - L) ->
  st_steps s = axes_map (fun x => Z.shiftr x L) (steps (prescale pb adjusted)) ->
  axis_inv T a s p ->
  let r := tick_pure (prescale pb adjusted) (pl_backlash_motion pb) homing lock s p tail in
  axis_inv (T - 2 ^ (3 - L)) a (fst (fst r)) (snd (fst r)).
Proof.
  intros HL HT Hst (K & HK & Hc & Hinv & Hp). cbv zeta.
  destruct (tick_pure_axis (prescale pb adjusted) (pl_backlash_motion pb) homing lock
              s p tail a) as (C & P & _ & _).
  rewrite Hst, get_axis_axes_map, prescale_steps, prescale_event_count in C, P.
  rewrite shiftr_prescaled in C, P by exact HL.
  assert (Ht : 1 <= 2 ^ (3 - L) <= 8).
  { assert (L = 0 \/ L = 1 \/ L = 2 \/ L = 3) as [-> | [-> | [-> | ->]]] by lia;
      cbn; lia. }
  pose proof (bresenham_counter_step (pl_step_event_count pb) (get_axis a (pl_steps pb))
                (2 ^ (3 - L)) (counter a s) T K event_count_ok (steps_ok a) Ht HT HK Hc Hinv)
    as B.
  cbv zeta in B.
  destruct (8 * pl_step_event_count pb
            <? u32 (counter a s + get_axis a (pl_steps pb) * 2 ^ (3 - L))).
  - destruct B as (HK1 & Hc' & Hinv').
    exists (K - 1). rewrite C, P. split; [lia|]. split; [exact Hc'|]. split; [exact Hinv'|].
    cbn [direction_bits prescale]. rewrite Hp, track_position_after. f_equal. lia.
  - destruct B as (Hc' & Hinv').
    exists K. rewrite C, P. split; [exact HK|]. split; [exact Hc'|]. split; [exact Hinv'|].
    exact Hp.
Qed.

(** The step generator in the middle of the block. *)
Definition running (T : Z) (w : world) : Prop :=
  exec_block_index (st w) = idx
  /\ exec_block (st w) = Some idx
  /\ (forall si, exec_segment (st w) = Some si ->
        exists seg,
          index (segment_buffer w) si = Ok seg
          /\ st_steps (st w)
             = axes_map (fun x => Z.shiftr x (amass_level seg))
                 (steps (prescale pb adjusted)))
  /\ forall a, axis_inv T a (st w) (sys_position w).

Lemma running_after_tick T L s0 p W homing lock tail :
  0 <= L <= 3 ->
  0 <= T - 2 ^ (3 - L) ->
  exec_block_index s0 = idx ->
  exec_block s0 = Some idx ->
  st_steps s0 = axes_map (fun x => Z.shiftr x L) (steps (prescale pb adjusted)) ->
  (forall si, exec_segment s0 = Some si ->
     exists seg, index (segment_buffer W) si = Ok seg /\ amass_level seg = L) ->
  (forall a, axis_inv T a s0 p) ->
  running (T - 2 ^ (3 - L))
    (with_tick
       (tick_pure (prescale pb adjusted) (pl_backlash_motion pb) homing lock s0 p tail) W).
Proof.
  intros HL HT Hi Hb Hst Hseg Hinv.
  destruct (tick_pure_fields (prescale pb adjusted) (pl_backlash_motion pb) homing lock
              s0 p tail) as (FB & FI & FS).
  destruct (tick_pure_axis (prescale pb adjusted) (pl_backlash_motion pb) homing lock
              s0 p tail X_AXIS) as (_ & _ & _ & FT).
  unfold running, with_tick, with_isr_state.
  cbn [st sys_position segment_buffer set_segment_buffer_tail set_sys_position set_st].
  split; [congruence|]. split; [congruence|]. split.
  - intros si Hs. destruct FS as [FS|FS]; [congruence|].
    rewrite FS in Hs. destruct (Hseg si Hs) as (seg & Hx & <-).
    exists seg. split; [exact Hx|]. rewrite FT. exact Hst.
  - intros a. apply axis_inv_tick; auto.
Qed.

Lemma running_main T w w1 : main_program_step w w1 -> running T w -> running T w1.
Proof.
  intros (S & P & B) (Hi & Hb & Hseg & Hinv). unfold running. rewrite S, P.
  split; [exact Hi|]. split; [exact Hb|]. split; [|exact Hinv].
  intros si Hs. destruct (Hseg si Hs) as (seg & Hx & Hst).
  exists seg. split; [|exact Hst]. rewrite (B si Hs). exact Hx.
Qed.

(** A tick in the middle of the block. *)
Lemma running_tick T w w1 seg :
  running T w ->
  ticking_segment w = Ok seg ->
  st_block_index seg = idx ->
  backlash_motion seg = pl_backlash_motion pb ->
  0 <= amass_level seg <= MAX_AMASS_LEVEL ->
  index (st_block_buffer w) idx = Ok (prescale pb adjusted) ->
  (exec_segment (st w) = None -> segment_buffer_head w <> segment_buffer_tail w) ->
  Stepper_MainISR w = Ok w1 ->
  0 <= T - 2 ^ (MAX_AMASS_LEVEL - amass_level seg) ->
  running (T - 2 ^ (MAX_AMASS_LEVEL - amass_level seg)) w1.
Proof.
  intros (Hi & Hb & Hseg & Hinv) Hts Hsi Hbk HL Hblk Hne H HT.
  unfold MAX_AMASS_LEVEL in *. unfold ticking_segment in Hts.
  destruct (exec_segment (st w)) as [si|] eqn:He.
  - destruct (Hseg si eq_refl) as (seg' & Hx & Hst).
    assert (seg' = seg) as -> by congruence.
    destruct (Stepper_MainISR_exec w (prescale pb adjusted) seg) as (g & pr & ex & Hr).
    + congruence.
    + unfold current_block. rewrite Hb. exact Hblk.
    + unfold current_segment. rewrite He. exact Hts.
    + rewrite Hr in H. injection H as <-. rewrite Hbk.
      apply running_after_tick; auto.
      intros si' Hs'. exists seg. split; [|reflexivity].
      assert (si' = si) as -> by congruence. exact Hts.
  - destruct (Stepper_MainISR_load _ _ He (Hne eq_refl) H)
      as (seg' & blk' & bi & h & pr & ex & Ht & Hs' & Hbi & Hblk' & _ & ->).
    apply index_Ok in Hts as [_ Hts]. assert (seg' = seg) as -> by congruence.
    unfold load_pure in Hbi |- *. rewrite Hsi, Hi in Hbi |- *.
    rewrite Z.eqb_refl in Hbi |- *. cbn [negb exec_block] in Hbi.
    assert (bi = idx) as -> by congruence.
    assert (blk' = prescale pb adjusted) as -> by congruence.
    rewrite Hbk.
    apply running_after_tick; auto; [].
    intros si' [= <-]. exists (limit_step_rate seg).
    split; [|apply limit_step_rate_fields].
    cbn [segment_buffer set_sys_rt_exec_state set_probe set_hw set_segment_buffer].
    apply index_Ok. split; [exact Ht|].
    apply list_lookup_insert_eq. eapply lookup_lt_Some; eauto.
Qed.

Lemma block_run_running T w w' :
  block_run idx (prescale pb adjusted) (pl_backlash_motion pb) T w w' ->
  running T w ->
  forall a,
    get_axis a (sys_position w') = position_after a (get_axis a (pl_steps pb)).
Proof.
  induction 1 as [w|T w w1 w' Hm _ IH|T w w1 w' seg Hts Hsi Hbk HL Hblk Hne H Hrun IH];
    intros Hr.
  - intros a. destruct Hr as (_ & _ & _ & Hinv). destruct (Hinv a) as (K & HK & Hc & Hv & Hp).
    assert (K = 0) as -> by nia. rewrite Hp. f_equal. lia.
  - apply IH. exact (running_main _ _ _ Hm Hr).
  - apply IH. apply (running_tick T w w1 seg); auto.
    exact (block_run_nonneg _ _ _ _ _ _ Hrun).
Qed.

(** The first tick of the block. *)
Lemma first_tick w w1 seg :
  exec_segment (st w) = None ->
  exec_block_index (st w) <> idx ->
  sys_position w = p0 ->
  ticking_segment w = Ok seg ->
  st_block_index seg = idx ->
  backlash_motion seg = pl_backlash_motion pb ->
  0 <= amass_level seg <= MAX_AMASS_LEVEL ->
  index (st_block_buffer w) idx = Ok (prescale pb adjusted) ->
  segment_buffer_head w <> segment_buffer_tail w ->
  Stepper_MainISR w = Ok w1 ->
  let T := step_event_count (prescale pb adjusted) in
  0 <= T - 2 ^ (MAX_AMASS_LEVEL - amass_level seg) ->
  running (T - 2 ^ (MAX_AMASS_LEVEL - amass_level seg)) w1.
Proof.
  intros He Hfresh Hp0 Hts Hsi Hbk HL Hblk Hne H T HT.
  unfold MAX_AMASS_LEVEL in *. unfold ticking_segment in Hts. rewrite He in Hts.
  destruct (Stepper_MainISR_load _ _ He Hne H)
    as (seg' & blk' & bi & h & pr & ex & Ht & Hs' & Hbi & Hblk' & _ & ->).
  apply index_Ok in Hts as [_ Hts]. assert (seg' = seg) as -> by congruence.
  unfold load_pure in Hbi |- *. rewrite Hsi in Hbi |- *.
  rewrite (proj2 (Z.eqb_neq _ _) Hfresh) in Hbi |- *. cbn [negb exec_block] in Hbi.
  assert (bi = idx) as -> by congruence.
  assert (blk' = prescale pb adjusted) as -> by congruence.
  rewrite Hbk, Hp0.
  apply running_after_tick; auto.
  - intros si' [= <-]. exists (limit_step_rate seg).
    split; [|apply limit_step_rate_fields].
    cbn [segment_buffer set_sys_rt_exec_state set_probe set_hw set_segment_buffer].
    apply index_Ok. split; [exact Ht|].
    apply list_lookup_insert_eq. eapply lookup_lt_Some; eauto.
  - intros a. exists (get_axis a (pl_steps pb)).
    pose proof (steps_ok a). change (2 ^ 28) with 268435456 in event_count_ok.
    assert (Hc : counter a
                   {| counter_x := Z.shiftr (step_event_count (prescale pb adjusted)) 1;
                      counter_y := Z.shiftr (step_event_count (prescale pb adjusted)) 1;
                      counter_z := Z.shiftr (step_event_count (prescale pb adjusted)) 1;
                      execute_step := execute_step (st w);
                      step_pulse_time := step_pulse_time (st w);
                      step_outbits := step_outbits (st w);
                      dir_outbits :=
                        u8 (Z.lxor (direction_bits (prescale pb adjusted))
                              (dir_port_invert_mask w));
                      st_steps :=
                        axes_map (fun x => Z.shiftr x (amass_level seg))
                          (steps (prescale pb adjusted));
                      step_count := n_step seg;
                      exec_block_index := idx;
                      exec_block := Some idx;
                      exec_segment := Some (segment_buffer_tail w) |}
                 = 4 * pl_step_event_count pb).
    { assert (Z.shiftr (step_event_count (prescale pb adjusted)) 1
              = 4 * pl_step_event_count pb) as Hh.
      { rewrite prescale_event_count, Z.shiftr_div_pow2 by lia. change (2 ^ 1) with 2.
        replace (8 * pl_step_event_count pb) with (4 * pl_step_event_count pb * 2) by lia.
        apply Z.div_mul. lia. }
      destruct a; cbn [counter counter_x counter_y counter_z]; exact Hh. }
    cbn [negb]. rewrite Hc. unfold T. rewrite prescale_event_count.
    split; [lia|]. split; [lia|]. split; [lia|].
    rewrite Z.sub_diag. symmetry. apply position_after_0.
Qed.

Lemma block_run_first T w w' :
  block_run idx (prescale pb adjusted) (pl_backlash_motion pb) T w w' ->
  T = step_event_count (prescale pb adjusted) ->
  exec_segment (st w) = None ->
  exec_block_index (st w) <> idx ->
  sys_position w = p0 ->
  forall a,
    get_axis a (sys_position w') = position_after a (get_axis a (pl_steps pb)).
Proof.
  induction 1 as [w|T w w1 w' Hm _ IH|T w w1 w' seg Hts Hsi Hbk HL Hblk Hne H Hrun _];
    intros HT He Hfresh Hp0.
  - rewrite prescale_event_count in HT. lia.
  - destruct Hm as (S & P & _). apply IH; congruence.
  - subst T. apply (block_run_running _ _ _ Hrun).
    apply (first_tick w w1 seg); auto.
    exact (block_run_nonneg _ _ _ _ _ _ Hrun).
Qed.

End BlockRun.

(** A call of the preparer is a step of the main program. *)
Lemma Stepper_PrepareBuffer_main_program_step fuel w w' :
  2 <= SEGMENT_BUFFER_SIZE <= 256 ->
  ring_ok w ->
  Stepper_PrepareBuffer fuel w = Ok w' ->
  main_program_step w w' /\ ring_ok w'.
Proof.
  intros Hsize Hok H. pose proof (Stepper_PrepareBuffer_step Hsize _ _ _ Hok H) as Hs.
  split; [exact (preparer_main_program_step _ _ Hsize Hok Hs)|exact (proj1 Hs)].
Qed.

(** Lines 508-568 over the ticks of a block: take a planner block with at
    most 2^28 - 1 step events, none of its axes having more steps than that,
    whose Bresenham data the preparer has copied, scaled, to the stepper
    block of slot [idx].  When the step generator, starting with no segment
    loaded and coming from another block, has gone through segments of the
    block whose ticks add up to its step events, the position of every axis
    has moved by the steps of that axis, downwards when the direction bit of
    the axis is set (in 32-bit arithmetic), or has not moved at all when the
    block is a backlash motion. *)
Lemma block_position (pb : Planner_Block_t) (adjusted idx : Z) (w w' : world) :
  0 < pl_step_event_count pb < 2 ^ 28 ->
  (forall a, 0 <= get_axis a (pl_steps pb) <= pl_step_event_count pb) ->
  (forall a, - 2147483648 <= get_axis a (sys_position w) < 2147483648) ->
  exec_segment (st w) = None ->
  exec_block_index (st w) <> idx ->
  block_run idx (prescale pb adjusted) (pl_backlash_motion pb)
    (step_event_count (prescale pb adjusted)) w w' ->
  forall a,
    get_axis a (sys_position w')
    = (if pl_backlash_motion pb =? 0
       then s32 (get_axis a (sys_position w)
                 + (if BIT_IS_TRUE (pl_direction_bits pb) (BIT (direction_bit a))
                    then - get_axis a (pl_steps pb)
                    else get_axis a (pl_steps pb)))
       else get_axis a (sys_position w)).
Proof.
  intros HE Hs Hp He Hfresh Hrun a.
  exact (block_run_first pb adjusted idx (sys_position w) HE Hs Hp _ w w' Hrun
           eq_refl He Hfresh eq_refl a).
Qed.

(** ** Running a block *)

Definition axes_eqb (a b : axes) : bool :=
  (axis_x a =? axis_x b) && (axis_y a =? axis_y b) && (axis_z a =? axis_z b).

Definition block_eqb (a b : Stepper_Block_t) : bool :=
  axes_eqb (steps a) (steps b)
  && (step_event_count a =? step_event_count b)
  && (direction_bits a =? direction_bits b)
  && (is_pwm_rate_adjusted a =? is_pwm_rate_adjusted b).

Lemma block_eqb_eq a b : block_eqb a b = true -> a = b.
Proof.
  unfold block_eqb, axes_eqb. rewrite !andb_true_iff, !Z.eqb_eq.
  destruct a as [[] ? ? ?], b as [[] ? ? ?]. cbn.
  intros [[[[[-> ->] ->] ->] ->] ->]. reflexivity.
Qed.

(** Whether a tick in state [w] is one of a segment of the block. *)
Definition tick_of_block (idx : Z) (blk : Stepper_Block_t) (bk : Z) (w : world)
  : option Stepper_Segment_t :=
  match ticking_segment w, index (st_block_buffer w) idx with
  | Ok seg, Ok b =>
      if (st_block_index seg =? idx) && (backlash_motion seg =? bk)
         && (0 <=? amass_level seg) && (amass_level seg <=? MAX_AMASS_LEVEL)
         && block_eqb b blk
         && match exec_segment (st w) with
            | None => negb (segment_buffer_head w =? segment_buffer_tail w)
            | Some _ => true
            end
      then Some seg else None
  | _, _ => None
  end.

(** The main program calls the preparer, the timer ticks, and so on until
    the [T] units of the block are through. *)
Fixpoint run_block (fuel prep_fuel : nat) (idx : Z) (blk : Stepper_Block_t) (bk T : Z)
    (w : world) : option world :=
  if T =? 0 then Some w
  else
    match fuel with
    | O => None
    | S fuel =>
        match Stepper_PrepareBuffer prep_fuel w with
        | Ok w0 =>
            match tick_of_block idx blk bk w0, Stepper_MainISR w0 with
            | Some seg, Ok w1 =>
                run_block fuel prep_fuel idx blk bk
                  (T - 2 ^ (MAX_AMASS_LEVEL - amass_level seg)) w1
            | _, _ => None
            end
        | Fault _ => None
        end
    end.

Lemma run_block_sound fuel prep_fuel idx blk bk :
  2 <= SEGMENT_BUFFER_SIZE <= 256 ->
  forall T w w',
    ring_ok w ->
    run_block fuel prep_fuel idx blk bk T w = Some w' ->
    block_run idx blk bk T w w'.
Proof.
  intros Hsize. induction fuel as [|fuel IH]; intros T w w' Hok; cbn [run_block].
  - destruct (Z.eqb_spec T 0) as [->|_]; [|discriminate].
    intros [= <-]. apply block_done.
  - destruct (Z.eqb_spec T 0) as [->|_].
    { intros [= <-]. apply block_done. }
    destruct (Stepper_PrepareBuffer prep_fuel w) as [w0|] eqn:Hp; [|discriminate].
    destruct (Stepper_PrepareBuffer_main_program_step _ _ _ Hsize Hok Hp) as [Hm Hok0].
    destruct (tick_of_block idx blk bk w0) as [seg|] eqn:Ht; [|discriminate].
    destruct (Stepper_MainISR w0) as [w1|] eqn:Hi; [|discriminate].
    intros Hrun. apply (block_main _ _ _ _ w w0 w' Hm).
    unfold tick_of_block in Ht.
    destruct (ticking_segment w0) as [seg'|] eqn:Hts; [|discriminate].
    destruct (index (st_block_buffer w0) idx) as [b|] eqn:Hb; [|discriminate].
    match type of Ht with
    | (if ?c then _ else _) = _ => destruct c eqn:Hc; [|discriminate]
    end.
    injection Ht as ->.
    rewrite !andb_true_iff in Hc. destruct Hc as [[[[[C1 C2] C3] C4] C5] C6].
    apply Z.eqb_eq in C1, C2. apply Z.leb_le in C3, C4. apply block_eqb_eq in C5. subst b.
    apply (block_tick _ _ _ _ w0 w1 w' seg); auto.
    + intros He. rewrite He in C6. apply negb_true_iff, Z.eqb_neq in C6. exact C6.
    + apply IH; [|exact Hrun].
      exact (proj1 (Stepper_MainISR_ring_ok Hsize _ _ Hok0 Hi)).
Qed.

End Properties.

(** * Runs of the model

    The model on IEEE arithmetic, the configuration [grbl] and the planner
    [queue_planner]. *)

Definition binary32 (m e : Z) : spec_float := binary_normalize 24 128 m e false.

(** A planner block of a line: steps per axis, direction bits, backlash
    flag, length in mm, acceleration in mm/min^2, entry speed squared and
    programmed rate in mm/min. *)
Definition line_block (sx sy sz dirs bk : Z) (mm acc entry rate : spec_float)
  : @Planner_Block_t ieee :=
  {| pl_steps := mk_axes sx sy sz;
     pl_step_event_count := Z.max sx (Z.max sy sz);
     pl_direction_bits := dirs; pl_condition := 0; pl_backlash_motion := bk;
     millimeters := mm; acceleration := acc; entry_speed_sqr := entry;
     programmed_rate := rate; pl_spindle_speed := S754_zero false |}.

(** A machine at rest with the planner queue [q] over the blocks [mem]. *)
Definition machine (idle_lock alarm : Z) (q : list nat) (mem : list (@Planner_Block_t ieee))
  : @world ieee queue_planner :=
  {| st_block_buffer :=
       repeat {| steps := mk_axes 0 0 0; step_event_count := 0; direction_bits := 0;
                 is_pwm_rate_adjusted := 0 |} 9;
     segment_buffer :=
       repeat {| n_step := 0; cycles_per_tick := 0; st_block_index := 0; amass_level := 0;
                 spindle_pwm := 0; backlash_motion := 0 |} 10;
     st := st_zero;
     segment_buffer_tail := 0; segment_buffer_head := 0; segment_next_head := 0;
     step_port_invert_mask := 0; dir_port_invert_mask := 0;
     pl_block := None; st_prep_block := None; prep := prep_zero;
     sys := {| sys_state := 0; step_control := 0; homing_axis_lock := 0;
               sys_spindle_speed := S754_zero false |};
     sys_position := mk_axes 0 0 0; sys_rt_exec_alarm := alarm; sys_rt_exec_state := 0;
     settings := {| step_invert_mask := 0; dir_invert_mask := 0;
                    stepper_idle_lock_time := idle_lock; flags := 0 |};
     planner := q; pl_mem := mem; probe := tt;
     hw := {| gpio := Build_gpio_t false false false false false false false false false
                        false false;
              tim9_enabled := false; tim9_arr := 0; tim9_ccr1 := 0; spindle_out := 0;
              delays := [] |} |}.

(** The machine with one block queued; [Stepper_Reset] makes it ready. *)
Definition queued (b : @Planner_Block_t ieee) : world := machine 25 0 [0%nat] [b].

Definition ran (d : world) (r : result world) : world :=
  match r with Ok w => w | Fault _ => d end.

Fixpoint prepare_segments (n : nat) (w : world) : result world :=
  match n with
  | O => Ok w
  | S n => r <-- prepare_segment 100 w;; prepare_segments n (snd r)
  end.

Fixpoint tick_times (n : nat) (w : world) : result world :=
  match n with
  | O => Ok w
  | S n => w <-- Stepper_MainISR w;; tick_times n w
  end.

Definition is_ok {A : Type} (r : result A) : bool :=
  match r with Ok _ => true | Fault _ => false end.

(** What a run shows of the ring: tail, head and the segment at a slot. *)
Definition ring_at (i : nat) (r : result world)
  : option (Z * Z * option Stepper_Segment_t) :=
  match r with
  | Ok w => Some (segment_buffer_tail w, segment_buffer_head w, segment_buffer w !! i)
  | Fault _ => None
  end.

(** What the preparer has carved: the step count and the step period
    before AMASS, the hold bit it reads and whether it drops the segment. *)
Definition carved (r : result (option carved_t)) : option (Z * Z * bool * bool) :=
  match r with
  | Ok (Some cv) =>
      Some (raw_n_step (cv_rate cv), cycles (cv_rate cv), hold_active (cv_world cv),
            drops_segment cv)
  | _ => None
  end.

Lemma is_ok_inv {A : Type} (r : result A) : is_ok r = true -> exists a, r = Ok a.
Proof. destruct r; [eauto|discriminate]. Qed.

Lemma carved_inv (r : result (option carved_t)) x :
  carved r = Some x ->
  exists cv,
    r = Ok (Some cv)
    /\ x = (raw_n_step (cv_rate cv), cycles (cv_rate cv), hold_active (cv_world cv),
            drops_segment cv).
Proof. destruct r as [[cv|]|]; [|discriminate..]. intros [= <-]. eauto. Qed.

Lemma ring_at_inv i (r : result world) x :
  ring_at i r = Some x ->
  exists w,
    r = Ok w /\ x = (segment_buffer_tail w, segment_buffer_head w, segment_buffer w !! i).
Proof. destruct r as [w|]; [|discriminate]. intros [= <-]. eauto. Qed.

Lemma is_Some_inv {A : Type} (o : option A) :
  bool_decide (is_Some o) = true -> exists a, o = Some a.
Proof. intros H. apply bool_decide_eq_true in H. destruct H as [a ->]. eauto. Qed.

Lemma grbl_size : 2 <= SEGMENT_BUFFER_SIZE <= 256.
Proof. change (2 <= 10 <= 256). lia. Qed.

Lemma grbl_timer : 0 <= F_TIMER_STEPPER < 4294967296.
Proof. change (0 <= 24000000 < 4294967296). lia. Qed.

Lemma grbl_step_bits : step_bits_ok.
Proof.
  intros a. split.
  - destruct a; vm_compute; (split; [discriminate|reflexivity]).
  - intros b Hb. destruct a, b; try congruence; reflexivity.
Qed.

(** ** A diagonal line: 30 steps in X, 12 steps back in Y *)

Definition diagonal : Planner_Block_t :=
  line_block 30 12 0 2 0 (binary32 1 (-3)) (binary32 36000 0) (binary32 0 0)
    (binary32 300 0).

(** The preparer and the step generator run the whole block: 16 segments
    through the ring of 10, 240 ticks. *)
Lemma block_position_diagonal :
  exists w',
    run_block 400 100 1 (prescale diagonal 0) 0 (step_event_count (prescale diagonal 0))
      (Stepper_Reset (queued diagonal)) = Some w'
    /\ get_axis X_AXIS (sys_position w') = 30
    /\ get_axis Y_AXIS (sys_position w') = -12
    /\ get_axis Z_AXIS (sys_position w') = 0.
Proof.
  destruct (is_Some_inv
              (run_block 400 100 1 (prescale diagonal 0) 0
                 (step_event_count (prescale diagonal 0)) (Stepper_Reset (queued diagonal))))
    as [w' E]; [vm_compute; reflexivity|].
  exists w'. split; [exact E|].
  assert (H : forall a,
             get_axis a (sys_position w')
             = (if pl_backlash_motion diagonal =? 0
                then s32 (get_axis a (sys_position (Stepper_Reset (queued diagonal)))
                          + (if BIT_IS_TRUE (pl_direction_bits diagonal)
                                  (BIT (direction_bit a))
                             then - get_axis a (pl_steps diagonal)
                             else get_axis a (pl_steps diagonal)))
                else get_axis a (sys_position (Stepper_Reset (queued diagonal))))).
  { apply (block_position diagonal 0 1 (Stepper_Reset (queued diagonal)) w').
    - vm_compute. split; reflexivity.
    - intros []; vm_compute; split; discriminate.
    - intros []; vm_compute; (split; [discriminate|reflexivity]).
    - reflexivity.
    - vm_compute. discriminate.
    - apply (run_block_sound 400 100 1 _ 0 grbl_size).
      + exact (proj1 (Stepper_Reset_ring grbl_size (queued diagonal))).
      + exact E. }
  split; [|split]; (etransitivity; [apply H|vm_compute; reflexivity]).
Defined.

(** The fifth tick of the first segment: X steps, Y does not. *)
Definition diagonal_stepping : world :=
  ran (Stepper_Reset (queued diagonal))
    (w <-- Stepper_PrepareBuffer 100 (Stepper_Reset (queued diagonal));; tick_times 4 w).





(** The ring after [Stepper_Reset] and after the first call of the
    preparer. *)
Lemma segment_ring_indices_diagonal :
  ring_ok (Stepper_Reset (queued diagonal))
  /\ occupancy (Stepper_Reset (queued diagonal)) = 0
  /\ exists w',
       Stepper_PrepareBuffer 100 (Stepper_Reset (queued diagonal)) = Ok w'
       /\ ring_ok w'
       /\ occupancy w' = 9.
Proof.
  destruct (segment_ring_indices grbl_size) as (HR & HP & _ & _).
  destruct (HR (queued diagonal)) as [Hok Hocc].
  split; [exact Hok|]. split; [exact Hocc|].
  destruct (is_ok_inv (Stepper_PrepareBuffer 100 (Stepper_Reset (queued diagonal)))) as [w' E];
    [vm_compute; reflexivity|].
  exists w'. split; [exact E|].
  destruct (HP 100%nat _ _ Hok E) as (Hok' & _).
  split; [exact Hok'|].
  assert (F : ring_at 0 (Stepper_PrepareBuffer 100 (Stepper_Reset (queued diagonal)))
              = Some (0, 9, Some {| n_step := 8; cycles_per_tick := 62500;
                                    st_block_index := 1; amass_level := 3;
                                    spindle_pwm := 0; backlash_motion := 0 |}))
    by (vm_compute; reflexivity).
  rewrite E in F. injection F as Ft Fh _.
  unfold occupancy. rewrite Ft, Fh. reflexivity.
Defined.

(** ** A slow line from rest *)

Definition slow : Planner_Block_t :=
  line_block 2500 0 0 0 0 (binary32 10 0) (binary32 36000 0) (binary32 0 0)
    (binary32 300 0).

(** Its first segment: one step in a period of 480059 timer cycles, which
    AMASS level 3 turns into 8 ticks of 60007 cycles. *)
Lemma committed_segment_amass_slow :
  exists fl w' seg,
    prepare_segment 100 (Stepper_Reset (queued slow)) = Ok (fl, w')
    /\ segment_buffer w' !! 0%nat = Some seg
    /\ amass_level seg = 3
    /\ n_step seg = 8
    /\ cycles_per_tick seg = 60007.
Proof.
  destruct (carved_inv (carve_next 100 (Stepper_Reset (queued slow))) (1, 480059, false, false))
    as (cv & Hcv & F); [vm_compute; reflexivity|].
  injection F as Fraw Fcyc _ Fdrop. symmetry in Fraw, Fcyc, Fdrop.
  pose proof (committed_segment_amass 100 (Stepper_Reset (queued slow)) cv grbl_timer Hcv Fdrop) as H.
  cbv zeta in H. rewrite Fcyc, Fraw in H.
  destruct H as (fl & w' & seg & Hp & _ & Hs & HL & _ & _ & _ & _ & Hn & Hc & _).
  exists fl, w', seg. split; [exact Hp|]. split; [exact Hs|].
  split; [etransitivity; [exact HL|vm_compute; reflexivity]|].
  split; [etransitivity; [exact Hn|vm_compute; reflexivity]|].
  etransitivity; [exact Hc|vm_compute; reflexivity].
Defined.

(** ** A feed hold in the middle of a line at cruise speed *)

Definition cruise : Planner_Block_t :=
  line_block 2500 0 0 0 0 (binary32 10 0) (binary32 36000 0) (binary32 90000 0)
    (binary32 300 0).

(** Three segments are prepared, then the planner recomputes and the hold
    is raised. *)
Definition cruise_hold : world :=
  set_step_control_bit STEP_CONTROL_EXECUTE_HOLD
    (ran (Stepper_Reset (queued cruise))
       (w <-- prepare_segments 3 (Stepper_Reset (queued cruise));; Stepper_UpdatePlannerBlockParams w)).

(** The first segment of the deceleration has 12 steps. *)
Lemma hold_segment_has_step_cruise :
  exists fl w' seg,
    prepare_segment 100 cruise_hold = Ok (fl, w')
    /\ hold_active cruise_hold = true
    /\ segment_buffer_head cruise_hold = 3
    /\ segment_buffer_head w' = 4
    /\ segment_buffer w' !! 3%nat = Some seg
    /\ 1 <= n_step seg.
Proof.
  destruct (carved_inv (carve_next 100 cruise_hold) (12, 19387, true, false))
    as (cv & Hcv & F); [vm_compute; reflexivity|].
  injection F as Fraw _ Fhold _. symmetry in Fraw, Fhold.
  pose proof (hold_segment_has_step 100 cruise_hold cv Hcv Fhold) as H.
  rewrite Fraw in H. change (12 =? 0) with false in H. cbv iota in H.
  destruct H as (fl & w' & seg & Hp & Hh & Hs & _ & _ & Hn).
  assert (Eh : segment_buffer_head cruise_hold = 3) by (vm_compute; reflexivity).
  assert (En : segment_next_head cruise_hold = 4) by (vm_compute; reflexivity).
  rewrite Eh in Hs. rewrite En in Hh.
  exists fl, w', seg. split; [exact Hp|]. split; [vm_compute; reflexivity|].
  split; [exact Eh|]. split; [exact Hh|]. split; [exact Hs|].
  apply Hn. reflexivity.
Defined.

(** ** A long line: 8388000 steps over 4882.8125 mm

    One float ulp of the length is 0.84 step.  The first segment ends one
    ulp into the line, the steps remaining round up to all of them again,
    and no feed hold is in progress: a segment without a step is
    published. *)

Definition long_line : Planner_Block_t :=
  line_block 8388000 0 0 0 0 (binary32 5000000 (-10)) (binary32 36000 0) (binary32 0 0)
    (binary32 300 0).

(** C3: the preparer publishes a segment with [n_step] equal to 0.  On the
    line [long_line], from rest and with no feed hold in progress, the first
    segment that [Stepper_PrepareBuffer] carves has a step count of 0 (and a
    step period of 480000 timer cycles) and is not dropped: when the call
    returns the head has advanced from 0 to 9 and slot 0, the first slot
    committed, holds a segment with [n_step = 0]. *)
Theorem zero_step_segment_outside_hold :
  carved (carve_next 100 (Stepper_Reset (queued long_line))) = Some (0, 480000, false, false)
  /\ hold_active (Stepper_Reset (queued long_line)) = false
  /\ segment_buffer_head (Stepper_Reset (queued long_line)) = 0
  /\ exists w' seg,
       Stepper_PrepareBuffer 100 (Stepper_Reset (queued long_line)) = Ok w'
       /\ segment_buffer_tail w' = 0
       /\ segment_buffer_head w' = 9
       /\ segment_buffer w' !! 0%nat = Some seg
       /\ n_step seg = 0.
Proof.
  split; [vm_compute; reflexivity|]. split; [vm_compute; reflexivity|].
  split; [vm_compute; reflexivity|].
  destruct (ring_at_inv 0 (Stepper_PrepareBuffer 100 (Stepper_Reset (queued long_line)))
              (0, 9, Some {| n_step := 0; cycles_per_tick := 60000; st_block_index := 1;
                             amass_level := 3; spindle_pwm := 0; backlash_motion := 0 |}))
    as (w' & E & F); [vm_compute; reflexivity|].
  injection F as Ft Fh Fs. eexists w', _.
  split; [exact E|]. split; [symmetry; exact Ft|]. split; [symmetry; exact Fh|].
  split; [symmetry; exact Fs|]. reflexivity.
Qed.

(** ** A fast line: 125000 steps per second *)

Definition fast : Planner_Block_t :=
  line_block 2500 0 0 0 0 (binary32 10 0) (binary32 36000 0) (binary32 900000000 0)
    (binary32 30000 0).

(** The preparer publishes segments with a period of 193 timer cycles,
    below STEP_TIMER_MIN = 400. *)
Lemma committed_segment_below_step_timer_min :
  STEP_TIMER_MIN = 400
  /\ exists w' seg,
       Stepper_PrepareBuffer 100 (Stepper_Reset (queued fast)) = Ok w'
       /\ segment_buffer_tail w' = 0
       /\ segment_buffer_head w' = 3
       /\ segment_buffer w' !! 0%nat = Some seg
       /\ cycles_per_tick seg = 193.
Proof.
  split; [vm_compute; reflexivity|].
  destruct (ring_at_inv 0 (Stepper_PrepareBuffer 100 (Stepper_Reset (queued fast)))
              (0, 3, Some {| n_step := 1249; cycles_per_tick := 193; st_block_index := 1;
                             amass_level := 0; spindle_pwm := 0; backlash_motion := 0 |}))
    as (w' & E & F); [vm_compute; reflexivity|].
  injection F as Ft Fh Fs. eexists w', _.
  split; [exact E|]. split; [symmetry; exact Ft|]. split; [symmetry; exact Fh|].
  split; [symmetry; exact Fs|]. reflexivity.
Qed.

(** The step generator loads the first of them with 400 cycles. *)
Definition fast_prepared : world :=
  ran (Stepper_Reset (queued fast)) (Stepper_PrepareBuffer 100 (Stepper_Reset (queued fast))).

Lemma loaded_segment_step_rate_fast :
  exists w' seg,
    Stepper_MainISR fast_prepared = Ok w'
    /\ segment_buffer fast_prepared !! 0%nat = Some seg
    /\ cycles_per_tick seg = 193
    /\ option_map cycles_per_tick (segment_buffer w' !! 0%nat) = Some 400
    /\ tim9_arr (hw w') = 400.
Proof.
  destruct (is_ok_inv (Stepper_MainISR fast_prepared)) as [w' E]; [vm_compute; reflexivity|].
  destruct (loaded_segment_step_rate fast_prepared w')
    as (seg & Hseg & Hseg' & Hmax & _ & _ & _ & Harr).
  - vm_compute. reflexivity.
  - vm_compute. discriminate.
  - exact E.
  - assert (T : segment_buffer_tail fast_prepared = 0) by (vm_compute; reflexivity).
    rewrite T in Hseg, Hseg'. change (Z.to_nat 0) with 0%nat in Hseg, Hseg'.
    assert (C : option_map cycles_per_tick (segment_buffer fast_prepared !! 0%nat)
                = Some 193) by (vm_compute; reflexivity).
    rewrite Hseg in C. injection C as C.
    assert (M : cycles_per_tick (limit_step_rate seg) = 400).
    { rewrite Hmax, C. vm_compute. reflexivity. }
    exists w', seg. split; [exact E|]. split; [exact Hseg|]. split; [exact C|].
    split; [rewrite Hseg'; cbn [option_map]; rewrite M; reflexivity|].
    rewrite Harr. exact M.
Defined.

(** ** An alarm with the idle lock time at 255 *)

Definition alarm_machine : world := Stepper_WakeUp (machine 255 1 [] []).

(** The drivers are enabled, the idle lock time says to keep them enabled,
    the system is not homing, and [Stepper_Disable(0)] dwells 255 ms and
    disables them. *)
Lemma drivers_disabled_on_alarm :
  stepper_idle_lock_time (settings alarm_machine) = 255
  /\ sys_rt_exec_alarm alarm_machine = 1
  /\ (sys_state (sys alarm_machine) =? STATE_HOMING) = false
  /\ drivers_disabled alarm_machine = false
  /\ drivers_disabled (Stepper_Disable 0 alarm_machine) = true
  /\ head (delays (hw (Stepper_Disable 0 alarm_machine))) = Some (Wait_ms 255).
Proof.
  split; [vm_compute; reflexivity|]. split; [vm_compute; reflexivity|].
  split; [vm_compute; reflexivity|]. split; [vm_compute; reflexivity|].
  split; vm_compute; reflexivity.
Qed.


(** * The rest of Stepper.c *)

Section Facade.
Context `{cfg : Config} `{fm : FloatModel} `{ext : !Externals}.

(** ** Bits *)

Lemma BIT_IS_TRUE_testbit x n : 0 <= n -> BIT_IS_TRUE x (BIT n) = Z.testbit x n.
Proof.
  intros Hn. unfold BIT_IS_TRUE, BIT.
  destruct (Z.testbit x n) eqn:Hx.
  - apply negb_true_iff, Z.eqb_neq. intros H.
    assert (Hb : Z.testbit (Z.land x (Z.shiftl 1 n)) n = true).
    { rewrite Z.land_spec, Hx, Z.shiftl_spec, Z.sub_diag by lia. reflexivity. }
    rewrite H, Z.bits_0 in Hb. discriminate.
  - apply negb_false_iff, Z.eqb_eq, Z.bits_inj'. intros m Hm.
    rewrite Z.land_spec, Z.bits_0, Z.shiftl_spec by lia.
    destruct (Z.eq_dec m n) as [->|Hne].
    + rewrite Hx. reflexivity.
    + destruct (Z.ltb_spec m n).
      * rewrite (Z.testbit_neg_r 1 (m - n)) by lia. apply andb_false_r.
      * replace (Z.testbit 1 (m - n)) with false; [apply andb_false_r|].
        symmetry. apply (Z.bits_above_log2 1 (m - n)); cbn; lia.
Qed.

(** ** Stepper_NextBlockIndex *)

(** X1: The index of the next stepper block walks the pool of
    SEGMENT_BUFFER_SIZE - 1 blocks in a circle: it stays inside the pool,
    and with more than one block in the pool it moves. *)
Theorem Stepper_NextBlockIndex_cycle (i : Z) :
  2 <= SEGMENT_BUFFER_SIZE <= 256 ->
  0 <= i < SEGMENT_BUFFER_SIZE - 1 ->
  Stepper_NextBlockIndex i = (i + 1) mod (SEGMENT_BUFFER_SIZE - 1)
  /\ 0 <= Stepper_NextBlockIndex i < SEGMENT_BUFFER_SIZE - 1
  /\ (3 <= SEGMENT_BUFFER_SIZE -> Stepper_NextBlockIndex i <> i).
Proof.
  intros Hs Hi. unfold Stepper_NextBlockIndex, u8. cbv zeta.
  rewrite (Z.mod_small (i + 1) 256) by lia.
  destruct (Z.eqb_spec (i + 1) (SEGMENT_BUFFER_SIZE - 1)) as [E|E].
  - rewrite E, Z.mod_same by lia. split; [reflexivity|]. split; lia.
  - rewrite Z.mod_small by lia. split; [reflexivity|]. split; lia.
Qed.

(** ** Stepper_WakeUp *)

Lemma pulse_pin_idle bit p (w : world) : step_outbits (st w) = 0 -> pulse_pin bit p w = w.
Proof. intros H. unfold pulse_pin. rewrite H. reflexivity. Qed.

Lemma pulse_pins_idle (w : world) : step_outbits (st w) = 0 -> pulse_pins w = w.
Proof.
  intros H. unfold pulse_pins. cbv zeta.
  destruct DUAL_X_AXIS, DUAL_Y_AXIS; repeat rewrite (pulse_pin_idle _ _ w H); reflexivity.
Qed.

(** X2: [Stepper_WakeUp] enables the drivers, waits 10 ms, clears the latched
    step bits and starts the timer; it touches nothing else, and the rising
    edge of the first tick after it raises no step pin. *)
Theorem Stepper_WakeUp_effect (w : world) :
  let w' := Stepper_WakeUp w in
  drivers_disabled w' = false
  /\ tim9_enabled (hw w') = true
  /\ delays (hw w') = Wait_ms 10 :: delays (hw w)
  /\ st w' = set_step_outbits 0 (st w)
  /\ pulse_pins w' = w'
  /\ (exists h, w' = set_hw h (set_st (set_step_outbits 0 (st w)) w)).
Proof.
  cbv zeta. split; [apply drivers_enabled_after_WakeUp|].
  assert (E : exists g,
             Stepper_WakeUp w
             = set_hw (set_tim9_enabled true
                         (set_delays (Wait_ms 10 :: delays (hw w)) (set_gpio g (hw w))))
                 (set_st (set_step_outbits 0 (st w)) w)).
  { unfold Stepper_WakeUp. cbv zeta.
    destruct (GPIO_Write_frame ENABLE
                (BIT_IS_TRUE (flags (settings w)) BITFLAG_INVERT_ST_ENABLE) w) as [g ->].
    exists g. reflexivity. }
  destruct E as [g E]. rewrite E.
  split; [reflexivity|]. split; [reflexivity|]. split; [reflexivity|].
  split; [apply pulse_pins_idle; reflexivity|]. eauto.
Qed.

(** ** Stepper_PortResetISR *)

(** The level of a step pin between pulses. *)
Definition step_pin_idle (bit : Z) (w : world) : bool :=
  BIT_IS_TRUE (step_port_invert_mask w) (BIT bit).

(** The pins with the step pins at rest. *)
Definition idle_pins (w : world) (g : gpio_t) : gpio_t :=
  let g := gpio_write STEP_X (step_pin_idle X_STEP_BIT w) g in
  let g := if DUAL_X_AXIS then gpio_write STEP_X2 (step_pin_idle X2_STEP_BIT w) g else g in
  let g := gpio_write STEP_Y (step_pin_idle Y_STEP_BIT w) g in
  let g := if DUAL_Y_AXIS then gpio_write STEP_Y2 (step_pin_idle Y2_STEP_BIT w) g else g in
  gpio_write STEP_Z (step_pin_idle Z_STEP_BIT w) g.

Lemma GPIO_Write_eq p v (w : world) :
  GPIO_Write p v w = set_hw (set_gpio (gpio_write p v (gpio (hw w))) (hw w)) w.
Proof. destruct v; reflexivity. Qed.

Lemma reset_step_pin_set_hw bit p h (w : world) :
  reset_step_pin bit p (set_hw h w)
  = set_hw (set_gpio (gpio_write p (step_pin_idle bit w) (gpio h)) h) w.
Proof. unfold reset_step_pin. rewrite GPIO_Write_eq. reflexivity. Qed.

Lemma reset_step_pin_eq bit p (w : world) :
  reset_step_pin bit p w
  = set_hw (set_gpio (gpio_write p (step_pin_idle bit w) (gpio (hw w))) (hw w)) w.
Proof. unfold reset_step_pin. rewrite GPIO_Write_eq. reflexivity. Qed.

Lemma Stepper_PortResetISR_eq (w : world) :
  Stepper_PortResetISR w = set_hw (set_gpio (idle_pins w (gpio (hw w))) (hw w)) w.
Proof.
  unfold Stepper_PortResetISR, idle_pins. cbv zeta. rewrite (reset_step_pin_eq X_STEP_BIT).
  destruct DUAL_X_AXIS, DUAL_Y_AXIS; rewrite !reset_step_pin_set_hw; reflexivity.
Qed.

Lemma idle_pins_levels (w : world) (g : gpio_t) :
  p_step_x (idle_pins w g) = step_pin_idle X_STEP_BIT w
  /\ p_step_y (idle_pins w g) = step_pin_idle Y_STEP_BIT w
  /\ p_step_z (idle_pins w g) = step_pin_idle Z_STEP_BIT w
  /\ p_step_x2 (idle_pins w g)
     = (if DUAL_X_AXIS then step_pin_idle X2_STEP_BIT w else p_step_x2 g)
  /\ p_step_y2 (idle_pins w g)
     = (if DUAL_Y_AXIS then step_pin_idle Y2_STEP_BIT w else p_step_y2 g)
  /\ p_enable (idle_pins w g) = p_enable g
  /\ (p_dir_x (idle_pins w g), p_dir_x2 (idle_pins w g), p_dir_y (idle_pins w g),
      p_dir_y2 (idle_pins w g), p_dir_z (idle_pins w g))
     = (p_dir_x g, p_dir_x2 g, p_dir_y g, p_dir_y2 g, p_dir_z g).
Proof.
  unfold idle_pins. cbv zeta. destruct DUAL_X_AXIS, DUAL_Y_AXIS; repeat split; reflexivity.
Qed.

Lemma idle_pins_twice (w : world) (g : gpio_t) :
  idle_pins w (idle_pins w g) = idle_pins w g.
Proof.
  unfold idle_pins. cbv zeta. destruct DUAL_X_AXIS, DUAL_Y_AXIS; reflexivity.
Qed.

(** X3: [Stepper_PortResetISR] drives every step pin to its idle level, the
    bit of the pin in [step_port_invert_mask], whatever it was; the enable
    pin, the direction pins, the pins of a motor that is not configured and
    everything but the pins stay. *)
Theorem Stepper_PortResetISR_pins (w : world) :
  let g := gpio (hw w) in
  let g' := gpio (hw (Stepper_PortResetISR w)) in
  p_step_x g' = step_pin_idle X_STEP_BIT w
  /\ p_step_y g' = step_pin_idle Y_STEP_BIT w
  /\ p_step_z g' = step_pin_idle Z_STEP_BIT w
  /\ p_step_x2 g' = (if DUAL_X_AXIS then step_pin_idle X2_STEP_BIT w else p_step_x2 g)
  /\ p_step_y2 g' = (if DUAL_Y_AXIS then step_pin_idle Y2_STEP_BIT w else p_step_y2 g)
  /\ p_enable g' = p_enable g
  /\ (p_dir_x g', p_dir_x2 g', p_dir_y g', p_dir_y2 g', p_dir_z g')
     = (p_dir_x g, p_dir_x2 g, p_dir_y g, p_dir_y2 g, p_dir_z g)
  /\ Stepper_PortResetISR w = set_hw (set_gpio g' (hw w)) w
  /\ Stepper_PortResetISR (Stepper_PortResetISR w) = Stepper_PortResetISR w.
Proof.
  cbv zeta. rewrite (Stepper_PortResetISR_eq (Stepper_PortResetISR w)).
  rewrite !Stepper_PortResetISR_eq.
  cbn [hw set_hw gpio set_gpio].
  change (idle_pins (set_hw _ w)) with (idle_pins w). rewrite idle_pins_twice.
  destruct (idle_pins_levels w (gpio (hw w))) as (A & B & C & D & E & F & G).
  repeat (split; [assumption|]). split; reflexivity.
Qed.

(** ** Stepper_Disable *)

(** The pins after [Stepper_Disable]: the step pins at rest, then the
    enable pin driven. *)
Lemma Stepper_Disable_gpio ovr (w : world) :
  exists v, gpio (hw (Stepper_Disable ovr w)) = gpio_write ENABLE v (idle_pins w (gpio (hw w))).
Proof.
  unfold Stepper_Disable. cbv zeta. rewrite Stepper_PortResetISR_eq.
  change (idle_pins (Delay_us 1 (TIM_Cmd false w))) with (idle_pins w).
  change (idle_lock_applies (set_hw _ (Delay_us 1 (TIM_Cmd false w))))
    with (idle_lock_applies w).
  destruct (idle_lock_applies w); cbv beta iota; rewrite GPIO_Write_eq; eexists; reflexivity.
Qed.

(** X4: [Stepper_Disable] always stops the timer, puts the step pins at rest
    and only drives the hardware; the direction pins stay, and with
    [ovr_disable] set the drivers end up disabled whatever the idle lock time
    and the state are. *)
Theorem Stepper_Disable_forced (ovr : Z) (w : world) :
  ovr <> 0 ->
  let g := gpio (hw w) in
  let g' := gpio (hw (Stepper_Disable ovr w)) in
  drivers_disabled (Stepper_Disable ovr w) = true
  /\ tim9_enabled (hw (Stepper_Disable ovr w)) = false
  /\ (p_step_x g', p_step_y g', p_step_z g')
     = (step_pin_idle X_STEP_BIT w, step_pin_idle Y_STEP_BIT w, step_pin_idle Z_STEP_BIT w)
  /\ (p_dir_x g', p_dir_x2 g', p_dir_y g', p_dir_y2 g', p_dir_z g')
     = (p_dir_x g, p_dir_x2 g, p_dir_y g, p_dir_y2 g, p_dir_z g)
  /\ (exists h, Stepper_Disable ovr w = set_hw h w).
Proof.
  intros Ho. cbv zeta. destruct (Stepper_Disable_gpio ovr w) as [v ->].
  destruct (idle_pins_levels w (gpio (hw w))) as (A & B & C & _ & _ & _ & G).
  destruct (Stepper_Disable_effect ovr w) as (g & Hg & ->).
  unfold drivers_disabled. cbn [hw set_hw gpio settings tim9_enabled]. rewrite Hg.
  apply Z.eqb_neq in Ho. rewrite Ho. cbn [negb orb].
  split; [destruct (BIT_IS_TRUE (flags (settings w)) BITFLAG_INVERT_ST_ENABLE); reflexivity|].
  split; [reflexivity|].
  split; [cbn [gpio_write p_step_x p_step_y p_step_z]; rewrite A, B, C; reflexivity|].
  split; [exact G|]. eauto.
Qed.

End Facade.


Section Setup.
Context `{cfg : Config} `{fm : FloatModel} `{ext : !Externals}.

(** ** Stepper_GenerateStepDirInvertMasks *)

(** One pass of the loop over an axis, on one mask. *)
Definition or_pin_mask (inverted : Z) (pin_mask : Z -> Z) (m idx : Z) : Z :=
  if BIT_IS_TRUE inverted (BIT idx) then u8 (Z.lor m (pin_mask idx)) else m.

Lemma invert_masks_of_axis_eq a b idx (w : world) :
  invert_masks_of_axis (set_dir_port_invert_mask b (set_step_port_invert_mask a w)) idx
  = set_dir_port_invert_mask
      (or_pin_mask (dir_invert_mask (settings w)) Settings_GetDirectionPinMask b idx)
      (set_step_port_invert_mask
         (or_pin_mask (step_invert_mask (settings w)) Settings_GetStepPinMask a idx) w).
Proof.
  unfold invert_masks_of_axis, or_pin_mask.
  cbn [settings set_dir_port_invert_mask set_step_port_invert_mask].
  destruct (BIT_IS_TRUE (step_invert_mask (settings w)) (BIT idx));
    cbn [settings set_dir_port_invert_mask set_step_port_invert_mask];
    destruct (BIT_IS_TRUE (dir_invert_mask (settings w)) (BIT idx)); reflexivity.
Qed.

(** X5: [Stepper_GenerateStepDirInvertMasks] computes both masks from the
    settings alone, starting from 0: for the axes 0, 1 and 2 in turn, the
    pin mask of an axis whose bit is set in the invert setting is or-ed in,
    in 8 bits.  Nothing else changes, and running it again changes
    nothing. *)
Theorem Stepper_GenerateStepDirInvertMasks_masks (w : world) :
  let w' := Stepper_GenerateStepDirInvertMasks w in
  let mask inverted pin_mask :=
    or_pin_mask inverted pin_mask
      (or_pin_mask inverted pin_mask (or_pin_mask inverted pin_mask 0 0) 1) 2 in
  step_port_invert_mask w' = mask (step_invert_mask (settings w)) Settings_GetStepPinMask
  /\ dir_port_invert_mask w'
     = mask (dir_invert_mask (settings w)) Settings_GetDirectionPinMask
  /\ w' = set_dir_port_invert_mask (dir_port_invert_mask w')
            (set_step_port_invert_mask (step_port_invert_mask w') w)
  /\ Stepper_GenerateStepDirInvertMasks w' = w'.
Proof.
  cbv zeta.
  assert (E : forall w0 : world,
             Stepper_GenerateStepDirInvertMasks w0
             = set_dir_port_invert_mask
                 (or_pin_mask (dir_invert_mask (settings w0)) Settings_GetDirectionPinMask
                    (or_pin_mask (dir_invert_mask (settings w0)) Settings_GetDirectionPinMask
                       (or_pin_mask (dir_invert_mask (settings w0))
                          Settings_GetDirectionPinMask 0 0) 1) 2)
                 (set_step_port_invert_mask
                    (or_pin_mask (step_invert_mask (settings w0)) Settings_GetStepPinMask
                       (or_pin_mask (step_invert_mask (settings w0)) Settings_GetStepPinMask
                          (or_pin_mask (step_invert_mask (settings w0))
                             Settings_GetStepPinMask 0 0) 1) 2) w0)).
  { intros w0. unfold Stepper_GenerateStepDirInvertMasks. cbv zeta. cbn [fold_left].
    rewrite !invert_masks_of_axis_eq. reflexivity. }
  rewrite (E (Stepper_GenerateStepDirInvertMasks w)). rewrite !E.
  cbn [step_port_invert_mask dir_port_invert_mask settings set_dir_port_invert_mask
       set_step_port_invert_mask].
  repeat split; reflexivity.
Qed.

(** ** Stepper_Reset *)





(** ** Parking *)

Lemma BIT_IS_TRUE_u8 x n : 0 <= n < 8 -> BIT_IS_TRUE (u8 x) (BIT n) = BIT_IS_TRUE x (BIT n).
Proof.
  intros Hn. rewrite !BIT_IS_TRUE_testbit by lia. unfold u8. change 256 with (2 ^ 8).
  apply Z.mod_pow2_bits_low. lia.
Qed.

(** The hold flag survives [Stepper_ParkingSetupBuffer]. *)
Lemma parking_setup_flag (w : world) :
  let f := recalculate_flag (prep (Stepper_ParkingSetupBuffer w)) in
  BIT_IS_TRUE f PREP_FLAG_HOLD_PARTIAL_BLOCK
  = BIT_IS_TRUE (recalculate_flag (prep w)) PREP_FLAG_HOLD_PARTIAL_BLOCK
  /\ BIT_IS_TRUE f PREP_FLAG_PARKING = true
  /\ BIT_IS_TRUE f PREP_FLAG_RECALCULATE = false.
Proof.
  cbv zeta. unfold Stepper_ParkingSetupBuffer. cbv zeta.
  cbn [prep set_pl_block set_prep].
  set (f0 := recalculate_flag (prep w)).
  assert (Hf : forall p : Stepper_PrepData_t,
             recalculate_flag p = f0 ->
             recalculate_flag
               (set_recalculate_flag
                  (BIT_FALSE
                     (recalculate_flag
                        (set_recalculate_flag (u8 (Z.lor (recalculate_flag p) PREP_FLAG_PARKING))
                           p)) PREP_FLAG_RECALCULATE)
                  (set_recalculate_flag (u8 (Z.lor (recalculate_flag p) PREP_FLAG_PARKING)) p))
             = BIT_FALSE (u8 (Z.lor f0 PREP_FLAG_PARKING)) PREP_FLAG_RECALCULATE).
  { intros p <-. reflexivity. }
  rewrite Hf by (destruct (BIT_IS_TRUE f0 PREP_FLAG_HOLD_PARTIAL_BLOCK); reflexivity).
  unfold BIT_FALSE, PREP_FLAG_HOLD_PARTIAL_BLOCK, PREP_FLAG_PARKING, PREP_FLAG_RECALCULATE.
  rewrite !BIT_IS_TRUE_u8 by lia. rewrite !BIT_IS_TRUE_testbit by lia.
  rewrite !Z.land_spec, !Z.lnot_spec by lia. unfold u8. change 256 with (2 ^ 8).
  rewrite !Z.mod_pow2_bits_low by lia. rewrite !Z.lor_spec.
  unfold BIT. rewrite !Z.shiftl_spec by lia.
  change (Z.testbit 1 (1 - 2)) with false. change (Z.testbit 1 (1 - 0)) with false.
  change (Z.testbit 1 (2 - 2)) with true. change (Z.testbit 1 (2 - 0)) with false.
  change (Z.testbit 1 (0 - 2)) with false. change (Z.testbit 1 (0 - 0)) with true.
  cbn [negb]. rewrite !orb_false_r, !andb_true_r, orb_true_r, andb_false_r.
  repeat split; reflexivity.
Qed.

(** X7: Parking in the middle of a block and back: [Stepper_ParkingSetupBuffer]
    flags the parking motion and saves the step data of a partially
    executed block, one flagged PREP_FLAG_HOLD_PARTIAL_BLOCK.  Whatever the
    parking motion then does to [prep], as long as it keeps the saved data
    and the flag, [Stepper_ParkingRestoreBuffer] brings the block back: the
    index of the stepper block, the steps remaining, the step time remainder
    and the steps per mm are those of before, and the block is to be
    reloaded with its profile recomputed.  Without the flag the restore only
    clears the flags. *)
Theorem parking_round_trip (w w2 : world) :
  let w1 := Stepper_ParkingSetupBuffer w in
  last_st_block_index (prep w2) = last_st_block_index (prep w1) ->
  last_steps_remaining (prep w2) = last_steps_remaining (prep w1) ->
  last_dt_remainder (prep w2) = last_dt_remainder (prep w1) ->
  last_step_per_mm (prep w2) = last_step_per_mm (prep w1) ->
  BIT_IS_TRUE (recalculate_flag (prep w2)) PREP_FLAG_HOLD_PARTIAL_BLOCK
  = BIT_IS_TRUE (recalculate_flag (prep w)) PREP_FLAG_HOLD_PARTIAL_BLOCK ->
  let w' := Stepper_ParkingRestoreBuffer w2 in
  pl_block w1 = None
  /\ BIT_IS_TRUE (recalculate_flag (prep w1)) PREP_FLAG_PARKING = true
  /\ pl_block w' = None
  /\ if BIT_IS_TRUE (recalculate_flag (prep w)) PREP_FLAG_HOLD_PARTIAL_BLOCK
     then prep_st_block_index (prep w') = prep_st_block_index (prep w)
          /\ st_prep_block w' = Some (prep_st_block_index (prep w))
          /\ steps_remaining (prep w') = steps_remaining (prep w)
          /\ dt_remainder (prep w') = dt_remainder (prep w)
          /\ step_per_mm (prep w') = step_per_mm (prep w)
          /\ req_mm_increment (prep w')
             = d2f (ddiv REQ_MM_INCREMENT_SCALAR (f2d (step_per_mm (prep w))))
          /\ recalculate_flag (prep w')
             = Z.lor PREP_FLAG_HOLD_PARTIAL_BLOCK PREP_FLAG_RECALCULATE
     else recalculate_flag (prep w') = 0
          /\ prep_st_block_index (prep w') = prep_st_block_index (prep w2)
          /\ steps_remaining (prep w') = steps_remaining (prep w2).
Proof.
  cbv zeta. intros H1 H2 H3 H4 Hf.
  destruct (parking_setup_flag w) as (_ & Hp & _). cbv zeta in Hp.
  split; [reflexivity|]. split; [exact Hp|]. split.
  { unfold Stepper_ParkingRestoreBuffer. cbv zeta.
    match goal with
    | |- context [if ?c then _ else _] => destruct c
    end; reflexivity. }
  unfold Stepper_ParkingRestoreBuffer. cbv zeta. rewrite Hf.
  destruct (BIT_IS_TRUE (recalculate_flag (prep w)) PREP_FLAG_HOLD_PARTIAL_BLOCK) eqn:Hh.
  - cbn [prep set_pl_block set_prep st_prep_block set_st_prep_block prep_st_block_index
         set_prep_st_block_index steps_remaining set_steps_remaining dt_remainder
         set_dt_remainder step_per_mm set_step_per_mm recalculate_flag set_recalculate_flag
         req_mm_increment set_req_mm_increment last_st_block_index last_steps_remaining
         last_dt_remainder last_step_per_mm].
    rewrite H1, H2, H3, H4.
    unfold Stepper_ParkingSetupBuffer. cbv zeta. rewrite Hh.
    repeat split; reflexivity.
  - repeat split; reflexivity.
Qed.

End Setup.


(** Inversion of a chain of binds that returned. *)
Ltac ok_inv H :=
  repeat match type of H with
         | bind ?e _ = Ok _ =>
             let E := fresh "E" in
             destruct e eqn:E; cbn [bind] in H; [|discriminate H]
         end.

Section StepGenerator.
Context `{cfg : Config} `{fm : FloatModel} `{ext : !Externals}.

(** ** A tick with nothing to execute *)

(** X8: With no segment loaded and the ring empty, a tick after a block has
    been executed shuts the step generator down: it stops the timer and
    puts the step pins at rest as [Stepper_Disable(0)] does, the drivers
    being disabled when the idle lock applies, switches the spindle off when
    the block was rate adjusted, and raises EXEC_CYCLE_STOP; the stepper
    data, the position and the ring are left alone. *)
Theorem Stepper_MainISR_idle (w : world) (bi : Z) (blk : Stepper_Block_t) :
  exec_segment (st w) = None ->
  segment_buffer_head w = segment_buffer_tail w ->
  exec_block (st w) = Some bi ->
  index (st_block_buffer w) bi = Ok blk ->
  exists w',
    Stepper_MainISR w = Ok w'
    /\ tim9_enabled (hw w') = false
    /\ drivers_disabled w' = idle_lock_applies w
    /\ (p_step_x (gpio (hw w')), p_step_y (gpio (hw w')), p_step_z (gpio (hw w')))
       = (step_pin_idle X_STEP_BIT w, step_pin_idle Y_STEP_BIT w, step_pin_idle Z_STEP_BIT w)
    /\ sys_rt_exec_state w' = BIT_TRUE (sys_rt_exec_state w) EXEC_CYCLE_STOP
    /\ spindle_out (hw w')
       = (if is_pwm_rate_adjusted blk =? 0 then spindle_out (hw w)
          else SPINDLE_PWM_OFF_VALUE)
    /\ st w' = st w
    /\ sys_position w' = sys_position w
    /\ segment_buffer w' = segment_buffer w
    /\ (segment_buffer_tail w', segment_buffer_head w', segment_next_head w')
       = (segment_buffer_tail w, segment_buffer_head w, segment_next_head w).
Proof.
  intros He Hr Hb Hblk. destruct (Stepper_MainISR_unfold w) as [g ->].
  rewrite He, (proj2 (Z.eqb_eq _ _) Hr). cbn [negb].
  unfold ring_empty_shutdown. cbv zeta.
  destruct (Stepper_Disable_gpio 0 (set_hw (set_gpio g (hw w)) w)) as [v Hv].
  destruct (Stepper_Disable_effect 0 (set_hw (set_gpio g (hw w)) w)) as (g' & Hg & Hd).
  rewrite Hd in Hv. rewrite Hd. clear Hd.
  cbn [hw set_hw gpio set_gpio] in Hv.
  change (idle_pins (set_hw (set_gpio g (hw w)) w)) with (idle_pins w) in Hv.
  destruct (idle_pins_levels w g) as (A & B & C & _).
  assert (Hpins : (p_step_x g', p_step_y g', p_step_z g')
                  = (step_pin_idle X_STEP_BIT w, step_pin_idle Y_STEP_BIT w,
                     step_pin_idle Z_STEP_BIT w)).
  { rewrite Hv. cbn [gpio_write p_step_x p_step_y p_step_z]. rewrite A, B, C. reflexivity. }
  clear Hv A B C.
  cbn [st set_hw st_block_buffer]. rewrite Hb. cbn [deref bind]. rewrite Hblk. cbn [bind].
  eexists. split; [reflexivity|].
  unfold System_SetExecStateFlag, Spindle_SetSpeed, drivers_disabled.
  change (idle_lock_applies (set_hw (set_gpio g (hw w)) w)) with (idle_lock_applies w) in *.
  cbn [settings set_hw] in Hg. change (0 =? 0) with true in Hg. cbn [negb orb] in Hg.
  destruct (is_pwm_rate_adjusted blk =? 0);
    cbn [negb hw set_hw set_sys_rt_exec_state tim9_enabled gpio settings spindle_out
         set_spindle_out st sys_position segment_buffer segment_buffer_tail
         segment_buffer_head segment_next_head sys_rt_exec_state];
    rewrite Hg;
    (split; [reflexivity|]);
    (split; [destruct (BIT_IS_TRUE (flags (settings w)) BITFLAG_INVERT_ST_ENABLE),
               (idle_lock_applies w); reflexivity|]);
    (split; [exact Hpins|]);
    repeat split; reflexivity.
Qed.

(** ** What a tick writes *)

(** X9: [Stepper_MainISR] is the consumer only: it never writes the stepper
    blocks, [prep], the planner, the planner block pointer, the settings,
    [sys], the invert masks, the head of the ring or the slot after it; the
    ring keeps its length and changes at most in the slot at the tail, and
    not at all while a segment is loaded. *)
Theorem Stepper_MainISR_writes (w w' : world) :
  Stepper_MainISR w = Ok w' ->
  st_block_buffer w' = st_block_buffer w
  /\ prep w' = prep w
  /\ pl_block w' = pl_block w
  /\ st_prep_block w' = st_prep_block w
  /\ planner w' = planner w
  /\ pl_mem w' = pl_mem w
  /\ settings w' = settings w
  /\ sys w' = sys w
  /\ (step_port_invert_mask w', dir_port_invert_mask w')
     = (step_port_invert_mask w, dir_port_invert_mask w)
  /\ (segment_buffer_head w', segment_next_head w')
     = (segment_buffer_head w, segment_next_head w)
  /\ length (segment_buffer w') = length (segment_buffer w)
  /\ (forall i, i <> Z.to_nat (segment_buffer_tail w) ->
        segment_buffer w' !! i = segment_buffer w !! i)
  /\ (exec_segment (st w) <> None -> segment_buffer w' = segment_buffer w).
Proof.
  intros H. destruct (Stepper_MainISR_unfold w) as [g Hu]. rewrite Hu in H. clear Hu.
  destruct (exec_segment (st w)) as [si|] eqn:He.
  - apply execute_tick_frame in H as (s & p & t & pr & ex & -> & _).
    repeat split; reflexivity.
  - destruct (negb (segment_buffer_head w =? segment_buffer_tail w)).
    + destruct (load_segment (set_hw (set_gpio g (hw w)) w)) as [w1|] eqn:E; [|discriminate].
      cbn [bind] in H.
      destruct (load_segment_effect _ _ E) as (seg & blk & bi & h & _ & _ & _ & _ & _ & ->).
      apply execute_tick_frame in H as (s & p & t & pr & ex & -> & _).
      cbn [st_block_buffer prep pl_block st_prep_block planner pl_mem settings sys
           step_port_invert_mask dir_port_invert_mask segment_buffer_head segment_next_head
           segment_buffer segment_buffer_tail set_segment_buffer_tail set_sys_position
           set_st set_sys_rt_exec_state set_probe set_hw set_segment_buffer].
      split; [reflexivity|]. split; [reflexivity|]. split; [reflexivity|].
      split; [reflexivity|]. split; [reflexivity|]. split; [reflexivity|].
      split; [reflexivity|]. split; [reflexivity|]. split; [reflexivity|].
      split; [reflexivity|]. split; [apply length_insert|].
      split; [|congruence].
      intros i Hi. apply list_lookup_insert_ne. congruence.
    + apply ring_empty_shutdown_effect in H as (h & ex & ->).
      repeat split; reflexivity.
Qed.

(** ** The ticks of a segment *)

Lemma execute_tick_count w w' :
  execute_tick w = Ok w' ->
  step_count (st w') = u16 (step_count (st w) - 1)
  /\ (if u16 (step_count (st w) - 1) =? 0
      then exec_segment (st w') = None
           /\ segment_buffer_tail w' = next_tail (segment_buffer_tail w)
      else exec_segment (st w') = exec_segment (st w)
           /\ segment_buffer_tail w' = segment_buffer_tail w)
  /\ segment_buffer w' = segment_buffer w
  /\ (segment_buffer_head w', st_block_buffer w')
     = (segment_buffer_head w, st_block_buffer w).
Proof.
  unfold execute_tick. cbv zeta.
  destruct (probe_monitor_effect w) as (pr & ex & ->).
  intros H. ok_inv H. injection H as <-.
  apply bresenham_frame in E as (s & p & -> & X1 & X2).
  cbn [st set_sys_rt_exec_state set_probe] in X1, X2.
  unfold finish_tick, homing_lock, next_tail. cbv zeta.
  change (sys (set_sys_position p (set_st s (set_sys_rt_exec_state ex (set_probe pr w)))))
    with (sys w).
  destruct (sys_state (sys w) =? STATE_HOMING);
    cbn [sys set_sys_position set_st st step_count set_step_count set_step_outbits
         segment_buffer_tail set_sys_rt_exec_state set_probe];
    rewrite X2;
    destruct (u16 (step_count (st w) - 1) =? 0);
    cbn [st set_st set_segment_buffer_tail set_sys_position exec_segment set_exec_segment
         set_step_count set_step_outbits step_count segment_buffer_tail segment_buffer
         segment_buffer_head st_block_buffer set_sys_rt_exec_state set_probe];
    repeat split; try reflexivity; exact X1.
Qed.

(** A tick of a loaded segment whose block and slot are there returns, and
    leaves both where they are. *)
Lemma execute_tick_returns w blk seg :
  current_block w = Ok blk ->
  current_segment w = Ok seg ->
  exists w',
    execute_tick w = Ok w'
    /\ current_block w' = Ok blk
    /\ (exec_segment (st w') <> None -> current_segment w' = Ok seg).
Proof.
  intros Hb Hs. destruct (execute_tick_effect w blk seg Hb Hs) as (pr & ex & ->).
  eexists. split; [reflexivity|].
  destruct (tick_pure_fields blk (backlash_motion seg) (sys_state (sys w) =? STATE_HOMING)
              (homing_axis_lock (sys w)) (st w) (sys_position w) (segment_buffer_tail w))
    as (FB & _ & FS).
  unfold current_block, current_segment, with_tick, with_isr_state in *.
  cbn [st set_segment_buffer_tail set_sys_position set_st st_block_buffer segment_buffer
       set_sys_rt_exec_state set_probe].
  rewrite FB. split; [exact Hb|].
  intros Hne. destruct FS as [FS|FS]; [contradiction|]. rewrite FS. exact Hs.
Qed.

Lemma load_segment_returns w seg blk :
  index (segment_buffer w) (segment_buffer_tail w) = Ok seg ->
  index (st_block_buffer w) (st_block_index seg) = Ok blk ->
  (exec_block_index (st w) = st_block_index seg ->
   exec_block (st w) = Some (st_block_index seg)) ->
  exists w', load_segment w = Ok w'.
Proof.
  intros Hs Hb Hp. rewrite (load_segment_unfold w seg Hs).
  destruct (limit_step_rate_fields seg) as (_ & Fi & _).
  unfold select_block. rewrite start_segment_eq.
  cbn [st set_hw set_st exec_block_index set_step_count set_exec_segment]. rewrite Fi.
  destruct (Z.eqb_spec (exec_block_index (st w)) (st_block_index seg)) as [e|e];
    cbn [negb].
  - cbn [bind]. unfold apply_block.
    cbn [st set_hw set_st exec_block set_step_count set_exec_segment st_block_buffer
         set_segment_buffer].
    rewrite (Hp e). cbn [deref bind]. rewrite Hb. cbn [bind]. eexists. reflexivity.
  - cbv zeta.
    cbn [st set_hw set_st exec_block_index set_exec_block_index set_exec_block
         set_step_count set_exec_segment st_block_buffer set_segment_buffer].
    rewrite Hb. cbn [bind]. unfold apply_block.
    cbn [st set_hw set_st exec_block set_exec_block set_counter_x set_counter_y
         set_counter_z set_step_count set_exec_segment st_block_buffer set_segment_buffer
         set_exec_block_index].
    cbn [deref bind]. rewrite Hb. cbn [bind]. eexists. reflexivity.
Qed.

(** Ticks of the step timer in a row. *)
Fixpoint isr_ticks (n : nat) (w : world) : result world :=
  match n with
  | O => Ok w
  | S n => w <-- Stepper_MainISR w;; isr_ticks n w
  end.

Lemma loaded_segment_ticks (n : nat) :
  forall w si blk seg,
    exec_segment (st w) = Some si ->
    current_block w = Ok blk ->
    current_segment w = Ok seg ->
    (1 <= n)%nat ->
    Z.of_nat n <= step_count (st w) <= 65535 ->
    exists w',
      isr_ticks n w = Ok w'
      /\ step_count (st w') = step_count (st w) - Z.of_nat n
      /\ segment_buffer_head w' = segment_buffer_head w
      /\ (if step_count (st w) =? Z.of_nat n
          then exec_segment (st w') = None
               /\ segment_buffer_tail w' = next_tail (segment_buffer_tail w)
          else exec_segment (st w') = Some si
               /\ segment_buffer_tail w' = segment_buffer_tail w).
Proof.
  induction n as [|n IH]; intros w si blk seg He Hb Hs Hn Hc; [lia|].
  cbn [isr_ticks].
  destruct (Stepper_MainISR_unfold w) as [g Hu]. rewrite Hu, He. clear Hu.
  destruct (execute_tick_returns (set_hw (set_gpio g (hw w)) w) blk seg Hb Hs)
    as (w1 & E & Hb1 & Hs1).
  rewrite E. cbn [bind].
  apply execute_tick_count in E as (C & X & _ & Hh).
  cbn [st set_hw segment_buffer_tail segment_buffer_head st_block_buffer] in C, X, Hh.
  injection Hh as Hh _.
  unfold u16 in C, X. rewrite Z.mod_small in C, X by lia.
  destruct n as [|n].
  - cbn [isr_ticks]. exists w1. split; [reflexivity|].
    change (Z.of_nat 1) with 1 in *.
    destruct (Z.eqb_spec (step_count (st w)) 1) as [E1|E1].
    + rewrite E1 in X. change (1 - 1 =? 0) with true in X. cbv iota in X.
      split; [lia|]. split; [exact Hh|]. exact X.
    + destruct (Z.eqb_spec (step_count (st w) - 1) 0); [lia|].
      split; [lia|]. split; [exact Hh|]. destruct X as [X1 X2]. split; congruence.
  - destruct (Z.eqb_spec (step_count (st w) - 1) 0) as [|Hne]; [lia|].
    destruct X as [X1 X2].
    destruct (IH w1 si blk seg) as (w' & H & C' & Hh' & X');
      [congruence|exact Hb1|apply Hs1; congruence|lia|lia|].
    exists w'. split; [exact H|].
    rewrite C in C', X'. rewrite X2 in X'.
    split; [lia|]. split; [congruence|].
    replace (step_count (st w) - 1 =? Z.of_nat (S n))
      with (step_count (st w) =? Z.of_nat (S (S n))) in X'; [exact X'|].
    destruct (Z.eqb_spec (step_count (st w)) (Z.of_nat (S (S n)))),
      (Z.eqb_spec (step_count (st w) - 1) (Z.of_nat (S n))); lia || reflexivity.
Qed.

(** The number of ticks a segment is executed for: its [n_step], and
    65536 when that is 0, the step count of the step generator wrapping
    around in 16 bits. *)
Definition segment_ticks (seg : Stepper_Segment_t) : Z :=
  if n_step seg =? 0 then 65536 else n_step seg.

(** X10: A segment at the tail of the ring whose stepper block is there is
    executed for [segment_ticks] ticks, 65536 of them when it has no step:
    the first tick loads it, up to the last it stays loaded with the tail in
    place, and the last releases it and moves the tail to the next slot.
    The head is not touched. *)
Theorem segment_lifetime (w : world) (seg : Stepper_Segment_t) (blk : Stepper_Block_t)
    (k : nat) :
  exec_segment (st w) = None ->
  segment_buffer_head w <> segment_buffer_tail w ->
  index (segment_buffer w) (segment_buffer_tail w) = Ok seg ->
  index (st_block_buffer w) (st_block_index seg) = Ok blk ->
  (exec_block_index (st w) = st_block_index seg ->
   exec_block (st w) = Some (st_block_index seg)) ->
  0 <= n_step seg <= 65535 ->
  (1 <= k)%nat ->
  Z.of_nat k <= segment_ticks seg ->
  exists wk,
    isr_ticks k w = Ok wk
    /\ segment_buffer_head wk = segment_buffer_head w
    /\ (if Z.of_nat k =? segment_ticks seg
        then exec_segment (st wk) = None
             /\ segment_buffer_tail wk = next_tail (segment_buffer_tail w)
        else exec_segment (st wk) = Some (segment_buffer_tail w)
             /\ segment_buffer_tail wk = segment_buffer_tail w
             /\ step_count (st wk) = segment_ticks seg - Z.of_nat k).
Proof.
  intros He Hne Hseg Hblk Hptr Hn Hk Hle.
  destruct k as [|k]; [lia|]. cbn [isr_ticks].
  destruct (Stepper_MainISR_unfold w) as [g Hu]. rewrite Hu, He. clear Hu.
  rewrite (proj2 (Z.eqb_neq _ _) Hne). cbn [negb].
  destruct (load_segment_returns (set_hw (set_gpio g (hw w)) w) seg blk Hseg Hblk Hptr)
    as [w0 EL].
  rewrite EL. cbn [bind].
  destruct (load_segment_effect _ _ EL)
    as (seg' & blk' & bi & h & Ht & Hs & Hbi & Hblk' & _ & ->).
  cbn [segment_buffer set_hw segment_buffer_tail st st_block_buffer dir_port_invert_mask]
    in Hs, Ht, Hbi, Hblk'.
  pose proof (proj2 (proj1 (index_Ok _ _ _) Hseg)) as Hs'.
  assert (seg' = seg) as -> by congruence. clear Hs'.
  pose proof (lookup_lt_Some _ _ _ Hs) as Hlen.
  match goal with
  | |- context [execute_tick ?x] =>
      destruct (execute_tick_returns x blk' (limit_step_rate seg)) as (w1 & E & Hb1 & Hs1)
  end.
  { unfold current_block.
    cbn [st set_hw set_st st_block_buffer set_segment_buffer segment_buffer_tail
         dir_port_invert_mask].
    rewrite Hbi. exact Hblk'. }
  { apply current_segment_load; [exact Ht|exact Hlen|reflexivity]. }
  rewrite E. cbn [bind].
  apply execute_tick_count in E as (C & X & _ & Hh).
  cbn [st set_hw set_st segment_buffer_tail set_segment_buffer step_count load_pure
       exec_segment segment_buffer_head] in C, X, Hh.
  injection Hh as Hh _.
  unfold segment_ticks in *.
  destruct (Z.eqb_spec (n_step seg) 0) as [Hz|Hz].
  - (* a segment without a step *)
    rewrite Hz in C, X. change (u16 (0 - 1)) with 65535 in C, X.
    change (65535 =? 0) with false in X. cbv iota in X. destruct X as [X1 X2].
    destruct k as [|k].
    + cbn [isr_ticks]. exists w1. split; [reflexivity|].
      change (Z.of_nat 1 =? 65536) with false.
      cbv iota. split; [exact Hh|]. split; [exact X1|]. split; [exact X2|].
      rewrite C. reflexivity.
    + destruct (loaded_segment_ticks (S k) w1 (segment_buffer_tail w) blk'
                  (limit_step_rate seg))
        as (wk & H & C' & Hh' & X'); [exact X1|exact Hb1|apply Hs1; congruence|lia|lia|].
      exists wk. split; [exact H|].
      rewrite C in C', X'. rewrite X2 in X'. split; [congruence|].
      destruct (Z.eqb_spec 65535 (Z.of_nat (S k))) as [E1|E1],
        (Z.eqb_spec (Z.of_nat (S (S k))) 65536) as [E2|E2]; try lia.
      * exact X'.
      * destruct X' as [A B]. split; [exact A|]. split; [exact B|]. lia.
  - unfold u16 in C, X. rewrite Z.mod_small in C, X by lia.
    destruct k as [|k].
    + cbn [isr_ticks]. exists w1. split; [reflexivity|]. change (Z.of_nat 1) with 1 in *.
      split; [exact Hh|].
      destruct (Z.eqb_spec 1 (n_step seg)) as [E1|E1],
        (Z.eqb_spec (n_step seg - 1) 0) as [E2|E2]; try lia.
      * exact X.
      * destruct X as [A B]. split; [exact A|]. split; [exact B|]. lia.
    + destruct (Z.eqb_spec (n_step seg - 1) 0) as [E2|E2]; [lia|]. destruct X as [X1 X2].
      destruct (loaded_segment_ticks (S k) w1 (segment_buffer_tail w) blk'
                  (limit_step_rate seg))
        as (wk & H & C' & Hh' & X'); [exact X1|exact Hb1|apply Hs1; congruence|lia|lia|].
      exists wk. split; [exact H|].
      rewrite C in C', X'. rewrite X2 in X'. split; [congruence|].
      destruct (Z.eqb_spec (n_step seg - 1) (Z.of_nat (S k))) as [E1|E1],
        (Z.eqb_spec (Z.of_nat (S (S k))) (n_step seg)) as [E3|E3]; try lia.
      * exact X'.
      * destruct X' as [A B]. split; [exact A|]. split; [exact B|]. lia.
Qed.

(** ** Homing *)

(** X11: During homing a tick masks the step bits with [sys.homing_axis_lock]:
    the step bit of an axis is left set only when the tracer stepped the
    axis and the lock has the bit; the counter of a locked-out axis is
    advanced all the same. *)
Theorem homing_tick (w : world) (blk : Stepper_Block_t) (seg : Stepper_Segment_t) :
  step_bits_ok ->
  sys_state (sys w) = STATE_HOMING ->
  exec_segment (st w) <> None ->
  current_block w = Ok blk ->
  current_segment w = Ok seg ->
  exists w',
    Stepper_MainISR w = Ok w'
    /\ forall a,
         let c := u32 (counter a (st w) + get_axis a (st_steps (st w))) in
         let stepped := step_event_count blk <? c in
         Z.testbit (step_outbits (st w')) (step_bit a)
         = stepped && Z.testbit (homing_axis_lock (sys w)) (step_bit a)
         /\ counter a (st w') = (if stepped then u32 (c - step_event_count blk) else c).
Proof.
  intros Hbits Hh He Hb Hs.
  destruct (Stepper_MainISR_exec w blk seg He Hb Hs) as (g & pr & ex & ->).
  eexists. split; [reflexivity|]. intros a. cbv zeta.
  unfold with_tick, with_isr_state.
  cbn [st set_segment_buffer_tail set_sys_position set_st].
  rewrite Hh, Z.eqb_refl.
  destruct (tick_pure_axis blk (backlash_motion seg) true (homing_axis_lock (sys w))
              (st w) (sys_position w) (segment_buffer_tail w) a) as (C & _).
  split; [|exact C].
  unfold tick_pure. cbv zeta. cbn [fst snd].
  destruct (finish_pure_fields true (homing_axis_lock (sys w))
              (fst (bresenham_pure blk (backlash_motion seg) (st w, sys_position w)))
              (segment_buffer_tail w)) as (_ & _ & _ & _ & FO & _).
  rewrite FO, Z.land_spec.
  destruct (bresenham_pure_axis blk (backlash_motion seg) (st w) (sys_position w) a)
    as (_ & _ & B & _).
  rewrite (B Hbits). reflexivity.
Qed.

End StepGenerator.


Section Outputs.
Context `{cfg : Config} `{fm : FloatModel} `{ext : !Externals}.

(** ** Step pulses *)

(** The level of a step pin after the rising edge of a tick: the active
    level when the bit of the pin is set in [st.step_outbits], the level it
    had otherwise. *)
Definition pulse_level (bit : Z) (old : bool) (w : world) : bool :=
  if BIT_IS_TRUE (step_outbits (st w)) (BIT bit) then negb (step_pin_idle bit w) else old.

Definition pulse_write (bit : Z) (p : pin) (w : world) (g : gpio_t) : gpio_t :=
  if BIT_IS_TRUE (step_outbits (st w)) (BIT bit)
  then gpio_write p (negb (step_pin_idle bit w)) g else g.

Definition pulsed_pins (w : world) (g : gpio_t) : gpio_t :=
  let g := pulse_write X_STEP_BIT STEP_X w g in
  let g := if DUAL_X_AXIS then pulse_write X2_STEP_BIT STEP_X2 w g else g in
  let g := pulse_write Y_STEP_BIT STEP_Y w g in
  let g := if DUAL_Y_AXIS then pulse_write Y2_STEP_BIT STEP_Y2 w g else g in
  pulse_write Z_STEP_BIT STEP_Z w g.

Lemma set_hw_hw (w : world) : set_hw (hw w) w = w.
Proof. destruct w; reflexivity. Qed.

Lemma set_gpio_gpio (h : hardware) : set_gpio (gpio h) h = h.
Proof. destruct h; reflexivity. Qed.

Lemma pulse_pin_set_hw bit p h (w : world) :
  pulse_pin bit p (set_hw h w) = set_hw (set_gpio (pulse_write bit p w (gpio h)) h) w.
Proof.
  unfold pulse_pin, pulse_write. cbn [st set_hw step_port_invert_mask].
  destruct (BIT_IS_TRUE (step_outbits (st w)) (BIT bit)).
  - rewrite GPIO_Write_eq. reflexivity.
  - rewrite set_gpio_gpio. reflexivity.
Qed.

Lemma pulse_pins_eq (w : world) :
  pulse_pins w = set_hw (set_gpio (pulsed_pins w (gpio (hw w))) (hw w)) w.
Proof.
  rewrite <- (set_hw_hw w) at 1. unfold pulse_pins, pulsed_pins. cbv zeta.
  rewrite pulse_pin_set_hw.
  destruct DUAL_X_AXIS, DUAL_Y_AXIS; rewrite !pulse_pin_set_hw; reflexivity.
Qed.

Lemma pulsed_pins_levels (w : world) (g : gpio_t) :
  p_step_x (pulsed_pins w g) = pulse_level X_STEP_BIT (p_step_x g) w
  /\ p_step_y (pulsed_pins w g) = pulse_level Y_STEP_BIT (p_step_y g) w
  /\ p_step_z (pulsed_pins w g) = pulse_level Z_STEP_BIT (p_step_z g) w
  /\ p_step_x2 (pulsed_pins w g)
     = (if DUAL_X_AXIS then pulse_level X2_STEP_BIT (p_step_x2 g) w else p_step_x2 g)
  /\ p_step_y2 (pulsed_pins w g)
     = (if DUAL_Y_AXIS then pulse_level Y2_STEP_BIT (p_step_y2 g) w else p_step_y2 g)
  /\ p_enable (pulsed_pins w g) = p_enable g
  /\ (p_dir_x (pulsed_pins w g), p_dir_x2 (pulsed_pins w g), p_dir_y (pulsed_pins w g),
      p_dir_y2 (pulsed_pins w g), p_dir_z (pulsed_pins w g))
     = (p_dir_x g, p_dir_x2 g, p_dir_y g, p_dir_y2 g, p_dir_z g).
Proof.
  unfold pulsed_pins, pulse_write, pulse_level. cbv zeta.
  destruct DUAL_X_AXIS, DUAL_Y_AXIS,
    (BIT_IS_TRUE (step_outbits (st w)) (BIT X_STEP_BIT)),
    (BIT_IS_TRUE (step_outbits (st w)) (BIT Y_STEP_BIT)),
    (BIT_IS_TRUE (step_outbits (st w)) (BIT Z_STEP_BIT));
    try destruct (BIT_IS_TRUE (step_outbits (st w)) (BIT X2_STEP_BIT));
    try destruct (BIT_IS_TRUE (step_outbits (st w)) (BIT Y2_STEP_BIT));
    repeat split; reflexivity.
Qed.

(** ** Direction pins *)

(** The pins with the direction pins following the direction bits [d]. *)
Definition dir_levels (d : Z) (g : gpio_t) : gpio_t :=
  let g := gpio_write DIR_X (BIT_IS_TRUE d (BIT X_DIRECTION_BIT)) g in
  let g :=
    if DUAL_X_AXIS
    then gpio_write DIR_X2 (xorb INVERT_DUAL_X_AXIS (BIT_IS_TRUE d (BIT X2_DIRECTION_BIT))) g
    else g in
  let g := gpio_write DIR_Y (BIT_IS_TRUE d (BIT Y_DIRECTION_BIT)) g in
  let g :=
    if DUAL_Y_AXIS
    then gpio_write DIR_Y2 (xorb INVERT_DUAL_Y_AXIS (BIT_IS_TRUE d (BIT Y2_DIRECTION_BIT))) g
    else g in
  gpio_write DIR_Z (BIT_IS_TRUE d (BIT Z_DIRECTION_BIT)) g.

Lemma GPIO_Write_set_hw p v h (w : world) :
  GPIO_Write p v (set_hw h w) = set_hw (set_gpio (gpio_write p v (gpio h)) h) w.
Proof. destruct v; reflexivity. Qed.

Lemma dir_pins_eq (w : world) :
  dir_pins w = set_hw (set_gpio (dir_levels (dir_outbits (st w)) (gpio (hw w))) (hw w)) w.
Proof.
  unfold dir_pins, dir_levels. cbv zeta. rewrite (GPIO_Write_eq DIR_X).
  destruct DUAL_X_AXIS, DUAL_Y_AXIS; rewrite !GPIO_Write_set_hw; reflexivity.
Qed.

Lemma dir_levels_levels (d : Z) (g : gpio_t) :
  p_dir_x (dir_levels d g) = BIT_IS_TRUE d (BIT X_DIRECTION_BIT)
  /\ p_dir_y (dir_levels d g) = BIT_IS_TRUE d (BIT Y_DIRECTION_BIT)
  /\ p_dir_z (dir_levels d g) = BIT_IS_TRUE d (BIT Z_DIRECTION_BIT)
  /\ p_dir_x2 (dir_levels d g)
     = (if DUAL_X_AXIS
        then xorb INVERT_DUAL_X_AXIS (BIT_IS_TRUE d (BIT X2_DIRECTION_BIT))
        else p_dir_x2 g)
  /\ p_dir_y2 (dir_levels d g)
     = (if DUAL_Y_AXIS
        then xorb INVERT_DUAL_Y_AXIS (BIT_IS_TRUE d (BIT Y2_DIRECTION_BIT))
        else p_dir_y2 g)
  /\ p_enable (dir_levels d g) = p_enable g
  /\ (p_step_x (dir_levels d g), p_step_x2 (dir_levels d g), p_step_y (dir_levels d g),
      p_step_y2 (dir_levels d g), p_step_z (dir_levels d g))
     = (p_step_x g, p_step_x2 g, p_step_y g, p_step_y2 g, p_step_z g).
Proof.
  unfold dir_levels. cbv zeta. destruct DUAL_X_AXIS, DUAL_Y_AXIS; repeat split; reflexivity.
Qed.

Lemma dir_levels_step_pins (d : Z) (g : gpio_t) :
  p_step_x (dir_levels d g) = p_step_x g
  /\ p_step_x2 (dir_levels d g) = p_step_x2 g
  /\ p_step_y (dir_levels d g) = p_step_y g
  /\ p_step_y2 (dir_levels d g) = p_step_y2 g
  /\ p_step_z (dir_levels d g) = p_step_z g.
Proof.
  unfold dir_levels. cbv zeta. destruct DUAL_X_AXIS, DUAL_Y_AXIS; repeat split; reflexivity.
Qed.

Lemma pulsed_pins_second_dir (w : world) (g : gpio_t) :
  p_dir_x2 (pulsed_pins w g) = p_dir_x2 g /\ p_dir_y2 (pulsed_pins w g) = p_dir_y2 g.
Proof.
  destruct (pulsed_pins_levels w g) as (_ & _ & _ & _ & _ & _ & G).
  split; congruence.
Qed.

(** ** The tick that loads a segment *)

Lemma apply_block_outputs seg (w w' : world) :
  apply_block seg w = Ok w' ->
  exists blk,
    current_block w = Ok blk
    /\ current_block w' = Ok blk
    /\ exec_segment (st w') = exec_segment (st w)
    /\ segment_buffer w' = segment_buffer w
    /\ dir_outbits (st w') = u8 (Z.lxor (direction_bits blk) (dir_port_invert_mask w))
    /\ hw w' = set_spindle_out (spindle_pwm seg)
                 (set_gpio (dir_levels (dir_outbits (st w')) (gpio (hw w))) (hw w)).
Proof.
  unfold apply_block, current_block.
  destruct (exec_block (st w)) as [bi|] eqn:Eb; [|discriminate]. cbn [deref bind].
  destruct (index (st_block_buffer w) bi) as [blk|] eqn:Ei; [|discriminate].
  cbn [bind]. cbv zeta. rewrite dir_pins_eq. unfold Spindle_SetSpeed.
  intros [= <-]. exists blk.
  cbn [st set_hw set_st exec_block set_st_steps set_dir_outbits st_block_buffer hw
       dir_outbits exec_segment segment_buffer gpio set_gpio].
  rewrite Eb. cbn [deref bind]. rewrite Ei.
  repeat split; reflexivity.
Qed.

Lemma load_segment_outputs (w w' : world) :
  load_segment w = Ok w' ->
  exists seg blk,
    index (segment_buffer w) (segment_buffer_tail w) = Ok seg
    /\ current_block w' = Ok blk
    /\ current_segment w' = Ok (limit_step_rate seg)
    /\ dir_outbits (st w') = u8 (Z.lxor (direction_bits blk) (dir_port_invert_mask w))
    /\ hw w'
       = set_spindle_out (spindle_pwm seg)
           (set_gpio (dir_levels (dir_outbits (st w')) (gpio (hw w)))
              (set_tim9_ccr1 (u16 (3 * cycles_per_tick (limit_step_rate seg) / 4))
                 (set_tim9_arr (cycles_per_tick (limit_step_rate seg)) (hw w)))).
Proof.
  intros H.
  destruct (index (segment_buffer w) (segment_buffer_tail w)) as [seg|] eqn:E.
  2:{ unfold load_segment in H. rewrite E in H. discriminate. }
  rewrite (load_segment_unfold w seg E) in H.
  pose proof (proj1 (index_Ok _ _ _) E) as [Ht Hseg].
  pose proof (lookup_lt_Some _ _ _ Hseg) as Hlen.
  destruct (limit_step_rate_fields seg) as (_ & _ & _ & Fp & _).
  rewrite start_segment_eq in H.
  match type of H with
  | bind (select_block _ ?x) _ = _ => set (w0 := x) in *
  end.
  destruct (select_block (limit_step_rate seg) w0) as [w1|] eqn:E1; [|discriminate].
  cbn [bind] in H.
  destruct (apply_block_outputs _ _ _ H) as (blk & _ & Hb & He & Hbuf & Hd & Hh).
  assert (F : hw w1 = hw w0 /\ dir_port_invert_mask w1 = dir_port_invert_mask w0
              /\ exec_segment (st w1) = exec_segment (st w0)
              /\ segment_buffer w1 = segment_buffer w0).
  { destruct (select_block_effect _ _ _ E1) as (blk1 & Hw1).
    destruct (negb (exec_block_index (st w0) =? st_block_index (limit_step_rate seg))).
    - destruct Hw1 as [_ ->]. repeat split; reflexivity.
    - subst w1. repeat split; reflexivity. }
  destruct F as (F1 & F2 & F3 & F4).
  exists seg, blk. split; [reflexivity|]. split; [exact Hb|].
  split.
  { unfold current_segment. rewrite He, F3, Hbuf, F4. subst w0.
    cbn [st set_hw set_st exec_segment set_step_count set_exec_segment segment_buffer
         set_segment_buffer deref bind].
    apply index_Ok. split; [exact Ht|]. apply list_lookup_insert_eq. exact Hlen. }
  split; [rewrite Hd, F2; reflexivity|].
  rewrite Hh, F1, Fp. reflexivity.
Qed.

Lemma trace_pure_dir a E d bk sp :
  dir_outbits (fst (trace_pure a E d bk sp)) = dir_outbits (fst sp).
Proof.
  unfold trace_pure. destruct (bresenham_axis _ _ _) as [c []]; destruct a; reflexivity.
Qed.

Lemma finish_pure_dir homing lock s tail :
  dir_outbits (fst (finish_pure homing lock s tail)) = dir_outbits s.
Proof.
  unfold finish_pure. cbv zeta.
  destruct homing; cbn [step_count set_step_count set_step_outbits];
    destruct (u16 (step_count s - 1) =? 0); reflexivity.
Qed.

Lemma tick_pure_dir blk bk homing lock s p tail :
  dir_outbits (fst (fst (tick_pure blk bk homing lock s p tail))) = dir_outbits s.
Proof.
  unfold tick_pure. cbv zeta. cbn [fst snd]. rewrite finish_pure_dir.
  unfold bresenham_pure. cbv zeta. rewrite !trace_pure_dir. reflexivity.
Qed.

(** What a tick leaves of the outputs it finds after the rising edge. *)
Lemma execute_tick_outputs (w w' : world) blk seg :
  current_block w = Ok blk ->
  current_segment w = Ok seg ->
  execute_tick w = Ok w' ->
  hw w' = hw w /\ dir_outbits (st w') = dir_outbits (st w) /\ current_block w' = Ok blk.
Proof.
  intros Hb Hs H. destruct (execute_tick_returns w blk seg Hb Hs) as (w1 & E & Hb1 & _).
  assert (w1 = w') as -> by congruence. clear H.
  destruct (execute_tick_effect w blk seg Hb Hs) as (pr & ex & Hx).
  rewrite Hx in E. injection E as <-.
  split; [reflexivity|]. split; [|exact Hb1].
  unfold with_tick, with_isr_state. cbn [st set_segment_buffer_tail set_sys_position set_st].
  apply tick_pure_dir.
Qed.

(** X12: The tick that loads a segment programs the outputs before it steps.
    The block of the segment is the stepper block at the block index of the
    segment, or the block already executing when the index is the one
    executed before.  The timer period is the floored period of the segment
    and the compare value three quarters of it, the spindle output is the
    PWM value of the segment, [st.dir_outbits] is the direction bits of the
    block xored with the direction invert mask, and every direction pin is
    at the level of its bit, the pin of a second motor inverted when the
    configuration says so. *)
Theorem Stepper_MainISR_load_outputs (w w' : world) :
  exec_segment (st w) = None ->
  segment_buffer_head w <> segment_buffer_tail w ->
  Stepper_MainISR w = Ok w' ->
  exists seg bi blk,
    index (segment_buffer w) (segment_buffer_tail w) = Ok seg
    /\ (if exec_block_index (st w) =? st_block_index seg
        then exec_block (st w) else Some (st_block_index seg)) = Some bi
    /\ index (st_block_buffer w) bi = Ok blk
    /\ tim9_arr (hw w') = cycles_per_tick (limit_step_rate seg)
    /\ tim9_ccr1 (hw w') = u16 (3 * cycles_per_tick (limit_step_rate seg) / 4)
    /\ spindle_out (hw w') = spindle_pwm seg
    /\ dir_outbits (st w') = u8 (Z.lxor (direction_bits blk) (dir_port_invert_mask w))
    /\ let d := dir_outbits (st w') in
       let g' := gpio (hw w') in
       p_dir_x g' = BIT_IS_TRUE d (BIT X_DIRECTION_BIT)
       /\ p_dir_y g' = BIT_IS_TRUE d (BIT Y_DIRECTION_BIT)
       /\ p_dir_z g' = BIT_IS_TRUE d (BIT Z_DIRECTION_BIT)
       /\ p_dir_x2 g'
          = (if DUAL_X_AXIS
             then xorb INVERT_DUAL_X_AXIS (BIT_IS_TRUE d (BIT X2_DIRECTION_BIT))
             else p_dir_x2 (gpio (hw w)))
       /\ p_dir_y2 g'
          = (if DUAL_Y_AXIS
             then xorb INVERT_DUAL_Y_AXIS (BIT_IS_TRUE d (BIT Y2_DIRECTION_BIT))
             else p_dir_y2 (gpio (hw w))).
Proof.
  intros He Hne H. unfold Stepper_MainISR in H. cbv zeta in H.
  rewrite pulse_pins_eq in H. cbn [st set_hw segment_buffer_head segment_buffer_tail] in H.
  rewrite He, (proj2 (Z.eqb_neq _ _) Hne) in H. cbn [negb] in H.
  ok_inv H.
  destruct (load_segment_outputs _ _ E) as (seg & blk & Hseg & Hb & Hs & Hd & Hh).
  destruct (execute_tick_outputs _ _ _ _ Hb Hs H) as (Hh' & Hd' & _).
  destruct (load_segment_effect _ _ E)
    as (seg' & blk' & bi & h & _ & Hs' & Hbi & Hblk' & _ & Hw).
  cbn [segment_buffer segment_buffer_tail set_hw dir_port_invert_mask hw gpio set_gpio st
       st_block_buffer] in Hseg, Hd, Hh, Hs', Hbi, Hblk', Hw.
  assert (seg' = seg) as ->
    by (pose proof (proj2 (proj1 (index_Ok _ _ _) Hseg)); congruence).
  assert (blk' = blk) as ->.
  { unfold current_block in Hb. rewrite Hw in Hb.
    cbn [st set_hw set_st st_block_buffer set_segment_buffer] in Hb.
    rewrite Hbi in Hb. cbn [deref bind] in Hb. congruence. }
  exists seg, bi, blk. split; [exact Hseg|].
  split.
  { unfold load_pure in Hbi. cbn [exec_block] in Hbi.
    destruct (exec_block_index (st w) =? st_block_index seg); exact Hbi. }
  split; [exact Hblk'|].
  rewrite Hh', Hd', Hh.
  cbn [tim9_arr tim9_ccr1 spindle_out gpio set_spindle_out set_gpio set_tim9_ccr1
       set_tim9_arr].
  split; [reflexivity|]. split; [reflexivity|]. split; [reflexivity|]. split; [exact Hd|].
  cbv zeta.
  destruct (dir_levels_levels (dir_outbits (st a)) (pulsed_pins w (gpio (hw w))))
    as (A & B & C & D & F & _).
  destruct (pulsed_pins_second_dir w (gpio (hw w))) as (G2 & G4).
  split; [exact A|]. split; [exact B|]. split; [exact C|].
  split; [rewrite D, G2; reflexivity|]. rewrite F, G4. reflexivity.
Qed.

(** X13: A tick that has something to execute begins with the rising edge of
    the step pulses: the step pin of every bit set in [st.step_outbits],
    the bits of the previous tick, goes to the opposite of its idle level,
    the other step pins and the enable pin stay as they are. *)
Theorem step_pulse (w w' : world) :
  exec_segment (st w) <> None \/ segment_buffer_head w <> segment_buffer_tail w ->
  Stepper_MainISR w = Ok w' ->
  let g := gpio (hw w) in
  let g' := gpio (hw w') in
  p_step_x g' = pulse_level X_STEP_BIT (p_step_x g) w
  /\ p_step_y g' = pulse_level Y_STEP_BIT (p_step_y g) w
  /\ p_step_z g' = pulse_level Z_STEP_BIT (p_step_z g) w
  /\ p_step_x2 g'
     = (if DUAL_X_AXIS then pulse_level X2_STEP_BIT (p_step_x2 g) w else p_step_x2 g)
  /\ p_step_y2 g'
     = (if DUAL_Y_AXIS then pulse_level Y2_STEP_BIT (p_step_y2 g) w else p_step_y2 g)
  /\ p_enable g' = p_enable g.
Proof.
  intros Hc H. cbv zeta.
  destruct (pulsed_pins_levels w (gpio (hw w))) as (A & B & C & D & F & G & _).
  unfold Stepper_MainISR in H. cbv zeta in H.
  rewrite pulse_pins_eq in H. cbn [st set_hw segment_buffer_head segment_buffer_tail] in H.
  destruct (exec_segment (st w)) as [si|] eqn:He.
  - apply execute_tick_frame in H as (s & p & t & pr & ex & -> & _).
    cbn [hw set_segment_buffer_tail set_sys_position set_st set_sys_rt_exec_state set_probe
         set_hw gpio set_gpio].
    repeat (split; [assumption|]). assumption.
  - destruct Hc as [Hc|Hc]; [congruence|].
    rewrite (proj2 (Z.eqb_neq _ _) Hc) in H. cbn [negb] in H. ok_inv H.
    destruct (load_segment_outputs _ _ E) as (seg & blk & _ & Hb & Hs & _ & Hh).
    destruct (execute_tick_outputs _ _ _ _ Hb Hs H) as (Hh' & _ & _).
    rewrite Hh', Hh. cbn [hw set_hw gpio set_gpio set_spindle_out].
    destruct (dir_levels_levels (dir_outbits (st a)) (pulsed_pins w (gpio (hw w))))
      as (_ & _ & _ & _ & _ & P & _).
    destruct (dir_levels_step_pins (dir_outbits (st a)) (pulsed_pins w (gpio (hw w))))
      as (Q1 & Q2 & Q3 & Q4 & Q5).
    rewrite Q1, Q2, Q3, Q4, Q5, P.
    repeat (split; [assumption|]). assumption.
Qed.

End Outputs.


Section Preparer.
Context `{cfg : Config} `{fm : FloatModel} `{ext : !Externals}.

(** ** Where the preparer stops *)

Lemma BIT_TRUE_set x m : 0 < m < 256 -> BIT_IS_TRUE (BIT_TRUE x m) m = true.
Proof.
  intros Hm. unfold BIT_IS_TRUE, BIT_TRUE. apply negb_true_iff, Z.eqb_neq.
  assert (E : Z.land (u8 (Z.lor x m)) m = m); [|lia].
  apply Z.bits_inj'. intros n Hn. rewrite Z.land_spec.
  destruct (Z.ltb_spec n 8).
  - rewrite testbit_u8 by lia. rewrite Z.lor_spec.
    destruct (Z.testbit x n), (Z.testbit m n); reflexivity.
  - replace (Z.testbit m n) with false; [apply andb_false_r|].
    symmetry. apply Z.bits_above_log2; [lia|].
    assert (Z.log2 m < 8) by (apply Z.log2_lt_pow2; [lia|change (2 ^ 8) with 256; lia]).
    lia.
Qed.

Lemma end_motion_set flag (w : world) :
  0 < STEP_CONTROL_END_MOTION < 256 ->
  BIT_IS_TRUE (step_control (sys (end_motion flag w))) STEP_CONTROL_END_MOTION = true.
Proof.
  intros Hm. unfold end_motion, set_step_control_bit. cbv zeta.
  match goal with
  | |- context [if ?c then _ else _] => destruct c
  end; cbn [sys set_prep set_sys step_control set_step_control]; apply BIT_TRUE_set, Hm.
Qed.

Lemma acquire_block_None (w : world) :
  acquire_block w = Ok None -> pl_block w = None /\ planner_query w = None.
Proof.
  unfold acquire_block. destruct (pl_block w); [discriminate|].
  destruct (planner_query w) as [ptr|]; [|auto].
  cbv zeta. intros H. ok_inv H. destruct a0. discriminate.
Qed.

Lemma carve_next_None fuel (w : world) :
  carve_next fuel w = Ok None -> pl_block w = None /\ planner_query w = None.
Proof.
  unfold carve_next. intros H.
  destruct (acquire_block w) as [[w1|]|] eqn:E; cbn [bind] in H.
  - exfalso. ok_inv H. cbv zeta in H. ok_inv H. discriminate.
  - apply acquire_block_None, E.
  - discriminate.
Qed.

Lemma prepare_segment_return fuel (w w1 : world) :
  0 < STEP_CONTROL_END_MOTION < 256 ->
  prepare_segment fuel w = Ok (Return, w1) ->
  BIT_IS_TRUE (step_control (sys w1)) STEP_CONTROL_END_MOTION = true
  \/ (pl_block w1 = None /\ planner_query w1 = None).
Proof.
  intros Hm. unfold prepare_segment.
  destruct (carve_next fuel w) as [[cv|]|] eqn:E; cbn [bind]; [| |discriminate].
  - unfold publish. destruct (drops_segment cv).
    + intros [= <-]. left. apply end_motion_set, Hm.
    + intros H. ok_inv H. injection H as H.
      unfold commit_segment in H. cbv zeta in H.
      repeat match type of H with
             | context [if ?c then _ else _] =>
                 lazymatch c with
                 | context [if _ then _ else _] => fail
                 | _ => destruct c
                 end
             end; try discriminate; injection H as <-; left; apply end_motion_set, Hm.
  - intros [= <-]. right. apply (carve_next_None fuel), E.
Qed.

Lemma prepare_loop_stops fuel inner (w w' : world) :
  0 < STEP_CONTROL_END_MOTION < 256 ->
  prepare_loop fuel inner w = Ok w' ->
  segment_buffer_tail w' = segment_next_head w'
  \/ BIT_IS_TRUE (step_control (sys w')) STEP_CONTROL_END_MOTION = true
  \/ (pl_block w' = None /\ planner_query w' = None).
Proof.
  intros Hm. revert w. induction fuel as [|fuel IH]; intros w; cbn [prepare_loop].
  - destruct (Z.eqb_spec (segment_buffer_tail w) (segment_next_head w)); [|discriminate].
    intros [= <-]. left. assumption.
  - destruct (Z.eqb_spec (segment_buffer_tail w) (segment_next_head w)).
    + intros [= <-]. left. assumption.
    + destruct (prepare_segment inner w) as [[[] w1]|] eqn:Hp; cbn [bind]; [| |discriminate].
      * apply IH.
      * intros [= <-]. right. apply (prepare_segment_return inner w), Hp. exact Hm.
Qed.

(** X14: [Stepper_PrepareBuffer] returns only with the ring full, with
    STEP_CONTROL_END_MOTION set, or with no block in work and none to get
    from the planner; a call right after it changes nothing. *)
Theorem Stepper_PrepareBuffer_settles (fuel : nat) (w w' : world) :
  0 < STEP_CONTROL_END_MOTION < 256 ->
  Stepper_PrepareBuffer fuel w = Ok w' ->
  (segment_buffer_tail w' = segment_next_head w'
   \/ BIT_IS_TRUE (step_control (sys w')) STEP_CONTROL_END_MOTION = true
   \/ (pl_block w' = None /\ planner_query w' = None))
  /\ forall fuel', Stepper_PrepareBuffer (S fuel') w' = Ok w'.
Proof.
  intros Hm H.
  assert (R : segment_buffer_tail w' = segment_next_head w'
              \/ BIT_IS_TRUE (step_control (sys w')) STEP_CONTROL_END_MOTION = true
              \/ (pl_block w' = None /\ planner_query w' = None)).
  { unfold Stepper_PrepareBuffer in H.
    destruct (BIT_IS_TRUE (step_control (sys w)) STEP_CONTROL_END_MOTION) eqn:E.
    - injection H as <-. right. left. exact E.
    - apply (prepare_loop_stops fuel fuel w), H. exact Hm. }
  split; [exact R|]. intros fuel'. unfold Stepper_PrepareBuffer.
  destruct (BIT_IS_TRUE (step_control (sys w')) STEP_CONTROL_END_MOTION) eqn:E;
    [reflexivity|].
  cbn [prepare_loop].
  destruct (Z.eqb_spec (segment_buffer_tail w') (segment_next_head w')); [reflexivity|].
  destruct R as [R|[R|[R1 R2]]]; [contradiction|discriminate|].
  unfold prepare_segment, carve_next, acquire_block. rewrite R1, R2. reflexivity.
Qed.

(** ** What the preparer leaves alone *)

(** The state that belongs to the step generator, to the hardware and to
    the rest of the program. *)
Definition outside_preparer (w : world) :=
  (hw w, st w, sys_position w, segment_buffer_tail w, settings w,
   step_port_invert_mask w, dir_port_invert_mask w, probe w, sys_rt_exec_state w,
   sys_rt_exec_alarm w, sys_state (sys w), homing_axis_lock (sys w)).

Lemma load_block_outside b (w : world) b' w' :
  load_block b w = Ok (b', w') -> outside_preparer w' = outside_preparer w.
Proof.
  unfold load_block. cbv zeta. intros H. ok_inv H.
  match type of H with
  | context [if ?c then _ else _] => destruct c
  end; injection H as <- <-; reflexivity.
Qed.

Lemma acquire_block_outside (w w' : world) :
  acquire_block w = Ok (Some w') -> outside_preparer w' = outside_preparer w.
Proof.
  unfold acquire_block. destruct (pl_block w).
  - intros [= <-]. reflexivity.
  - destruct (planner_query w) as [ptr|]; [|discriminate].
    cbv zeta. intros H. ok_inv H.
    destruct a0 as [b' w1]. injection H as <-.
    assert (F : outside_preparer w1 = outside_preparer w).
    { destruct (BIT_IS_TRUE (recalculate_flag (prep (set_pl_block (Some ptr) w)))
                  PREP_FLAG_RECALCULATE).
      - injection E0 as <- <-. reflexivity.
      - apply load_block_outside in E0. exact E0. }
    rewrite <- F. reflexivity.
Qed.

Lemma with_prep_segment_outside f (w w' : world) :
  with_prep_segment f w = Ok w' -> outside_preparer w' = outside_preparer w.
Proof.
  intros H. apply with_prep_segment_Ok in H as (seg & _ & _ & ->). reflexivity.
Qed.

Lemma segment_pwm_outside b (w w' : world) :
  segment_pwm b w = Ok w' -> outside_preparer w' = outside_preparer w.
Proof.
  unfold segment_pwm. cbv zeta. intros H. ok_inv H.
  apply with_prep_segment_outside in H. rewrite H.
  destruct (negb (is_pwm_rate_adjusted a0 =? 0)
            || BIT_IS_TRUE (step_control (sys w)) STEP_CONTROL_UPDATE_SPINDLE_PWM);
    [destruct (BIT_IS_TRUE (pl_condition b)
                 (Z.lor PL_COND_FLAG_SPINDLE_CW PL_COND_FLAG_SPINDLE_CCW))|];
    reflexivity.
Qed.

Lemma carve_next_outside fuel (w : world) cv :
  carve_next fuel w = Ok (Some cv) -> outside_preparer (cv_world cv) = outside_preparer w.
Proof.
  unfold carve_next. intros H. ok_inv H.
  destruct a as [w1|]; [|discriminate]. cbv zeta in H. ok_inv H.
  injection H as <-. cbn [cv_world].
  apply acquire_block_outside in E. apply with_prep_segment_outside in E2.
  apply segment_pwm_outside in E4. apply with_prep_segment_outside in E5.
  rewrite E5, E4, <- E, <- E2. reflexivity.
Qed.

Lemma end_motion_outside flag (w : world) :
  outside_preparer (end_motion flag w) = outside_preparer w.
Proof.
  unfold end_motion. cbv zeta.
  match goal with
  | |- context [if ?c then _ else _] => destruct c
  end; reflexivity.
Qed.

Lemma commit_segment_outside ptr b c r (w : world) fl w' :
  commit_segment ptr b c r w = (fl, w') -> outside_preparer w' = outside_preparer w.
Proof.
  unfold commit_segment. cbv zeta.
  repeat match goal with
         | |- context [if ?c then _ else _] =>
             lazymatch c with
             | context [if _ then _ else _] => fail
             | _ => destruct c
             end
         end;
    intros [= <- <-]; rewrite ?end_motion_outside; reflexivity.
Qed.

Lemma prepare_segment_outside fuel (w : world) fl w' :
  prepare_segment fuel w = Ok (fl, w') -> outside_preparer w' = outside_preparer w.
Proof.
  unfold prepare_segment.
  destruct (carve_next fuel w) as [[cv|]|] eqn:E; cbn [bind]; [| |discriminate].
  - apply carve_next_outside in E. unfold publish. destruct (drops_segment cv).
    + intros [= <- <-]. rewrite end_motion_outside. exact E.
    + intros H. ok_inv H. injection H as H.
      apply commit_segment_outside in H. apply with_prep_segment_outside in E0.
      congruence.
  - intros [= <- <-]. reflexivity.
Qed.

Lemma prepare_loop_outside fuel inner (w w' : world) :
  prepare_loop fuel inner w = Ok w' -> outside_preparer w' = outside_preparer w.
Proof.
  revert w. induction fuel as [|fuel IH]; intros w; cbn [prepare_loop].
  - destruct (segment_buffer_tail w =? segment_next_head w); [|discriminate].
    intros [= <-]. reflexivity.
  - destruct (segment_buffer_tail w =? segment_next_head w).
    + intros [= <-]. reflexivity.
    + destruct (prepare_segment inner w) as [[[] w1]|] eqn:Hp; cbn [bind]; [| |discriminate].
      * intros H. apply IH in H. apply prepare_segment_outside in Hp. congruence.
      * intros [= <-]. apply prepare_segment_outside in Hp. exact Hp.
Qed.

(** X15: [Stepper_PrepareBuffer] is the producer only: it drives no pin, no
    timer and no spindle output, and leaves the stepper data [st], the
    position, the tail of the ring, the settings, the invert masks, the
    probe, the realtime flags, [sys.state] and the homing lock as they
    are. *)
Theorem Stepper_PrepareBuffer_frame (fuel : nat) (w w' : world) :
  Stepper_PrepareBuffer fuel w = Ok w' ->
  hw w' = hw w
  /\ st w' = st w
  /\ sys_position w' = sys_position w
  /\ segment_buffer_tail w' = segment_buffer_tail w
  /\ settings w' = settings w
  /\ (step_port_invert_mask w', dir_port_invert_mask w')
     = (step_port_invert_mask w, dir_port_invert_mask w)
  /\ probe w' = probe w
  /\ (sys_rt_exec_state w', sys_rt_exec_alarm w') = (sys_rt_exec_state w, sys_rt_exec_alarm w)
  /\ (sys_state (sys w'), homing_axis_lock (sys w'))
     = (sys_state (sys w), homing_axis_lock (sys w)).
Proof.
  intros H.
  assert (F : outside_preparer w' = outside_preparer w).
  { unfold Stepper_PrepareBuffer in H.
    destruct (BIT_IS_TRUE (step_control (sys w)) STEP_CONTROL_END_MOTION).
    - injection H as <-. reflexivity.
    - apply prepare_loop_outside in H. exact H. }
  unfold outside_preparer in F.
  injection F as F1 F2 F3 F4 F5 F6 F7 F8 F9 F10 F11 F12.
  rewrite F1, F2, F3, F4, F5, F6, F7, F8, F9, F10, F11, F12.
  repeat split; reflexivity.
Qed.

(** ** Blocks *)

Lemma testbit0_lor_bit3 x :
  Z.testbit (u8 (Z.lor x PREP_FLAG_DECEL_OVERRIDE)) 0 = Z.testbit x 0.
Proof.
  rewrite testbit_u8 by lia. rewrite Z.lor_spec.
  change (Z.testbit PREP_FLAG_DECEL_OVERRIDE 0) with false. apply orb_false_r.
Qed.

(** The velocity profile leaves the position of the preparer in the block
    alone. *)
Lemma compute_profile_keeps hold sys_motion b e n (p : Stepper_PrepData_t) :
  let p' := compute_profile hold sys_motion b e n p in
  prep_st_block_index p' = prep_st_block_index p
  /\ steps_remaining p' = steps_remaining p
  /\ dt_remainder p' = dt_remainder p
  /\ step_per_mm p' = step_per_mm p
  /\ req_mm_increment p' = req_mm_increment p
  /\ current_speed p' = current_speed p
  /\ inv_rate p' = inv_rate p
  /\ Z.testbit (recalculate_flag p') 0 = Z.testbit (recalculate_flag p) 0.
Proof.
  cbv zeta. unfold compute_profile. cbv zeta.
  repeat match goal with
         | |- context [if ?c then _ else _] =>
             lazymatch c with
             | context [if _ then _ else _] => fail
             | _ => destruct c
             end
         end;
    repeat split; try reflexivity; apply testbit0_lor_bit3.
Qed.

Lemma testbit0_clear_recalculate (p : Stepper_PrepData_t) :
  Z.testbit (recalculate_flag (clear_recalculate p)) 0 = false.
Proof.
  unfold clear_recalculate.
  destruct PARKING_ENABLE; [destruct (BIT_IS_TRUE _ _)|];
    cbn [recalculate_flag set_recalculate_flag]; try reflexivity.
  unfold BIT_FALSE. rewrite testbit_u8 by lia. rewrite Z.land_spec.
  change (Z.testbit (Z.lnot PREP_FLAG_RECALCULATE) 0) with false. apply andb_false_r.
Qed.

(** X16: When the planner has recomputed its plan, the preparer takes the block
    up again where it was: [Stepper_UpdatePlannerBlockParams] followed by the
    acquisition of the block keeps the stepper block, its index and the
    steps, the time and the speed carried over from the last segment,
    makes the current speed squared the entry speed of the planner block,
    whose other fields stay, and leaves PREP_FLAG_RECALCULATE clear. *)
Theorem recalculated_block_resumes (w : world) (ptr : nat) (b : Planner_Block_t) :
  pl_block w = Some ptr ->
  planner_query w = Some ptr ->
  pl_mem w !! ptr = Some b ->
  exists w1 w2 b',
    Stepper_UpdatePlannerBlockParams w = Ok w1
    /\ acquire_block w1 = Ok (Some w2)
    /\ pl_block w2 = Some ptr
    /\ pl_mem w2 !! ptr = Some b'
    /\ entry_speed_sqr b' = fmul (current_speed (prep w)) (current_speed (prep w))
    /\ block_data b' = block_data b
    /\ b' = set_entry_speed_sqr (fmul (current_speed (prep w)) (current_speed (prep w))) b
    /\ BIT_IS_TRUE (recalculate_flag (prep w2)) PREP_FLAG_RECALCULATE = false
    /\ prep_st_block_index (prep w2) = prep_st_block_index (prep w)
    /\ st_prep_block w2 = st_prep_block w
    /\ st_block_buffer w2 = st_block_buffer w
    /\ steps_remaining (prep w2) = steps_remaining (prep w)
    /\ dt_remainder (prep w2) = dt_remainder (prep w)
    /\ step_per_mm (prep w2) = step_per_mm (prep w)
    /\ current_speed (prep w2) = current_speed (prep w)
    /\ segment_buffer w2 = segment_buffer w
    /\ (segment_buffer_tail w2, segment_buffer_head w2, segment_next_head w2)
       = (segment_buffer_tail w, segment_buffer_head w, segment_next_head w).
Proof.
  intros Hb Hq Hm.
  pose proof (lookup_lt_Some _ _ _ Hm) as Hlen.
  unfold Stepper_UpdatePlannerBlockParams. rewrite Hb. cbv zeta.
  unfold pl_read at 1. cbn [pl_mem set_prep]. rewrite Hm. cbn [bind].
  eexists. eexists. eexists. split; [reflexivity|].
  unfold acquire_block. cbn [pl_block set_pl_block].
  change (planner_query (set_pl_block None _)) with (planner_query w). rewrite Hq.
  cbv zeta. unfold pl_read, pl_write.
  cbn [pl_mem set_pl_block set_pl_mem set_prep prep recalculate_flag set_recalculate_flag].
  rewrite list_lookup_insert_eq by exact Hlen. cbn [bind].
  change PREP_FLAG_RECALCULATE with (BIT 0). rewrite bit0_set. cbn [bind].
  split; [reflexivity|].
  cbn [pl_block set_step_control_bit set_sys set_prep prep pl_mem set_pl_mem set_pl_block
       st_prep_block st_block_buffer segment_buffer segment_buffer_tail segment_buffer_head
       segment_next_head].
  match goal with
  | |- context [compute_profile ?h ?s ?bb ?e ?n ?p] =>
      destruct (compute_profile_keeps h s bb e n p) as (K1 & K2 & K3 & K4 & _ & K6 & _ & K8)
  end.
  split; [reflexivity|].
  split; [rewrite list_insert_insert_eq; apply list_lookup_insert_eq; exact Hlen|].
  split; [reflexivity|]. split; [reflexivity|]. split; [reflexivity|].
  split.
  { rewrite BIT_IS_TRUE_testbit by lia. rewrite K8. apply testbit0_clear_recalculate. }
  split; [rewrite K1; unfold clear_recalculate;
          destruct PARKING_ENABLE; [destruct (BIT_IS_TRUE _ _)|]; reflexivity|].
  split; [reflexivity|]. split; [reflexivity|].
  split; [rewrite K2; unfold clear_recalculate;
          destruct PARKING_ENABLE; [destruct (BIT_IS_TRUE _ _)|]; reflexivity|].
  split; [rewrite K3; unfold clear_recalculate;
          destruct PARKING_ENABLE; [destruct (BIT_IS_TRUE _ _)|]; reflexivity|].
  split; [rewrite K4; unfold clear_recalculate;
          destruct PARKING_ENABLE; [destruct (BIT_IS_TRUE _ _)|]; reflexivity|].
  split; [rewrite K6; unfold clear_recalculate;
          destruct PARKING_ENABLE; [destruct (BIT_IS_TRUE _ _)|]; reflexivity|].
  split; reflexivity.
Qed.

Lemma Stepper_NextBlockIndex_nonneg i : 0 <= Stepper_NextBlockIndex i.
Proof.
  unfold Stepper_NextBlockIndex, u8. cbv zeta.
  destruct (_ =? _); [lia|]. apply Z.mod_pos_bound. lia.
Qed.

Lemma shiftl_3_u32 x : 0 <= x < 2 ^ 29 -> u32 (Z.shiftl x MAX_AMASS_LEVEL) = 8 * x.
Proof.
  intros Hx. unfold u32, MAX_AMASS_LEVEL. rewrite Z.shiftl_mul_pow2 by lia.
  change (2 ^ 3) with 8. change (2 ^ 29) with 536870912 in Hx.
  rewrite Z.mod_small by lia. lia.
Qed.

(** X17: A block that the preparer takes from the planner for the first time
    gets the next slot of the stepper blocks and only that one is written:
    it receives the direction bits of the planner block and its step counts
    times 8 (in 32 bits), and the preparer starts the block with all its
    step events remaining and no time carried over.  The ring is not
    touched. *)
Theorem new_block_loaded (w : world) (ptr : nat) (b : Planner_Block_t) :
  pl_block w = None ->
  planner_query w = Some ptr ->
  pl_mem w !! ptr = Some b ->
  BIT_IS_TRUE (recalculate_flag (prep w)) PREP_FLAG_RECALCULATE = false ->
  (Z.to_nat (Stepper_NextBlockIndex (prep_st_block_index (prep w)))
   < length (st_block_buffer w))%nat ->
  let idx := Stepper_NextBlockIndex (prep_st_block_index (prep w)) in
  exists w' blk,
    acquire_block w = Ok (Some w')
    /\ pl_block w' = Some ptr
    /\ prep_st_block_index (prep w') = idx
    /\ st_prep_block w' = Some idx
    /\ st_block_buffer w' = <[Z.to_nat idx := blk]> (st_block_buffer w)
    /\ direction_bits blk = pl_direction_bits b
    /\ (0 <= pl_step_event_count b < 2 ^ 29 ->
        step_event_count blk = 8 * pl_step_event_count b)
    /\ (forall a, 0 <= get_axis a (pl_steps b) < 2 ^ 29 ->
          get_axis a (steps blk) = 8 * get_axis a (pl_steps b))
    /\ steps_remaining (prep w') = i2f (pl_step_event_count b)
    /\ step_per_mm (prep w') = fdiv (i2f (pl_step_event_count b)) (millimeters b)
    /\ dt_remainder (prep w') = d2f d_zero
    /\ segment_buffer w' = segment_buffer w
    /\ (segment_buffer_tail w', segment_buffer_head w', segment_next_head w')
       = (segment_buffer_tail w, segment_buffer_head w, segment_next_head w).
Proof.
  intros Hb Hq Hm Hf Hlen. cbv zeta.
  pose proof (Stepper_NextBlockIndex_nonneg (prep_st_block_index (prep w))) as H0.
  destruct (lookup_lt_is_Some_2 _ _ Hlen) as [old Hold].
  assert (Hi : index (st_block_buffer w)
                 (Stepper_NextBlockIndex (prep_st_block_index (prep w))) = Ok old)
    by (apply index_Ok; auto).
  unfold acquire_block. rewrite Hb, Hq. cbv zeta.
  unfold pl_read. cbn [pl_mem set_pl_block prep]. rewrite Hm, Hf. cbn [bind].
  unfold load_block. cbv zeta.
  cbn [prep set_prep set_pl_block set_st_prep_block st_block_buffer].
  rewrite Hi. cbn [bind].
  match goal with
  | |- context [if ?c then _ else _] =>
      lazymatch c with
      | (_ || _)%bool => destruct c
      end
  end; cbn [bind];
    match goal with
    | |- context [if ?c then set_inv_rate _ _ else _] => destruct c
    end;
    (eexists; eexists; split; [reflexivity|]);
    cbn [pl_block set_step_control_bit set_sys set_prep prep pl_write pl_mem set_pl_mem
         set_pl_block st_prep_block set_st_prep_block st_block_buffer set_st_block_buffer
         segment_buffer segment_buffer_tail segment_buffer_head segment_next_head];
    match goal with
    | |- context [compute_profile ?h ?s ?bb ?e ?n ?p] =>
        destruct (compute_profile_keeps h s bb e n p) as (K1 & K2 & K3 & K4 & _)
    end;
    (split; [reflexivity|]);
    (split; [rewrite K1; reflexivity|]);
    (split; [reflexivity|]);
    (split; [reflexivity|]);
    (split; [reflexivity|]);
    (split; [intros Hc; apply shiftl_3_u32; exact Hc|]);
    (split; [intros a Ha; cbn [steps prescale]; rewrite get_axis_axes_map;
             apply shiftl_3_u32; exact Ha|]);
    (split; [rewrite K2; reflexivity|]);
    (split; [rewrite K4; reflexivity|]);
    (split; [rewrite K3; reflexivity|]);
    split; reflexivity.
Qed.

(** ** The tags of a published segment *)

Lemma segment_timing_tags cyc seg :
  st_block_index (segment_timing cyc seg) = st_block_index seg
  /\ backlash_motion (segment_timing cyc seg) = backlash_motion seg
  /\ spindle_pwm (segment_timing cyc seg) = spindle_pwm seg.
Proof.
  unfold segment_timing.
  destruct (cyc <? AMASS_LEVEL1); cbv zeta;
    match goal with
    | |- context [if ?c then _ else _] => destruct c
    end; repeat split; reflexivity.
Qed.

Lemma segment_pwm_keeps b (w w' : world) :
  segment_pwm b w = Ok w' ->
  prep_st_block_index (prep w') = prep_st_block_index (prep w)
  /\ pl_block w' = pl_block w
  /\ pl_mem w' = pl_mem w.
Proof.
  unfold segment_pwm. cbv zeta. intros H. ok_inv H.
  apply with_prep_segment_Ok in H as (seg & _ & _ & ->).
  destruct (negb (is_pwm_rate_adjusted a0 =? 0)
            || BIT_IS_TRUE (step_control (sys w)) STEP_CONTROL_UPDATE_SPINDLE_PWM);
    [destruct (BIT_IS_TRUE (pl_condition b)
                 (Z.lor PL_COND_FLAG_SPINDLE_CW PL_COND_FLAG_SPINDLE_CCW))|];
    repeat split; reflexivity.
Qed.

Lemma end_motion_keeps flag (w : world) :
  prep_st_block_index (prep (end_motion flag w)) = prep_st_block_index (prep w)
  /\ current_spindle_pwm (prep (end_motion flag w)) = current_spindle_pwm (prep w).
Proof.
  unfold end_motion. cbv zeta.
  match goal with
  | |- context [if ?c then _ else _] => destruct c
  end; split; reflexivity.
Qed.

Lemma commit_segment_keeps ptr b c r (w : world) fl w' :
  commit_segment ptr b c r w = (fl, w') ->
  prep_st_block_index (prep w') = prep_st_block_index (prep w)
  /\ current_spindle_pwm (prep w') = current_spindle_pwm (prep w).
Proof.
  unfold commit_segment. cbv zeta.
  repeat match goal with
         | |- context [if ?c then _ else _] =>
             lazymatch c with
             | context [if _ then _ else _] => fail
             | _ => destruct c
             end
         end;
    intros [= <- <-];
    rewrite ?(proj1 (end_motion_keeps _ _)), ?(proj2 (end_motion_keeps _ _));
    split; reflexivity.
Qed.

(** What [carve_next] has written into the slot at the head. *)
Lemma carve_next_tags fuel (w : world) cv :
  carve_next fuel w = Ok (Some cv) ->
  exists seg,
    0 <= segment_buffer_head (cv_world cv)
    /\ segment_buffer_head (cv_world cv) = segment_buffer_head w
    /\ segment_buffer (cv_world cv) !! Z.to_nat (segment_buffer_head (cv_world cv)) = Some seg
    /\ st_block_index seg = prep_st_block_index (prep (cv_world cv))
    /\ backlash_motion seg = pl_backlash_motion (cv_block cv)
    /\ spindle_pwm seg = current_spindle_pwm (prep (cv_world cv))
    /\ pl_block (cv_world cv) = Some (cv_ptr cv)
    /\ pl_mem (cv_world cv) !! cv_ptr cv = Some (cv_block cv).
Proof.
  unfold carve_next. intros H. ok_inv H.
  destruct a as [w1|]; [|discriminate]. cbv zeta in H. ok_inv H.
  injection H as <-. cbn [cv_world cv_block cv_ptr].
  pose proof (acquire_block_frame _ _ E) as [_ Hv].
  assert (Hh1 : segment_buffer_head w1 = segment_buffer_head w) by (inversion Hv; auto).
  assert (Hptr : pl_block w1 = Some a)
    by (destruct (pl_block w1); [injection E0 as ->; reflexivity|discriminate]).
  assert (Hmem : pl_mem w1 !! a = Some a0).
  { unfold pl_read in E1.
    destruct (pl_mem w1 !! a); [injection E1 as ->; reflexivity|discriminate]. }
  apply with_prep_segment_Ok in E2 as (s1 & H0 & Hs1 & ->).
  pose proof (lookup_lt_Some _ _ _ Hs1) as Hlen.
  destruct (segment_pwm_keeps _ _ _ E4) as (K1 & K2 & K3).
  apply segment_pwm_Ok in E4 as (s2 & _ & Hs2 & [B2 V2]).
  cbn [segment_buffer set_prep set_segment_buffer segment_buffer_head] in Hs2, B2.
  rewrite list_lookup_insert_eq in Hs2 by exact Hlen. injection Hs2 as <-.
  assert (Hh3 : segment_buffer_head a3 = segment_buffer_head w1) by (inversion V2; auto).
  apply with_prep_segment_Ok in E5 as (s3 & _ & Hs3 & ->).
  rewrite B2, Hh3, list_lookup_insert_eq in Hs3 by (rewrite length_insert; exact Hlen).
  injection Hs3 as <-.
  cbn [segment_buffer set_segment_buffer segment_buffer_head prep pl_block pl_mem].
  eexists. rewrite Hh3. split; [exact H0|]. split; [exact Hh1|]. split.
  { apply list_lookup_insert_eq. rewrite B2, !length_insert. exact Hlen. }
  cbn [st_block_index backlash_motion spindle_pwm set_n_step set_spindle_pwm
       set_backlash_motion set_st_block_index].
  split; [rewrite K1; reflexivity|]. split; [reflexivity|]. split; [reflexivity|].
  split; [rewrite K2; exact Hptr|]. rewrite K3. exact Hmem.
Qed.

(** X18: Every segment the preparer publishes carries the index of the stepper
    block the preparer is in, the backlash flag of the planner block in work
    and the spindle PWM value of the preparer. *)
Theorem committed_segment_tags (fuel : nat) (w : world) (cv : carved_t) :
  carve_next fuel w = Ok (Some cv) ->
  drops_segment cv = false ->
  exists fl w' seg,
    prepare_segment fuel w = Ok (fl, w')
    /\ segment_buffer_head w' = segment_next_head w
    /\ segment_buffer w' !! Z.to_nat (segment_buffer_head w) = Some seg
    /\ st_block_index seg = prep_st_block_index (prep w')
    /\ spindle_pwm seg = current_spindle_pwm (prep w')
    /\ backlash_motion seg = pl_backlash_motion (cv_block cv)
    /\ pl_block (cv_world cv) = Some (cv_ptr cv)
    /\ pl_mem (cv_world cv) !! cv_ptr cv = Some (cv_block cv).
Proof.
  intros Hc Hd.
  destruct (carve_next_tags _ _ _ Hc) as (seg & H0 & Hh & Hs & T1 & T2 & T3 & Hp & Hm).
  destruct (carve_next_Ok _ _ _ Hc) as (_ & _ & _ & _ & [_ Hv] & _).
  assert (Hn : segment_next_head (cv_world cv) = segment_next_head w) by (inversion Hv; auto).
  pose proof (lookup_lt_Some _ _ _ Hs) as Hlen.
  unfold prepare_segment. rewrite Hc. cbn [bind]. unfold publish. rewrite Hd.
  unfold with_prep_segment.
  rewrite (proj2 (index_Ok _ _ _) (conj H0 Hs)). cbn [bind].
  destruct (commit_segment (cv_ptr cv) (cv_block cv) (cv_carve cv) (cv_rate cv) _)
    as [fl w'] eqn:E.
  destruct (commit_segment_keeps _ _ _ _ _ _ _ E) as (K1 & K2).
  apply commit_segment_ring in E as (B & Hh' & _).
  cbn [segment_buffer set_segment_buffer segment_next_head prep] in B, Hh', K1, K2.
  destruct (segment_timing_tags (cycles (cv_rate cv)) seg) as (S1 & S2 & S3).
  exists fl, w', (segment_timing (cycles (cv_rate cv)) seg).
  split; [reflexivity|]. split; [congruence|]. split.
  { rewrite B, <- Hh. apply list_lookup_insert_eq. exact Hlen. }
  split; [rewrite S1, K1; exact T1|]. split; [rewrite S3, K2; exact T3|].
  split; [rewrite S2; exact T2|]. split; [exact Hp|exact Hm].
Qed.

End Preparer.


(** * A block from its first segment to its last

    The preparer and the step generator share the ring and nothing else:
    the preparer neither reads nor writes what the step generator owns, so
    that a run of both can be followed on the preparer alone, each segment
    counting for its ticks. *)

Section WholeBlock.
Context `{cfg : Config} `{fm : FloatModel} `{ext : !Externals}.

(** ** The preparer does not look at the step generator *)

(** The variables that only the step generator and the hardware write. *)
Record isr_t : Type := {
  i_st : Stepper_t;
  i_position : axes;
  i_exec_state : Z;
  i_probe : probe_t;
  i_hw : hardware
}.

Definition isr_of (w : world) : isr_t :=
  {| i_st := st w; i_position := sys_position w; i_exec_state := sys_rt_exec_state w;
     i_probe := probe w; i_hw := hw w |}.

Definition with_isr (o : isr_t) (w : world) : world :=
  set_hw (i_hw o)
    (set_probe (i_probe o)
       (set_sys_rt_exec_state (i_exec_state o)
          (set_sys_position (i_position o) (set_st (i_st o) w)))).

Definition res_map {A B : Type} (f : A -> B) (r : result A) : result B :=
  match r with
  | Ok a => Ok (f a)
  | Fault e => Fault e
  end.

Lemma with_isr_of w : with_isr (isr_of w) w = w.
Proof. destruct w; reflexivity. Qed.

Lemma isr_of_with_isr o w : isr_of (with_isr o w) = o.
Proof. destruct o; reflexivity. Qed.

Lemma with_isr_twice o o' w : with_isr o' (with_isr o w) = with_isr o' w.
Proof. reflexivity. Qed.

Ltac isr_simpl :=
  cbn [with_isr st_block_buffer segment_buffer segment_buffer_tail segment_buffer_head
       segment_next_head step_port_invert_mask dir_port_invert_mask pl_block st_prep_block
       prep sys settings planner pl_mem sys_rt_exec_alarm
       set_hw set_probe set_sys_rt_exec_state set_sys_position set_st
       set_st_block_buffer set_segment_buffer set_segment_buffer_tail
       set_segment_buffer_head set_segment_next_head set_pl_block set_st_prep_block
       set_prep set_sys set_planner set_pl_mem].

Lemma with_prep_segment_isr f o w :
  with_prep_segment f (with_isr o w) = res_map (with_isr o) (with_prep_segment f w).
Proof.
  unfold with_prep_segment. isr_simpl.
  destruct (index (segment_buffer w) (segment_buffer_head w)); reflexivity.
Qed.

Lemma load_block_isr b o w :
  load_block b (with_isr o w)
  = res_map (fun bw => (fst bw, with_isr o (snd bw))) (load_block b w).
Proof.
  unfold load_block, hold_active. cbv zeta. isr_simpl.
  destruct (index (st_block_buffer w) _); [|reflexivity]. cbn [bind res_map].
  destruct (_ || _); cbn [fst snd]; reflexivity.
Qed.

Lemma acquire_block_isr o w :
  acquire_block (with_isr o w) = res_map (option_map (with_isr o)) (acquire_block w).
Proof.
  unfold acquire_block, planner_query, sys_motion_active, hold_active. isr_simpl.
  destruct (pl_block w); [reflexivity|].
  match goal with
  | |- match ?x with _ => _ end = _ => destruct x as [ptr|]; [|reflexivity]
  end.
  unfold pl_read, pl_write, set_step_control_bit. isr_simpl.
  destruct (pl_mem w !! ptr) as [b|]; [|reflexivity]. cbn [bind].
  destruct (BIT_IS_TRUE (recalculate_flag (prep w)) PREP_FLAG_RECALCULATE).
  - cbn [bind]. isr_simpl. reflexivity.
  - match goal with
    | |- bind (load_block b ?x) _ = _ =>
        change x with (with_isr o (set_pl_block (Some ptr) w))
    end.
    rewrite load_block_isr.
    destruct (load_block b (set_pl_block (Some ptr) w)) as [[b' w']|]; [|reflexivity].
    cbn [res_map bind fst snd]. isr_simpl. reflexivity.
Qed.

Lemma segment_pwm_isr b o w :
  segment_pwm b (with_isr o w) = res_map (with_isr o) (segment_pwm b w).
Proof.
  unfold segment_pwm. cbv zeta. isr_simpl.
  destruct (deref (st_prep_block w)) as [bi|]; [|reflexivity]. cbn [bind].
  destruct (index (st_block_buffer w) bi) as [blk|]; [|reflexivity]. cbn [bind].
  match goal with
  | |- with_prep_segment ?f ?x = res_map _ (with_prep_segment ?g ?y) =>
      assert (Hw : x = with_isr o y /\ f = g)
  end.
  { unfold clear_step_control_bit.
    destruct (_ || _); [|split; reflexivity].
    destruct (BIT_IS_TRUE (pl_condition b) _); isr_simpl; split; reflexivity. }
  destruct Hw as [-> ->]. apply with_prep_segment_isr.
Qed.

(** The same for what an iteration has carved. *)
Definition cv_with_isr (o : isr_t) (cv : carved_t) : carved_t :=
  {| cv_world := with_isr o (cv_world cv); cv_ptr := cv_ptr cv; cv_block := cv_block cv;
     cv_carve := cv_carve cv; cv_rate := cv_rate cv |}.

Lemma carve_next_isr fuel o w :
  carve_next fuel (with_isr o w)
  = res_map (option_map (cv_with_isr o)) (carve_next fuel w).
Proof.
  unfold carve_next. rewrite acquire_block_isr.
  destruct (acquire_block w) as [[w1|]|]; [|reflexivity|reflexivity].
  cbn [res_map option_map bind]. unfold pl_read. isr_simpl.
  destruct (deref (pl_block w1)) as [ptr|]; [|reflexivity]. cbn [bind].
  destruct (pl_mem w1 !! ptr) as [b|]; [|reflexivity]. cbn [bind].
  match goal with
  | |- bind (with_prep_segment _ ?x) _ = _ => change x with (with_isr o w1)
  end.
  rewrite with_prep_segment_isr.
  destruct (with_prep_segment _ w1) as [w2|]; [|reflexivity]. cbn [res_map bind].
  isr_simpl.
  destruct (carve_segment fuel b (prep w2)) as [c|]; [|reflexivity]. cbn [bind].
  match goal with
  | |- bind (segment_pwm b ?x) _ = res_map _ (bind (segment_pwm b ?y) _) =>
      change x with (with_isr o y)
  end.
  rewrite segment_pwm_isr.
  destruct (segment_pwm b _) as [w3|]; [|reflexivity]. cbn [res_map bind].
  rewrite with_prep_segment_isr. isr_simpl.
  destruct (with_prep_segment _ w3) as [w4|]; reflexivity.
Qed.

Lemma end_motion_isr flag o w :
  end_motion flag (with_isr o w) = with_isr o (end_motion flag w).
Proof.
  unfold end_motion, set_step_control_bit. cbv zeta. isr_simpl.
  destruct (_ && _); reflexivity.
Qed.

Lemma commit_segment_isr ptr b c r o w :
  commit_segment ptr b c r (with_isr o w)
  = (fst (commit_segment ptr b c r w), with_isr o (snd (commit_segment ptr b c r w))).
Proof.
  unfold commit_segment, advance_head, pl_write, sys_motion_active. cbv zeta. isr_simpl.
  destruct (feq _ _); [|reflexivity].
  destruct (dlt _ _).
  - cbn [fst snd]. rewrite <- end_motion_isr. reflexivity.
  - destruct (BIT_IS_TRUE _ _); cbn [fst snd]; [|reflexivity].
    rewrite <- end_motion_isr. reflexivity.
Qed.

Lemma publish_isr o cv :
  publish (cv_with_isr o cv)
  = res_map (fun r => (fst r, with_isr o (snd r))) (publish cv).
Proof.
  unfold publish, drops_segment, hold_active. cbn [cv_with_isr cv_world cv_rate cv_ptr
    cv_block cv_carve].
  change (sys (with_isr o (cv_world cv))) with (sys (cv_world cv)).
  destruct (_ && _).
  - cbn [res_map fst snd]. rewrite end_motion_isr. reflexivity.
  - rewrite with_prep_segment_isr.
    destruct (with_prep_segment _ (cv_world cv)) as [w1|]; [|reflexivity].
    cbn [res_map bind]. rewrite commit_segment_isr. reflexivity.
Qed.

Lemma prepare_segment_isr fuel o w :
  prepare_segment fuel (with_isr o w)
  = res_map (fun r => (fst r, with_isr o (snd r))) (prepare_segment fuel w).
Proof.
  unfold prepare_segment. rewrite carve_next_isr.
  destruct (carve_next fuel w) as [[cv|]|]; [|reflexivity|reflexivity].
  cbn [res_map option_map bind]. apply publish_isr.
Qed.

Lemma prepare_loop_isr inner o fuel :
  forall w,
    prepare_loop fuel inner (with_isr o w) = res_map (with_isr o) (prepare_loop fuel inner w).
Proof.
  induction fuel as [|fuel IH]; intros w; cbn [prepare_loop].
  - change (segment_buffer_tail (with_isr o w)) with (segment_buffer_tail w).
    change (segment_next_head (with_isr o w)) with (segment_next_head w).
    destruct (_ =? _); reflexivity.
  - change (segment_buffer_tail (with_isr o w)) with (segment_buffer_tail w).
    change (segment_next_head (with_isr o w)) with (segment_next_head w).
    destruct (_ =? _); [reflexivity|].
    rewrite prepare_segment_isr.
    destruct (prepare_segment inner w) as [[[] w1]|]; cbn [res_map bind fst snd];
      [apply IH|reflexivity|reflexivity].
Qed.

(** [Stepper_PrepareBuffer] reads none of them and writes none of them. *)
Lemma Stepper_PrepareBuffer_isr fuel o w :
  Stepper_PrepareBuffer fuel (with_isr o w)
  = res_map (with_isr o) (Stepper_PrepareBuffer fuel w).
Proof.
  unfold Stepper_PrepareBuffer.
  change (sys (with_isr o w)) with (sys w).
  destruct (BIT_IS_TRUE _ _); [reflexivity|]. apply prepare_loop_isr.
Qed.

(** ** The ticks of a segment, on what the step generator owns *)

Lemma set_segment_buffer_tail_same w :
  set_segment_buffer_tail (segment_buffer_tail w) w = w.
Proof. destruct w; reflexivity. Qed.

Lemma with_tick_isr r ex pr h o w :
  with_tick r (set_sys_rt_exec_state ex (set_probe pr (set_hw h (with_isr o w))))
  = with_isr {| i_st := fst (fst r); i_position := snd (fst r); i_exec_state := ex;
                i_probe := pr; i_hw := h |}
      (set_segment_buffer_tail (snd r) w).
Proof. reflexivity. Qed.

(** The step count and the release of the segment in one tick. *)
Lemma tick_pure_count blk bk homing lock s p tail :
  let r := tick_pure blk bk homing lock s p tail in
  step_count (fst (fst r)) = u16 (step_count s - 1)
  /\ (if u16 (step_count s - 1) =? 0
      then exec_segment (fst (fst r)) = None /\ snd r = next_tail tail
      else exec_segment (fst (fst r)) = exec_segment s /\ snd r = tail).
Proof.
  cbv zeta. unfold tick_pure. cbv zeta. cbn [fst snd].
  destruct (bresenham_pure_axis blk bk s p X_AXIS) as (_ & _ & _ & _ & BC & BS & _).
  destruct (finish_pure_fields homing lock (fst (bresenham_pure blk bk (s, p))) tail)
    as (_ & _ & _ & _ & _ & FC & FS).
  rewrite BC in FC, FS. split; [exact FC|].
  destruct (u16 (step_count s - 1) =? 0).
  - exact FS.
  - destruct FS as [A B]. split; [congruence|exact B].
Qed.

(** A tick that loads the segment at the tail returns. *)
Lemma Stepper_MainISR_load_returns w seg blk :
  exec_segment (st w) = None ->
  segment_buffer_head w <> segment_buffer_tail w ->
  index (segment_buffer w) (segment_buffer_tail w) = Ok seg ->
  index (st_block_buffer w) (st_block_index seg) = Ok blk ->
  (exec_block_index (st w) = st_block_index seg ->
   exec_block (st w) = Some (st_block_index seg)) ->
  exists w', Stepper_MainISR w = Ok w'.
Proof.
  intros He Hne Hseg Hblk Hptr.
  destruct (Stepper_MainISR_unfold w) as [g Hu]. rewrite Hu, He. clear Hu.
  rewrite (proj2 (Z.eqb_neq _ _) Hne). cbn [negb].
  destruct (load_segment_returns (set_hw (set_gpio g (hw w)) w) seg blk Hseg Hblk Hptr)
    as [w0 EL].
  rewrite EL. cbn [bind].
  destruct (load_segment_effect _ _ EL)
    as (seg' & blk' & bi & h & Ht & Hs & Hbi & Hblk' & _ & ->).
  cbn [segment_buffer set_hw segment_buffer_tail st st_block_buffer dir_port_invert_mask]
    in Hs, Ht, Hbi, Hblk'.
  pose proof (lookup_lt_Some _ _ _ Hs) as Hlen.
  match goal with
  | |- context [execute_tick ?x] =>
      destruct (execute_tick_returns x blk' (limit_step_rate seg')) as (w1 & E & _)
  end.
  { unfold current_block.
    cbn [st set_hw set_st st_block_buffer set_segment_buffer segment_buffer_tail
         dir_port_invert_mask].
    rewrite Hbi. exact Hblk'. }
  { apply current_segment_load; [exact Ht|exact Hlen|reflexivity]. }
  exists w1. exact E.
Qed.

Lemma bresenham_counter_units E s t c :
  0 < E < 2 ^ 28 -> 0 <= s <= E -> 1 <= t <= 8 -> 0 < c <= 8 * E ->
  let c1 := u32 (c + s * t) in
  if 8 * E <? c1
  then 0 < u32 (c1 - 8 * E) <= 8 * E /\ u32 (c1 - 8 * E) = c + s * t - 8 * E
  else 0 < c1 <= 8 * E /\ c1 = c + s * t.
Proof.
  intros HE Hs Ht Hc. cbv zeta. change (2 ^ 28) with 268435456 in HE.
  assert (Hst : 0 <= s * t <= 8 * E) by nia.
  unfold u32. rewrite (Z.mod_small (c + s * t)) by lia.
  destruct (Z.ltb_spec (8 * E) (c + s * t)).
  - rewrite Z.mod_small by lia. lia.
  - lia.
Qed.

Section Units.
Variable pb : Planner_Block_t.
Variable adjusted : Z.
Variable idx : Z.
Variable p0 : axes.
Hypothesis event_count_ok : 0 < pl_step_event_count pb < 2 ^ 28.
Hypothesis steps_ok :
  forall a, 0 <= get_axis a (pl_steps pb) <= pl_step_event_count pb.
Hypothesis position_ok : forall a, - 2147483648 <= get_axis a p0 < 2147483648.

(** The counter and the position of an axis after [U] units of the block,
    however many there are: [N] steps have been taken. *)
Definition axis_done (U : Z) (a : axis) (s : Stepper_t) (p : axes) : Prop :=
  exists N,
    0 <= N
    /\ 0 < counter a s <= 8 * pl_step_event_count pb
    /\ counter a s + 8 * pl_step_event_count pb * N
       = 4 * pl_step_event_count pb + get_axis a (pl_steps pb) * U
    /\ get_axis a p = position_after pb p0 a N.

(** The step generator inside the block, at AMASS level [L]. *)
Definition stepping (L U : Z) (s : Stepper_t) (p : axes) : Prop :=
  exec_block_index s = idx
  /\ exec_block s = Some idx
  /\ st_steps s = axes_map (fun x => Z.shiftr x L) (steps (prescale pb adjusted))
  /\ forall a, axis_done U a s p.

Lemma stepping_tick L U s p homing lock tail :
  0 <= L <= 3 ->
  stepping L U s p ->
  let r := tick_pure (prescale pb adjusted) (pl_backlash_motion pb) homing lock s p tail in
  stepping L (U + 2 ^ (3 - L)) (fst (fst r)) (snd (fst r)).
Proof.
  intros HL (Hi & Hb & Hst & Hinv). cbv zeta.
  destruct (tick_pure_fields (prescale pb adjusted) (pl_backlash_motion pb) homing lock
              s p tail) as (FB & FI & _).
  split; [congruence|]. split; [congruence|]. split.
  { destruct (tick_pure_axis (prescale pb adjusted) (pl_backlash_motion pb) homing lock
                s p tail X_AXIS) as (_ & _ & _ & FT).
    rewrite FT. exact Hst. }
  intros a. destruct (Hinv a) as (N & HN & Hc & Hv & Hp).
  destruct (tick_pure_axis (prescale pb adjusted) (pl_backlash_motion pb) homing lock
              s p tail a) as (C & P & _ & _).
  rewrite Hst, get_axis_axes_map in C, P.
  rewrite (prescale_steps pb adjusted event_count_ok steps_ok) in C, P.
  rewrite (prescale_event_count pb adjusted event_count_ok) in C, P.
  rewrite shiftr_prescaled in C, P by exact HL.
  assert (Ht : 1 <= 2 ^ (3 - L) <= 8).
  { assert (L = 0 \/ L = 1 \/ L = 2 \/ L = 3) as [-> | [-> | [-> | ->]]] by lia;
      cbn; lia. }
  pose proof (bresenham_counter_units (pl_step_event_count pb) (get_axis a (pl_steps pb))
                (2 ^ (3 - L)) (counter a s) event_count_ok (steps_ok a) Ht Hc) as B.
  cbv zeta in B.
  destruct (8 * pl_step_event_count pb
            <? u32 (counter a s + get_axis a (pl_steps pb) * 2 ^ (3 - L))).
  - destruct B as (Hc' & He).
    exists (N + 1). rewrite C, P. split; [lia|]. split; [exact Hc'|]. split; [lia|].
    cbn [direction_bits prescale]. rewrite Hp. apply track_position_after.
  - destruct B as (Hc' & He).
    exists N. rewrite C, P. split; [exact HN|]. split; [exact Hc'|]. split; [lia|].
    exact Hp.
Qed.

(** The step generator between two segments: it comes from another block
    and the position is the one before the block, or it is inside the
    block. *)
Definition resting (U : Z) (o : isr_t) : Prop :=
  exec_segment (i_st o) = None
  /\ ((exec_block_index (i_st o) <> idx /\ U = 0 /\ i_position o = p0)
      \/ (exec_block_index (i_st o) = idx
          /\ exec_block (i_st o) = Some idx
          /\ forall a, axis_done U a (i_st o) (i_position o))).

(** The ticks of a loaded segment, up to the one that releases it. *)
Lemma loaded_ticks_through (w : world) (seg : Stepper_Segment_t) (n : nat) :
  forall o U,
    index (segment_buffer w) (segment_buffer_tail w) = Ok seg ->
    index (st_block_buffer w) idx = Ok (prescale pb adjusted) ->
    backlash_motion seg = pl_backlash_motion pb ->
    0 <= amass_level seg <= 3 ->
    exec_segment (i_st o) = Some (segment_buffer_tail w) ->
    step_count (i_st o) = Z.of_nat n ->
    1 <= Z.of_nat n <= 65535 ->
    stepping (amass_level seg) U (i_st o) (i_position o) ->
    exists o',
      isr_ticks n (with_isr o w)
      = Ok (with_isr o' (set_segment_buffer_tail (next_tail (segment_buffer_tail w)) w))
      /\ exec_segment (i_st o') = None
      /\ stepping (amass_level seg) (U + Z.of_nat n * 2 ^ (3 - amass_level seg))
           (i_st o') (i_position o').
Proof.
  induction n as [|n IH]; intros o U Hseg Hblk Hbk HL He Hc Hn Hs; [lia|].
  cbn [isr_ticks].
  destruct (Stepper_MainISR_exec (with_isr o w) (prescale pb adjusted) seg)
    as (g & pr & ex & Hr).
  { change (st (with_isr o w)) with (i_st o). rewrite He. discriminate. }
  { unfold current_block. change (st (with_isr o w)) with (i_st o).
    change (st_block_buffer (with_isr o w)) with (st_block_buffer w).
    rewrite (proj1 (proj2 Hs)). exact Hblk. }
  { unfold current_segment. change (st (with_isr o w)) with (i_st o).
    change (segment_buffer (with_isr o w)) with (segment_buffer w).
    rewrite He. exact Hseg. }
  rewrite Hr. cbn [bind]. clear Hr.
  change (st (with_isr o w)) with (i_st o).
  change (sys_position (with_isr o w)) with (i_position o).
  change (segment_buffer_tail (with_isr o w)) with (segment_buffer_tail w).
  change (sys (with_isr o w)) with (sys w).
  rewrite Hbk, with_tick_isr.
  set (r := tick_pure (prescale pb adjusted) (pl_backlash_motion pb)
              (sys_state (sys w) =? STATE_HOMING) (homing_axis_lock (sys w))
              (i_st o) (i_position o) (segment_buffer_tail w)).
  pose proof (tick_pure_count (prescale pb adjusted) (pl_backlash_motion pb)
                (sys_state (sys w) =? STATE_HOMING) (homing_axis_lock (sys w))
                (i_st o) (i_position o) (segment_buffer_tail w)) as C.
  pose proof (stepping_tick (amass_level seg) U (i_st o) (i_position o)
                (sys_state (sys w) =? STATE_HOMING) (homing_axis_lock (sys w))
                (segment_buffer_tail w) HL Hs) as S1.
  cbv zeta in C, S1. fold r in C, S1. destruct C as [C X].
  rewrite Hc in C, X. unfold u16 in C, X.
  replace (Z.of_nat (S n) - 1) with (Z.of_nat n) in C, X by lia.
  rewrite Z.mod_small in C, X by lia.
  destruct n as [|n].
  - change (Z.of_nat 0 =? 0) with true in X. cbv iota in X. destruct X as [X1 X2].
    cbn [isr_ticks]. rewrite X2. eexists. split; [reflexivity|].
    cbn [i_st i_position]. split; [exact X1|].
    change (Z.of_nat 1) with 1. rewrite Z.mul_1_l. exact S1.
  - destruct (Z.eqb_spec (Z.of_nat (S n)) 0) as [|_]; [lia|]. destruct X as [X1 X2].
    rewrite X2, set_segment_buffer_tail_same.
    match goal with
    | |- context [with_isr ?o1 w] =>
        destruct (IH o1 (U + 2 ^ (3 - amass_level seg)) Hseg Hblk Hbk HL)
          as (o' & H & He' & S')
    end.
    + cbn [i_st]. congruence.
    + exact C.
    + lia.
    + exact S1.
    + exists o'. split; [exact H|]. split; [exact He'|].
      replace (U + Z.of_nat (S (S n)) * 2 ^ (3 - amass_level seg))
        with (U + 2 ^ (3 - amass_level seg) + Z.of_nat (S n) * 2 ^ (3 - amass_level seg))
        by lia.
      exact S'.
Qed.

(** The ring when the step generator has released the segment at the
    tail: loading the segment put the floor of the step period into its
    slot. *)
Definition released (seg : Stepper_Segment_t) (w : world) : world :=
  set_segment_buffer_tail (next_tail (segment_buffer_tail w))
    (set_segment_buffer
       (<[Z.to_nat (segment_buffer_tail w) := limit_step_rate seg]> (segment_buffer w)) w).

Lemma segment_ticks_range seg :
  0 <= n_step seg <= 65535 -> 1 <= segment_ticks seg <= 65536.
Proof. unfold segment_ticks. destruct (Z.eqb_spec (n_step seg) 0); lia. Qed.

(** The step generator when it has loaded a segment of the block. *)
Lemma stepping_load tail seg mask U o :
  st_block_index seg = idx ->
  resting U o ->
  stepping (amass_level seg) U
    (load_pure tail seg (prescale pb adjusted) mask (i_st o)) (i_position o).
Proof.
  intros Hi (He & Hr). unfold stepping, load_pure. rewrite Hi.
  cbn [exec_block_index exec_block st_steps].
  destruct Hr as [(Hne & -> & Hp)|(Heq & Hb & Hinv)].
  - rewrite (proj2 (Z.eqb_neq _ _) Hne). cbn [negb].
    split; [reflexivity|]. split; [reflexivity|]. split; [reflexivity|].
    intros a. exists 0.
    pose proof (steps_ok a). change (2 ^ 28) with 268435456 in event_count_ok.
    assert (Hh : Z.shiftr (step_event_count (prescale pb adjusted)) 1
                 = 4 * pl_step_event_count pb).
    { rewrite (prescale_event_count pb adjusted event_count_ok), Z.shiftr_div_pow2 by lia.
      change (2 ^ 1) with 2.
      replace (8 * pl_step_event_count pb) with (4 * pl_step_event_count pb * 2) by lia.
      apply Z.div_mul. lia. }
    assert (Hc : forall v1 v2 v3 v4 v5 v6 v7 v8 v9,
               counter a
                 {| counter_x := Z.shiftr (step_event_count (prescale pb adjusted)) 1;
                    counter_y := Z.shiftr (step_event_count (prescale pb adjusted)) 1;
                    counter_z := Z.shiftr (step_event_count (prescale pb adjusted)) 1;
                    execute_step := v1; step_pulse_time := v2; step_outbits := v3;
                    dir_outbits := v4; st_steps := v5; step_count := v6;
                    exec_block_index := v7; exec_block := v8; exec_segment := v9 |}
               = 4 * pl_step_event_count pb).
    { intros; destruct a; cbn [counter counter_x counter_y counter_z]; exact Hh. }
    rewrite Hc. split; [lia|]. split; [lia|]. split; [lia|].
    rewrite Hp. symmetry. apply position_after_0. exact position_ok.
  - rewrite (proj2 (Z.eqb_eq _ _) Heq). cbn [negb].
    split; [reflexivity|]. split; [exact Hb|]. split; [reflexivity|].
    intros a. destruct (Hinv a) as (N & HN & Hc & Hv & Hp). exists N.
    assert (Hk : forall v4 v5 v6 v7 v8 v9,
               counter a
                 {| counter_x := counter_x (i_st o); counter_y := counter_y (i_st o);
                    counter_z := counter_z (i_st o);
                    execute_step := execute_step (i_st o);
                    step_pulse_time := step_pulse_time (i_st o);
                    step_outbits := step_outbits (i_st o);
                    dir_outbits := v4; st_steps := v5; step_count := v6;
                    exec_block_index := v7; exec_block := v8; exec_segment := v9 |}
               = counter a (i_st o)).
    { intros; destruct a; reflexivity. }
    rewrite Hk. auto.
Qed.

(** A segment of the block at the tail of the ring is executed from its
    first tick to its last: [segment_ticks] ticks, each of them
    2^(MAX_AMASS_LEVEL - L) units. *)
Lemma segment_through w seg o U :
  segment_buffer_head w <> segment_buffer_tail w ->
  index (segment_buffer w) (segment_buffer_tail w) = Ok seg ->
  st_block_index seg = idx ->
  index (st_block_buffer w) idx = Ok (prescale pb adjusted) ->
  backlash_motion seg = pl_backlash_motion pb ->
  0 <= amass_level seg <= 3 ->
  0 <= n_step seg <= 65535 ->
  resting U o ->
  exists o',
    isr_ticks (Z.to_nat (segment_ticks seg)) (with_isr o w)
    = Ok (with_isr o' (released seg w))
    /\ resting (U + segment_ticks seg * 2 ^ (3 - amass_level seg)) o'.
Proof.
  intros Hne Hseg Hi Hblk Hbk HL Hn Hr.
  pose proof (segment_ticks_range seg Hn) as Hticks.
  replace (Z.to_nat (segment_ticks seg)) with (S (Z.to_nat (segment_ticks seg - 1)))
    by lia.
  cbn [isr_ticks].
  pose proof (stepping_load (segment_buffer_tail w) seg (dir_port_invert_mask w) U o Hi Hr)
    as S0.
  destruct Hr as (He & Hfrom).
  destruct (Stepper_MainISR_load_returns (with_isr o w) seg (prescale pb adjusted))
    as (w1 & H1).
  { exact He. }
  { exact Hne. }
  { exact Hseg. }
  { rewrite Hi. exact Hblk. }
  { rewrite Hi. change (st (with_isr o w)) with (i_st o).
    intros Heq. destruct Hfrom as [(Hd & _)|(_ & Hb & _)]; [contradiction|exact Hb]. }
  rewrite H1. cbn [bind].
  destruct (Stepper_MainISR_load (with_isr o w) w1 He Hne H1)
    as (seg' & blk' & bi & h & pr & ex & Ht & Hs' & Hbi & Hblk' & _ & ->).
  change (st (with_isr o w)) with (i_st o) in *.
  change (sys_position (with_isr o w)) with (i_position o) in *.
  change (segment_buffer_tail (with_isr o w)) with (segment_buffer_tail w) in *.
  change (segment_buffer (with_isr o w)) with (segment_buffer w) in *.
  change (st_block_buffer (with_isr o w)) with (st_block_buffer w) in *.
  change (dir_port_invert_mask (with_isr o w)) with (dir_port_invert_mask w) in *.
  change (sys (with_isr o w)) with (sys w) in *.
  pose proof (proj2 (proj1 (index_Ok _ _ _) Hseg)) as Hs.
  assert (seg' = seg) as -> by congruence.
  assert (bi = idx) as ->.
  { unfold load_pure in Hbi. cbn [exec_block] in Hbi. rewrite Hi in Hbi.
    destruct Hfrom as [(Hd & _)|(Heq & Hb & _)].
    - rewrite (proj2 (Z.eqb_neq _ _) Hd) in Hbi. cbn [negb] in Hbi. congruence.
    - rewrite (proj2 (Z.eqb_eq _ _) Heq) in Hbi. cbn [negb] in Hbi. congruence. }
  assert (blk' = prescale pb adjusted) as -> by congruence.
  clear H1 Hbi Hblk' Hs'.
  pose proof (lookup_lt_Some _ _ _ Hs) as Hlen.
  set (B := <[Z.to_nat (segment_buffer_tail w) := limit_step_rate seg]> (segment_buffer w)).
  change (set_segment_buffer B (with_isr o w)) with (with_isr o (set_segment_buffer B w)).
  rewrite Hbk, with_tick_isr.
  set (s0 := load_pure (segment_buffer_tail w) seg (prescale pb adjusted)
               (dir_port_invert_mask w) (i_st o)) in *.
  set (r := tick_pure (prescale pb adjusted) (pl_backlash_motion pb)
              (sys_state (sys w) =? STATE_HOMING) (homing_axis_lock (sys w))
              s0 (i_position o) (segment_buffer_tail w)).
  pose proof (tick_pure_count (prescale pb adjusted) (pl_backlash_motion pb)
                (sys_state (sys w) =? STATE_HOMING) (homing_axis_lock (sys w))
                s0 (i_position o) (segment_buffer_tail w)) as C.
  pose proof (stepping_tick (amass_level seg) U s0 (i_position o)
                (sys_state (sys w) =? STATE_HOMING) (homing_axis_lock (sys w))
                (segment_buffer_tail w) HL S0) as S1.
  cbv zeta in C, S1. fold r in C, S1. destruct C as [C X].
  change (step_count s0) with (n_step seg) in C, X.
  destruct (limit_step_rate_fields seg) as (_ & _ & Fa & _ & Fb & _).
  assert (Hrest : forall k (o1 : isr_t),
             1 <= Z.of_nat k <= 65535 ->
             exec_segment (i_st o1) = Some (segment_buffer_tail w) ->
             step_count (i_st o1) = Z.of_nat k ->
             stepping (amass_level seg) (U + 2 ^ (3 - amass_level seg))
               (i_st o1) (i_position o1) ->
             exists o',
               isr_ticks k (with_isr o1 (set_segment_buffer B w))
               = Ok (with_isr o' (released seg w))
               /\ resting (U + (1 + Z.of_nat k) * 2 ^ (3 - amass_level seg)) o').
  { intros k o1 Hk He1 Hc1 Hst1.
    destruct (loaded_ticks_through (set_segment_buffer B w) (limit_step_rate seg) k o1
                (U + 2 ^ (3 - amass_level seg))) as (o' & H & He' & S');
      [apply index_Ok; split; [exact Ht|]; apply list_lookup_insert_eq; exact Hlen
      |exact Hblk|congruence|rewrite Fa; exact HL|exact He1|exact Hc1|exact Hk
      |rewrite Fa; exact Hst1|].
    exists o'. split; [exact H|]. rewrite Fa in S'.
    split; [exact He'|]. right.
    replace (U + (1 + Z.of_nat k) * 2 ^ (3 - amass_level seg))
      with (U + 2 ^ (3 - amass_level seg) + Z.of_nat k * 2 ^ (3 - amass_level seg)) by lia.
    destruct S' as (A1 & A2 & _ & A4). auto. }
  unfold segment_ticks in *.
  destruct (Z.eqb_spec (n_step seg) 0) as [Hz|Hz].
  - (* a segment without a step: the step count wraps around *)
    rewrite Hz in C, X. change (u16 (0 - 1)) with 65535 in C, X.
    change (65535 =? 0) with false in X. cbv iota in X. destruct X as [X1 X2].
    rewrite X2.
    change (set_segment_buffer_tail (segment_buffer_tail w) (set_segment_buffer B w))
      with (set_segment_buffer_tail (segment_buffer_tail (set_segment_buffer B w))
              (set_segment_buffer B w)).
    rewrite set_segment_buffer_tail_same.
    match goal with
    | |- context [with_isr ?o1 (set_segment_buffer B w)] =>
        destruct (Hrest (Z.to_nat (65536 - 1)) o1) as (o' & H & R')
    end.
    + lia.
    + cbn [i_st]. rewrite X1. reflexivity.
    + cbn [i_st]. rewrite C. reflexivity.
    + exact S1.
    + exists o'. split; [exact H|].
      replace (1 + Z.of_nat (Z.to_nat (65536 - 1))) with 65536 in R' by lia. exact R'.
  - unfold u16 in C, X. rewrite Z.mod_small in C, X by lia.
    destruct (Z.eqb_spec (n_step seg - 1) 0) as [E1|E1].
    + destruct X as [X1 X2]. rewrite X2.
      replace (Z.to_nat (n_step seg - 1)) with 0%nat by lia. cbn [isr_ticks].
      eexists. split; [reflexivity|]. split; [exact X1|]. right.
      cbn [i_st i_position]. replace (n_step seg) with 1 by lia. rewrite Z.mul_1_l.
      destruct S1 as (A1 & A2 & _ & A4). auto.
    + destruct X as [X1 X2]. rewrite X2.
    change (set_segment_buffer_tail (segment_buffer_tail w) (set_segment_buffer B w))
      with (set_segment_buffer_tail (segment_buffer_tail (set_segment_buffer B w))
              (set_segment_buffer B w)).
    rewrite set_segment_buffer_tail_same.
      match goal with
      | |- context [with_isr ?o1 (set_segment_buffer B w)] =>
          destruct (Hrest (Z.to_nat (n_step seg - 1)) o1) as (o' & H & R')
      end.
      * lia.
      * cbn [i_st]. rewrite X1. reflexivity.
      * cbn [i_st]. rewrite C. lia.
      * exact S1.
      * exists o'. split; [exact H|].
        replace (1 + Z.of_nat (Z.to_nat (n_step seg - 1))) with (n_step seg) in R' by lia.
        exact R'.
Qed.

(** ** The main program and the step generator, segment by segment *)

(** The main program prepares segments and the step generator executes the
    one at the tail of the ring, tick by tick, [n] times over or until the
    preparer leaves the ring empty. *)
Fixpoint run_segments (n fuel : nat) (w : world) : result world :=
  match n with
  | O => Ok w
  | S n =>
      w <-- Stepper_PrepareBuffer fuel w;;
      if segment_buffer_head w =? segment_buffer_tail w then Ok w
      else
        seg <-- index (segment_buffer w) (segment_buffer_tail w);;
        w <-- isr_ticks (Z.to_nat (segment_ticks seg)) w;;
        run_segments n fuel w
  end.

(** Whether a segment is one of the block. *)
Definition segment_of_block (w : world) (seg : Stepper_Segment_t) : bool :=
  (st_block_index seg =? idx) && (backlash_motion seg =? pl_backlash_motion pb)
  && (0 <=? amass_level seg) && (amass_level seg <=? 3)
  && (0 <=? n_step seg) && (n_step seg <=? 65535)
  && match index (st_block_buffer w) idx with
     | Ok b => block_eqb b (prescale pb adjusted)
     | Fault _ => false
     end.

(** The same run on the side of the preparer only: a segment is released
    in one go and its units are added up. *)
Fixpoint run_units (n fuel : nat) (U : Z) (w : world) : result (Z * world) :=
  match n with
  | O => Ok (U, w)
  | S n =>
      w <-- Stepper_PrepareBuffer fuel w;;
      if segment_buffer_head w =? segment_buffer_tail w then Ok (U, w)
      else
        seg <-- index (segment_buffer w) (segment_buffer_tail w);;
        if segment_of_block w seg
        then run_units n fuel (U + segment_ticks seg * 2 ^ (3 - amass_level seg))
               (released seg w)
        else Fault BadIndex
  end.

Lemma run_units_sound fuel n :
  forall U w o U' w',
    resting U o ->
    run_units n fuel U w = Ok (U', w') ->
    exists o',
      run_segments n fuel (with_isr o w) = Ok (with_isr o' w')
      /\ resting U' o'.
Proof.
  induction n as [|n IH]; intros U w o U' w' Hr; cbn [run_units run_segments].
  - intros [= <- <-]. exists o. split; [reflexivity|exact Hr].
  - rewrite Stepper_PrepareBuffer_isr.
    destruct (Stepper_PrepareBuffer fuel w) as [w1|]; [|discriminate].
    cbn [res_map bind].
    change (segment_buffer_head (with_isr o w1)) with (segment_buffer_head w1).
    change (segment_buffer_tail (with_isr o w1)) with (segment_buffer_tail w1).
    change (segment_buffer (with_isr o w1)) with (segment_buffer w1).
    destruct (Z.eqb_spec (segment_buffer_head w1) (segment_buffer_tail w1)) as [|Hne].
    { intros [= <- <-]. exists o. split; [reflexivity|exact Hr]. }
    destruct (index (segment_buffer w1) (segment_buffer_tail w1)) as [seg|] eqn:Hseg;
      [|discriminate].
    cbn [bind].
    destruct (segment_of_block w1 seg) eqn:Hc; [|discriminate].
    unfold segment_of_block in Hc.
    destruct (index (st_block_buffer w1) idx) as [b|] eqn:Hb;
      [|rewrite andb_false_r in Hc; discriminate].
    rewrite !andb_true_iff in Hc. destruct Hc as [[[[[[C1 C2] C3] C4] C5] C6] C7].
    apply Z.eqb_eq in C1, C2. apply Z.leb_le in C3, C4, C5, C6.
    apply block_eqb_eq in C7. subst b.
    destruct (segment_through w1 seg o U Hne Hseg C1 Hb C2 (conj C3 C4) (conj C5 C6) Hr)
      as (o1 & H1 & R1).
    rewrite H1. cbn [bind]. intros H. exact (IH _ _ _ _ _ R1 H).
Qed.

(** The position when the step generator rests after [U] units. *)
Lemma resting_position U o a :
  resting U o -> 0 < U ->
  exists N,
    0 <= N
    /\ 8 * pl_step_event_count pb * N
       < 4 * pl_step_event_count pb + get_axis a (pl_steps pb) * U
       <= 8 * pl_step_event_count pb * (N + 1)
    /\ get_axis a (i_position o) = position_after pb p0 a N.
Proof.
  intros (_ & [(_ & -> & _)|(_ & _ & Hinv)]) HU; [lia|].
  destruct (Hinv a) as (N & HN & Hc & Hv & Hp).
  exists N. split; [exact HN|]. split; [lia|exact Hp].
Qed.

End Units.

End WholeBlock.


(** * Runs of the rest of Stepper.c *)

(** The pool of stepper blocks of [grbl] has 9 slots: after slot 8 comes
    slot 0. *)
Lemma Stepper_NextBlockIndex_cycle_grbl :
  Stepper_NextBlockIndex 8 = 0 /\ Stepper_NextBlockIndex 3 = 4.
Proof.
  split.
  - destruct (Stepper_NextBlockIndex_cycle 8 grbl_size) as (E & _).
    + change (0 <= 8 < 10 - 1). lia.
    + rewrite E. reflexivity.
  - destruct (Stepper_NextBlockIndex_cycle 3 grbl_size) as (E & _).
    + change (0 <= 3 < 10 - 1). lia.
    + rewrite E. reflexivity.
Defined.

(** A machine whose idle lock time says to keep the drivers enabled:
    [Stepper_Disable(0)] keeps them enabled, [Stepper_Disable(1)] does not. *)
Definition enabled_machine : world := Stepper_WakeUp (machine 255 0 [] []).

Lemma Stepper_Disable_forced_enabled_machine :
  drivers_disabled (Stepper_Disable 0 enabled_machine) = false
  /\ drivers_disabled (Stepper_Disable 1 enabled_machine) = true
  /\ tim9_enabled (hw (Stepper_Disable 1 enabled_machine)) = false.
Proof.
  assert (H : 1 <> 0) by discriminate.
  destruct (Stepper_Disable_forced 1 enabled_machine H) as (D & T & _).
  split; [vm_compute; reflexivity|]. split; [exact D|exact T].
Defined.

(** The diagonal line when its last step is through. *)
Definition diagonal_done : world :=
  default (Stepper_Reset (queued diagonal))
    (run_block 400 100 1 (prescale diagonal 0) 0 (step_event_count (prescale diagonal 0))
       (Stepper_Reset (queued diagonal))).

(** The next tick finds the ring empty and stops the step generator. *)
Lemma Stepper_MainISR_idle_diagonal_done :
  exists w',
    Stepper_MainISR diagonal_done = Ok w'
    /\ tim9_enabled (hw w') = false
    /\ drivers_disabled w' = true
    /\ BIT_IS_TRUE (sys_rt_exec_state w') EXEC_CYCLE_STOP = true
    /\ sys_position w' = mk_axes 30 (-12) 0.
Proof.
  destruct (Stepper_MainISR_idle diagonal_done 1
              {| steps := mk_axes 240 96 0; step_event_count := 240; direction_bits := 2;
                 is_pwm_rate_adjusted := 0 |})
    as (w' & E & T & D & _ & X & _ & _ & P & _).
  - vm_compute. reflexivity.
  - vm_compute. reflexivity.
  - vm_compute. reflexivity.
  - vm_compute. reflexivity.
  - exists w'. split; [exact E|]. split; [exact T|].
    split; [rewrite D; vm_compute; reflexivity|].
    split; [rewrite X; vm_compute; reflexivity|].
    rewrite P. vm_compute. reflexivity.
Defined.

(** A tick in the middle of the first segment of the diagonal line writes
    neither the ring nor the data of the preparer. *)
Lemma Stepper_MainISR_writes_diagonal :
  exists w',
    Stepper_MainISR diagonal_stepping = Ok w'
    /\ segment_buffer w' = segment_buffer diagonal_stepping
    /\ st_block_buffer w' = st_block_buffer diagonal_stepping
    /\ prep w' = prep diagonal_stepping
    /\ segment_buffer_head w' = segment_buffer_head diagonal_stepping.
Proof.
  destruct (is_ok_inv (Stepper_MainISR diagonal_stepping)) as [w' E];
    [vm_compute; reflexivity|].
  destruct (Stepper_MainISR_writes diagonal_stepping w' E)
    as (B & P & _ & _ & _ & _ & _ & _ & _ & H & _ & _ & S).
  exists w'. split; [exact E|]. split.
  { apply S. vm_compute. discriminate. }
  split; [exact B|]. split; [exact P|]. exact (f_equal fst H).
Defined.

(** The diagonal line with the ring filled by the preparer. *)
Definition diagonal_prepared : world :=
  ran (Stepper_Reset (queued diagonal))
    (Stepper_PrepareBuffer 100 (Stepper_Reset (queued diagonal))).

(** Its first segment has 8 step events: 8 ticks release it. *)
Lemma segment_lifetime_diagonal :
  exists wk,
    isr_ticks 8 diagonal_prepared = Ok wk
    /\ exec_segment (st wk) = None
    /\ segment_buffer_tail wk = 1
    /\ segment_buffer_head wk = 9.
Proof.
  pose (seg := {| n_step := 8; cycles_per_tick := 62500; st_block_index := 1;
                  amass_level := 3; spindle_pwm := 0; backlash_motion := 0 |}).
  pose (blk := {| steps := mk_axes 240 96 0; step_event_count := 240; direction_bits := 2;
                  is_pwm_rate_adjusted := 0 |}).
  destruct (segment_lifetime diagonal_prepared seg blk 8) as (wk & E & Hh & X).
  - vm_compute. reflexivity.
  - vm_compute. discriminate.
  - vm_compute. reflexivity.
  - vm_compute. reflexivity.
  - vm_compute. discriminate.
  - vm_compute. split; discriminate.
  - lia.
  - vm_compute. discriminate.
  - assert (T : (Z.of_nat 8 =? segment_ticks seg) = true) by reflexivity.
    rewrite T in X. destruct X as [X1 X2].
    exists wk. split; [exact E|]. split; [exact X1|].
    split; [rewrite X2; vm_compute; reflexivity|].
    rewrite Hh. vm_compute. reflexivity.
Defined.

(** The fifth tick of the diagonal line while homing with the X axis
    locked out: the tracer steps X, the step bit of X is masked. *)
Definition diagonal_homing : world :=
  set_sys {| sys_state := STATE_HOMING; step_control := 0; homing_axis_lock := 2;
             sys_spindle_speed := S754_zero false |} diagonal_stepping.

Lemma homing_tick_diagonal :
  exists w',
    Stepper_MainISR diagonal_homing = Ok w'
    /\ counter X_AXIS (st diagonal_homing) = 240
    /\ counter X_AXIS (st w') = 30
    /\ Z.testbit (step_outbits (st w')) (step_bit X_AXIS) = false.
Proof.
  destruct (homing_tick diagonal_homing
              {| steps := mk_axes 240 96 0; step_event_count := 240; direction_bits := 2;
                 is_pwm_rate_adjusted := 0 |}
              {| n_step := 8; cycles_per_tick := 62500; st_block_index := 1;
                 amass_level := 3; spindle_pwm := 0; backlash_motion := 0 |}
              grbl_step_bits)
    as (w' & E & H).
  - vm_compute. reflexivity.
  - vm_compute. discriminate.
  - vm_compute. reflexivity.
  - vm_compute. reflexivity.
  - destruct (H X_AXIS) as [B C].
    exists w'. split; [exact E|]. split; [vm_compute; reflexivity|].
    split; [rewrite C; vm_compute; reflexivity|].
    rewrite B. vm_compute. reflexivity.
Defined.

(** The first tick of the diagonal line loads the first segment: period
    62500, compare at 46875, Y runs backwards. *)
Lemma Stepper_MainISR_load_outputs_diagonal :
  exists w',
    Stepper_MainISR diagonal_prepared = Ok w'
    /\ tim9_arr (hw w') = 62500
    /\ tim9_ccr1 (hw w') = 46875
    /\ dir_outbits (st w') = 2
    /\ p_dir_x (gpio (hw w')) = false
    /\ p_dir_y (gpio (hw w')) = true.
Proof.
  destruct (is_ok_inv (Stepper_MainISR diagonal_prepared)) as [w' E];
    [vm_compute; reflexivity|].
  destruct (Stepper_MainISR_load_outputs diagonal_prepared w')
    as (seg & bi & blk & Hseg & Hbi & Hblk & A & C & _ & D & P).
  - vm_compute. reflexivity.
  - vm_compute. discriminate.
  - exact E.
  - assert (Fs : index (segment_buffer diagonal_prepared) (segment_buffer_tail diagonal_prepared)
                 = Ok {| n_step := 8; cycles_per_tick := 62500; st_block_index := 1;
                         amass_level := 3; spindle_pwm := 0; backlash_motion := 0 |})
      by (vm_compute; reflexivity).
    rewrite Fs in Hseg. injection Hseg as <-.
    assert (Fi : (if exec_block_index (st diagonal_prepared) =? 1
                  then exec_block (st diagonal_prepared) else Some 1) = Some 1)
      by (vm_compute; reflexivity).
    cbn [st_block_index] in Hbi. rewrite Fi in Hbi. injection Hbi as <-.
    assert (Fb : index (st_block_buffer diagonal_prepared) 1
                 = Ok {| steps := mk_axes 240 96 0; step_event_count := 240;
                         direction_bits := 2; is_pwm_rate_adjusted := 0 |})
      by (vm_compute; reflexivity).
    rewrite Fb in Hblk. injection Hblk as <-.
    cbv zeta in P. destruct P as (PX & PY & _).
    assert (D2 : dir_outbits (st w') = 2) by (rewrite D; vm_compute; reflexivity).
    exists w'. split; [exact E|].
    split; [rewrite A; vm_compute; reflexivity|].
    split; [rewrite C; vm_compute; reflexivity|].
    split; [exact D2|].
    split; [rewrite PX, D2; vm_compute; reflexivity|].
    rewrite PY, D2. vm_compute. reflexivity.
Defined.

(** The sixth tick of the diagonal line raises the step pin of X for the
    step of the fifth. *)
Definition diagonal_stepped : world :=
  ran (Stepper_Reset (queued diagonal))
    (w <-- Stepper_PrepareBuffer 100 (Stepper_Reset (queued diagonal));; tick_times 5 w).

Lemma step_pulse_diagonal :
  exists w',
    Stepper_MainISR diagonal_stepped = Ok w'
    /\ step_outbits (st diagonal_stepped) = 1
    /\ p_step_x (gpio (hw diagonal_stepped)) = false
    /\ p_step_x (gpio (hw w')) = true
    /\ p_step_y (gpio (hw w')) = false.
Proof.
  destruct (is_ok_inv (Stepper_MainISR diagonal_stepped)) as [w' E];
    [vm_compute; reflexivity|].
  destruct (step_pulse diagonal_stepped w') as (X & Y & _).
  - left. vm_compute. discriminate.
  - exact E.
  - exists w'. split; [exact E|]. split; [vm_compute; reflexivity|].
    split; [vm_compute; reflexivity|].
    split; [rewrite X; vm_compute; reflexivity|].
    rewrite Y. vm_compute. reflexivity.
Defined.

(** The preparer on the diagonal line stops with the ring full; a second
    call changes nothing. *)
Lemma Stepper_PrepareBuffer_settles_diagonal :
  exists w',
    Stepper_PrepareBuffer 100 (Stepper_Reset (queued diagonal)) = Ok w'
    /\ segment_buffer_tail w' = segment_next_head w'
    /\ Stepper_PrepareBuffer 100 w' = Ok w'.
Proof.
  destruct (is_ok_inv (Stepper_PrepareBuffer 100 (Stepper_Reset (queued diagonal))))
    as [w' E]; [vm_compute; reflexivity|].
  destruct (Stepper_PrepareBuffer_settles 100 (Stepper_Reset (queued diagonal)) w')
    as (_ & S).
  - vm_compute. split; reflexivity.
  - exact E.
  - exists w'. split; [exact E|]. split; [|apply (S 99%nat)].
    assert (F : match Stepper_PrepareBuffer 100 (Stepper_Reset (queued diagonal)) with
                | Ok w => segment_buffer_tail w - segment_next_head w
                | Fault _ => 1
                end = 0) by (vm_compute; reflexivity).
    rewrite E in F. lia.
Defined.

Lemma Stepper_PrepareBuffer_frame_diagonal :
  exists w',
    Stepper_PrepareBuffer 100 (Stepper_Reset (queued diagonal)) = Ok w'
    /\ hw w' = hw (Stepper_Reset (queued diagonal))
    /\ st w' = st (Stepper_Reset (queued diagonal))
    /\ sys_position w' = sys_position (Stepper_Reset (queued diagonal)).
Proof.
  destruct (is_ok_inv (Stepper_PrepareBuffer 100 (Stepper_Reset (queued diagonal))))
    as [w' E]; [vm_compute; reflexivity|].
  destruct (Stepper_PrepareBuffer_frame 100 (Stepper_Reset (queued diagonal)) w' E)
    as (A & B & C & _).
  exists w'. split; [exact E|]. split; [exact A|]. split; [exact B|exact C].
Defined.

(** Three segments into the line at cruise speed. *)
Definition cruise_prepared : world :=
  ran (Stepper_Reset (queued cruise)) (prepare_segments 3 (Stepper_Reset (queued cruise))).

(** Three segments into the slow line the speed is 42 mm/min and the
    planner recomputes: the block, entered at rest, gets 1764 as entry
    speed squared. *)
Definition slow_prepared : world :=
  ran (Stepper_Reset (queued slow)) (prepare_segments 3 (Stepper_Reset (queued slow))).

Lemma recalculated_block_resumes_slow :
  option_map entry_speed_sqr (pl_mem slow_prepared !! 0%nat) = Some (S754_zero false)
  /\ current_speed (prep slow_prepared) = binary32 42 0
  /\ exists w1 w2 b',
       Stepper_UpdatePlannerBlockParams slow_prepared = Ok w1
       /\ acquire_block w1 = Ok (Some w2)
       /\ pl_mem w2 !! 0%nat = Some b'
       /\ entry_speed_sqr b' = binary32 1764 0
       /\ pl_step_event_count b' = 2500
       /\ prep_st_block_index (prep w2) = 1
       /\ BIT_IS_TRUE (recalculate_flag (prep w2)) PREP_FLAG_RECALCULATE = false
       /\ segment_buffer_head w2 = 3.
Proof.
  split; [vm_compute; reflexivity|]. split; [vm_compute; reflexivity|].
  destruct (is_Some_inv (pl_mem slow_prepared !! 0%nat)) as [b Hb];
    [vm_compute; reflexivity|].
  assert (Fe : option_map pl_step_event_count (pl_mem slow_prepared !! 0%nat) = Some 2500)
    by (vm_compute; reflexivity).
  rewrite Hb in Fe. cbn [option_map] in Fe.
  assert (Fe' : pl_step_event_count b = 2500) by congruence.
  destruct (recalculated_block_resumes slow_prepared 0%nat b)
    as (w1 & w2 & b' & U & A & _ & M & S & D & _ & F & I & _ & _ & _ & _ & _ & _ & _ & R).
  - vm_compute. reflexivity.
  - vm_compute. reflexivity.
  - exact Hb.
  - exists w1, w2, b'. split; [exact U|]. split; [exact A|]. split; [exact M|].
    split; [rewrite S; vm_compute; reflexivity|].
    split.
    { assert (D2 : pl_step_event_count b' = pl_step_event_count b)
        by exact (f_equal (fun t => snd (fst (fst (fst (fst (fst (fst (fst t)))))))) D).
      rewrite D2. exact Fe'. }
    split; [rewrite I; vm_compute; reflexivity|]. split; [exact F|].
    assert (R2 : segment_buffer_head w2 = segment_buffer_head slow_prepared)
      by exact (f_equal (fun t => snd (fst t)) R).
    rewrite R2. vm_compute. reflexivity.
Defined.

(** The first block after [Stepper_Reset] goes to stepper block 1 with its
    30 step events scaled to 240. *)
Lemma new_block_loaded_diagonal :
  exists w' blk,
    acquire_block (Stepper_Reset (queued diagonal)) = Ok (Some w')
    /\ prep_st_block_index (prep w') = 1
    /\ st_block_buffer w' !! 1%nat = Some blk
    /\ step_event_count blk = 240
    /\ get_axis Y_AXIS (steps blk) = 96.
Proof.
  destruct (is_Some_inv (pl_mem (Stepper_Reset (queued diagonal)) !! 0%nat)) as [b Hb];
    [vm_compute; reflexivity|].
  assert (Fe : option_map pl_step_event_count (pl_mem (Stepper_Reset (queued diagonal)) !! 0%nat)
               = Some 30) by (vm_compute; reflexivity).
  assert (Fy : option_map (fun b => get_axis Y_AXIS (pl_steps b))
                 (pl_mem (Stepper_Reset (queued diagonal)) !! 0%nat)
               = Some 12) by (vm_compute; reflexivity).
  rewrite Hb in Fe, Fy. cbn [option_map] in Fe, Fy. injection Fe as Fe. injection Fy as Fy.
  destruct (new_block_loaded (Stepper_Reset (queued diagonal)) 0%nat b)
    as (w' & blk & A & _ & I & _ & B & _ & He & Hs & _).
  - vm_compute. reflexivity.
  - vm_compute. reflexivity.
  - exact Hb.
  - vm_compute. reflexivity.
  - vm_compute. lia.
  - assert (I1 : Stepper_NextBlockIndex
                   (prep_st_block_index (prep (Stepper_Reset (queued diagonal)))) = 1)
      by (vm_compute; reflexivity).
    rewrite I1 in I, B.
    exists w', blk. split; [exact A|]. split; [exact I|].
    split.
    { rewrite B. apply list_lookup_insert_eq. vm_compute. lia. }
    split; [rewrite He, Fe; [reflexivity|lia]|].
    assert (Fy' : get_axis Y_AXIS (pl_steps b) = 12) by exact Fy.
    rewrite (Hs Y_AXIS), Fy'; [reflexivity|lia].
Defined.

(** A hold has left block 1 partially executed; the parking motion uses
    block 5 and runs it to its end. *)
Definition held : world :=
  set_prep (set_recalculate_flag PREP_FLAG_HOLD_PARTIAL_BLOCK (prep cruise_prepared))
    cruise_prepared.

Definition parked : world :=
  set_prep (set_steps_remaining (S754_zero false)
              (set_prep_st_block_index 5 (prep (Stepper_ParkingSetupBuffer held))))
    (Stepper_ParkingSetupBuffer held).

Lemma parking_round_trip_cruise :
  prep_st_block_index (prep held) = 1
  /\ prep_st_block_index (prep parked) = 5
  /\ prep_st_block_index (prep (Stepper_ParkingRestoreBuffer parked)) = 1
  /\ st_prep_block (Stepper_ParkingRestoreBuffer parked) = Some 1
  /\ steps_remaining (prep (Stepper_ParkingRestoreBuffer parked))
     = steps_remaining (prep held)
  /\ recalculate_flag (prep (Stepper_ParkingRestoreBuffer parked)) = 3.
Proof.
  pose proof (parking_round_trip held parked) as H. cbv zeta in H.
  assert (Hc : BIT_IS_TRUE (recalculate_flag (prep held)) PREP_FLAG_HOLD_PARTIAL_BLOCK = true)
    by (vm_compute; reflexivity).
  rewrite Hc in H.
  assert (I1 : prep_st_block_index (prep held) = 1) by (vm_compute; reflexivity).
  destruct H as (_ & _ & _ & I & P & S & _ & _ & _ & F).
  - vm_compute. reflexivity.
  - vm_compute. reflexivity.
  - vm_compute. reflexivity.
  - vm_compute. reflexivity.
  - vm_compute. reflexivity.
  - split; [exact I1|].
    split; [vm_compute; reflexivity|].
    split; [rewrite I; exact I1|].
    split; [rewrite P, I1; reflexivity|].
    split; [exact S|].
    rewrite F. reflexivity.
Defined.

(** The first segment of the diagonal line is tagged with the stepper
    block of the preparer. *)
Definition publishes (r : result (option carved_t)) : bool :=
  match r with
  | Ok (Some cv) => negb (drops_segment cv)
  | _ => false
  end.

Lemma publishes_inv (r : result (option carved_t)) :
  publishes r = true -> exists cv, r = Ok (Some cv) /\ drops_segment cv = false.
Proof.
  destruct r as [[cv|]|]; [|discriminate..]. cbn [publishes].
  intros H. exists cv. split; [reflexivity|]. apply negb_true_iff, H.
Qed.

Lemma committed_segment_tags_diagonal :
  exists cv fl w' seg,
    carve_next 100 (Stepper_Reset (queued diagonal)) = Ok (Some cv)
    /\ prepare_segment 100 (Stepper_Reset (queued diagonal)) = Ok (fl, w')
    /\ segment_buffer w' !! 0%nat = Some seg
    /\ st_block_index seg = prep_st_block_index (prep w')
    /\ spindle_pwm seg = current_spindle_pwm (prep w')
    /\ backlash_motion seg = pl_backlash_motion (cv_block cv).
Proof.
  destruct (publishes_inv (carve_next 100 (Stepper_Reset (queued diagonal))))
    as (cv & Hc & Hd); [vm_compute; reflexivity|].
  destruct (committed_segment_tags 100 (Stepper_Reset (queued diagonal)) cv Hc Hd)
    as (fl & w' & seg & Hp & _ & Hs & T1 & T2 & T3 & _).
  assert (Hh : segment_buffer_head (Stepper_Reset (queued diagonal)) = 0)
    by (vm_compute; reflexivity).
  rewrite Hh in Hs. change (Z.to_nat 0) with 0%nat in Hs.
  exists cv, fl, w', seg. split; [exact Hc|]. split; [exact Hp|]. split; [exact Hs|].
  split; [exact T1|]. split; [exact T2|exact T3].
Defined.

(** ** The long line at 30000 mm/min, from its first segment to its last *)

Definition long_traverse : Planner_Block_t :=
  line_block 8388000 0 0 0 0 (binary32 5000000 (-10)) (binary32 36000 0) (binary32 0 0)
    (binary32 30000 0).

Definition units_at (r : result (Z * world))
  : option (Z * Z * Z * option nat * list nat) :=
  match r with
  | Ok (U, w) =>
      Some (U, segment_buffer_head w, segment_buffer_tail w, pl_block w, planner w)
  | Fault _ => None
  end.

Lemma units_at_inv r x :
  units_at r = Some x ->
  exists U w,
    r = Ok (U, w)
    /\ x = (U, segment_buffer_head w, segment_buffer_tail w, pl_block w, planner w).
Proof.
  destruct r as [[U w]|]; [|discriminate]. intros [= <-]. exists U, w. split; reflexivity.
Qed.

(** C1: a planner block that is executed to completion and whose position
    has not changed by its steps.  The line [long_traverse] has 8388000
    steps in X, none in Y and Z, its direction bits are clear and it is no
    backlash motion.  From [Stepper_Reset], with the position at 0, the main
    program calls [Stepper_PrepareBuffer] and the step generator executes
    the segment at the tail of the ring, tick by tick of [Stepper_MainISR],
    until the preparer has discarded the block and the ring is empty.  The
    first segment is carved without a step and is executed for 65536 ticks;
    at the end [sys_position] is 8396192 in X: 8192 steps more than the
    block has. *)
Theorem zero_step_segment_oversteps :
  pl_steps long_traverse = mk_axes 8388000 0 0
  /\ pl_backlash_motion long_traverse = 0
  /\ pl_direction_bits long_traverse = 0
  /\ planner (Stepper_Reset (queued long_traverse)) = [0%nat]
  /\ pl_mem (Stepper_Reset (queued long_traverse)) !! 0%nat = Some long_traverse
  /\ sys_position (Stepper_Reset (queued long_traverse)) = mk_axes 0 0 0
  /\ carved (carve_next 100 (Stepper_Reset (queued long_traverse)))
     = Some (0, 480000, false, false)
  /\ exists w',
       run_segments (Z.to_nat 5000) 100 (Stepper_Reset (queued long_traverse)) = Ok w'
       /\ planner w' = []
       /\ pl_block w' = None
       /\ segment_buffer_head w' = segment_buffer_tail w'
       /\ exec_segment (st w') = None
       /\ sys_position w' = mk_axes 8396192 0 0.
Proof.
  split; [reflexivity|]. split; [reflexivity|]. split; [reflexivity|].
  split; [reflexivity|]. split; [reflexivity|].
  split; [vm_compute; reflexivity|]. split; [vm_compute; reflexivity|].
  set (W0 := Stepper_Reset (queued long_traverse)).
  assert (HE : pl_step_event_count long_traverse = 8388000) by (vm_compute; reflexivity).
  assert (HX : get_axis X_AXIS (pl_steps long_traverse) = 8388000) by reflexivity.
  assert (HY : get_axis Y_AXIS (pl_steps long_traverse) = 0) by reflexivity.
  assert (HZ : get_axis Z_AXIS (pl_steps long_traverse) = 0) by reflexivity.
  assert (Hevent : 0 < pl_step_event_count long_traverse < 2 ^ 28) by (rewrite HE; lia).
  assert (Hsteps : forall a, 0 <= get_axis a (pl_steps long_traverse)
                             <= pl_step_event_count long_traverse).
  { intros []; rewrite HE, ?HX, ?HY, ?HZ; lia. }
  assert (Hpos : forall a, - 2147483648 <= get_axis a (mk_axes 0 0 0) < 2147483648).
  { intros []; cbn; lia. }
  destruct (units_at_inv (run_units long_traverse 0 1 (Z.to_nat 5000) 100 0 W0)
              (67169536, 0, 0, None, []))
    as (U & w1 & Hrun & F); [vm_compute; reflexivity|].
  injection F as FU Fh Ft Fb Fp.
  assert (R0 : resting long_traverse 1 (mk_axes 0 0 0) 0 (isr_of W0)).
  { split; [vm_compute; reflexivity|]. left.
    split; [vm_compute; discriminate|]. split; [reflexivity|vm_compute; reflexivity]. }
  destruct (run_units_sound long_traverse 0 1 (mk_axes 0 0 0) Hevent Hsteps Hpos
              100 (Z.to_nat 5000) 0 W0 (isr_of W0) U w1 R0 Hrun) as (o' & H & R').
  rewrite with_isr_of in H.
  exists (with_isr o' w1). split; [exact H|].
  split; [symmetry; exact Fp|]. split; [symmetry; exact Fb|].
  split; [change (segment_buffer_head w1 = segment_buffer_tail w1); congruence|].
  split; [exact (proj1 R')|].
  change (sys_position (with_isr o' w1)) with (i_position o').
  assert (HU : 0 < U) by lia.
  pose proof (fun a => resting_position long_traverse 1 (mk_axes 0 0 0) U o' a R' HU) as P.
  destruct (P X_AXIS) as (Nx & Hx0 & Hx1 & Hx2).
  destruct (P Y_AXIS) as (Ny & Hy0 & Hy1 & Hy2).
  destruct (P Z_AXIS) as (Nz & Hz0 & Hz1 & Hz2).
  rewrite HE, <- FU in Hx1, Hy1, Hz1. rewrite HX in Hx1. rewrite HY in Hy1. rewrite HZ in Hz1.
  assert (Nx = 8396192) as -> by lia.
  assert (Ny = 0) as -> by lia.
  assert (Nz = 0) as -> by lia.
  assert (Ax : position_after long_traverse (mk_axes 0 0 0) X_AXIS 8396192 = 8396192)
    by (vm_compute; reflexivity).
  assert (Ay : position_after long_traverse (mk_axes 0 0 0) Y_AXIS 0 = 0)
    by (vm_compute; reflexivity).
  assert (Az : position_after long_traverse (mk_axes 0 0 0) Z_AXIS 0 = 0)
    by (vm_compute; reflexivity).
  rewrite Ax in Hx2. rewrite Ay in Hy2. rewrite Az in Hz2.
  destruct (i_position o') as [x y z]. cbn [get_axis axis_x axis_y axis_z] in Hx2, Hy2, Hz2.
  congruence.
Qed.
